(* ===== verification/_CoqProject ===== *)
-Q . S2P
Prelude.v
Codec.v
Text.v
Pem.v
Sha256.v
Json.v
System.v
Scanner.v
Http.v
Nonce.v
Errors.v
Keys.v
Attestation.v
Attester.v
Workers.v
SyncWorker.v
SyncOverlap.v
HttpClient.v
SyncLeader.v
SyncProtocol.v
Config.v
Flags.v
Handlers.v
Network.v
Proxy.v
Caches.v
Metrics.v
Enclave.v
Certificate.v
Startup.v
Main.v
Cluster.v
Dynamics.v
