(* ===== verification/Prelude.v ===== *)
(** * nitriding-daemon: a verification development

    nitriding-daemon runs inside an AWS Nitro enclave next to an enclave
    application.  It gives the application network access and an HTTPS
    endpoint, answers clients' requests for attestation documents that bind the
    TLS key and an application key to the enclave's image, and keeps the key
    material of several enclaves of the same image in sync: one enclave is
    designated leader, the others are workers that register with it, receive
    its keys over a mutually attested exchange and then send heartbeats.

    ** Parts and files

    Foundations (what the sources use of Go and its standard library):
    - Prelude.v: bytes, slices, errors, [result], the state and outcome monad
      [M] (a handler is done, blocked on a channel, panicked, or ended the
      process), automation.
    - Codec.v: hexadecimal, Base64, decimal numbers, trimming, little-endian.
      Text.v: prefixes, cutting and splitting.
    - Pem.v: encoding/pem, decoder and encoder.
    - Sha256.v: an executable SHA-256, checked against known digests.
    - Json.v: encoding/json: parser, compact and indented printer, structs.
    - Http.v: response writers, URLs, query strings, net.SplitHostPort.

    Components:
    - System.v: [limitReader] and [io.ReadAll] over arbitrary readers
      ([Reader]), [setFdLimit] of system.go ([FdLimit]) and [maybeSeedEntropy]
      of system_linux.go ([Entropy]).  Scanner.v: [bufio.Scanner] and
      [forwardOutput] of main.go.
    - Nonce.v: nonce.go, [sliceToNonce] and [getNonceFromReq] of util.go.
      Errors.v: the texts of the errors of all files.
    - Keys.v: enclave_keys.go.
    - Attestation.v: attestation.go; Attester.v: attester.go, with the class
      [Attests] that states what one attester's documents promise to another
      attester's verification, and its instances for the dummy attester
      ([Dummy]) and the Nitro attester ([Nitro]).
    - Workers.v: workers.go, the event loop as a function on events ([Loop])
      and the rendezvous on its channels as a step relation ([Channels]).
    - SyncWorker.v: sync_worker.go and sync_shared.go.  Both handlers are
      programs whose only effects are operations on the two channels of
      capacity one, on the response, and the critical sections in which
      [setupWorkerPostSync] installs keys; [run] executes one alone, [step]
      interleaves any number of them.  SyncOverlap.v: two synchronizations of
      one worker whose handlers overlap.
    - HttpClient.v: the client of [_newUnauthenticatedHTTPClient] in util.go,
      with the redirects it follows, over a transport of single requests, and a
      transport under the control of an adversary.
    - SyncLeader.v: [syncWith] of sync_leader.go, over an arbitrary network.
    - SyncProtocol.v: the leader talking to the worker's handlers.
    - Config.v: [Config] of enclave.go with its JSON text, [main]'s way from
      flags to configuration, addresses, and the messages of heartbeats and
      registration.  Flags.v: the flags of main.go and [flag.Parse].
    - Handlers.v: handlers.go, in the monad [H] over the state the handlers
      share with the enclave.
    - Network.v: the interfaces and DNS of system_linux.go, [linkUp] of proxy.go
      and the stubs of system_darwin.go ([Darwin]).  Proxy.v: the rest of
      proxy.go.
    - Caches.v: certcache.go ([Cert]), cache.go ([Expiring]) and bufferpool.go
      ([BufPool]).  Metrics.v: metrics.go.
    - Enclave.v: the enclave object of enclave.go, its construction with routes
      and middleware, and the set-up of leaders and synchronized workers.
    - Certificate.v: [createCertificate] of util.go, self-signed and ACME
      certificates and the fingerprint of enclave.go.
    - Startup.v: [Start], [Stop], the Web servers, designation and heartbeats of
      enclave.go, [getHostnameOrDie] and [makeLeaderRequest] of util.go,
      [registerWith] of sync_worker.go.
    - Main.v: [init], [main] and [runAppCommand] of main.go.
    - Cluster.v: a leader and the set of its workers.  Dynamics.v: a running
      cluster as a transition system.

    Interaction: [main] makes a [Config] of the command line, creates and starts
    the enclave and runs the application; [Start] designates the leader; a worker
    registers by a heartbeat without digest, on which the leader's
    [heartbeatHandler] runs [syncWith]; the worker's [ServeHTTP] installs the keys
    through [setupWorkerPostSync]; later heartbeats compare digests and keep the
    worker in the set of the event loop; [putStateHandler] of the leader
    re-synchronizes the whole set.

    ** What the theorems show

    - Secrecy and authenticity of key synchronization, for every network,
      redirects included, and every interleaving, down to the critical sections: [keys_leave_only_for_attested_workers],
      [installs_are_attested], [nitro_verify_sound],
      [client_attestation_is_no_key_delivery].
    - Functional correctness of the protocol and of the cluster:
      [sync_makes_replica], [app_keys_reach_all_workers], [heartbeat_accepted],
      [hashAndB64_compares_keys], [keys_json_roundtrip]; over time,
      [workers_never_go_back] on top of [syncWith_stages].
    - Limits and failures of the protocol: [failed_finish_wedges_worker],
      [lost_response_disables_worker], [overlapping_syncs_go_back],
      [overlapping_deliveries_mix],
      [large_app_keys_never_sync], [client_document_crashes_leader],
      [initSync_continues_after_bad_nonce], [synced_worker_attests_old_cert].
    - The HTTP interface on every branch: [putState_spec], [getState_spec],
      [hashHandler_spec], [hash_stored_despite_read_error],
      [attestationHandler_spec], [registered_hash_is_attested],
      [getLeader_signals_own_nonce], [getNonceFromReq_iff],
      [config_page_roundtrip], [middleware_counts].
    - The life cycle: [command_line_roundtrip], [accepted_command_line],
      [self_signed_cert_is_attested],
      [setCertFingerprint_leaf], [designation_outcome],
      [endpoints_stay_on_their_servers], [started_enclave_serves],
      [app_runs_in_started_enclave], [forwardOutput_lines].
    - The worker manager: [run_refines] (against one automaton per worker),
      [worker_lifetime], [forAll_reaches_each_worker_once],
      [length_never_stuck], [length_race].
    - Data and system code: [Serialize_layout],
      [arePCRsIdentical_all_but_PCR4], [frames_roundtrip], [runNetworking_spec],
      [ReadAll_limit], [maybeSeedEntropy_terminates], [certCache_refines].

    ** Modelling decisions

    Integers are [Z]; where the width matters the conversion is written out
    ([z2b], [to_uint32], the two-byte frame length, the 64 bits of
    [parse_digits]).  A Go map with URL keys is a [gmap].  A method that holds its
    mutex for its whole body is one atomic step; a method that takes it twice, or
    calls several such methods, is several steps ([setup_stage]).  Random numbers, the clock,
    timers, channel events and answers of the operating system are arguments.  An
    [elog.Fatal] is the outcome [Exit], a failed type assertion [Panic], an
    operation on a channel that can never proceed [Blocked].  Log output is left
    out.  In Dynamics.v a request at a worker is one step, while the steps of the
    leader's goroutines interleave; SyncWorker.v interleaves the single channel
    operations and critical sections of the worker's handlers, and SyncOverlap.v
    and [overlapping_deliveries_mix] show where that makes a difference.  Where
    requests are served one at a time (SyncProtocol.v, Cluster.v, Dynamics.v), a
    handler that blocks is not resumed later: its client has given up, and the
    goroutine that the program leaves at its channel is followed only in
    SyncWorker.v.  The synchronizations that [forAll] starts are run one after the
    other in Cluster.v and interleaved in Dynamics.v.

    A reader is the list of what its calls will deliver, so that loops over
    readers recur on it or have as fuel the number of its reads ([forwardOutput]:
    twice that number plus four, since each round of the scanner either reads or
    yields a line); JSON parsing, trimming and printing of numbers have as fuel
    the length of their input (or a bound on the digits), every round consuming
    at least one byte; the loops over PEM have the length plus one, enough because
    a decoded block takes at least a byte from the input ([Decode_consumes],
    [decode_loop_fuel]).  The theorems show that the loops end with the intended
    result, so fuel never runs out there.

    Parameters, with what is assumed of them: the NaCl box (class [NaCl]: a
    sealed message opens under the matching key pair and is 48 bytes longer);
    the hypervisor session and the nitrite verifier (class [Issues]: for a request
    within the limits on its fields the hypervisor returns a document, which
    verifies and carries what it was asked to carry);
    [x509.CreateCertificate] and [x509.ParseCertificate] (class [X509]: a created
    certificate parses, is not a CA's and is the bytes that were created);
    [x509.MarshalPKCS8PrivateKey], [tls.X509KeyPair], [url.Parse], [URL.String],
    the reverse proxy's [Director] and the texts of library errors, of which nothing
    is assumed; and the [Status] method of chi's response writer (the status that
    was set, or 0).  Every theorem with such an assumption has a
    witness with concrete functions.

    ** Not modelled

    Listening sockets, the routing of chi, the headers and the streaming of the
    reverse proxy and the pool sizes of its transport: calls into libraries, of which the model keeps
    what they are configured with and what they answer.  The registration of
    collectors with Prometheus.  Logging.  The tests and the example application.

    Next: the leader's set of workers and heartbeats as part of the transition
    system of Dynamics.v, with convergence after the last change of keys; IPv6
    addresses in worker URLs. *)
From Stdlib Require Import ZArith Lia.
From Stdlib Require Import Strings.Byte Strings.String.
From stdpp Require Import base gmap strings list fin_maps.

Local Open Scope Z_scope.

(** ** Bytes

    Go's [byte] is [Byte.byte]; a Go string and a [[]byte] are both sequences
    of bytes.  Where the code can tell a nil slice from an empty one (JSON
    encodes the former as [null]) the model uses [slice]. *)

Abbreviation byte := Byte.byte.
Abbreviation bytes := (list Byte.byte).

Definition b2z (b : byte) : Z := Z.of_N (Byte.to_N b).

(** [byte(z)]: conversion of an integer to a byte keeps the low eight bits. *)
Definition z2b (z : Z) : byte :=
  match Byte.of_N (Z.to_N (z mod 256)) with
  | Some b => b
  | None => Byte.x00
  end.

Definition str (s : string) : bytes := String.list_byte_of_string s.

(** [len(s)], as a Go [int]. *)
Definition len {A} (l : list A) : Z := Z.of_nat (length l).

(** A [[]byte] variable: [None] is the nil slice. *)
Definition slice : Type := option bytes.
Definition sbytes (s : slice) : bytes := default [] s.

#[export] Instance byte_eq_dec : EqDecision Byte.byte := Byte.byte_eq_dec.

#[export] Program Instance byte_countable : Countable Byte.byte :=
  inj_countable Byte.to_N Byte.of_N _.
Next Obligation. intros x. apply Byte.of_to_N. Qed.

(** [bytes.Equal]: a nil argument is equivalent to an empty slice. *)
Definition bytes_Equal (a b : slice) : bool := bool_decide (sbytes a = sbytes b).

Lemma b2z_bound (b : byte) : 0 <= b2z b < 256.
Proof. unfold b2z. pose proof (Byte.to_N_bounded b). lia. Qed.

Lemma b2z_z2b (z : Z) : b2z (z2b z) = z mod 256.
Proof.
  unfold b2z, z2b. pose proof (Z.mod_pos_bound z 256 ltac:(lia)) as Hz.
  destruct (Byte.of_N _) as [b|] eqn:E.
  - rewrite (Byte.to_of_N _ E). lia.
  - apply Byte.of_N_None_iff in E. lia.
Qed.

Lemma z2b_b2z (b : byte) : z2b (b2z b) = b.
Proof.
  unfold z2b. rewrite Z.mod_small by apply b2z_bound.
  unfold b2z. by rewrite N2Z.id, Byte.of_to_N.
Qed.

Lemma b2z_inj (a b : byte) : b2z a = b2z b -> a = b.
Proof. intros H. by rewrite <- (z2b_b2z a), <- (z2b_b2z b), H. Qed.

Lemma z2b_mod (z : Z) : z2b (z mod 256) = z2b z.
Proof. apply b2z_inj. rewrite !b2z_z2b. apply Z.mod_mod. lia. Qed.

Lemma z2b_eq (z : Z) (b : byte) : z mod 256 = b2z b -> z2b z = b.
Proof. intros H. apply b2z_inj. by rewrite b2z_z2b. Qed.

Lemma b2z_small (z : Z) : 0 <= z < 256 -> b2z (z2b z) = z.
Proof. intros. rewrite b2z_z2b. by apply Z.mod_small. Qed.

Lemma len_nonneg {A} (l : list A) : 0 <= len l.
Proof. unfold len. lia. Qed.

Lemma len_nil {A} : len (@nil A) = 0.
Proof. done. Qed.

Lemma len_cons {A} (x : A) l : len (x :: l) = 1 + len l.
Proof. unfold len. rewrite length_cons. lia. Qed.

Lemma len_app {A} (l k : list A) : len (l ++ k) = len l + len k.
Proof. unfold len. rewrite length_app. lia. Qed.

Lemma len_replicate {A} n (x : A) : len (replicate n x) = Z.of_nat n.
Proof. unfold len. by rewrite length_replicate. Qed.

Lemma len_zero_inv {A} (l : list A) : len l = 0 -> l = [].
Proof. destruct l; [done|]. rewrite len_cons. pose proof (len_nonneg l). lia. Qed.

Lemma bytes_Equal_eq (a b : slice) : bytes_Equal a b = true <-> sbytes a = sbytes b.
Proof. unfold bytes_Equal. apply bool_decide_eq_true. Qed.

(** [copy(a[:], src)] into a zeroed array of [n] bytes. *)
Definition copy_array (n : nat) (src : bytes) : bytes :=
  take n src ++ replicate (n - length src) Byte.x00.

Lemma length_copy_array n src : length (copy_array n src) = n.
Proof. unfold copy_array. rewrite length_app, length_take, length_replicate. lia. Qed.

Lemma copy_array_id src : copy_array (length src) src = src.
Proof. unfold copy_array. by rewrite firstn_all, Nat.sub_diag, app_nil_r. Qed.

(** A property of all 256 byte values, decided by running it on each. *)
Lemma all_bytes_spec (P : byte -> Prop) `{forall b, Decision (P b)} :
  forallb (fun z => bool_decide (P (z2b z))) (seqZ 0 256) = true -> forall b, P b.
Proof.
  intros HP b. rewrite <- (z2b_b2z b). rewrite forallb_forall in HP.
  eapply (bool_decide_eq_true_1 (P _)), HP, list_elem_of_In, elem_of_seqZ.
  pose proof (b2z_bound b). lia.
Qed.

(** A property of the integers of a range, decided by running it on each. *)
Lemma range_spec (P : Z -> Prop) `{forall z, Decision (P z)} (lo n : Z) :
  forallb (fun z => bool_decide (P z)) (seqZ lo n) = true ->
  forall z, lo <= z < lo + n -> P z.
Proof.
  intros HP z Hz. rewrite forallb_forall in HP.
  eapply bool_decide_eq_true_1, HP, list_elem_of_In, elem_of_seqZ. lia.
Qed.

(** Strong induction on the length of a list, for decoders that consume
    several elements at a time. *)
Lemma list_len_ind {A} (P : list A -> Prop) :
  (forall l, (forall k, (length k < length l)%nat -> P k) -> P l) -> forall l, P l.
Proof.
  intros H l. remember (length l) as n eqn:E. revert l E.
  induction n as [n IH] using lt_wf_ind. intros l ->. apply H. eauto.
Qed.

(** ** Errors

    A Go [error] is modelled by its identity: one constructor per sentinel of
    the sources, [Wrap] for [fmt.Errorf("...: %w", err)], and [ErrLib] for an
    error value made by a library, named by where it comes from. *)

Inductive error :=
  | errCfgMissingFQDN | errCfgMissingPort
  | errFailedReqBody | errHashWrongSize | errNoBase64
  | errDesignationInProgress | errEndpointGone | errKeySyncDisabled
  | errNo200 (code : Z)
  | errBadSliceLen | errBadForm | errNoNonce | errBadNonceFormat
  | errFailedAttestation | errProfilingSet
  | errPCRMismatch | errNonceMismatch | errNoAttstnFromNSM | errInvalidAux
  | errInProgress | errFailedToDecrypt | errHashNotInAttstn
  | errExpectedEmptyKeys
  | errNotEnoughRead | errTooMuchToRead
  | errUninitializedCert | ErrCacheMiss
  | EOF | ErrUnexpectedEOF
  | Wrap (ctx : string) (e : error)
  | ErrLib (what : string).

#[export] Instance error_eq_dec : EqDecision error.
Proof. solve_decision. Defined.

(** [errors.Is(err, target)] for a sentinel target. *)
Fixpoint errors_Is (err target : error) : bool :=
  bool_decide (err = target) ||
  match err with
  | Wrap _ e => errors_Is e target
  | _ => false
  end.

(** Go's [(T, error)] results, where exactly one half is meaningful. *)
Inductive result (A : Type) :=
  | Ok (a : A)
  | Err (e : error).
Arguments Ok {A} a.
Arguments Err {A} e.

#[export] Instance result_eq_dec `{EqDecision A} : EqDecision (result A).
Proof. solve_decision. Defined.

Definition res_bind {A B} (r : result A) (f : A -> result B) : result B :=
  match r with
  | Ok a => f a
  | Err e => Err e
  end.

#[export] Instance result_ret : MRet result := @Ok.
#[export] Instance result_bind : MBind result := fun _ _ f r => res_bind r f.

(** Replace the error of a failed call, as in [return nil, errFoo]. *)
Definition or_err {A} (r : result A) (e : error) : result A :=
  match r with
  | Ok a => Ok a
  | Err _ => Err e
  end.

Definition is_ok {A} (r : result A) : bool :=
  match r with Ok _ => true | Err _ => false end.

(** ** Computations with effects

    A call may return, end the process ([elog.Fatalf]), panic, or block
    forever on a channel.  [M S A] threads the state of the component; the
    state that a computation leaves behind when it does not return is kept. *)

Inductive outcome (A : Type) :=
  | Done (a : A)
  | Exit
  | Panic
  | Blocked.
Arguments Done {A} a.
Arguments Exit {A}.
Arguments Panic {A}.
Arguments Blocked {A}.

#[export] Instance outcome_eq_dec `{EqDecision A} : EqDecision (outcome A).
Proof. solve_decision. Defined.

Definition M (S A : Type) : Type := S -> S * outcome A.

Definition m_ret {S A} (a : A) : M S A := fun s => (s, Done a).

Definition m_bind {S A B} (m : M S A) (f : A -> M S B) : M S B :=
  fun s =>
    match m s with
    | (s', Done a) => f a s'
    | (s', Exit) => (s', Exit)
    | (s', Panic) => (s', Panic)
    | (s', Blocked) => (s', Blocked)
    end.

Definition m_exit {S A} : M S A := fun s => (s, Exit).
Definition m_panic {S A} : M S A := fun s => (s, Panic).
Definition m_block {S A} : M S A := fun s => (s, Blocked).
Definition m_get {S} : M S S := fun s => (s, Done s).
Definition m_modify {S} (f : S -> S) : M S unit := fun s => (f s, Done tt).

(** Run a computation on a part of the state. *)
Definition m_zoom {S T A} (get : T -> S) (set : S -> T -> T) (m : M S A) : M T A :=
  fun t => let '(s, o) := m (get t) in (set s t, o).

#[export] Instance M_ret S : MRet (M S) := fun _ => m_ret.
#[export] Instance M_bind S : MBind (M S) := fun _ _ f m => m_bind m f.

(** ** Automation *)

Create HintDb nitriding.
#[export] Hint Resolve b2z_bound len_nonneg : nitriding.
Create Rewrite HintDb len.
#[export] Hint Rewrite @len_app @len_cons @len_nil @len_replicate : len.

Ltac len_simp := autorewrite with len in *.

(** Case on the innermost scrutinee of a [match] in the goal or a hypothesis. *)
Ltac scrut e :=
  match e with
  | context [match ?x with _ => _ end] => scrut x
  | _ => e
  end.

Ltac case_goal :=
  match goal with
  | |- context [match ?x with _ => _ end] =>
      let y := scrut x in destruct y eqn:?; simplify_eq/=
  end.

Ltac case_hyp H :=
  match type of H with
  | context [match ?x with _ => _ end] =>
      let y := scrut x in destruct y eqn:?; simplify_eq/=
  end.

(** Split every [match] of a hypothesis, dropping impossible branches. *)
Ltac inv_matches H := try (progress simplify_eq/=); repeat (case_hyp H; try done).

Ltac unfold_M :=
  unfold mbind, M_bind, mret, M_ret, m_bind, m_ret, m_exit, m_panic, m_block,
    m_get, m_modify, m_zoom in *.
