(* ===== verification/Codec.v ===== *)
(** * Codec: the text and binary encodings the sources call

    [encoding/hex], [encoding/base64] (StdEncoding), [fmt]'s [%d] and [%x],
    [strings.ToLower]/[TrimSpace] and [binary.LittleEndian], with their round
    trips.  The handlers, the sync protocol and the packet framing are defined
    on top of these. *)
From Stdlib Require Import ZArith Lia.
From Stdlib Require Import Strings.Byte Strings.String.
From stdpp Require Import base gmap strings list fin_maps.
From S2P Require Import Prelude.

Local Open Scope Z_scope.
Local Ltac Zify.zify_post_hook ::= Z.to_euclidean_division_equations.

(** ** Single characters *)

Definition in_range (lo hi : Z) (b : byte) : bool := (lo <=? b2z b) && (b2z b <=? hi).

(** ASCII letters and digits by code. *)
Definition is_upper : byte -> bool := in_range 65 90.
Definition is_lower : byte -> bool := in_range 97 122.
Definition is_digit : byte -> bool := in_range 48 57.

Definition to_lower (b : byte) : byte := if is_upper b then z2b (b2z b + 32) else b.
Definition to_upper (b : byte) : byte := if is_lower b then z2b (b2z b - 32) else b.

(** [strings.ToLower].  Bytes of multi-byte characters are left alone: their
    lower case is never a hexadecimal digit, and the only caller decodes the
    result as hexadecimal, which rejects them either way. *)
Definition ToLower (s : bytes) : bytes := to_lower <$> s.

(** ** Hexadecimal *)

Definition hex_char (n : Z) : byte := if n <? 10 then z2b (48 + n) else z2b (87 + n).

Definition fromHexChar (c : byte) : option Z :=
  if in_range 48 57 c then Some (b2z c - 48)
  else if in_range 97 102 c then Some (b2z c - 87)
  else if in_range 65 70 c then Some (b2z c - 55)
  else None.

(** [fmt.Sprintf("%x", s)] and [hex.EncodeToString]. *)
Fixpoint hex_Encode (s : bytes) : bytes :=
  match s with
  | [] => []
  | b :: r => hex_char (b2z b / 16) :: hex_char (b2z b mod 16) :: hex_Encode r
  end.

(** [hex.DecodeString]. *)
Fixpoint hex_Decode (s : bytes) : result bytes :=
  match s with
  | [] => Ok []
  | [p] =>
      match fromHexChar p with
      | None => Err (ErrLib "hex.InvalidByteError")
      | Some _ => Err (ErrLib "hex.ErrLength")
      end
  | p :: q :: r =>
      match fromHexChar p, fromHexChar q with
      | Some a, Some b =>
          match hex_Decode r with
          | Ok t => Ok (z2b (a * 16 + b) :: t)
          | Err e => Err e
          end
      | _, _ => Err (ErrLib "hex.InvalidByteError")
      end
  end.

Lemma fromHexChar_hex_char n : 0 <= n < 16 -> fromHexChar (hex_char n) = Some n.
Proof.
  revert n. by apply (range_spec (fun n => fromHexChar (hex_char n) = Some n) 0 16).
Qed.

Lemma hex_Decode_Encode s : hex_Decode (hex_Encode s) = Ok s.
Proof.
  induction s as [|b s IH]; [done|]. simpl. pose proof (b2z_bound b).
  rewrite !fromHexChar_hex_char by lia. rewrite IH. do 2 f_equal. apply z2b_eq. lia.
Qed.

Lemma len_hex_Encode s : len (hex_Encode s) = 2 * len s.
Proof. induction s; simpl; len_simp; lia. Qed.

Lemma hex_char_lower n : 0 <= n < 16 -> to_lower (hex_char n) = hex_char n.
Proof.
  revert n. by apply (range_spec (fun n => to_lower (hex_char n) = hex_char n) 0 16).
Qed.

Lemma ToLower_hex_Encode s : ToLower (hex_Encode s) = hex_Encode s.
Proof.
  induction s as [|b s IH]; [done|]. simpl. pose proof (b2z_bound b).
  rewrite !hex_char_lower by lia. by rewrite IH.
Qed.

(** A successful decoding halves the length. *)
Lemma hex_Decode_len s t : hex_Decode s = Ok t -> len s = 2 * len t.
Proof.
  revert t. induction s as [[|p [|q r]] IH] using list_len_ind; intros t; simpl;
    intros H; inv_matches H; [done|].
  match goal with E : hex_Decode r = Ok _ |- _ => apply IH in E; [|simpl; lia] end.
  len_simp. lia.
Qed.

(** ** Base64 *)

Definition b64_char (n : Z) : byte :=
  if n <? 26 then z2b (65 + n)
  else if n <? 52 then z2b (71 + n)
  else if n <? 62 then z2b (n - 4)
  else if n =? 62 then "+"%byte else "/"%byte.

Definition b64_value (c : byte) : option Z :=
  if in_range 65 90 c then Some (b2z c - 65)
  else if in_range 97 122 c then Some (b2z c - 71)
  else if in_range 48 57 c then Some (b2z c + 4)
  else if bool_decide (c = "+"%byte) then Some 62
  else if bool_decide (c = "/"%byte) then Some 63
  else None.

Definition b64_pad : byte := "="%byte.

(** [base64.StdEncoding.EncodeToString]. *)
Fixpoint b64_Encode (s : bytes) : bytes :=
  match s with
  | [] => []
  | [a] =>
      [b64_char (b2z a / 4); b64_char (b2z a mod 4 * 16); b64_pad; b64_pad]
  | [a; b] =>
      [b64_char (b2z a / 4); b64_char (b2z a mod 4 * 16 + b2z b / 16);
       b64_char (b2z b mod 16 * 4); b64_pad]
  | a :: b :: c :: r =>
      b64_char (b2z a / 4) :: b64_char (b2z a mod 4 * 16 + b2z b / 16) ::
      b64_char (b2z b mod 16 * 4 + b2z c / 64) :: b64_char (b2z c mod 64) ::
      b64_Encode r
  end.

(** [base64.StdEncoding.EncodedLen]. *)
Definition b64_EncodedLen (n : Z) : Z := (n + 2) / 3 * 4.

Definition is_newline (c : byte) : bool :=
  bool_decide (c = Byte.x0a) || bool_decide (c = Byte.x0d).

(** The 4-character quanta of the decoder; padding may only end the input. *)
Fixpoint b64_quanta (s : bytes) : result bytes :=
  match s with
  | [] => Ok []
  | c0 :: c1 :: c2 :: c3 :: r =>
      match b64_value c0, b64_value c1 with
      | Some d0, Some d1 =>
          match b64_value c2, b64_value c3 with
          | Some d2, Some d3 =>
              match b64_quanta r with
              | Ok t => Ok (z2b (d0 * 4 + d1 / 16) :: z2b (d1 * 16 + d2 / 4) ::
                            z2b (d2 * 64 + d3) :: t)
              | Err e => Err e
              end
          | Some d2, None =>
              if bool_decide (c3 = b64_pad) && bool_decide (r = [])
              then Ok [z2b (d0 * 4 + d1 / 16); z2b (d1 * 16 + d2 / 4)]
              else Err (ErrLib "base64.CorruptInputError")
          | None, _ =>
              if bool_decide (c2 = b64_pad) && bool_decide (c3 = b64_pad)
                 && bool_decide (r = [])
              then Ok [z2b (d0 * 4 + d1 / 16)]
              else Err (ErrLib "base64.CorruptInputError")
          end
      | _, _ => Err (ErrLib "base64.CorruptInputError")
      end
  | _ => Err (ErrLib "base64.CorruptInputError")
  end.

(** [base64.StdEncoding.DecodeString]: CR and LF are skipped wherever they are. *)
Definition b64_Decode (s : bytes) : result bytes :=
  b64_quanta (List.filter (fun c => negb (is_newline c)) s).

Lemma b64_value_char n : 0 <= n < 64 -> b64_value (b64_char n) = Some n.
Proof.
  revert n. by apply (range_spec (fun n => b64_value (b64_char n) = Some n) 0 64).
Qed.

(** A predicate on characters that holds of the alphabet and of the padding
    holds of every character of an encoded string. *)
Lemma b64_Encode_Forall (P : byte -> bool) s :
  P b64_pad = true -> forallb P (b64_char <$> seqZ 0 64) = true ->
  Forall (fun c => P c = true) (b64_Encode s).
Proof.
  intros Hpad HP.
  assert (Hc : forall n, 0 <= n < 64 -> P (b64_char n) = true).
  { intros n Hn. rewrite forallb_forall in HP.
    apply HP, list_elem_of_In, list_elem_of_fmap_2, elem_of_seqZ. lia. }
  induction s as [[|a [|b [|c r]]] IH] using list_len_ind; simpl;
    [constructor|..];
    pose proof (b2z_bound a); try pose proof (b2z_bound b); try pose proof (b2z_bound c);
    repeat constructor; try apply Hc; try done; try lia.
  apply IH. simpl. lia.
Qed.

Lemma filter_all {A} (f : A -> bool) l :
  Forall (fun x => f x = true) l -> List.filter f l = l.
Proof. induction 1 as [|x l Hx _ IH]; simpl; [done|]. by rewrite Hx, IH. Qed.

Lemma b64_quanta_Encode s : b64_quanta (b64_Encode s) = Ok s.
Proof.
  induction s as [[|a [|b [|c r]]] IH] using list_len_ind; simpl; [done|..];
    pose proof (b2z_bound a); try pose proof (b2z_bound b); try pose proof (b2z_bound c);
    rewrite !b64_value_char by lia.
  - simpl. repeat f_equal; apply z2b_eq; lia.
  - simpl. repeat f_equal; apply z2b_eq; lia.
  - rewrite IH by (simpl; lia). repeat f_equal; apply z2b_eq; lia.
Qed.

Lemma b64_Decode_Encode s : b64_Decode (b64_Encode s) = Ok s.
Proof.
  unfold b64_Decode. rewrite filter_all; [apply b64_quanta_Encode|].
  by apply (b64_Encode_Forall (fun c => negb (is_newline c))).
Qed.

Lemma b64_Encode_inj s t : b64_Encode s = b64_Encode t -> s = t.
Proof.
  intros E. pose proof (b64_Decode_Encode s) as H. rewrite E, b64_Decode_Encode in H.
  by injection H.
Qed.

Lemma b64_EncodedLen_mono n m : n <= m -> b64_EncodedLen n <= b64_EncodedLen m.
Proof.
  intros H. unfold b64_EncodedLen.
  apply Z.mul_le_mono_nonneg_r; [lia|]. apply Z.div_le_mono; lia.
Qed.

Lemma len_b64_Encode s : len (b64_Encode s) = b64_EncodedLen (len s).
Proof.
  unfold b64_EncodedLen.
  induction s as [[|a [|b [|c r]]] IH] using list_len_ind; simpl; len_simp; try done.
  rewrite IH by (simpl; lia). lia.
Qed.

#[export] Hint Rewrite len_hex_Encode len_b64_Encode : len.

(** ** Decimal numbers: [%d] of an unsigned integer *)

Fixpoint dec_digits (fuel : nat) (n : Z) (acc : bytes) : bytes :=
  match fuel with
  | O => acc
  | S f =>
      let acc' := z2b (48 + n mod 10) :: acc in
      if n <? 10 then acc' else dec_digits f (n / 10) acc'
  end.

(** Twenty digits are enough for every [uint64]. *)
Definition dec_Print (n : Z) : bytes := dec_digits 20 n [].

#[global] Arguments dec_Print : simpl never.

Definition digit_value (c : byte) : option Z :=
  if is_digit c then Some (b2z c - 48) else None.

(** The value of a digit string read from the left. *)
Definition dec_Value (s : bytes) : Z :=
  fold_left (fun v c => v * 10 + (b2z c - 48)) s 0.

Lemma digit_is_digit n : 0 <= n < 10 -> is_digit (z2b (48 + n)) = true.
Proof.
  intros. unfold is_digit, in_range. rewrite b2z_small by lia. lia.
Qed.

Lemma dec_digits_Forall f n acc :
  Forall (fun c => is_digit c = true) acc ->
  Forall (fun c => is_digit c = true) (dec_digits f n acc).
Proof.
  revert n acc. induction f as [|f IH]; intros n acc Hacc; simpl; [done|].
  assert (Forall (fun c => is_digit c = true) (z2b (48 + n mod 10) :: acc)).
  { constructor; [apply digit_is_digit; lia | done]. }
  destruct (n <? 10); [done|]. by apply IH.
Qed.

Lemma dec_Print_digits n : Forall (fun c => is_digit c = true) (dec_Print n).
Proof. apply dec_digits_Forall. constructor. Qed.

Lemma dec_Print_Forall n : 0 <= n -> Forall (fun c => is_digit c = true) (dec_Print n).
Proof. intros _. apply dec_Print_digits. Qed.

Lemma dec_fold_acc s v :
  fold_left (fun v c => v * 10 + (b2z c - 48)) s v =
  v * 10 ^ len s + dec_Value s.
Proof.
  unfold dec_Value. revert v. induction s as [|c s IH]; intros v; simpl.
  - rewrite len_nil. lia.
  - rewrite IH, (IH (0 * 10 + _)). rewrite len_cons, Z.pow_add_r by (auto with nitriding; lia). lia.
Qed.

Lemma dec_digits_Value f n acc :
  0 <= n < 10 ^ Z.of_nat f ->
  dec_Value (dec_digits f n acc) = n * 10 ^ len acc + dec_Value acc.
Proof.
  revert n acc. induction f as [|f IH]; intros n acc Hn; cbn [dec_digits].
  - simpl in Hn. assert (n = 0) by lia. subst. lia.
  - rewrite Nat2Z.inj_succ, Z.pow_succ_r in Hn by lia.
    assert (Hd : dec_Value (z2b (48 + n mod 10) :: acc) =
                 (n mod 10) * 10 ^ len acc + dec_Value acc).
    { unfold dec_Value at 1. simpl. rewrite dec_fold_acc, b2z_small by lia. lia. }
    destruct (Z.ltb_spec n 10).
    + rewrite Hd. rewrite Z.mod_small by lia. done.
    + rewrite IH by lia. rewrite Hd, len_cons, Z.pow_add_r by (auto with nitriding; lia).
      rewrite (Z.div_mod n 10) at 3 by lia. lia.
Qed.

(** Printing and reading back an unsigned 64-bit integer. *)
Lemma dec_Value_Print n : 0 <= n < 10 ^ 20 -> dec_Value (dec_Print n) = n.
Proof.
  intros. unfold dec_Print. rewrite dec_digits_Value by done.
  rewrite len_nil. unfold dec_Value. simpl. lia.
Qed.

Lemma dec_digits_nonempty f n acc : (0 < f)%nat \/ acc <> [] -> dec_digits f n acc <> [].
Proof.
  revert n acc. induction f as [|f IH]; intros n acc H; simpl; [destruct H; [lia|done]|].
  case_match; [done|]. apply IH. by right.
Qed.

Lemma len_dec_Print n : len (dec_Print n) <= 20.
Proof.
  assert (H : forall f n acc, len (dec_digits f n acc) <= Z.of_nat f + len acc).
  { induction f as [|f IH]; intros m acc; simpl; [lia|]. case_match; [|specialize (IH (m / 10)
      (z2b (48 + m mod 10) :: acc))]; rewrite ?len_cons in *; lia. }
  etrans; [apply H|]. done.
Qed.

Lemma dec_Print_nonempty n : dec_Print n <> [].
Proof. apply dec_digits_nonempty. left. lia. Qed.

Lemma dec_Print_inj n m :
  0 <= n < 10 ^ 20 -> 0 <= m < 10 ^ 20 -> dec_Print n = dec_Print m -> n = m.
Proof. intros Hn Hm E. by rewrite <- (dec_Value_Print n), E, dec_Value_Print. Qed.

(** No leading zero, except in the number zero itself. *)
Lemma dec_digits_head f n acc :
  0 < n < 10 ^ Z.of_nat f -> exists c r, dec_digits f n acc = c :: r /\ c <> "0"%byte.
Proof.
  revert n acc. induction f as [|f IH]; intros n acc Hn; cbn [dec_digits]; [simpl in Hn; lia|].
  rewrite Nat2Z.inj_succ, Z.pow_succ_r in Hn by lia. destruct (Z.ltb_spec n 10).
  - eexists _, _. split; [reflexivity|]. intros E%(f_equal b2z).
    rewrite b2z_small in E by lia. change (b2z "0"%byte) with 48 in E. lia.
  - apply IH. lia.
Qed.

Lemma dec_Print_head n : 0 < n < 10 ^ 20 -> exists c r, dec_Print n = c :: r /\ c <> "0"%byte.
Proof. apply (dec_digits_head 20). Qed.

(** ** [binary.LittleEndian] on 16-bit words *)

Definition PutUint16 (v : Z) : bytes := [z2b v; z2b (Z.shiftr v 8)].

Definition Uint16 (b0 b1 : byte) : Z := Z.lor (b2z b0) (Z.shiftl (b2z b1) 8).

(** Conversion to [uint16]. *)
Definition to_uint16 (n : Z) : Z := n mod 65536.

Lemma Uint16_add b0 b1 : Uint16 b0 b1 = b2z b0 + 256 * b2z b1.
Proof.
  unfold Uint16. rewrite Z.shiftl_mul_pow2 by lia.
  pose proof (Z.add_lor_land (b2z b0) (b2z b1 * 2 ^ 8)) as E.
  replace (Z.land (b2z b0) (b2z b1 * 2 ^ 8)) with 0 in E; [lia|].
  symmetry. apply Z.bits_inj'. intros i Hi. rewrite Z.bits_0, Z.land_spec.
  destruct (Z.ltb_spec i 8) as [Hlt|Hge].
  - rewrite (Z.mul_pow2_bits_low _ 8 i) by lia. apply andb_false_r.
  - rewrite <- (Z.mod_small (b2z b0) (2 ^ 8)) by apply b2z_bound.
    by rewrite Z.mod_pow2_bits_high by lia.
Qed.

Lemma Uint16_bound b0 b1 : 0 <= Uint16 b0 b1 < 65536.
Proof. rewrite Uint16_add. pose proof (b2z_bound b0). pose proof (b2z_bound b1). lia. Qed.

Lemma Uint16_Put n : 0 <= n < 65536 -> Uint16 (z2b n) (z2b (Z.shiftr n 8)) = n.
Proof. intros. rewrite Uint16_add, !b2z_z2b, Z.shiftr_div_pow2 by lia. lia. Qed.

(** ** [strings.TrimSpace]

    The UTF-8 encodings of the characters for which [unicode.IsSpace] holds. *)

Definition space_encodings : list bytes :=
  [[Byte.x09]; [Byte.x0a]; [Byte.x0b]; [Byte.x0c]; [Byte.x0d]; [Byte.x20];
   [Byte.xc2; Byte.x85]; [Byte.xc2; Byte.xa0]; [Byte.xe1; Byte.x9a; Byte.x80]] ++
  ((fun c => [Byte.xe2; Byte.x80; z2b c]) <$> (seqZ 128 11 ++ [168; 169; 175])) ++
  [[Byte.xe2; Byte.x81; Byte.x9f]; [Byte.xe3; Byte.x80; Byte.x80]].

(** Remove one space character from the front, if there is one. *)
Definition trim_one (spaces : list bytes) (s : bytes) : option bytes :=
  match list_find (fun p => p `prefix_of` s) spaces with
  | Some (_, p) => Some (drop (length p) s)
  | None => None
  end.

Fixpoint trim_front (spaces : list bytes) (fuel : nat) (s : bytes) : bytes :=
  match fuel with
  | O => s
  | S f => match trim_one spaces s with
           | Some s' => trim_front spaces f s'
           | None => s
           end
  end.

Definition TrimSpace (s : bytes) : bytes :=
  let s1 := trim_front space_encodings (length s) s in
  reverse (trim_front (reverse <$> space_encodings) (length s1) (reverse s1)).

(** Bytes that belong to no space character. *)
Definition not_space (c : byte) : bool := in_range 33 126 c.

Lemma trim_front_id spaces f s :
  Forall (fun p => exists c q, p = c :: q /\ not_space c = false) spaces ->
  (forall c r, s = c :: r -> not_space c = true) ->
  trim_front spaces f s = s.
Proof.
  intros Hsp Hs. destruct f as [|f]; [done|]. simpl. unfold trim_one.
  destruct (list_find _ spaces) as [[i p]|] eqn:E; [|done]. exfalso.
  apply list_find_Some in E as (Hp & [r ->] & _).
  rewrite Forall_lookup in Hsp. destruct (Hsp _ _ Hp) as (c & q & -> & Hc).
  rewrite (Hs c (q ++ r)) in Hc; done.
Qed.

Lemma spaces_front : Forall (fun p => exists c q, p = c :: q /\ not_space c = false)
  space_encodings.
Proof. repeat constructor; do 2 eexists; split; reflexivity. Qed.

Lemma spaces_back : Forall (fun p => exists c q, p = c :: q /\ not_space c = false)
  (reverse <$> space_encodings).
Proof. repeat constructor; do 2 eexists; split; reflexivity. Qed.

Lemma TrimSpace_id s : Forall (fun c => not_space c = true) s -> TrimSpace s = s.
Proof.
  intros H. unfold TrimSpace. rewrite (trim_front_id space_encodings).
  - rewrite trim_front_id; [apply reverse_involutive | apply spaces_back|].
    intros c r E. apply Forall_reverse in H. rewrite E in H. by inversion H.
  - apply spaces_front.
  - intros c r ->. by inversion H.
Qed.

(** A final newline, as [curl -d] and [base64] leave one, is dropped. *)
Lemma TrimSpace_newline s :
  Forall (fun c => not_space c = true) s -> s <> [] -> TrimSpace (s ++ [Byte.x0a]) = s.
Proof.
  intros H Hne. unfold TrimSpace. rewrite (trim_front_id space_encodings).
  - rewrite reverse_snoc, length_app, Nat.add_comm. simpl.
    rewrite trim_front_id; [apply reverse_involutive | apply spaces_back|].
    intros c r E. rewrite drop_0 in E. apply Forall_reverse in H. rewrite E in H. by inversion H.
  - apply spaces_front.
  - destruct s as [|c' s]; [done|]. intros c r [= -> _]. by inversion H.
Qed.

Lemma b64_Encode_not_space s : Forall (fun c => not_space c = true) (b64_Encode s).
Proof. by apply b64_Encode_Forall. Qed.

Lemma b64_Encode_nonempty s : s <> [] -> b64_Encode s <> [].
Proof. by destruct s as [|a [|b [|c s]]]. Qed.
