(* ===== verification/Text.v ===== *)
(** * Text: searching and splitting byte sequences

    What the sources and the PEM format use of [bytes] and [strings]:
    prefixes and suffixes, [Cut], [Index], [Split], [TrimRight], and lines. *)
From Stdlib Require Import ZArith Lia.
From Stdlib Require Import Strings.Byte Strings.String.
From stdpp Require Import base gmap strings list fin_maps.
From S2P Require Import Prelude.

Local Open Scope Z_scope.

Definition newline : byte := Byte.x0a.
Definition CR : byte := Byte.x0d.

(** [bytes.HasPrefix] and [bytes.HasSuffix]. *)
Definition HasPrefix (s p : bytes) : bool := bool_decide (p `prefix_of` s).
Definition HasSuffix (s p : bytes) : bool := bool_decide (p `suffix_of` s).

(** [bytes.Cut]: what comes before and after the first [sep]. *)
Fixpoint Cut (sep s : bytes) : option (bytes * bytes) :=
  if HasPrefix s sep then Some ([], drop (length sep) s)
  else match s with
       | [] => None
       | c :: s' => match Cut sep s' with
                    | Some (before, after) => Some (c :: before, after)
                    | None => None
                    end
       end.

(** [bytes.Index]; [None] is the result -1. *)
Definition Index (s sep : bytes) : option nat := length ∘ fst <$> Cut sep s.

(** [bytes.TrimRight] with the bytes that satisfy [cut]. *)
Fixpoint TrimRight (cut : byte -> bool) (s : bytes) : bytes :=
  match s with
  | [] => []
  | c :: s' => match TrimRight cut s' with
               | [] => if cut c then [] else [c]
               | t => c :: t
               end
  end.

(** [strings.Split] with a separator of one byte. *)
Fixpoint Split (sep : byte) (s : bytes) : list bytes :=
  match s with
  | [] => [[]]
  | c :: s' =>
      if bool_decide (c = sep) then [] :: Split sep s'
      else match Split sep s' with
           | [] => [[c]]
           | w :: ws => (c :: w) :: ws
           end
  end.

(** [dropCR] of [bufio]: a final carriage return is removed. *)
Definition dropCR (s : bytes) : bytes :=
  match last s with
  | Some c => if bool_decide (c = CR) then take (length s - 1) s else s
  | None => s
  end.

(** ** Lemmas *)

Lemma HasPrefix_spec s p : HasPrefix s p = true <-> exists r, s = p ++ r.
Proof. unfold HasPrefix. by rewrite bool_decide_eq_true. Qed.

Lemma HasPrefix_app p r : HasPrefix (p ++ r) p = true.
Proof. apply HasPrefix_spec. by exists r. Qed.

Lemma HasSuffix_app p r : HasSuffix (r ++ p) p = true.
Proof. unfold HasSuffix. apply bool_decide_eq_true_2. by exists r. Qed.

Lemma Cut_unfold sep s :
  Cut sep s =
  if HasPrefix s sep then Some ([], drop (length sep) s)
  else match s with
       | [] => None
       | c :: s' => match Cut sep s' with
                    | Some (before, after) => Some (c :: before, after)
                    | None => None
                    end
       end.
Proof. by destruct s. Qed.

Lemma Cut_Some sep s before after : Cut sep s = Some (before, after) -> s = before ++ sep ++ after.
Proof.
  revert before after. induction s as [|c s IH]; intros before after H; rewrite Cut_unfold in H;
    destruct (HasPrefix _ sep) eqn:E.
  1, 3: apply HasPrefix_spec in E as [r E]; injection H as <- <-;
    by rewrite (f_equal (drop (length sep)) E), drop_app_length.
  - done.
  - destruct (Cut sep s) as [[b a]|]; [|done]. injection H as <- <-. simpl. f_equal. by apply IH.
Qed.

(** A one-byte separator is found at its first occurrence. *)
Lemma Cut_byte x s r : x ∉ s -> Cut [x] (s ++ x :: r) = Some (s, r).
Proof.
  induction s as [|c s IH]; intros Hx; simpl.
  - by rewrite (HasPrefix_app [x] r : HasPrefix (x :: r) [x] = true).
  - apply not_elem_of_cons in Hx as [Hc Hx].
    destruct (HasPrefix _ [x]) eqn:E; [apply HasPrefix_spec in E as [t E]; by injection E|].
    by rewrite IH.
Qed.

Lemma Cut_byte_None x s : Cut [x] s = None <-> x ∉ s.
Proof.
  split.
  - intros H (l1 & l2 & -> & Hx)%list_elem_of_split_l. by rewrite Cut_byte in H.
  - intros Hx. destruct (Cut [x] s) as [[b a]|] eqn:E; [|done].
    apply Cut_Some in E as ->. set_solver.
Qed.

Lemma TrimRight_last cut s c : cut c = false -> TrimRight cut (s ++ [c]) = s ++ [c].
Proof. intros Hc. induction s as [|d s IH]; simpl; [by rewrite Hc|]. rewrite IH. by destruct s. Qed.

Lemma dropCR_spec s : dropCR (s ++ [CR]) = s /\ (last s <> Some CR -> dropCR s = s).
Proof.
  unfold dropCR. split.
  - rewrite last_snoc, bool_decide_eq_true_2 by done. rewrite length_app, Nat.add_sub.
    apply take_app_length.
  - intros H. destruct (last s) as [c|] eqn:E; [|done]. rewrite bool_decide_eq_false_2; [done|].
    by intros ->.
Qed.

(** [Split] undoes joining with the separator. *)
Lemma Split_nonempty sep s : Split sep s <> [].
Proof. destruct s as [|c s]; simpl; [done|]. by destruct (bool_decide _), (Split sep s). Qed.

Fixpoint Join (sep : byte) (ws : list bytes) : bytes :=
  match ws with
  | [] => []
  | [w] => w
  | w :: ws' => w ++ sep :: Join sep ws'
  end.

Lemma Split_app sep w s : sep ∉ w -> Split sep (w ++ sep :: s) = w :: Split sep s.
Proof.
  induction w as [|c w IH]; intros Hw; simpl.
  - by rewrite bool_decide_eq_true_2.
  - apply not_elem_of_cons in Hw as [Hc Hw]. rewrite bool_decide_eq_false_2 by done.
    by rewrite IH.
Qed.

Lemma Split_word sep w : sep ∉ w -> Split sep w = [w].
Proof.
  induction w as [|c w IH]; intros Hw; simpl; [done|].
  apply not_elem_of_cons in Hw as [Hc Hw]. rewrite bool_decide_eq_false_2 by done.
  by rewrite IH.
Qed.

Lemma Split_Join sep ws : ws <> [] -> Forall (fun w => sep ∉ w) ws -> Split sep (Join sep ws) = ws.
Proof.
  intros Hne H. induction H as [|w ws Hw H IH]; [done|]. destruct ws as [|v ws].
  - by apply Split_word.
  - change (Join sep (w :: v :: ws)) with (w ++ sep :: Join sep (v :: ws)).
    rewrite Split_app by done. by rewrite IH.
Qed.

(** The pieces do not contain the separator. *)
Lemma Split_pieces sep s : Forall (fun w => sep ∉ w) (Split sep s).
Proof.
  induction s as [|c s IH]; simpl; [apply Forall_cons_2; [set_solver|constructor]|].
  case_bool_decide as E; [apply Forall_cons_2; [set_solver|done]|].
  destruct IH as [|w ws Hw Hws]; (apply Forall_cons_2; [set_solver|done]).
Qed.

Lemma Join_Split sep s : Join sep (Split sep s) = s.
Proof.
  induction s as [|c s IH]; simpl; [done|].
  pose proof (Split_nonempty sep s) as Hne.
  case_bool_decide as Hc.
  - subst. destruct (Split sep s) as [|w ws]; [done|]. by rewrite <- IH.
  - destruct (Split sep s) as [|w [|v ws]]; [done| |]; simpl in *; by rewrite <- IH.
Qed.
