(* ===== verification/Pem.v ===== *)
(** * Pem: [encoding/pem] as the sources use it

    [pem.Decode] finds the next block of a PEM file, skipping what is not one;
    [pem.EncodeToMemory] writes a block, its Base64 text in lines of 64
    characters.  [Decode_Encode] is the round trip, [Decode_consumes] the
    progress that makes loops over the blocks of a file end. *)
From Stdlib Require Import ZArith Lia.
From Stdlib Require Import Strings.Byte Strings.String.
From stdpp Require Import base gmap strings list fin_maps.
From S2P Require Import Prelude Codec Text.

Local Open Scope Z_scope.

Record Block := MkBlock { b_Type : bytes; b_Headers : gmap bytes bytes; b_Bytes : bytes }.

Definition pemStart : bytes := newline :: str "-----BEGIN ".
Definition pemEnd : bytes := newline :: str "-----END ".
Definition pemEndOfLine : bytes := str "-----".
Definition colon : bytes := str ":".

Definition is_blank (c : byte) : bool := bool_decide (c = Byte.x20) || bool_decide (c = Byte.x09).

(** The first line, without its end and trailing blanks, and what follows. *)
Definition getLine (data : bytes) : bytes * bytes :=
  match Cut [newline] data with
  | None => (TrimRight is_blank data, [])
  | Some (line, rest) => (TrimRight is_blank (dropCR line), rest)
  end.

Definition removeSpacesAndTabs (data : bytes) : bytes := List.filter (fun c => negb (is_blank c)) data.

(** The loop over header lines; [None] if the input ends within them. *)
Fixpoint read_headers (fuel : nat) (headers : gmap bytes bytes) (rest : bytes)
    : option (gmap bytes bytes * bytes) :=
  match fuel with
  | O => None
  | S f =>
      if bool_decide (rest = []) then None
      else let '(line, next) := getLine rest in
           match Cut colon line with
           | None => Some (headers, rest)
           | Some (key, val) => read_headers f (<[TrimSpace key := TrimSpace val]> headers) next
           end
  end.

(** Where the body ends and what follows the marker of the end line starts. *)
Definition find_end (headers : gmap bytes bytes) (rest : bytes) : option (nat * nat) :=
  if bool_decide (headers = ∅) && HasPrefix rest (tail pemEnd)
  then Some (0%nat, (length pemEnd - 1)%nat)
  else match Index rest pemEnd with
       | Some i => Some (i, (i + length pemEnd)%nat)
       | None => None
       end.

(** One round of [Decode]'s loop after a start marker: a block and what follows
    it, another round on the rest, or the end of the search. *)
Inductive attempt :=
  | Found (b : Block) (rest : bytes)
  | Retry (rest : bytes)
  | GiveUp.

Definition decode_body (typeLine : bytes) (headers : gmap bytes bytes) (rest : bytes) : attempt :=
  match find_end headers rest with
  | None => Retry rest
  | Some (endIndex, endTrailerIndex) =>
      let endTrailer := drop endTrailerIndex rest in
      let endTrailerLen := (length typeLine + length pemEndOfLine)%nat in
      if (length endTrailer <? endTrailerLen)%nat then Retry rest
      else
        let restOfEndLine := drop endTrailerLen endTrailer in
        let endTrailer := take endTrailerLen endTrailer in
        if negb (HasPrefix endTrailer typeLine) || negb (HasSuffix endTrailer pemEndOfLine)
        then Retry rest
        else if negb (bool_decide ((getLine restOfEndLine).1 = [])) then Retry rest
        else match b64_Decode (removeSpacesAndTabs (take endIndex rest)) with
             | Err _ => Retry rest
             | Ok p => Found (MkBlock typeLine headers p)
                         (getLine (drop (endIndex + length pemEnd - 1) rest)).2
             end
  end.

Definition decode_block (rest : bytes) : attempt :=
  let '(typeLine, rest) := getLine rest in
  if negb (HasSuffix typeLine pemEndOfLine) then Retry rest
  else match read_headers (S (length rest)) ∅ rest with
       | None => GiveUp
       | Some (headers, rest) =>
           decode_body (take (length typeLine - length pemEndOfLine) typeLine) headers rest
       end.

(** What follows the next start marker; at the very beginning the marker needs
    no newline before it. *)
Definition find_start (rest : bytes) : option bytes :=
  if HasPrefix rest (tail pemStart) then Some (drop (length pemStart - 1) rest)
  else snd <$> Cut pemStart rest.

Fixpoint decode_loop (fuel : nat) (rest data : bytes) : option Block * bytes :=
  match fuel with
  | O => (None, data)
  | S f =>
      match find_start rest with
      | None => (None, data)
      | Some rest =>
          match decode_block rest with
          | Found b rest => (Some b, rest)
          | Retry rest => decode_loop f rest data
          | GiveUp => (None, data)
          end
      end
  end.

Definition Decode (data : bytes) : option Block * bytes := decode_loop (S (length data)) data data.

(** [lineBreaker]: a newline after every 64 characters and at the end; [room] is
    what still fits on the line. *)
Fixpoint break_lines (room : nat) (s : bytes) : bytes :=
  match s with
  | [] => if (room =? 64)%nat then [] else [newline]
  | c :: s' => c :: match room with
                    | 0 | 1 => newline :: break_lines 64 s'
                    | S room' => break_lines room' s'
                    end
  end%nat.

(** [EncodeToMemory] of a block without headers, the only ones the sources make;
    nil is returned for malformed headers only. *)
Definition EncodeToMemory (typ b : bytes) : slice :=
  Some (tail pemStart ++ typ ++ pemEndOfLine ++ newline :: break_lines 64 (b64_Encode b) ++
        tail pemEnd ++ typ ++ pemEndOfLine ++ [newline]).

(** ** Progress *)

Lemma getLine_length data : (length (getLine data).2 <= length data)%nat /\
  (data <> [] -> length (getLine data).2 < length data)%nat.
Proof.
  unfold getLine. destruct (Cut [newline] data) as [[line rest]|] eqn:E; simpl.
  - apply Cut_Some in E as ->. rewrite !length_app. simpl. lia.
  - destruct data; simpl; split; [lia|done|lia|lia].
Qed.

Lemma read_headers_length f hs rest hs' rest' :
  read_headers f hs rest = Some (hs', rest') -> (length rest' <= length rest)%nat.
Proof.
  revert hs rest. induction f as [|f IH]; intros hs rest H; simpl in H; [done|].
  case_bool_decide; [done|]. pose proof (getLine_length rest) as [Hl _].
  destruct (getLine rest) as [line next]. destruct (Cut colon line) as [[k v]|]; simpl in *.
  - apply IH in H. lia.
  - by injection H as <- <-.
Qed.

Lemma find_start_length rest rest' : find_start rest = Some rest' -> (length rest' < length rest)%nat.
Proof.
  unfold find_start. destruct (HasPrefix rest (tail pemStart)) eqn:E.
  - apply HasPrefix_spec in E as [r ->]. intros [= <-].
    rewrite length_drop, length_app. simpl. lia.
  - destruct (Cut pemStart rest) as [[b a]|] eqn:E'; [|done]. intros [= <-].
    apply Cut_Some in E' as ->. rewrite !length_app. simpl. lia.
Qed.

Lemma decode_block_length rest :
  match decode_block rest with
  | Found _ rest' | Retry rest' => (length rest' <= length rest)%nat
  | GiveUp => True
  end.
Proof.
  unfold decode_block. pose proof (getLine_length rest) as [Hl _].
  destruct (getLine rest) as [line r0]. simpl in Hl.
  destruct (negb (HasSuffix line pemEndOfLine)); [done|].
  destruct (read_headers _ ∅ r0) as [[hs r1]|] eqn:E; [|done]. apply read_headers_length in E.
  unfold decode_body. destruct (find_end hs r1) as [[i j]|]; [|lia].
  cbv zeta. destruct (_ <? _)%nat; [lia|]. destruct (negb _ || negb _); [lia|].
  destruct (negb _); [lia|]. destruct (b64_Decode _) as [p|]; [|lia].
  match goal with |- context [getLine ?d] => pose proof (getLine_length d) as [Hd _] end.
  rewrite length_drop in Hd. lia.
Qed.

(** The fuel is enough: more of it makes no difference. *)
Lemma decode_loop_fuel f g rest data :
  (length rest < f)%nat -> (length rest < g)%nat ->
  decode_loop f rest data = decode_loop g rest data.
Proof.
  revert g rest. induction f as [|f IH]; intros [|g] rest Hf Hg; try lia. simpl.
  destruct (find_start rest) as [r|] eqn:E; [|done]. apply find_start_length in E.
  pose proof (decode_block_length r). destruct (decode_block r); try done. apply IH; lia.
Qed.

(** [pem.Decode] consumes the block it returns. *)
Lemma Decode_consumes data b rest : Decode data = (Some b, rest) -> (length rest < length data)%nat.
Proof.
  unfold Decode. assert (H : forall f r, decode_loop f r data = (Some b, rest) ->
    (length rest < length r)%nat).
  { induction f as [|f IH]; intros r; simpl; [done|].
    destruct (find_start r) as [r0|] eqn:E; [|done]. apply find_start_length in E.
    pose proof (decode_block_length r0) as Hl. destruct (decode_block r0) as [b' r'|r'|].
    - intros [= -> ->]. lia.
    - intros Hr%IH. lia.
    - done. }
  apply H.
Qed.

(** ** Round trip *)

Lemma elem_of_TrimRight cut s c : c ∈ TrimRight cut s -> c ∈ s.
Proof.
  revert c. induction s as [|d s IH]; intros c; simpl; [done|].
  destruct (TrimRight cut s) as [|t ts]; [destruct (cut d); set_solver|].
  intros [->|H]%elem_of_cons; [set_solver|]. apply elem_of_cons. right. by apply IH.
Qed.

Lemma elem_of_dropCR s c : c ∈ dropCR s -> c ∈ s.
Proof.
  unfold dropCR. destruct (last s); [|done]. case_bool_decide; [|done].
  intros (i & ? & ?)%elem_of_take. by eapply list_elem_of_lookup_2.
Qed.

Lemma getLine_app s r : newline ∉ s -> getLine (s ++ newline :: r) = (TrimRight is_blank (dropCR s), r).
Proof. intros H. unfold getLine. by rewrite Cut_byte. Qed.

Lemma getLine_nl r : getLine (newline :: r) = ([], r).
Proof. exact (getLine_app [] r (not_elem_of_nil newline)). Qed.

(** A line that ends in a dash is returned as it is. *)
Lemma getLine_dash s r : newline ∉ s ->
  getLine (s ++ pemEndOfLine ++ newline :: r) = (s ++ pemEndOfLine, r).
Proof.
  intros H. rewrite app_assoc, getLine_app.
  - f_equal. change pemEndOfLine with (str "----" ++ [Byte.x2d]). rewrite app_assoc.
    rewrite (proj2 (dropCR_spec _)); [by rewrite TrimRight_last|]. by rewrite last_snoc.
  - rewrite not_elem_of_app. split; [done|]. by apply (bool_decide_eq_false_1 (newline ∈ pemEndOfLine)).
Qed.

Lemma getLine_rest s r : newline ∉ s -> (getLine (s ++ newline :: r)).2 = r.
Proof. intros H. by rewrite getLine_app. Qed.

(** The first line of a text without colons before some newline has none. *)
Lemma no_header X r : Byte.x3a ∉ X -> Cut colon (getLine (X ++ newline :: r)).1 = None.
Proof.
  intros HX. apply Cut_byte_None. destruct (decide (newline ∈ X)) as [Hn|Hn].
  - apply list_elem_of_split_l in Hn as (l1 & l2 & -> & Hn).
    rewrite <- app_assoc, <- app_comm_cons, getLine_app by done. simpl.
    intros ?%elem_of_TrimRight%elem_of_dropCR. set_solver.
  - rewrite getLine_app by done. simpl. intros ?%elem_of_TrimRight%elem_of_dropCR. done.
Qed.

Lemma read_headers_none f X r : Byte.x3a ∉ X ->
  read_headers (S f) ∅ (X ++ newline :: r) = Some (∅, X ++ newline :: r).
Proof.
  intros HX. cbn [read_headers]. rewrite bool_decide_eq_false_2 by by destruct X.
  pose proof (no_header X r HX) as Hc. destruct (getLine _) as [line next]. simpl in Hc.
  by rewrite Hc.
Qed.

(** The end marker is found behind a body without dashes. *)
Lemma Cut_pemEnd L r : Byte.x2d ∉ L -> Cut pemEnd (L ++ pemEnd ++ r) = Some (L, r).
Proof.
  intros HL. induction L as [|c L IH]; rewrite Cut_unfold.
  - change ([] ++ pemEnd ++ r) with (pemEnd ++ r). rewrite HasPrefix_app. by rewrite drop_app_length.
  - apply not_elem_of_cons in HL as [Hc HL]. rewrite <- app_comm_cons.
    destruct (HasPrefix _ pemEnd) eqn:E; [|by rewrite IH].
    apply HasPrefix_spec in E as [t E]. injection E as _ E.
    destruct L as [|d L]; [discriminate|]. injection E as -> _. set_solver.
Qed.

(** The lines of the body. *)
Lemma break_lines_filter room s :
  Forall (fun c => negb (is_newline c) = true) s ->
  List.filter (fun c => negb (is_newline c)) (break_lines room s) = s.
Proof.
  intros H. revert room. induction H as [|c s Hc _ IH]; intros room; simpl.
  - by destruct (room =? 64)%nat.
  - rewrite Hc. f_equal. destruct room as [|[|room]]; simpl; apply IH.
Qed.

Lemma elem_of_break_lines room s c : c ∈ break_lines room s -> c = newline \/ c ∈ s.
Proof.
  revert room. induction s as [|d s IH]; intros room; simpl.
  - destruct (room =? 64)%nat; set_solver.
  - intros [->|H]%elem_of_cons; [set_solver|].
    destruct room as [|[|room]]; [apply elem_of_cons in H as [->|H]; [by left|]..|];
      apply IH in H; set_solver.
Qed.

Lemma break_lines_end room s : (room <= 64)%nat -> s <> [] \/ (room <> 64)%nat ->
  exists l, break_lines room s = l ++ [newline].
Proof.
  revert room. induction s as [|c s IH]; intros room Hle H; simpl.
  - destruct H as [H|H]; [done|]. apply Nat.eqb_neq in H. rewrite H. by exists [].
  - assert (Hn : exists l, newline :: break_lines 64 s = l ++ [newline]).
    { destruct s as [|d s]; [by exists []|].
      destruct (IH 64%nat) as [l ->]; [lia|by left|]. by exists (newline :: l). }
    assert (Hr : exists l, match room with 0 | 1 => newline :: break_lines 64 s
      | S room' => break_lines room' s end%nat = l ++ [newline]).
    { destruct room as [|[|room]]; [done..|]. apply IH; [lia|right; lia]. }
    destruct Hr as [l ->]. by exists (c :: l).
Qed.

(** Characters of Base64 text. *)
Lemma b64_text (c : byte) b : c ∈ break_lines 64 (b64_Encode b) ->
  c = newline \/ is_blank c = false /\ c <> Byte.x2d /\ c <> Byte.x3a /\ c <> newline.
Proof.
  intros [->|H]%elem_of_break_lines; [by left|]. right.
  assert (HP : Forall (fun c => negb (is_blank c) && negb (bool_decide (c = Byte.x2d)) &&
    negb (bool_decide (c = Byte.x3a)) && negb (bool_decide (c = newline)) = true) (b64_Encode b))
    by by apply b64_Encode_Forall.
  rewrite Forall_forall in HP. specialize (HP c H).
  rewrite !andb_true_iff, !negb_true_iff, !bool_decide_eq_false in HP. tauto.
Qed.

Lemma decode_lines (L : bytes) b :
  break_lines 64 (b64_Encode b) = L \/ break_lines 64 (b64_Encode b) = L ++ [newline] ->
  b64_Decode (removeSpacesAndTabs L) = Ok b.
Proof.
  intros HL. unfold removeSpacesAndTabs. rewrite filter_all.
  - unfold b64_Decode. rewrite <- b64_quanta_Encode. f_equal.
    assert (Hf : List.filter (fun c => negb (is_newline c)) (break_lines 64 (b64_Encode b)) =
      b64_Encode b).
    { apply break_lines_filter. by apply (b64_Encode_Forall (fun c => negb (is_newline c))). }
    destruct HL as [<-|HL]; [done|]. rewrite HL, List.filter_app in Hf. simpl in Hf.
    by rewrite app_nil_r in Hf.
  - apply Forall_forall. intros c Hc. destruct (b64_text c b) as [->|[-> _]]; [|done..].
    destruct HL as [-> | ->]; set_solver.
Qed.

(** What [decode_body] needs of the place of the end marker. *)
Lemma decode_body_found typ b rest data i j L x :
  find_end ∅ data = Some (i, j) -> take i data = L -> b64_Decode (removeSpacesAndTabs L) = Ok b ->
  drop j data = typ ++ pemEndOfLine ++ newline :: rest ->
  drop (i + 9) data = x ++ newline :: rest -> newline ∉ x ->
  decode_body typ ∅ data = Found (MkBlock typ ∅ b) rest.
Proof.
  intros Hf HL Hb Hj Hi Hx. unfold decode_body. rewrite Hf, Hj.
  rewrite (proj2 (Nat.ltb_ge _ _)) by (rewrite !length_app; lia).
  rewrite app_assoc, <- length_app, drop_app_length, take_app_length.
  rewrite HasPrefix_app, HasSuffix_app. cbn [negb orb].
  rewrite getLine_nl. cbn [fst].
  rewrite bool_decide_eq_true_2 by done. cbn [negb]. rewrite HL, Hb.
  replace (i + length pemEnd - 1)%nat with (i + 9)%nat by (simpl; lia).
  by rewrite Hi, getLine_rest.
Qed.

Lemma decode_body_Encode typ b rest :
  newline ∉ typ ->
  decode_body typ ∅ (break_lines 64 (b64_Encode b) ++ tail pemEnd ++ typ ++ pemEndOfLine ++
    newline :: rest) = Found (MkBlock typ ∅ b) rest.
Proof.
  intros Ht. assert (Hd : newline ∉ typ ++ pemEndOfLine).
  { rewrite not_elem_of_app. split; [done|]. by apply (bool_decide_eq_false_1 (newline ∈ pemEndOfLine)). }
  destruct (b64_Encode b) as [|c0 s0] eqn:E.
  - apply (decode_body_found _ _ _ _ 0 9 [] (typ ++ pemEndOfLine)); try done.
    + destruct b as [|? [|? [|? ?]]]; done.
    + by rewrite <- app_assoc.
  - destruct (break_lines_end 64 (c0 :: s0)) as [L HL]; [done|by left|].
    assert (Hc : forall c, c ∈ L ++ [newline] ->
      c = newline \/ is_blank c = false /\ c <> Byte.x2d /\ c <> Byte.x3a /\ c <> newline)
      by (rewrite <- HL, <- E; intros c; apply b64_text).
    assert (HLd : Byte.x2d ∉ L) by (intros H; destruct (Hc Byte.x2d) as [?|(_ & ? & _)]; set_solver).
    rewrite HL, <- app_assoc. set (tl := typ ++ _).
    change ([newline] ++ tail pemEnd ++ tl) with (pemEnd ++ tl).
    apply (decode_body_found _ _ _ _ (length L) (length L + length pemEnd) L
      (Byte.x20 :: typ ++ pemEndOfLine)); unfold tl.
    + unfold find_end. destruct (HasPrefix _ (tail pemEnd)) eqn:Ep.
      * exfalso. apply HasPrefix_spec in Ep as [t Ep]. destruct L as [|d L]; [discriminate|].
        injection Ep as -> _. set_solver.
      * rewrite andb_false_r. unfold Index. by rewrite Cut_pemEnd.
    + by rewrite take_app_length.
    + apply decode_lines. right. by rewrite E.
    + by rewrite app_assoc, <- length_app, drop_app_length.
    + rewrite <- drop_drop, drop_app_length. cbn. by rewrite <- app_assoc.
    + set_solver.
Qed.

(** What [EncodeToMemory] wrote is read back, whatever follows it: type names
    without newlines and colons, bodies of any content and length. *)
Lemma Decode_Encode typ b rest pem :
  newline ∉ typ -> Byte.x3a ∉ typ -> EncodeToMemory typ b = Some pem ->
  Decode (pem ++ rest) = (Some (MkBlock typ ∅ b), rest).
Proof.
  intros Ht Hc Hpem. unfold Decode. generalize (pem ++ rest) at 3. intros d.
  assert (E : pem = sbytes (EncodeToMemory typ b)) by by rewrite Hpem.
  rewrite E. unfold EncodeToMemory. match goal with |- context [sbytes (Some ?x)] =>
    change (sbytes (Some x)) with x end.
  cbn [decode_loop]. rewrite <- !app_assoc, <- app_comm_cons, <- !app_assoc.
  change ([newline] ++ rest) with (newline :: rest).
  unfold find_start. rewrite HasPrefix_app.
  change (length pemStart - 1)%nat with (length (tail pemStart)). rewrite drop_app_length.
  unfold decode_block. rewrite getLine_dash by done.
  rewrite HasSuffix_app. cbn [negb].
  rewrite (length_app typ pemEndOfLine), Nat.add_sub, take_app_length.
  set (X := break_lines 64 (b64_Encode b) ++ tail pemEnd ++ typ ++ pemEndOfLine).
  assert (EX : break_lines 64 (b64_Encode b) ++ tail pemEnd ++ typ ++ pemEndOfLine ++ newline :: rest
    = X ++ newline :: rest) by (unfold X; by rewrite <- !app_assoc).
  rewrite EX, read_headers_none, <- EX, decode_body_Encode; [done|done|].
  unfold X. rewrite !not_elem_of_app. split_and!; try done.
  - intros [?|(_ & _ & ? & _)]%b64_text; done.
  - by apply (bool_decide_eq_false_1 (Byte.x3a ∈ tail pemEnd)).
  - by apply (bool_decide_eq_false_1 (Byte.x3a ∈ pemEndOfLine)).
Qed.

(** Two blocks as [createCertificate] writes them, after a comment. *)
Example Decode_example :
  (Decode (str "# certificate" ++ [newline] ++ sbytes (EncodeToMemory (str "CERTIFICATE") (str "der"))
    ++ sbytes (EncodeToMemory (str "PRIVATE KEY") []))).1 =
  Some (MkBlock (str "CERTIFICATE") ∅ (str "der")).
Proof. vm_compute. reflexivity. Qed.
