(* ===== verification/Sha256.v ===== *)
(** * Sha256: [crypto/sha256]'s [Sum256]

    FIPS 180-4's SHA-256 on 32-bit words (a [Z] kept below [2^32]).  The
    sources hash the TLS certificate, the encrypted key material and the
    enclave keys with it. *)
From Stdlib Require Import ZArith Lia.
From Stdlib Require Import Strings.Byte Strings.String.
From stdpp Require Import base gmap strings list fin_maps.
From S2P Require Import Prelude Codec.

Local Open Scope Z_scope.

(** ** Words *)

Definition w32 (z : Z) : Z := z mod 4294967296.

Definition rotr (n x : Z) : Z :=
  Z.lor (Z.shiftr x n) (w32 (Z.shiftl x (32 - n))).

Definition be32 (w : Z) : bytes :=
  [z2b (Z.shiftr w 24); z2b (Z.shiftr w 16); z2b (Z.shiftr w 8); z2b w].

Definition xor3 (a b c : Z) : Z := Z.lxor a (Z.lxor b c).

Definition Ch (x y z : Z) : Z := Z.lxor (Z.land x y) (Z.land (Z.lnot x) z).
Definition Maj (x y z : Z) : Z := xor3 (Z.land x y) (Z.land x z) (Z.land y z).
Definition Sigma0 (x : Z) : Z := xor3 (rotr 2 x) (rotr 13 x) (rotr 22 x).
Definition Sigma1 (x : Z) : Z := xor3 (rotr 6 x) (rotr 11 x) (rotr 25 x).
Definition sigma0 (x : Z) : Z := xor3 (rotr 7 x) (rotr 18 x) (Z.shiftr x 3).
Definition sigma1 (x : Z) : Z := xor3 (rotr 17 x) (rotr 19 x) (Z.shiftr x 10).

(** ** Constants

    The first 32 bits of the fractional parts of the cube roots of the first 64
    primes, and of the square roots of the first eight. *)

Definition is_prime (n : Z) : bool := forallb (fun d => negb (n mod d =? 0)) (seqZ 2 (n - 2)).
Definition primes : list Z := List.filter is_prime (seqZ 2 310).

(** The integer cube root of a number below [2 ^ 108], bit by bit. *)
Definition icbrt (n : Z) : Z :=
  fold_left (fun r i => if (r + 2 ^ i) ^ 3 <=? n then r + 2 ^ i else r) (reverse (seqZ 0 36)) 0.

Definition K256 : list Z :=
  Eval vm_compute in map (fun p => w32 (icbrt (p * 2 ^ 96))) primes.

(** ** State *)

Record hstate := HState { ha : Z; hb : Z; hc : Z; hd : Z; he : Z; hf : Z; hg : Z; hh : Z }.

Definition H256 : hstate :=
  Eval vm_compute in
    match map (fun p => w32 (Z.sqrt (p * 2 ^ 64))) primes with
    | a :: b :: c :: d :: e :: f :: g :: h :: _ => HState a b c d e f g h
    | _ => HState 0 0 0 0 0 0 0 0
    end.

Definition round (s : hstate) (kw : Z * Z) : hstate :=
  let t1 := w32 (hh s + Sigma1 (he s) + Ch (he s) (hf s) (hg s) + kw.1 + kw.2) in
  let t2 := w32 (Sigma0 (ha s) + Maj (ha s) (hb s) (hc s)) in
  HState (w32 (t1 + t2)) (ha s) (hb s) (hc s) (w32 (hd s + t1)) (he s) (hf s) (hg s).

Definition hadd (s t : hstate) : hstate :=
  HState (w32 (ha s + ha t)) (w32 (hb s + hb t)) (w32 (hc s + hc t)) (w32 (hd s + hd t))
         (w32 (he s + he t)) (w32 (hf s + hf t)) (w32 (hg s + hg t)) (w32 (hh s + hh t)).

(** The message schedule, kept in reverse while it grows from 16 to 64 words. *)
Fixpoint extend (n : nat) (ws : list Z) : list Z :=
  match n with
  | O => ws
  | S n' =>
      let w i := default 0 (ws !! i) in
      extend n' (w32 (sigma1 (w 1%nat) + w 6%nat + sigma0 (w 14%nat) + w 15%nat) :: ws)
  end.

Fixpoint be_words (b : bytes) : list Z :=
  match b with
  | a :: b :: c :: d :: r =>
      (b2z a * 16777216 + b2z b * 65536 + b2z c * 256 + b2z d) :: be_words r
  | _ => []
  end.

Definition compress (s : hstate) (block : bytes) : hstate :=
  let ws := reverse (extend 48 (reverse (be_words block))) in
  hadd s (fold_left round (zip K256 ws) s).

(** ** Padding and blocks *)

Definition be64 (n : Z) : bytes := be32 (Z.shiftr n 32) ++ be32 (w32 n).

Definition pad (m : bytes) : bytes :=
  m ++ Byte.x80 :: replicate (Z.to_nat ((55 - len m) mod 64)) Byte.x00 ++ be64 (8 * len m).

Fixpoint blocks (fuel : nat) (s : hstate) (b : bytes) : hstate :=
  match fuel with
  | O => s
  | S f => match b with
           | [] => s
           | _ => blocks f (compress s (take 64 b)) (drop 64 b)
           end
  end.

(** [sha256.Sum256]. *)
Definition Sum256 (m : bytes) : bytes :=
  let p := pad m in
  let s := blocks (length p) H256 p in
  be32 (ha s) ++ be32 (hb s) ++ be32 (hc s) ++ be32 (hd s) ++
  be32 (he s) ++ be32 (hf s) ++ be32 (hg s) ++ be32 (hh s).

(** [sha256.Size]. *)
Definition sha256_Size : Z := 32.

Lemma length_Sum256 m : length (Sum256 m) = 32%nat.
Proof. done. Qed.

Lemma len_Sum256 m : len (Sum256 m) = sha256_Size.
Proof. done. Qed.

#[global] Opaque Sum256.
#[export] Hint Rewrite len_Sum256 : len.

(** The padded message is a whole number of blocks. *)
Lemma pad_blocks m : len (pad m) mod 64 = 0.
Proof.
  unfold pad. len_simp. unfold be64, be32. len_simp.
  rewrite Z2Nat.id by (apply Z.mod_pos_bound; lia).
  match goal with |- ?x mod 64 = 0 =>
    replace x with (9 + len m + (55 - len m) mod 64) by lia end.
  rewrite Z.add_mod_idemp_r by lia. by replace (9 + len m + (55 - len m)) with 64 by lia.
Qed.

(** FIPS 180-4 test vectors: the empty message, one block and two blocks. *)
Example Sum256_empty : hex_Encode (Sum256 []) =
  str "e3b0c44298fc1c149afbf4c8996fb92427ae41e4649b934ca495991b7852b855".
Proof. vm_compute. reflexivity. Qed.

Example Sum256_abc : hex_Encode (Sum256 (str "abc")) =
  str "ba7816bf8f01cfea414140de5dae2223b00361a396177a9cb410ff61f20015ad".
Proof. vm_compute. reflexivity. Qed.

Example Sum256_two_blocks :
  hex_Encode (Sum256 (str "abcdbcdecdefdefgefghfghighijhijkijkljklmklmnlmnomnopnopq")) =
  str "248d6a61d20638b8e5c026930c3e6039a33ce45964ff2167f6ecedd419db06c1".
Proof. vm_compute. reflexivity. Qed.
