(* ===== verification/Json.v ===== *)
(** * Json: [encoding/json] as the sources use it

    A JSON parser with the scanner's rules (whitespace, number grammar, escape
    sequences, invalid UTF-8 replaced by U+FFFD, nesting limit), the compact
    printer of [json.Marshal] with HTML escaping, and [json.Unmarshal] into a
    struct: the input is checked as a whole first, names match case
    insensitively, unknown names are skipped, a field of the wrong type leaves
    the field alone and the first such error is reported at the end. *)
From Stdlib Require Import ZArith Lia.
From Stdlib Require Import Strings.Byte Strings.String.
From stdpp Require Import base gmap strings list fin_maps.
From S2P Require Import Prelude Codec.

Local Open Scope Z_scope.

#[warnings="-register-all"]
Inductive json :=
  | JNull
  | JBool (b : bool)
  | JNum (raw : bytes)
  | JStr (s : bytes)
  | JArr (l : list json)
  | JObj (l : list (bytes * json)).

Local Notation "a =b b" := (Byte.eqb a b) (at level 70).

(** ** UTF-8 *)

Definition is_cont (c : byte) : bool := in_range 128 191 c.

(** The size of the well-formed multi-byte character at the front, or 0. *)
Definition utf8_len (s : bytes) : nat :=
  match s with
  | c0 :: c1 :: r =>
      if in_range 194 223 c0 then if is_cont c1 then 2%nat else 0%nat
      else match r with
      | c2 :: r' =>
          if ((in_range 224 224 c0 && in_range 160 191 c1)
              || (in_range 225 236 c0 && is_cont c1)
              || (in_range 237 237 c0 && in_range 128 159 c1)
              || (in_range 238 239 c0 && is_cont c1)) && is_cont c2
          then 3%nat
          else match r' with
          | c3 :: _ =>
              if ((in_range 240 240 c0 && in_range 144 191 c1)
                  || (in_range 241 243 c0 && is_cont c1)
                  || (in_range 244 244 c0 && in_range 128 143 c1))
                 && is_cont c2 && is_cont c3
              then 4%nat else 0%nat
          | [] => 0%nat
          end
      | [] => 0%nat
      end
  | _ => 0%nat
  end.

(** The UTF-8 encoding of a code point. *)
Definition utf8_encode (r : Z) : bytes :=
  if r <? 128 then [z2b r]
  else if r <? 2048 then [z2b (192 + r / 64); z2b (128 + r mod 64)]
  else if r <? 65536 then
    [z2b (224 + r / 4096); z2b (128 + r / 64 mod 64); z2b (128 + r mod 64)]
  else [z2b (240 + r / 262144); z2b (128 + r / 4096 mod 64);
        z2b (128 + r / 64 mod 64); z2b (128 + r mod 64)].

Definition replacement : bytes := utf8_encode 65533.

(** ** Reading *)

Definition is_space (c : byte) : bool :=
  (c =b Byte.x20) || (c =b Byte.x09) || (c =b Byte.x0a) || (c =b Byte.x0d).

Fixpoint skip_ws (s : bytes) : bytes :=
  match s with
  | c :: r => if is_space c then skip_ws r else s
  | [] => []
  end.

Definition hex4 (a b c d : byte) : option Z :=
  match fromHexChar a, fromHexChar b, fromHexChar c, fromHexChar d with
  | Some x, Some y, Some z, Some w => Some (((x * 16 + y) * 16 + z) * 16 + w)
  | _, _, _, _ => None
  end.

(** A [\u] escape: the character it stands for and the rest of the input; a
    surrogate pair is one character, a lone surrogate the replacement. *)
Definition read_u (s : bytes) : option (bytes * bytes) :=
  match s with
  | a :: b :: c :: d :: r =>
      match hex4 a b c d with
      | None => None
      | Some u =>
          if (55296 <=? u) && (u <? 57344) then
            match r with
            | e1 :: e2 :: a' :: b' :: c' :: d' :: r' =>
                match hex4 a' b' c' d' with
                | Some v =>
                    if (e1 =b "\"%byte) && (e2 =b "u"%byte) && (u <? 56320)
                       && (56320 <=? v) && (v <? 57344)
                    then Some (utf8_encode (65536 + (u - 55296) * 1024 + (v - 56320)), r')
                    else Some (replacement, r)
                | None => Some (replacement, r)
                end
            | _ => Some (replacement, r)
            end
          else Some (utf8_encode u, r)
      end
  | _ => None
  end.

(** One-character escapes after a backslash. *)
Definition simple_escape (c : byte) : option byte :=
  if (c =b Byte.x22) || (c =b "\"%byte) || (c =b "/"%byte) then Some c
  else if c =b "b"%byte then Some Byte.x08
  else if c =b "f"%byte then Some Byte.x0c
  else if c =b "n"%byte then Some Byte.x0a
  else if c =b "r"%byte then Some Byte.x0d
  else if c =b "t"%byte then Some Byte.x09
  else None.

(** The characters of a string up to the closing quote, unquoted. *)
Fixpoint read_string (fuel : nat) (s : bytes) : option (bytes * bytes) :=
  match fuel with
  | O => None
  | S f =>
      match s with
      | [] => None
      | c :: r =>
          if c =b Byte.x22 then Some ([], r)
          else if c =b "\"%byte then
            match r with
            | e :: r' =>
                let esc := if e =b "u"%byte then read_u r'
                           else match simple_escape e with
                                | Some c' => Some ([c'], r')
                                | None => None
                                end in
                match esc with
                | Some (cs, r'') =>
                    match read_string f r'' with
                    | Some (t, rest) => Some (cs ++ t, rest)
                    | None => None
                    end
                | None => None
                end
            | [] => None
            end
          else if b2z c <? 32 then None
          else if b2z c <? 128 then
            match read_string f r with
            | Some (t, rest) => Some (c :: t, rest)
            | None => None
            end
          else
            let n := utf8_len s in
            match read_string f (drop (Nat.max 1 n) s) with
            | Some (t, rest) =>
                Some ((if (n =? 0)%nat then replacement else take n s) ++ t, rest)
            | None => None
            end
      end
  end.

Fixpoint span_digits (s : bytes) : bytes * bytes :=
  match s with
  | c :: r => if is_digit c then let '(d, t) := span_digits r in (c :: d, t) else ([], s)
  | [] => ([], [])
  end.

(** Digits that must not be missing, after a prefix already read. *)
Definition digits1 (pre s : bytes) : option (bytes * bytes) :=
  match span_digits s with
  | ([], _) => None
  | (d, r) => Some (pre ++ d, r)
  end.

(** [int = 0 / digit1-9 digits]. *)
Definition read_int (s : bytes) : option (bytes * bytes) :=
  match s with
  | c :: r => if c =b "0"%byte then Some ([c], r) else digits1 [] s
  | [] => None
  end.

Definition read_frac (s : bytes) : option (bytes * bytes) :=
  match s with
  | c :: r => if c =b "."%byte then digits1 [c] r else Some ([], s)
  | [] => Some ([], [])
  end.

Definition read_exp (s : bytes) : option (bytes * bytes) :=
  match s with
  | c :: r =>
      if (c =b "e"%byte) || (c =b "E"%byte) then
        match r with
        | g :: r' => if (g =b "+"%byte) || (g =b "-"%byte) then digits1 [c; g] r'
                     else digits1 [c] r
        | [] => None
        end
      else Some ([], s)
  | [] => Some ([], [])
  end.

Definition read_number (s : bytes) : option (bytes * bytes) :=
  let '(sign, s0) := match s with
                     | c :: r => if c =b "-"%byte then ([c], r) else ([], s)
                     | [] => ([], [])
                     end in
  match read_int s0 with
  | Some (i, s1) =>
      match read_frac s1 with
      | Some (fr, s2) =>
          match read_exp s2 with
          | Some (ex, s3) => Some (sign ++ i ++ fr ++ ex, s3)
          | None => None
          end
      | None => None
      end
  | None => None
  end.

(** The fixed words. *)
Definition read_word (w : bytes) (v : json) (s : bytes) : option (json * bytes) :=
  if bool_decide (take (length w) s = w) then Some (v, drop (length w) s) else None.

(** [maxNestingDepth]. *)
Definition maxNestingDepth : Z := 10000.

(** [read_value] reads a value, [read_elems] the elements of an array after
    the bracket or a comma, [read_members] the members of an object. *)
Fixpoint read_value (fuel : nat) (depth : Z) (s : bytes) {struct fuel} : option (json * bytes) :=
  match fuel with
  | O => None
  | S f =>
      match skip_ws s with
      | [] => None
      | c :: r =>
          if c =b Byte.x22 then
            match read_string (S (length r)) r with
            | Some (t, rest) => Some (JStr t, rest)
            | None => None
            end
          else if c =b "{"%byte then
            if maxNestingDepth <=? depth then None
            else match skip_ws r with
                 | c' :: r' => if c' =b "}"%byte then Some (JObj [], r')
                               else read_members f (depth + 1) [] r
                 | [] => None
                 end
          else if c =b "["%byte then
            if maxNestingDepth <=? depth then None
            else match skip_ws r with
                 | c' :: r' => if c' =b "]"%byte then Some (JArr [], r')
                               else read_elems f (depth + 1) [] r
                 | [] => None
                 end
          else if c =b "t"%byte then read_word (str "true") (JBool true) (c :: r)
          else if c =b "f"%byte then read_word (str "false") (JBool false) (c :: r)
          else if c =b "n"%byte then read_word (str "null") JNull (c :: r)
          else match read_number (c :: r) with
               | Some (n, rest) => Some (JNum n, rest)
               | None => None
               end
      end
  end
with read_elems (fuel : nat) (depth : Z) (acc : list json) (s : bytes) {struct fuel}
    : option (json * bytes) :=
  match fuel with
  | O => None
  | S f =>
      match read_value f depth s with
      | Some (v, r) =>
          match skip_ws r with
          | c :: r' => if c =b ","%byte then read_elems f depth (acc ++ [v]) r'
                       else if c =b "]"%byte then Some (JArr (acc ++ [v]), r')
                       else None
          | [] => None
          end
      | None => None
      end
  end
with read_members (fuel : nat) (depth : Z) (acc : list (bytes * json)) (s : bytes)
    {struct fuel} : option (json * bytes) :=
  match fuel with
  | O => None
  | S f =>
      match skip_ws s with
      | q :: r =>
          if q =b Byte.x22 then
            match read_string (S (length r)) r with
            | Some (k, r1) =>
                match skip_ws r1 with
                | c :: r2 =>
                    if c =b ":"%byte then
                      match read_value f depth r2 with
                      | Some (v, r3) =>
                          match skip_ws r3 with
                          | c' :: r4 =>
                              if c' =b ","%byte then read_members f depth (acc ++ [(k, v)]) r4
                              else if c' =b "}"%byte then Some (JObj (acc ++ [(k, v)]), r4)
                              else None
                          | [] => None
                          end
                      | None => None
                      end
                    else None
                | [] => None
                end
            | None => None
            end
          else None
      | [] => None
      end
  end.

(** Every call consumes input before the next one, so the length of the input
    bounds the number of nested calls. *)
Definition json_Parse (s : bytes) : option json :=
  match read_value (S (S (length s))) 0 s with
  | Some (v, r) => if bool_decide (skip_ws r = []) then Some v else None
  | None => None
  end.

(** ** Writing *)

Definition esc_u (c : byte) : bytes :=
  str "\u00" ++ [hex_char (b2z c / 16); hex_char (b2z c mod 16)].

(** The escape of a single-byte character, or the character itself. *)
Definition esc_ascii (c : byte) : bytes :=
  if (c =b Byte.x22) || (c =b "\"%byte) then ["\"%byte; c]
  else if c =b Byte.x08 then str "\b"
  else if c =b Byte.x0c then str "\f"
  else if c =b Byte.x0a then str "\n"
  else if c =b Byte.x0d then str "\r"
  else if c =b Byte.x09 then str "\t"
  else if (b2z c <? 32) || (c =b "<"%byte) || (c =b ">"%byte) || (c =b "&"%byte) then esc_u c
  else [c].

Fixpoint esc_string (fuel : nat) (s : bytes) : bytes :=
  match fuel with
  | O => []
  | S f =>
      match s with
      | [] => []
      | c :: r =>
          if b2z c <? 128 then esc_ascii c ++ esc_string f r
          else
            let n := utf8_len s in
            if (n =? 0)%nat then str "\ufffd" ++ esc_string f r
            else
              let ch := take n s in
              (if bool_decide (ch = utf8_encode 8232) then str "\u2028"
               else if bool_decide (ch = utf8_encode 8233) then str "\u2029"
               else ch) ++ esc_string f (drop n s)
      end
  end.

Definition quote (s : bytes) : bytes :=
  Byte.x22 :: esc_string (length s) s ++ [Byte.x22].

(** Join with a separator. *)
Fixpoint sep_by (sep : bytes) (l : list bytes) : bytes :=
  match l with
  | [] => []
  | [x] => x
  | x :: r => x ++ sep ++ sep_by sep r
  end.

Abbreviation commas := (sep_by [","%byte]).

(** [json.Marshal]. *)
Fixpoint json_Print (v : json) : bytes :=
  match v with
  | JNull => str "null"
  | JBool true => str "true"
  | JBool false => str "false"
  | JNum raw => raw
  | JStr s => quote s
  | JArr l => "["%byte :: commas (map json_Print l) ++ ["]"%byte]
  | JObj l =>
      "{"%byte :: commas (map (fun kv => quote kv.1 ++ ":"%byte :: json_Print kv.2) l) ++ ["}"%byte]
  end.

(** [json.MarshalIndent(v, "", "  ")]: every element and member on a line of its
    own, indented by two spaces per level, a space after the colon; empty arrays
    and objects stay on their line.  [Layout] holds what is written at the start
    of a line of a level and after a colon; [compact] writes nothing there. *)
Record layout := Layout { line : nat -> bytes; gap : bytes }.

Definition indented : layout := Layout (fun n => Byte.x0a :: replicate (2 * n) Byte.x20) [Byte.x20].
Definition compact : layout := Layout (fun _ => []) [].

Fixpoint json_Write (y : layout) (n : nat) (v : json) : bytes :=
  match v with
  | JArr ((_ :: _) as l) =>
      "["%byte :: line y (S n) ++ sep_by (","%byte :: line y (S n)) (map (json_Write y (S n)) l) ++
      line y n ++ ["]"%byte]
  | JObj ((_ :: _) as l) =>
      "{"%byte :: line y (S n) ++ sep_by (","%byte :: line y (S n))
        (map (fun kv => quote kv.1 ++ ":"%byte :: gap y ++ json_Write y (S n) kv.2) l) ++
      line y n ++ ["}"%byte]
  | _ => json_Print v
  end.

Definition json_Indent (v : json) : bytes := json_Write indented 0 v.

(** ** Unmarshalling into a struct *)

(** [foldName]: names are compared without case; besides the ASCII letters
    only U+017F and U+212A fold to an ASCII letter. *)
Fixpoint foldName (k : bytes) : bytes :=
  match k with
  | [] => []
  | c :: r =>
      match r with
      | c1 :: r1 =>
          if (c =b Byte.xc5) && (c1 =b Byte.xbf) then "S"%byte :: foldName r1
          else match r1 with
               | c2 :: r2 =>
                   if (c =b Byte.xe2) && (c1 =b Byte.x84) && (c2 =b Byte.xaa)
                   then "K"%byte :: foldName r2
                   else to_upper c :: foldName r
               | [] => to_upper c :: foldName r
               end
      | [] => [to_upper c]
      end
  end.

Definition name_is (name k : bytes) : bool :=
  bool_decide (k = name) || bool_decide (foldName k = foldName name).

(** A field decoder updates the struct and may report a type error. *)
Definition field (S : Type) : Type := json -> S -> S * option error.

Definition typeError : error := ErrLib "json.UnmarshalTypeError".
Definition syntaxError : error := ErrLib "json.SyntaxError".

(** A [string] field: null changes nothing. *)
Definition string_field {S} (set : bytes -> S -> S) : field S :=
  fun v s =>
    match v with
    | JStr t => (set t s, None)
    | JNull => (s, None)
    | _ => (s, Some typeError)
    end.

(** An element of type [uint8]. *)
Definition uint8_of (v : json) : byte * option error :=
  match v with
  | JNum raw =>
      if forallb is_digit raw && (dec_Value raw <? 256)
      then (z2b (dec_Value raw), None)
      else (Byte.x00, Some typeError)
  | JNull => (Byte.x00, None)
  | _ => (Byte.x00, Some typeError)
  end.

Definition first_error (a b : option error) : option error :=
  match a with Some _ => a | None => b end.

(** The first [n] elements of a JSON array; missing ones are zero. *)
Fixpoint uint8_array (n : nat) (l : list json) : bytes * option error :=
  match n, l with
  | O, _ => ([], None)
  | S n', [] => (replicate n Byte.x00, None)
  | S n', v :: r =>
      let '(b, e) := uint8_of v in
      let '(bs, e') := uint8_array n' r in
      (b :: bs, first_error e e')
  end.

(** A [[]byte] field: Base64 text, null for nil, or an array of numbers. *)
Definition bytes_field {S} (set : slice -> S -> S) : field S :=
  fun v s =>
    match v with
    | JStr t =>
        match b64_Decode t with
        | Ok b => (set (Some b) s, None)
        | Err e => (s, Some e)
        end
    | JNull => (set None s, None)
    | JArr l => let '(b, e) := uint8_array (length l) l in (set (Some b) s, e)
    | _ => (s, Some typeError)
    end.

(** A [[n]byte] field: an array of numbers. *)
Definition array_field {S} (n : nat) (set : bytes -> S -> S) : field S :=
  fun v s =>
    match v with
    | JArr l => let '(b, e) := uint8_array n l in (set b s, e)
    | JNull => (s, None)
    | _ => (s, Some typeError)
    end.

Fixpoint find_field {S} (fs : list (bytes * field S)) (k : bytes) : option (field S) :=
  match fs with
  | [] => None
  | (name, f) :: r => if name_is name k then Some f else find_field r k
  end.

Definition store_member {S} (fs : list (bytes * field S)) (st : S * option error)
    (kv : bytes * json) : S * option error :=
  match find_field fs kv.1 with
  | None => st
  | Some f => let '(s', e) := f kv.2 st.1 in (s', first_error st.2 e)
  end.

(** [json.Unmarshal(data, &s)]: the struct it leaves and the error it returns. *)
Definition Unmarshal {S} (fs : list (bytes * field S)) (data : bytes) (s : S)
    : S * option error :=
  match json_Parse data with
  | None => (s, Some syntaxError)
  | Some JNull => (s, None)
  | Some (JObj kvs) => fold_left (store_member fs) kvs (s, None)
  | Some _ => (s, Some typeError)
  end.

(** The JSON values that [Marshal] makes of Go values. *)
Definition of_slice (b : slice) : json :=
  match b with
  | Some b => JStr (b64_Encode b)
  | None => JNull
  end.

Definition of_array (b : bytes) : json := JArr (map (fun c => JNum (dec_Print (b2z c))) b).

(** ** Reading back what was written *)

(** Characters that are written as they are. *)
Definition plain (c : byte) : bool :=
  in_range 32 126 c &&
  negb ((c =b Byte.x22) || (c =b "\"%byte) || (c =b "<"%byte) || (c =b ">"%byte)
        || (c =b "&"%byte)).

Definition num_ok (raw : bytes) : bool :=
  match raw with
  | [] => false
  | c :: r => forallb is_digit raw && (negb (c =b "0"%byte) || bool_decide (r = []))
  end.

(** Well-formed UTF-8. *)
Fixpoint utf8_valid (fuel : nat) (s : bytes) : bool :=
  match fuel, s with
  | _, [] => true
  | O, _ => false
  | S f, c :: r =>
      if b2z c <? 128 then utf8_valid f r
      else negb (utf8_len s =? 0)%nat && utf8_valid f (drop (utf8_len s) s)
  end.

Definition text_ok (s : bytes) : bool := utf8_valid (length s) s.

Fixpoint json_ok (v : json) : bool :=
  match v with
  | JNull | JBool _ => true
  | JNum raw => num_ok raw
  | JStr s => text_ok s
  | JArr l => forallb json_ok l
  | JObj l => forallb (fun kv => text_ok kv.1 && json_ok kv.2) l
  end.

Fixpoint json_depth (v : json) : Z :=
  match v with
  | JArr l => 1 + fold_right Z.max 0 (map json_depth l)
  | JObj l => 1 + fold_right Z.max 0 (map (fun kv => json_depth kv.2) l)
  | _ => 0
  end.

Fixpoint json_size (v : json) : nat :=
  match v with
  | JArr l => S (list_sum (map (fun x => S (json_size x)) l))
  | JObj l => S (list_sum (map (fun kv => S (json_size kv.2)) l))
  | _ => 1
  end.

Section json_induction.
Context (P : json -> Prop).
Context (Hnull : P JNull) (Hbool : forall b, P (JBool b)) (Hnum : forall r, P (JNum r))
        (Hstr : forall s, P (JStr s)) (Harr : forall l, Forall P l -> P (JArr l))
        (Hobj : forall l, Forall (fun kv => P kv.2) l -> P (JObj l)).

Fixpoint json_ind' (v : json) : P v :=
  match v with
  | JNull => Hnull
  | JBool b => Hbool b
  | JNum r => Hnum r
  | JStr s => Hstr s
  | JArr l => Harr l ((fix go (l : list json) : Forall P l :=
      match l with
      | [] => Forall_nil_2 _
      | x :: r => Forall_cons_2 _ _ _ (json_ind' x) (go r)
      end) l)
  | JObj l => Hobj l ((fix go (l : list (bytes * json)) : Forall (fun kv => P kv.2) l :=
      match l with
      | [] => Forall_nil_2 _
      | x :: r => Forall_cons_2 _ _ _ (json_ind' x.2) (go r)
      end) l)
  end.
End json_induction.

(** *** Strings *)

Lemma plain_spec c :
  plain c = true ->
  esc_ascii c = [c] /\ (c =b Byte.x22) = false /\ (c =b "\"%byte) = false /\
  (b2z c <? 32) = false /\ (b2z c <? 128) = true.
Proof.
  revert c. by apply (all_bytes_spec (fun c => plain c = true ->
    esc_ascii c = [c] /\ (c =b Byte.x22) = false /\ (c =b "\"%byte) = false /\
    (b2z c <? 32) = false /\ (b2z c <? 128) = true)).
Qed.

Lemma esc_string_plain s : forallb plain s = true -> esc_string (length s) s = s.
Proof.
  induction s as [|c s IH]; [done|]. simpl. intros [Hc Hs]%andb_prop.
  destruct (plain_spec c Hc) as (E & _ & _ & _ & ->). rewrite E. simpl. by rewrite IH.
Qed.

Lemma plain_text_ok s : forallb plain s = true -> text_ok s = true.
Proof.
  unfold text_ok. induction s as [|c s IH]; [done|]. simpl. intros [Hc Hs]%andb_prop.
  destruct (plain_spec c Hc) as (_ & _ & _ & _ & ->). auto.
Qed.

(** What [read_string] needs to know of the escape of an ASCII character. *)
Definition escape_ok (c : byte) : bool :=
  match esc_ascii c with
  | [x] => (x =b c) && negb (c =b Byte.x22) && negb (c =b "\"%byte) && negb (b2z c <? 32)
  | [x; e] => (x =b "\"%byte) && negb (e =b "u"%byte) && bool_decide (simple_escape e = Some c)
  | [x; u; z1; z2; h; l] =>
      (x =b "\"%byte) && (u =b "u"%byte) && bool_decide (hex4 z1 z2 h l = Some (b2z c)) &&
      bool_decide (utf8_encode (b2z c) = [c])
  | _ => false
  end.

Lemma escape_ok_ascii c : b2z c <? 128 = true -> escape_ok c = true.
Proof.
  revert c. by apply (all_bytes_spec (fun c => b2z c <? 128 = true -> escape_ok c = true)).
Qed.

Lemma eqb_eq a b : (a =b b) = true -> a = b.
Proof. apply Byte.byte_dec_bl. Qed.

Lemma read_u_ascii z1 z2 h l c r :
  hex4 z1 z2 h l = Some (b2z c) -> read_u (z1 :: z2 :: h :: l :: r) = Some (utf8_encode (b2z c), r).
Proof.
  intros H. unfold read_u. rewrite H. pose proof (b2z_bound c).
  rewrite (proj2 (Z.leb_gt 55296 (b2z c))) by lia. done.
Qed.

Lemma read_string_ascii c f r t rest :
  b2z c <? 128 = true -> read_string f r = Some (t, rest) ->
  read_string (S f) (esc_ascii c ++ r) = Some (c :: t, rest).
Proof.
  intros Hc Hr. pose proof (escape_ok_ascii c Hc) as H. unfold escape_ok in H.
  destruct (esc_ascii c) as [|x [|e [|z1 [|z2 [|h [|l [|]]]]]]]; try done.
  - apply andb_prop in H as [[[->%eqb_eq H1]%andb_prop H2]%andb_prop H3].
    apply negb_true_iff in H1, H2, H3. cbn [app read_string]. by rewrite H1, H2, H3, Hc, Hr.
  - apply andb_prop in H as [[->%eqb_eq H1]%andb_prop H2%bool_decide_eq_true].
    apply negb_true_iff in H1. cbn [app read_string].
    change ("\"%byte =b Byte.x22) with false. change ("\"%byte =b "\"%byte) with true.
    cbn match. by rewrite H1, H2, Hr.
  - apply andb_prop in H as [[[->%eqb_eq ->%eqb_eq]%andb_prop H1%bool_decide_eq_true]%andb_prop
      H2%bool_decide_eq_true]. cbn [app read_string].
    change ("\"%byte =b Byte.x22) with false. change ("\"%byte =b "\"%byte) with true.
    change ("u"%byte =b "u"%byte) with true. cbn match.
    by rewrite (read_u_ascii _ _ _ _ c) by done; rewrite Hr, H2.
Qed.

#[local] Arguments utf8_len : simpl never.

(** The size of a character does not depend on what follows it. *)
Lemma utf8_len_take s r : utf8_len s <> 0%nat -> utf8_len (take (utf8_len s) s ++ r) = utf8_len s.
Proof.
  unfold utf8_len. intros H. destruct s as [|c0 [|c1 s]]; try done.
  destruct (in_range 194 223 c0) eqn:E0.
  { destruct (is_cont c1) eqn:E1; [|done]. simpl. by rewrite E0, E1. }
  destruct s as [|c2 s]; [done|].
  destruct (_ && is_cont c2) eqn:E1; [simpl; by rewrite E0, E1|].
  destruct s as [|c3 s]; [done|].
  destruct (_ && is_cont c3) eqn:E2; [|done]. simpl. by rewrite E0, E1, E2.
Qed.

Lemma utf8_len_le s : (utf8_len s <= length s)%nat.
Proof.
  unfold utf8_len. destruct s as [|c0 [|c1 [|c2 [|c3 s]]]]; simpl; repeat case_match; lia.
Qed.

Lemma high_byte c : b2z c <? 128 = false ->
  (c =b Byte.x22) = false /\ (c =b "\"%byte) = false /\ (b2z c <? 32) = false.
Proof.
  revert c. by apply (all_bytes_spec (fun c => b2z c <? 128 = false ->
    (c =b Byte.x22) = false /\ (c =b "\"%byte) = false /\ (b2z c <? 32) = false)).
Qed.

Lemma read_string_char s f r t rest c s' :
  s = c :: s' -> b2z c <? 128 = false -> utf8_len s <> 0%nat -> read_string f r = Some (t, rest) ->
  read_string (S f) (take (utf8_len s) s ++ r) = Some (take (utf8_len s) s ++ t, rest).
Proof.
  intros Es Hc Hn Hr. pose proof (utf8_len_take s r Hn) as Hlen. pose proof (utf8_len_le s) as Hle.
  assert (Hl : length (take (utf8_len s) s) = utf8_len s) by (rewrite length_take; lia).
  destruct (high_byte c Hc) as (H1 & H2 & H3).
  set (ch := take (utf8_len s) s) in *.
  assert (Ech : exists ch', ch = c :: ch').
  { unfold ch. rewrite Es in Hn |- *. destruct (utf8_len (c :: s')); [done|]. simpl. eauto. }
  destruct Ech as [ch' Ech]. rewrite Ech in *. cbn [app read_string] in *.
  rewrite H1, H2, H3, Hc, Hlen, (proj2 (Nat.eqb_neq _ _) Hn).
  rewrite Nat.max_r by lia. rewrite app_comm_cons, <- Hl, drop_app_length, take_app_length.
  by rewrite Hr.
Qed.

Lemma read_string_separator u f r t rest e :
  (u = 8232 /\ e = str "\u2028") \/ (u = 8233 /\ e = str "\u2029") ->
  read_string f r = Some (t, rest) ->
  read_string (S f) (e ++ r) = Some (utf8_encode u ++ t, rest).
Proof.
  intros Hu Hr. assert (E : read_string (S f) (e ++ r) =
    match read_string f r with Some (t, rest) => Some (utf8_encode u ++ t, rest) | None => None end)
    by (destruct Hu as [[-> ->]|[-> ->]]; reflexivity).
  by rewrite E, Hr.
Qed.

Lemma read_string_esc n s f rest :
  utf8_valid n s = true -> (length (esc_string n s) < f)%nat ->
  read_string f (esc_string n s ++ Byte.x22 :: rest) = Some (s, rest).
Proof.
  revert s f. induction n as [|n IH]; intros [|c s] [|f] Hv Hf; simpl in Hv, Hf; try lia; try done.
  cbn [esc_string]. destruct (b2z c <? 128) eqn:Hc.
  - rewrite <- app_assoc. apply read_string_ascii; [done|]. apply IH; [done|].
    rewrite length_app in Hf. pose proof (escape_ok_ascii c Hc) as H. unfold escape_ok in H.
    destruct (esc_ascii c); [done|]. simpl in Hf. lia.
  - apply andb_prop in Hv as [Hn Hv]. apply negb_true_iff, Nat.eqb_neq in Hn.
    rewrite (proj2 (Nat.eqb_neq _ _) Hn) in Hf |- *. rewrite length_app in Hf.
    pose proof (utf8_len_le (c :: s)) as Hle.
    assert (Hl : length (take (utf8_len (c :: s)) (c :: s)) = utf8_len (c :: s))
      by (rewrite length_take; lia).
    rewrite <- app_assoc.
    case_bool_decide as H1; [|case_bool_decide as H2]; cbn [length] in Hf.
    + rewrite (read_string_separator 8232 _ _ (drop (utf8_len (c :: s)) (c :: s)) rest);
        [by rewrite <- H1, take_drop|by left|apply IH; [done|simpl in Hf; lia]].
    + rewrite (read_string_separator 8233 _ _ (drop (utf8_len (c :: s)) (c :: s)) rest);
        [by rewrite <- H2, take_drop|by right|apply IH; [done|simpl in Hf; lia]].
    + rewrite (read_string_char _ _ _ (drop (utf8_len (c :: s)) (c :: s)) rest c s); try done.
      * by rewrite take_drop.
      * apply IH; [done|lia].
Qed.

(** A quoted string after its opening quote. *)
Lemma quote_app s rest :
  quote s ++ rest = Byte.x22 :: (esc_string (length s) s ++ Byte.x22 :: rest).
Proof. unfold quote. simpl. by rewrite <- app_assoc. Qed.

Lemma read_string_quote s rest :
  text_ok s = true ->
  let r := esc_string (length s) s ++ Byte.x22 :: rest in
  read_string (S (length r)) r = Some (s, rest).
Proof. intros. apply read_string_esc; [done|]. unfold r. rewrite length_app. simpl. lia. Qed.

(** *** Numbers *)

(** A number ends where no character can continue it. *)
Definition num_end (rest : bytes) : bool :=
  match rest with
  | [] => true
  | c :: _ => negb (is_digit c || (c =b "."%byte) || (c =b "e"%byte) || (c =b "E"%byte))
  end.

Lemma span_digits_app d rest :
  forallb is_digit d = true -> num_end rest = true -> span_digits (d ++ rest) = (d, rest).
Proof.
  intros Hd Hr. induction d as [|c d IH]; simpl in *.
  - destruct rest as [|c r]; [done|]. simpl in *.
    apply negb_true_iff in Hr. repeat apply orb_false_elim in Hr as [Hr _]. by rewrite Hr.
  - apply andb_prop in Hd as [-> Hd]. by rewrite IH.
Qed.

Lemma read_number_ok raw rest :
  num_ok raw = true -> num_end rest = true -> read_number (raw ++ rest) = Some (raw, rest).
Proof.
  intros Hraw Hr.
  assert (Hfe : read_frac rest = Some ([], rest) /\ read_exp rest = Some ([], rest)).
  { destruct rest as [|c r]; [done|]. simpl in *. apply negb_true_iff in Hr.
    apply orb_false_elim in Hr as [[[_ ->]%orb_false_elim He]%orb_false_elim HE].
    by rewrite He, HE. }
  assert (Hint : read_int (raw ++ rest) = Some (raw, rest)).
  { destruct raw as [|c r]; [done|]. simpl in *.
    apply andb_prop in Hraw as [Hd Hz]. destruct (c =b "0"%byte) eqn:E0.
    - simpl in Hz. apply bool_decide_eq_true in Hz. by subst.
    - unfold digits1. change (c :: r ++ rest) with ((c :: r) ++ rest).
      by rewrite span_digits_app. }
  destruct raw as [|c r]; [done|].
  assert (Hm : (c =b "-"%byte) = false).
  { simpl in Hraw. apply andb_prop in Hraw as [[Hc _]%andb_prop _]. clear -Hc. revert c Hc.
    by apply (all_bytes_spec (fun c => is_digit c = true -> (c =b "-"%byte) = false)). }
  unfold read_number. cbn [app] in *. rewrite Hm.
  rewrite Hint. destruct Hfe as [-> ->]. simpl. by rewrite !app_nil_r.
Qed.

(** *** Values *)

Definition is_ws (w : bytes) : bool := forallb is_space w.

Lemma skip_ws_app w s : is_ws w = true -> skip_ws (w ++ s) = skip_ws s.
Proof. induction w as [|c w IH]; simpl; [done|]. intros [-> Hw]%andb_prop. auto. Qed.

Lemma read_value_ws f d w s : is_ws w = true -> read_value f d (w ++ s) = read_value f d s.
Proof. intros. destruct f; [done|]. cbn [read_value]. by rewrite skip_ws_app. Qed.

Lemma num_end_ws w c r : is_ws w = true -> num_end (c :: r) = true -> num_end (w ++ c :: r) = true.
Proof.
  destruct w as [|b w]; [done|]. simpl. intros [Hb _]%andb_prop _. revert b Hb.
  by apply (all_bytes_spec (fun b => is_space b = true ->
    negb (is_digit b || (b =b "."%byte) || (b =b "e"%byte) || (b =b "E"%byte)) = true)).
Qed.

(** The first character of a written value is neither a space nor a closing
    bracket. *)
Definition head_ok (s : bytes) : bool :=
  match s with
  | [] => false
  | c :: _ => negb (is_space c || (c =b "]"%byte) || (c =b "}"%byte))
  end.

Lemma head_ok_app s t : head_ok s = true -> head_ok (s ++ t) = true.
Proof. by destruct s. Qed.

Lemma head_ok_skip s : head_ok s = true -> skip_ws s = s.
Proof.
  destruct s as [|c s]; [done|]. simpl. intros H. apply negb_true_iff in H.
  apply orb_false_elim in H as [[H _]%orb_false_elim _]. by rewrite H.
Qed.

Lemma json_Print_head v : json_ok v = true -> head_ok (json_Print v) = true.
Proof.
  destruct v as [|[]|[|c r]| | |]; try done. simpl.
  intros [[Hc _]%andb_prop _]%andb_prop. revert c Hc.
  by apply (all_bytes_spec (fun c => is_digit c = true ->
    negb (is_space c || (c =b "]"%byte) || (c =b "}"%byte)) = true)).
Qed.

(** A layout writes nothing but spaces. *)
Definition layout_ok (y : layout) : Prop := (forall n, is_ws (line y n) = true) /\ is_ws (gap y) = true.

Lemma layouts_ok : layout_ok indented /\ layout_ok compact.
Proof.
  repeat split. intros n. unfold indented, line, is_ws. simpl.
  apply forallb_forall. intros x Hx%list_elem_of_In. by apply elem_of_replicate in Hx as [-> _].
Qed.

Lemma json_Write_compact v n : json_Write compact n v = json_Print v.
Proof.
  revert n. induction v as [| | | |l IH|l IH] using json_ind'; intros n; try done.
  - destruct l as [|x l]; [done|]. cbn [json_Write json_Print line compact app].
    rewrite (map_ext_Forall _ json_Print); [done|]. eapply Forall_impl; [exact IH|]. simpl. auto.
  - destruct l as [|x l]; [done|]. cbn [json_Write json_Print line gap compact app].
    rewrite (map_ext_Forall _ (fun kv => quote kv.1 ++ ":"%byte :: json_Print kv.2)); [done|].
    eapply Forall_impl; [exact IH|]. simpl. intros kv H. by rewrite H.
Qed.

Lemma json_Write_head y n v : json_ok v = true -> head_ok (json_Write y n v) = true.
Proof. intros H. destruct v as [| | | |[|]|[|]]; try done; by apply json_Print_head. Qed.

#[local] Arguments quote : simpl never.

Section write.
Context (y : layout) (Hy : layout_ok y).

Lemma line_ws n : is_ws (line y n) = true.
Proof. apply Hy. Qed.

Lemma gap_ws : is_ws (gap y) = true.
Proof. apply Hy. Qed.

(** [read_value] on the text of [v], at any depth and with enough fuel. *)
Definition reads_back (v : json) : Prop :=
  forall n f d rest,
    json_ok v = true -> num_end rest = true -> d + json_depth v <= maxNestingDepth ->
    (json_size v <= f)%nat -> 0 <= d ->
    read_value f d (json_Write y n v ++ rest) = Some (v, rest).

(** After an element: the separator and more elements, or the closing bracket. *)
Lemma read_elems_write n l acc f d w close rest :
  Forall reads_back l -> l <> [] -> forallb json_ok l = true ->
  (forall x, x ∈ l -> d + json_depth x <= maxNestingDepth) -> 0 <= d ->
  (list_sum (map (fun x => S (json_size x)) l) <= f)%nat -> is_ws w = true -> is_ws close = true ->
  read_elems f d acc (w ++ sep_by (","%byte :: line y n) (map (json_Write y n) l) ++
    close ++ "]"%byte :: rest) =
  Some (JArr (acc ++ l), rest).
Proof.
  intros Hl. revert acc f w. induction Hl as [|x l Hx Hl IH]; intros acc f w Hne Hok Hdep Hd Hf Hw Hc;
    [done|].
  simpl in Hok, Hf. apply andb_prop in Hok as [Hxok Hlok].
  destruct f as [|f]; [lia|]. cbn [read_elems]. rewrite read_value_ws by done.
  destruct l as [|z l].
  - cbn [map sep_by].
    rewrite Hx; [|done|by apply num_end_ws|apply Hdep; set_solver|lia|done].
    by rewrite skip_ws_app.
  - change (sep_by ?s (map (json_Write y n) (x :: z :: l)))
      with (json_Write y n x ++ s ++ sep_by s (map (json_Write y n) (z :: l))).
    rewrite <- app_assoc. rewrite Hx; [|done|done|apply Hdep; set_solver|lia|done].
    cbn [app]. cbn -[sep_by map read_elems]. rewrite <- app_assoc.
    rewrite IH; [by rewrite <- app_assoc|done|done| |done|lia|apply line_ws|done].
    intros u Hu. apply Hdep. by constructor.
Qed.

Definition write_member (n : nat) (kv : bytes * json) : bytes :=
  quote kv.1 ++ ":"%byte :: gap y ++ json_Write y n kv.2.

Lemma read_members_write n l acc f d w close rest :
  Forall (fun kv => reads_back kv.2) l -> l <> [] ->
  forallb (fun kv => text_ok kv.1 && json_ok kv.2) l = true ->
  (forall kv, kv ∈ l -> d + json_depth kv.2 <= maxNestingDepth) -> 0 <= d ->
  (list_sum (map (fun kv => S (json_size kv.2)) l) <= f)%nat -> is_ws w = true ->
  is_ws close = true ->
  read_members f d acc (w ++ sep_by (","%byte :: line y n) (map (write_member n) l) ++
    close ++ "}"%byte :: rest) =
  Some (JObj (acc ++ l), rest).
Proof.
  intros Hl. revert acc f w.
  induction Hl as [|[k x] l Hx Hl IH]; intros acc f w Hne Hok Hdep Hd Hf Hw Hc; [done|].
  simpl in Hok, Hf, Hx. apply andb_prop in Hok as [[Hk Hxok]%andb_prop Hlok].
  destruct f as [|f]; [lia|]. cbn [read_members]. rewrite skip_ws_app by done.
  assert (Hm : forall r, num_end r = true ->
    exists r1, skip_ws (write_member n (k, x) ++ r) = Byte.x22 :: r1 /\
    exists r2, read_string (S (length r1)) r1 = Some (k, ":"%byte :: r2) /\
      read_value f d r2 = Some (x, r)).
  { intros r Hr. unfold write_member. cbn [fst snd].
    rewrite <- app_assoc, <- app_comm_cons, <- app_assoc, quote_app.
    eexists. split; [reflexivity|]. eexists. split; [by apply read_string_quote|].
    rewrite read_value_ws by apply gap_ws.
    apply Hx; [done|done|apply (Hdep (k, x)); set_solver|lia|done]. }
  destruct l as [|z l].
  - cbn [map sep_by].
    destruct (Hm (close ++ "}"%byte :: rest)) as (r1 & -> & r2 & -> & Hv); [by apply num_end_ws|].
    cbn -[read_value read_string]. rewrite Hv, skip_ws_app by done. done.
  - change (sep_by ?s (map (write_member n) ((k, x) :: z :: l)))
      with (write_member n (k, x) ++ s ++ sep_by s (map (write_member n) (z :: l))).
    rewrite <- app_assoc.
    match goal with |- context [skip_ws (_ ++ ?r)] =>
      destruct (Hm r) as (r1 & -> & r2 & -> & Hv); [done|] end.
    cbn -[sep_by map read_members read_value read_string]. rewrite Hv.
    cbn -[sep_by map read_members]. rewrite <- app_assoc.
    rewrite IH; [by rewrite <- app_assoc|done|done| |done|lia|apply line_ws|done].
    intros u Hu. apply Hdep. by constructor.
Qed.

Lemma max_list_le l (x : Z) : x ∈ l -> x <= fold_right Z.max 0 l.
Proof. induction 1; simpl; lia. Qed.

(** Opening a non-empty array or object. *)
Lemma read_value_arr f d w r :
  is_ws w = true -> head_ok r = true -> d < maxNestingDepth ->
  read_value (S f) d ("["%byte :: w ++ r) = read_elems f (d + 1) [] (w ++ r).
Proof.
  intros Hw Hh Hd. cbn -[maxNestingDepth]. rewrite skip_ws_app, head_ok_skip by done.
  destruct r as [|c r]; [done|]. destruct (Z.leb_spec maxNestingDepth d); [lia|].
  simpl in Hh. apply negb_true_iff, orb_false_elim in Hh as [[_ ->]%orb_false_elim _]. done.
Qed.

Lemma read_value_obj f d w r :
  is_ws w = true -> head_ok r = true -> d < maxNestingDepth ->
  read_value (S f) d ("{"%byte :: w ++ r) = read_members f (d + 1) [] (w ++ r).
Proof.
  intros Hw Hh Hd. cbn -[maxNestingDepth]. rewrite skip_ws_app, head_ok_skip by done.
  destruct r as [|c r]; [done|]. destruct (Z.leb_spec maxNestingDepth d); [lia|].
  simpl in Hh. apply negb_true_iff, orb_false_elim in Hh as [_ ->]. done.
Qed.

Lemma read_value_empty_arr f d r :
  d < maxNestingDepth -> read_value (S f) d ("["%byte :: "]"%byte :: r) = Some (JArr [], r).
Proof.
  intros. cbn -[maxNestingDepth]. destruct (Z.leb_spec maxNestingDepth d); [lia|done].
Qed.

Lemma read_value_empty_obj f d r :
  d < maxNestingDepth -> read_value (S f) d ("{"%byte :: "}"%byte :: r) = Some (JObj [], r).
Proof.
  intros. cbn -[maxNestingDepth]. destruct (Z.leb_spec maxNestingDepth d); [lia|done].
Qed.

(** The facts about a digit that [read_value] tests before it reads a number. *)
Lemma digit_starts_number c :
  is_digit c = true ->
  (c =b Byte.x22) = false /\ (c =b "{"%byte) = false /\ (c =b "["%byte) = false /\
  (c =b "t"%byte) = false /\ (c =b "f"%byte) = false /\ (c =b "n"%byte) = false.
Proof.
  revert c. by apply (all_bytes_spec (fun c => is_digit c = true ->
    (c =b Byte.x22) = false /\ (c =b "{"%byte) = false /\ (c =b "["%byte) = false /\
    (c =b "t"%byte) = false /\ (c =b "f"%byte) = false /\ (c =b "n"%byte) = false)).
Qed.

Lemma sep_by_head sep x l : head_ok x = true -> head_ok (sep_by sep (x :: l)) = true.
Proof. intros. destruct l; simpl; [done | by apply head_ok_app]. Qed.

Lemma depth_elem {A} (g : A -> Z) (x : A) l d :
  x ∈ l -> d + (1 + fold_right Z.max 0 (map g l)) <= maxNestingDepth ->
  d + 1 + g x <= maxNestingDepth.
Proof.
  intros Hx. pose proof (max_list_le (map g l) (g x) (list_elem_of_fmap_2 g l x Hx)). lia.
Qed.

Lemma depth_open l d : d + (1 + fold_right Z.max 0 l) <= maxNestingDepth -> d < maxNestingDepth.
Proof. assert (0 <= fold_right Z.max 0 l) by (induction l; simpl; lia). lia. Qed.

Lemma json_reads_back v : reads_back v.
Proof.
  induction v as [|[]|raw|s|l IH|l IH] using json_ind'; intros n [|f] d rest Hok Hr Hdep Hf Hd;
    try (simpl in Hf; lia); try done.
  - pose proof (json_Print_head (JNum raw) Hok) as Hh. simpl json_Write in *. simpl json_Print in Hh.
    cbn [read_value]. rewrite head_ok_skip by (by apply head_ok_app).
    pose proof (read_number_ok raw rest Hok Hr) as Hn.
    destruct raw as [|c r]; [done|]. cbn [app] in *. rewrite Hn.
    simpl in Hok. apply andb_prop in Hok as [[Hc _]%andb_prop _].
    by destruct (digit_starts_number c Hc) as (-> & -> & -> & -> & -> & ->).
  - cbn [json_Write json_Print]. rewrite quote_app. cbn [read_value skip_ws].
    change (is_space Byte.x22) with false. cbn match. change (Byte.x22 =b Byte.x22) with true.
    cbn match. by rewrite read_string_quote.
  - cbn [json_depth] in Hdep. destruct l as [|x l].
    { apply read_value_empty_arr. by eapply depth_open. }
    cbn [json_Write app]. rewrite <- !app_assoc. simpl in Hok.
    change (["]"%byte] ++ rest) with ("]"%byte :: rest).
    rewrite read_value_arr; [|apply line_ws| |by eapply depth_open].
    + rewrite read_elems_write; simpl in Hf; try done; try (simpl; lia); try apply line_ws.
      intros u Hu. by eapply (depth_elem json_depth).
    + apply head_ok_app, sep_by_head, json_Write_head. by apply andb_prop in Hok as [? _].
  - cbn [json_depth] in Hdep. destruct l as [|[k x] l].
    { apply read_value_empty_obj. by eapply depth_open. }
    cbn [json_Write app]. rewrite <- !app_assoc. fold (write_member (S n)).
    change (["}"%byte] ++ rest) with ("}"%byte :: rest).
    rewrite read_value_obj; [|apply line_ws|by apply head_ok_app, sep_by_head|by eapply depth_open].
    rewrite read_members_write; simpl in Hf; try done; try (simpl; lia); try apply line_ws.
    intros u Hu. by eapply (depth_elem (fun kv => json_depth kv.2)).
Qed.

Lemma sep_by_length c sep (l : list bytes) :
  (list_sum (map (fun x => S (length x)) l) <= S (length (sep_by (c :: sep) l)))%nat.
Proof.
  induction l as [|x l IH]; simpl; [lia|].
  destruct l as [|z l]; [simpl; lia|]. rewrite length_app. simpl in *. rewrite length_app. lia.
Qed.

Lemma list_sum_le {A} (g h : A -> nat) l :
  Forall (fun x => (g x <= h x)%nat) l -> (list_sum (map g l) <= list_sum (map h l))%nat.
Proof. induction 1; simpl; lia. Qed.

Lemma Forall_ok {A} (P : A -> Prop) (ok : A -> bool) l :
  Forall (fun x => ok x = true -> P x) l -> forallb ok l = true -> Forall P l.
Proof.
  induction 1 as [|x l Hx _ IH]; simpl; [constructor|]. intros [? ?]%andb_prop. constructor; auto.
Qed.

(** A written value is at least as long as the number of calls needed to read it. *)
Lemma json_size_Write v n : json_ok v = true -> (json_size v <= length (json_Write y n v))%nat.
Proof.
  revert n. induction v as [|[]|raw|s|l IH|l IH] using json_ind'; intros n Hok;
    cbn [json_size json_Write json_ok] in *; try (simpl; lia).
  - destruct raw; simpl in *; [done|lia].
  - destruct l as [|x0 l0]; [simpl; lia|]. set (l := x0 :: l0) in *. cbn [length].
    rewrite !length_app. cbn [length].
    pose proof (sep_by_length ","%byte (line y (S n)) (map (json_Write y (S n)) l)) as Hs.
    rewrite map_map in Hs.
    assert (Hle : Forall (fun x => (S (json_size x) <= S (length (json_Write y (S n) x)))%nat) l).
    { eapply Forall_ok; [|exact Hok]. eapply Forall_impl; [exact IH|]. simpl.
      intros v Hv Hv'. specialize (Hv (S n) Hv'). lia. }
    apply list_sum_le in Hle. lia.
  - destruct l as [|x0 l0]; [simpl; lia|]. set (l := x0 :: l0) in *. cbn [length].
    rewrite !length_app. cbn [length].
    change (fun kv => quote kv.1 ++ ":"%byte :: gap y ++ json_Write y (S n) kv.2)
      with (write_member (S n)).
    pose proof (sep_by_length ","%byte (line y (S n)) (map (write_member (S n)) l)) as Hs.
    rewrite map_map in Hs.
    assert (Hle : Forall (fun kv => (S (json_size kv.2) <= S (length (write_member (S n) kv)))%nat) l).
    { eapply Forall_ok; [|exact Hok]. eapply Forall_impl; [exact IH|]. simpl.
      intros kv Hv [_ Hv']%andb_prop. specialize (Hv (S n) Hv'). unfold write_member.
      rewrite length_app. cbn [length]. rewrite (length_app (gap y)). lia. }
    apply list_sum_le in Hle. lia.
Qed.

(** Parsing what was written gives the value back; a trailing newline, as
    [fmt.Fprintln] adds it, is skipped. *)
Lemma json_Parse_Write v nl :
  is_ws nl = true ->
  json_ok v = true -> json_depth v <= maxNestingDepth ->
  json_Parse (json_Write y 0 v ++ nl) = Some v.
Proof.
  intros Hnl Hok Hdep. unfold json_Parse. pose proof (json_size_Write v 0 Hok).
  assert (Hskip : skip_ws nl = []) by (rewrite <- (app_nil_r nl); by rewrite skip_ws_app).
  rewrite (json_reads_back v 0%nat _ 0 nl Hok); [by rewrite Hskip| |lia| |lia].
  - clear Hskip. destruct nl as [|b nl]; [done|]. simpl in Hnl.
    apply andb_prop in Hnl as [Hb _]. revert b Hb. simpl.
    by apply (all_bytes_spec (fun b => is_space b = true ->
      negb (is_digit b || (b =b "."%byte) || (b =b "e"%byte) || (b =b "E"%byte)) = true)).
  - rewrite length_app. lia.
Qed.
End write.

Lemma json_Parse_Print_nl v nl :
  nl = [] \/ nl = [Byte.x0a] ->
  json_ok v = true -> json_depth v <= maxNestingDepth -> json_Parse (json_Print v ++ nl) = Some v.
Proof.
  intros Hnl. rewrite <- (json_Write_compact v 0%nat). apply json_Parse_Write; [apply layouts_ok|].
  by destruct Hnl as [-> | ->].
Qed.

Lemma json_Parse_Print v :
  json_ok v = true -> json_depth v <= maxNestingDepth -> json_Parse (json_Print v) = Some v.
Proof. intros. rewrite <- (app_nil_r (json_Print v)). apply json_Parse_Print_nl; auto. Qed.

(** Indentation changes nothing for a reader. *)
Lemma json_Parse_Indent_nl v nl :
  is_ws nl = true -> json_ok v = true -> json_depth v <= maxNestingDepth ->
  json_Parse (json_Indent v ++ nl) = Some v.
Proof. apply json_Parse_Write, layouts_ok. Qed.

Lemma b64_Encode_plain s : forallb plain (b64_Encode s) = true.
Proof.
  rewrite forallb_forall. intros c Hc%list_elem_of_In. revert c Hc.
  apply Forall_forall. by apply b64_Encode_Forall.
Qed.

Lemma of_slice_ok b : json_ok (of_slice b) = true /\ json_depth (of_slice b) = 0.
Proof. destruct b; simpl; [|done].
  split; [apply plain_text_ok, b64_Encode_plain|done]. Qed.

Lemma byte_num_ok c : num_ok (dec_Print (b2z c)) = true /\
  uint8_of (JNum (dec_Print (b2z c))) = (c, None).
Proof.
  revert c. by apply (all_bytes_spec (fun c => num_ok (dec_Print (b2z c)) = true /\
    uint8_of (JNum (dec_Print (b2z c))) = (c, None))).
Qed.

Lemma of_array_ok b : json_ok (of_array b) = true /\ json_depth (of_array b) = 1.
Proof.
  induction b as [|c b [IH1 IH2]]; [done|]. simpl in *. rewrite (proj1 (byte_num_ok c)), IH1.
  split; [done|lia].
Qed.

Lemma uint8_array_of_array b :
  uint8_array (length b) (map (fun c => JNum (dec_Print (b2z c))) b) = (b, None).
Proof.
  induction b as [|c b IH]; [done|]. cbn -[uint8_of dec_Print].
  by rewrite (proj2 (byte_num_ok c)), IH.
Qed.

(** [Marshal] then [Unmarshal] of a [[]byte] and of a byte array. *)
Lemma bytes_field_of_slice {S} (set : slice -> S -> S) b s :
  bytes_field set (of_slice b) s = (set b s, None).
Proof. destruct b; simpl; [by rewrite b64_Decode_Encode | done]. Qed.

Lemma array_field_of_array {S} (set : bytes -> S -> S) b s :
  array_field (length b) set (of_array b) s = (set b s, None).
Proof. unfold array_field, of_array. by rewrite uint8_array_of_array. Qed.

(** Unmarshalling an object that [Marshal] printed stores its members in order. *)
Lemma Unmarshal_Print {S} (fs : list (bytes * field S)) kvs s :
  json_ok (JObj kvs) = true -> json_depth (JObj kvs) <= maxNestingDepth ->
  Unmarshal fs (json_Print (JObj kvs)) s = fold_left (store_member fs) kvs (s, None).
Proof. intros. unfold Unmarshal. by rewrite json_Parse_Print. Qed.

Lemma Unmarshal_Print_nl {S} (fs : list (bytes * field S)) v s :
  json_ok v = true -> json_depth v <= maxNestingDepth ->
  Unmarshal fs (json_Print v ++ [Byte.x0a]) s = Unmarshal fs (json_Print v) s.
Proof. intros. unfold Unmarshal. rewrite json_Parse_Print, json_Parse_Print_nl; auto. Qed.

Lemma store_member_hit {S} (fs : list (bytes * field S)) k f v s e :
  find_field fs k = Some f ->
  store_member fs (s, e) (k, v) = ((f v s).1, first_error e (f v s).2).
Proof. intros H. unfold store_member. simpl. rewrite H. by destruct (f v s). Qed.

(** The text of an object with two string members. *)
Lemma json_Print_two k1 s1 k2 s2 :
  json_Print (JObj [(k1, JStr s1); (k2, JStr s2)]) =
  "{"%byte :: (quote k1 ++ ":"%byte :: quote s1) ++ ","%byte ::
    (quote k2 ++ ":"%byte :: quote s2) ++ ["}"%byte].
Proof.
  cbn [json_Print map sep_by fst snd]. by rewrite <- !app_assoc.
Qed.

Lemma json_Print_JStr s : json_Print (JStr s) = quote s.
Proof. done. Qed.

Definition print_member (kv : bytes * json) : bytes := quote kv.1 ++ ":"%byte :: json_Print kv.2.

Lemma json_Print_JObj l :
  json_Print (JObj l) = "{"%byte :: commas (map print_member l) ++ ["}"%byte].
Proof. done. Qed.

Lemma len_quote_plain s : forallb plain s = true -> len (quote s) = len s + 2.
Proof. intros. unfold quote. rewrite esc_string_plain by done. len_simp. lia. Qed.

#[global] Opaque json_Parse json_Print.

(** Evaluate an [Unmarshal] of a printed object member by member. *)
Ltac store_members :=
  cbn [fold_left];
  repeat (erewrite store_member_hit by reflexivity;
          rewrite ?bytes_field_of_slice, ?array_field_of_array; cbn [fst snd first_error]).

(** The scanner's rules on concrete inputs: spaces, escapes, surrogates, a
    leading zero, a missing value, trailing data. *)
Example json_Parse_examples :
  json_Parse (str " [ 1 , -2.5e+3, true,null ] ") =
    Some (JArr [JNum (str "1"); JNum (str "-2.5e+3"); JBool true; JNull]) /\
  json_Parse ([Byte.x22] ++ str "a\n\u00e9\ud83d\ude00" ++ [Byte.x22]) =
    Some (JStr [Byte.x61; Byte.x0a; Byte.xc3; Byte.xa9; Byte.xf0; Byte.x9f; Byte.x98; Byte.x80]) /\
  json_Parse (str "01") = None /\ json_Parse (str "[1,]") = None /\
  json_Parse (str "{}x") = None /\ json_Parse (str "") = None.
Proof. vm_compute. done. Qed.
