(* ===== verification/System.v ===== *)
(** * System: bounded reading, the descriptor limit and the entropy pool

    [system.go]'s [limitReader] on top of an arbitrary [io.Reader], the loop of
    [io.ReadAll] that drains it, [setFdLimit], and [system_linux.go]'s
    [maybeSeedEntropy].  [ReadAll_limit] gives the result of
    [io.ReadAll(newLimitReader(r, n))] for every reader and every growth policy
    of the buffer. *)
From Stdlib Require Import ZArith Lia.
From Stdlib Require Import Strings.Byte Strings.String.
From stdpp Require Import base gmap strings list fin_maps.
From S2P Require Import Prelude.

Local Open Scope Z_scope.

Module Reader.

(** An [io.Reader] is the sequence of deliveries it is going to make: data
    with an optional error, handed out in pieces when the caller's buffer is
    smaller.  Afterwards it is at EOF. *)
Abbreviation reader := (list (bytes * option error)).

(** [r.Read(p)] with [k = len(p)]. *)
Definition Read (k : Z) (r : reader) : bytes * option error * reader :=
  match r with
  | [] => ([], Some EOF, [])
  | (b, e) :: r' =>
      if len b <=? k then (b, e, r')
      else (take (Z.to_nat k) b, None, (drop (Z.to_nat k) b, e) :: r')
  end.

Record limitReader := LimitReader { src : reader; Limit : Z }.

Definition is_EOF (e : option error) : bool :=
  match e with Some err => errors_Is err EOF | None => false end.

(** [limitReader.Read]: at the limit, one more byte is probed for. *)
Definition limit_Read (l : limitReader) (k : Z) : bytes * option error * limitReader :=
  if Limit l =? 0 then
    let '(b, e, r') := Read 1 (src l) in
    if (len b =? 0) && is_EOF e then ([], e, LimitReader r' 0)
    else ([], Some errTooMuchToRead, LimitReader r' 0)
  else
    let k' := if Limit l <? k then Limit l else k in
    let '(b, e, r') := Read k' (src l) in
    (b, e, LimitReader r' (Limit l - len b)).

Definition newLimitReader (r : reader) (limit : Z) : limitReader := LimitReader r limit.

(** The loop of [io.ReadAll]: [cap] is the capacity of the buffer, [grow] what
    [append] makes of a full one. *)
Fixpoint read_loop (grow : Z -> Z) (fuel : nat) (buf : bytes) (cap : Z) (l : limitReader)
    : bytes * option error :=
  match fuel with
  | O => (buf, Some (ErrLib "out of fuel"))
  | S f =>
      let '(b, e, l') := limit_Read l (cap - len buf) in
      let buf' := buf ++ b in
      match e with
      | Some EOF => (buf', None)
      | Some err => (buf', Some err)
      | None => read_loop grow f buf' (if len buf' =? cap then grow cap else cap) l'
      end
  end.

(** The number of reads a reader can take before it is exhausted. *)
Definition reads (r : reader) : nat := list_sum ((fun d => S (length d.1)) <$> r).

Definition ReadAll_with (grow : Z -> Z) (l : limitReader) : bytes * option error :=
  read_loop grow (S (reads (src l))) [] 512 l.

(** The runtime's growth of a byte slice beyond 256 bytes, before it rounds up
    to a size class; the result does not depend on it ([ReadAll_limit]). *)
Definition append_cap (c : Z) : Z := c + (c + 768) / 4.

Definition ReadAll : limitReader -> bytes * option error := ReadAll_with append_cap.

(** What [ReadAll] of a limited reader returns, by recursion on the deliveries. *)
Fixpoint read_limited (n : Z) (r : reader) : bytes * option error :=
  match r with
  | [] => ([], None)
  | (b, e) :: r' =>
      if n =? 0 then
        if (len b =? 0) && is_EOF e
        then ([], if bool_decide (e = Some EOF) then None else e)
        else ([], Some errTooMuchToRead)
      else if n <? len b then (take (Z.to_nat n) b, Some errTooMuchToRead)
      else match e with
           | Some EOF => (b, None)
           | Some err => (b, Some err)
           | None => let '(t, e') := read_limited (n - len b) r' in (b ++ t, e')
           end
  end.

(** ** Lemmas *)

Lemma reads_cons b e r : reads ((b, e) :: r) = (S (length b) + reads r)%nat.
Proof. done. Qed.

(** A piece taken off a delivery is accounted for before the rest. *)
Lemma read_limited_split n k b e r :
  0 < k -> k < len b -> k <= n ->
  read_limited n ((b, e) :: r) =
  let '(t, e') := read_limited (n - k) ((drop (Z.to_nat k) b, e) :: r) in
  (take (Z.to_nat k) b ++ t, e').
Proof.
  intros Hk Hb Hn. unfold len in *. cbn [read_limited]. unfold len.
  rewrite !length_drop.
  destruct (Z.eqb_spec n 0); [lia|]. destruct (Z.eqb_spec (n - k) 0) as [E|E].
  - assert (n = k) by lia; subst. rewrite !(proj2 (Z.ltb_lt _ _)) by lia.
    rewrite (proj2 (Z.eqb_neq (Z.of_nat _) 0)) by lia. simpl. by rewrite app_nil_r.
  - destruct (Z.ltb_spec n (Z.of_nat (length b))), (Z.ltb_spec (n - k)
      (Z.of_nat (length b - Z.to_nat k))); try lia.
    + f_equal. rewrite Z2Nat.inj_sub by lia.
      rewrite take_drop_commute. replace (Z.to_nat k + (Z.to_nat n - Z.to_nat k))%nat
        with (Z.to_nat n) by lia.
      rewrite <- (take_drop (Z.to_nat k) (take (Z.to_nat n) b)) at 1.
      rewrite take_take, Nat.min_l by lia. done.
    + destruct e as [[]|]; try by rewrite take_drop.
      replace (n - Z.of_nat (length b)) with (n - k - Z.of_nat (length b - Z.to_nat k)) by lia.
      destruct (read_limited _ r). by rewrite app_assoc, take_drop.
Qed.

Lemma read_loop_limited grow fuel buf cap n r :
  (forall c, 0 <= c -> c < grow c) -> len buf < cap -> 0 <= n -> (reads r < fuel)%nat ->
  read_loop grow fuel buf cap (LimitReader r n) =
  let '(t, e) := read_limited n r in (buf ++ t, e).
Proof.
  intros Hgrow. revert buf cap n r.
  induction fuel as [|f IH]; intros buf cap n r Hcap Hn Hf; [lia|].
  cbn [read_loop]. unfold limit_Read. cbn [Limit src].
  destruct (Z.eqb_spec n 0) as [->|Hn0].
  - destruct r as [|[b e] r]; [simpl; by rewrite app_nil_r|].
    unfold Read. destruct (Z.leb_spec (len b) 1).
    + cbn [read_limited]. destruct ((len b =? 0) && is_EOF e) eqn:E; simpl.
      * apply andb_prop in E as [_ E]. by destruct e as [[]|].
      * done.
    + cbn [read_limited]. assert (E : (len b =? 0) = false) by lia. rewrite E. simpl.
      unfold len. rewrite length_take. rewrite (proj2 (Z.eqb_neq _ _)) by (unfold len in *; lia).
      simpl. done.
  - set (k := if n <? cap - len buf then n else cap - len buf).
    assert (Hk : 0 < k /\ k <= n /\ k <= cap - len buf)
      by (unfold k; destruct (Z.ltb_spec n (cap - len buf)); lia).
    destruct r as [|[b e] r]; [simpl; by rewrite app_nil_r|].
    rewrite reads_cons in Hf. unfold Read. destruct (Z.leb_spec (len b) k) as [Hb|Hb].
    + cbn [read_limited]. rewrite (proj2 (Z.eqb_neq n 0)) by done.
      rewrite (proj2 (Z.ltb_ge n (len b))) by lia.
      destruct e as [err|]; [by destruct err|].
      rewrite IH; [|..|lia]; try lia.
      * destruct (read_limited _ r). by rewrite app_assoc.
      * rewrite len_app. destruct (Z.eqb_spec (len buf + len b) cap); [|lia].
        specialize (Hgrow cap). pose proof (len_nonneg buf). lia.
    + rewrite read_limited_split with (k := k) by lia.
      assert (Hkl : len (take (Z.to_nat k) b) = k)
        by (unfold len in *; rewrite length_take; lia).
      rewrite Hkl, IH; try lia.
      * destruct (read_limited _ _). by rewrite app_assoc.
      * rewrite len_app, Hkl. destruct (Z.eqb_spec (len buf + k) cap); [|lia].
        specialize (Hgrow cap). pose proof (len_nonneg buf). lia.
      * rewrite reads_cons, length_drop. unfold len in *. lia.
Qed.

Lemma read_limited_bound n r : 0 <= n -> len (read_limited n r).1 <= n.
Proof.
  revert n. induction r as [|[b e] r IH]; intros n Hn; simpl; [by rewrite len_nil|].
  destruct (Z.eqb_spec n 0); [case_match; simpl; rewrite len_nil; lia|].
  destruct (Z.ltb_spec n (len b)); [simpl; unfold len; rewrite length_take; lia|].
  destruct e as [[]|]; simpl; try lia.
  specialize (IH (n - len b)). destruct (read_limited (n - len b) r). simpl in *.
  rewrite len_app. lia.
Qed.

(** A reader that delivers [data] in non-empty pieces and no error of its own. *)
Definition clean (r : reader) (data : bytes) : Prop :=
  Forall (fun d => d.1 <> [] /\ d.2 = None) r /\ concat (map fst r) = data.

Lemma read_limited_clean n r data :
  clean r data -> 0 <= n ->
  read_limited n r =
  if len data <=? n then (data, None) else (take (Z.to_nat n) data, Some errTooMuchToRead).
Proof.
  intros [Hr <-]. revert n. induction Hr as [|[b e] r [Hb He] Hr IH]; intros n Hn;
    simpl in *; subst; [rewrite len_nil; by destruct (Z.leb_spec 0 n); [|lia]|].
  pose proof (len_nonneg (concat (map fst r))). pose proof (len_nonneg b).
  assert (len b <> 0) by (intros E; by apply Hb, len_zero_inv).
  rewrite len_app. destruct (Z.eqb_spec n 0) as [->|].
  - rewrite (proj2 (Z.eqb_neq (len b) 0)) by done. simpl.
    by rewrite (proj2 (Z.leb_gt _ _)) by lia.
  - destruct (Z.ltb_spec n (len b)).
    + rewrite (proj2 (Z.leb_gt _ _)) by lia. rewrite take_app_le; [done|unfold len in *; lia].
    + rewrite IH by lia. destruct (Z.leb_spec (len (concat (map fst r))) (n - len b)),
        (Z.leb_spec (len b + len (concat (map fst r))) n); try lia; [done|].
      rewrite take_app_ge by (unfold len in *; lia). do 3 f_equal.
      rewrite Z2Nat.inj_sub by lia. unfold len. by rewrite Nat2Z.id.
Qed.

(** [io.ReadAll(newLimitReader(r, n))], whatever the allocator does. *)
Lemma ReadAll_with_limited grow r n :
  (forall c, 0 <= c -> c < grow c) -> 0 <= n ->
  ReadAll_with grow (newLimitReader r n) = read_limited n r.
Proof.
  intros Hgrow Hn. unfold ReadAll_with, newLimitReader. simpl src.
  rewrite read_loop_limited by (done || lia). by destruct (read_limited n r).
Qed.

Lemma append_cap_grows c : 0 <= c -> c < append_cap c.
Proof. unfold append_cap. intros. assert (768 / 4 <= (c + 768) / 4) by (apply Z.div_le_mono; lia).
  change (768 / 4) with 192 in *. lia.
Qed.

Lemma ReadAll_limited r n : 0 <= n -> ReadAll (newLimitReader r n) = read_limited n r.
Proof. apply ReadAll_with_limited, append_cap_grows. Qed.

(** C23: A limited read never yields more than the limit, for every reader and
    whatever the allocator does with the buffer: reading ends, returns at most
    [n] bytes, and for a reader that delivers [data] without errors of its own
    the result is exactly [data] if it fits and [errTooMuchToRead] if not, even
    by a single byte. *)
Theorem ReadAll_limit (grow : Z -> Z) (r : reader) (n : Z) (data : bytes) :
  (forall c, 0 <= c -> c < grow c) -> 0 <= n ->
  ReadAll_with grow (newLimitReader r n) = read_limited n r /\
  len (ReadAll_with grow (newLimitReader r n)).1 <= n /\
  (clean r data ->
   ReadAll_with grow (newLimitReader r n) =
   if len data <=? n then (data, None) else (take (Z.to_nat n) data, Some errTooMuchToRead)).
Proof.
  intros Hg Hn. rewrite ReadAll_with_limited by done. split; [done|].
  split; [by apply read_limited_bound|]. intros Hc. by apply read_limited_clean.
Qed.

Lemma ReadAll_limit_witness :
  ReadAll_with append_cap (newLimitReader [(str "ab", None); (str "c", None)] 3) =
    (str "abc", None) /\
  ReadAll_with append_cap (newLimitReader [(str "ab", None); (str "cd", None)] 3) =
    (str "abc", Some errTooMuchToRead).
Proof.
  split.
  - destruct (ReadAll_limit append_cap [(str "ab", None); (str "c", None)] 3 (str "abc")
      append_cap_grows ltac:(lia)) as (_ & _ & H). apply H.
    split; [|reflexivity]. repeat constructor; discriminate.
  - destruct (ReadAll_limit append_cap [(str "ab", None); (str "cd", None)] 3 (str "abcd")
      append_cap_grows ltac:(lia)) as (_ & _ & H). apply H.
    split; [|reflexivity]. repeat constructor; discriminate.
Defined.

(** A read that delivers nothing and no error, at the limit, is reported as too
    much, although nothing beyond the limit was there. *)
Example empty_read_at_limit :
  ReadAll (newLimitReader [(str "ab", None); ([], None)] 2) = (str "ab", Some errTooMuchToRead).
Proof. vm_compute. done. Qed.

(** One read of such a reader. *)
Lemma Read_clean k r data :
  clean r data -> 0 < k -> data <> [] ->
  exists b r', Read k r = (b, None, r') /\ b <> [] /\ len b <= k /\
    data = b ++ drop (length b) data /\ clean r' (drop (length b) data) /\
    (reads r' < reads r)%nat /\ (reads r' + length b <= reads r)%nat.
Proof.
  intros [Hr <-] Hk Hne. destruct r as [|[b e] r]; [done|].
  apply Forall_cons in Hr as [[Hb He] Hr]; simpl in *; subst e.
  unfold Read. destruct (Z.leb_spec (len b) k) as [Hl|Hl].
  - exists b, r. rewrite drop_app_length. rewrite reads_cons. split_and!; try done; lia.
  - set (n := Z.to_nat k). exists (take n b), ((drop n b, None) :: r).
    assert (Hn : (0 < n < length b)%nat) by (unfold n, len in *; lia).
    assert (Hlt : length (take n b) = n) by (rewrite length_take; lia).
    rewrite Hlt, drop_app_le by lia. split_and!; try done.
    + intros E. apply (f_equal length) in E. rewrite Hlt in E. simpl in E. lia.
    + unfold len. rewrite Hlt. lia.
    + by rewrite app_assoc, take_drop.
    + split; [|done]. constructor; [|done]. split; [|done]. intros E.
      apply (f_equal length) in E. simpl in E. rewrite length_drop in E. lia.
    + rewrite !reads_cons, length_drop. lia.
    + rewrite !reads_cons, length_drop. lia.
Qed.

Lemma clean_nil r : clean r [] -> r = [].
Proof.
  intros [Hr Hc]. destruct r as [|[b e] r]; [done|]. apply Forall_cons in Hr as [[Hb _] _].
  simpl in *. by apply app_nil in Hc as [-> _].
Qed.

End Reader.

(** ** The file descriptor limit *)
Module FdLimit.

Definition defaultFdCur : Z := 65536.
Definition defaultFdMax : Z := 65536.

Record rlimit := Rlimit { Cur : Z; Max : Z }.

(** What the three system calls answer; the limit is the kernel's state. *)
Record answers := Answers { get1 : option error; set_ : option error; get2 : option error }.

Definition setFdLimit (sys : answers) (cur max : Z) (kernel : rlimit) : rlimit * option error :=
  match get1 sys with
  | Some e => (kernel, Some e)
  | None =>
      let new := Rlimit (if cur =? 0 then defaultFdCur else cur)
                        (if max =? 0 then defaultFdMax else max) in
      match set_ sys with
      | Some e => (kernel, Some e)
      | None => (new, get2 sys)
      end
  end.

(** The descriptor limit that the kernel ends up with is the configured one,
    with 65536 in place of a zero; it is only changed if all calls before
    succeed, and an error is reported if any call fails. *)
Theorem setFdLimit_spec (sys : answers) (cur max : Z) (kernel : rlimit) :
  let '(kernel', err) := setFdLimit sys cur max kernel in
  (err = None <-> get1 sys = None /\ set_ sys = None /\ get2 sys = None) /\
  kernel' = match get1 sys, set_ sys with
            | None, None =>
                Rlimit (if cur =? 0 then 65536 else cur) (if max =? 0 then 65536 else max)
            | _, _ => kernel
            end.
Proof.
  destruct sys as [[e|] [e'|] [e''|]]; simpl; (split; [split|]); naive_solver.
Qed.

End FdLimit.

(** ** Seeding the entropy pool *)
Module Entropy.

Definition entropySeedSize : Z := 2048.

(** One round of the loop: what the NSM answers to [GetRandom] and what
    [fd.Write] and the [ioctl] do with the bytes. *)
Inductive nsm_answer :=
  | SendError
  | NoGetRandom
  | Random (random : bytes).

Record seed_round := SeedRound {
  answer : nsm_answer;
  written : Z;               (* bytes that [fd.Write] took *)
  write_err : option error;
  ioctl_ok : bool            (* a failing ioctl is only logged *)
}.

(** The pool: bytes written so far and the entropy credited by the ioctl. *)
Record pool := Pool { totalWritten : Z; credited : Z }.

(** The loop; [None] when the hypervisor has not answered enough rounds yet. *)
Fixpoint seed_loop (rounds : list seed_round) (p : pool) : option (outcome pool) :=
  if totalWritten p <? entropySeedSize then
    match rounds with
    | [] => None
    | r :: rs =>
        match answer r with
        | SendError | NoGetRandom => Some Exit
        | Random bs =>
            if len bs =? 0 then Some Exit
            else match write_err r with
                 | Some _ => Some Exit
                 | None =>
                     seed_loop rs (Pool (totalWritten p + written r)
                       (credited p + if ioctl_ok r then written r else 0))
                 end
        end
    end
  else Some (Done p).

(** [maybeSeedEntropy]: outside an enclave nothing happens; the session and the
    device must open. *)
Definition maybeSeedEntropy (inEnclave session_ok device_ok : bool) (rounds : list seed_round)
    : option (outcome pool) :=
  if negb inEnclave then Some (Done (Pool 0 0))
  else if negb session_ok then Some Exit
  else if negb device_ok then Some Exit
  else seed_loop rounds (Pool 0 0).

(** When the loop ends by itself, enough has been written. *)
Lemma seed_loop_done rounds p p' : seed_loop rounds p = Some (Done p') ->
  entropySeedSize <= totalWritten p'.
Proof.
  revert p. induction rounds as [|r rs IH]; intros p; simpl;
    destruct (Z.ltb_spec (totalWritten p) entropySeedSize); try done; try by intros [= <-].
  destruct (answer r) as [| |bs]; try done. destruct (len bs =? 0), (write_err r); try done. apply IH.
Qed.

Lemma maybeSeedEntropy_done session_ok device_ok rounds p :
  maybeSeedEntropy true session_ok device_ok rounds = Some (Done p) ->
  entropySeedSize <= totalWritten p.
Proof. destruct session_ok, device_ok; try done. apply seed_loop_done. Qed.

(** A round of a working hypervisor and device, as [io.Writer] promises: all
    bytes are taken when no error is reported. *)
Definition good_round (r : seed_round) : Prop :=
  exists bs, answer r = Random bs /\ bs <> [] /\ written r = len bs /\ write_err r = None.

Lemma seed_loop_good rounds p :
  Forall good_round rounds -> 0 <= credited p <= totalWritten p ->
  entropySeedSize <= totalWritten p + len rounds ->
  exists p', seed_loop rounds p = Some (Done p') /\ entropySeedSize <= totalWritten p' /\
    0 <= credited p' <= totalWritten p'.
Proof.
  intros Hr. revert p. induction Hr as [|r rs (bs & Ha & Hbs & Hw & He) _ IH]; intros p Hp Hn; simpl.
  - rewrite len_nil in Hn. destruct (Z.ltb_spec (totalWritten p) entropySeedSize); [lia|].
    eauto with lia.
  - destruct (Z.ltb_spec (totalWritten p) entropySeedSize); [|eauto with lia].
    assert (0 < len bs) by (destruct bs; [done|]; rewrite len_cons; pose proof (len_nonneg bs); lia).
    rewrite Ha, He, (proj2 (Z.eqb_neq _ _)) by lia.
    rewrite len_cons in Hn. apply IH; simpl; [case_match|]; lia.
Qed.

(** C40: Seeding the entropy pool ends, and credits no more entropy than was
    written.  As long as the hypervisor answers with at least one byte per
    round and the device takes the bytes, 2048 rounds are enough; when the
    function returns, at least 2048 bytes have been written to the pool, and
    outside an enclave nothing is done. *)
Theorem maybeSeedEntropy_terminates (rounds : list seed_round) :
  Forall good_round rounds -> entropySeedSize <= len rounds ->
  (exists p, maybeSeedEntropy true true true rounds = Some (Done p) /\
     entropySeedSize <= totalWritten p /\ 0 <= credited p <= totalWritten p) /\
  maybeSeedEntropy false true true rounds = Some (Done (Pool 0 0)).
Proof.
  intros Hr Hn. split; [|done]. apply seed_loop_good; simpl; [done|lia|lia].
Qed.

Lemma maybeSeedEntropy_terminates_witness :
  exists p, maybeSeedEntropy true true true
    (replicate 2048 (SeedRound (Random (str "r")) 1 None true)) = Some (Done p) /\
    totalWritten p >= 2048.
Proof.
  destruct (maybeSeedEntropy_terminates (replicate 2048 (SeedRound (Random (str "r")) 1 None true)))
    as [(p & Hp & Hw & _) _].
  - apply Forall_replicate. exists (str "r"). split_and!; [reflexivity|discriminate|reflexivity..].
  - vm_compute. discriminate.
  - exists p. split; [exact Hp|]. unfold entropySeedSize in Hw. lia.
Defined.

(** A hypervisor that answers with nothing, or not at all, ends the process. *)
Lemma maybeSeedEntropy_exits r rounds :
  (forall bs, answer r = Random bs -> bs = []) ->
  maybeSeedEntropy true true true (r :: rounds) = Some Exit.
Proof.
  intros H. unfold maybeSeedEntropy. simpl. destruct (answer r) as [| |bs]; [done..|].
  by rewrite (H bs).
Qed.

End Entropy.
