(* ===== verification/Scanner.v ===== *)
(** * Scanner: lines of a reader

    [bufio.Scanner] with [ScanLines], as [forwardOutput] of [main.go] uses it: a
    buffer that starts at 4 KiB and doubles up to 64 KiB, refilled from an
    arbitrary reader.  [forwardOutput_lines] gives the lines that come out of it
    for every way in which the reader cuts its data into pieces. *)
From Stdlib Require Import ZArith Lia.
From Stdlib Require Import Strings.Byte Strings.String.
From stdpp Require Import base gmap strings list fin_maps.
From S2P Require Import Prelude Text System.
Import Reader.

Local Open Scope Z_scope.

Definition MaxScanTokenSize : Z := 64 * 1024.
Definition startBufSize : Z := 4096.
Definition maxConsecutiveEmptyReads : nat := 100.

Definition ErrTooLong : error := ErrLib "bufio.Scanner: token too long".
Definition ErrNoProgress : error := ErrLib "multiple Read calls return no data or error".

(** The held bytes [s.buf[s.start:s.end]], [s.start] and [len(s.buf)]. *)
Record Scanner := MkScanner {
  s_r : reader;
  s_held : bytes;
  s_start : Z;
  s_cap : Z;
  s_err : option error
}.

Definition NewScanner (r : reader) : Scanner := MkScanner r [] 0 0 None.

(** [ScanLines]: how far to advance, and the line, if there is one. *)
Definition ScanLines (data : bytes) (atEOF : bool) : Z * option bytes :=
  if atEOF && (len data =? 0) then (0, None)
  else match Cut [newline] data with
       | Some (l, _) => (len l + 1, Some (dropCR l))
       | None => if atEOF then (len data, Some (dropCR data)) else (0, None)
       end.

(** [setErr]: the first error other than EOF is kept. *)
Definition setErr (e : error) (old : option error) : option error :=
  match old with
  | None | Some EOF => Some e
  | _ => old
  end.

(** The reads into the free part of the buffer, of [n] bytes. *)
Fixpoint read_some (tries : nat) (n : Z) (r : reader) : bytes * option error * reader :=
  match tries with
  | O => ([], Some ErrNoProgress, r)
  | S t => let '(b, e, r') := Read n r in
           match e with
           | Some _ => (b, e, r')
           | None => if 0 <? len b then (b, None, r') else read_some t n r'
           end
  end.

(** One round of the loop in [Scan]. *)
Inductive round :=
  | Token (t : bytes) (s : Scanner)   (* [Scan] returns true *)
  | More (s : Scanner)
  | Finished (s : Scanner).           (* [Scan] returns false *)

(** Refill the buffer: shift or enlarge it if necessary, then read. *)
Definition refill (s : Scanner) : round :=
  let start := if (0 <? s_start s) && ((s_start s + len (s_held s) =? s_cap s)
                                       || (s_cap s / 2 <? s_start s))
               then 0 else s_start s in
  let full := start + len (s_held s) =? s_cap s in
  if full && (MaxScanTokenSize <=? s_cap s) then
    Finished (MkScanner (s_r s) (s_held s) start (s_cap s) (setErr ErrTooLong (s_err s)))
  else
    let start := if full then 0 else start in
    let cap := if full then
                 Z.min (if s_cap s * 2 =? 0 then startBufSize else s_cap s * 2) MaxScanTokenSize
               else s_cap s in
    let '(b, e, r') := read_some (S maxConsecutiveEmptyReads) (cap - (start + len (s_held s))) (s_r s) in
    More (MkScanner r' (s_held s ++ b) start cap
            (match e with Some e => setErr e (s_err s) | None => s_err s end)).

Definition scan_round (s : Scanner) : round :=
  let atEOF := bool_decide (is_Some (s_err s)) in
  let '(advance, token) :=
    if (0 <? len (s_held s)) || atEOF then ScanLines (s_held s) atEOF else (0, None) in
  match token with
  | Some t => Token t (MkScanner (s_r s) (drop (Z.to_nat advance) (s_held s)) (s_start s + advance)
                         (s_cap s) (s_err s))
  | None => if atEOF then Finished (MkScanner (s_r s) [] 0 (s_cap s) (s_err s)) else refill s
  end.

(** [Err]: the end of the input is no error. *)
Definition scanner_Err (s : Scanner) : option error :=
  match s_err s with
  | Some EOF => None
  | e => e
  end.

(** [forwardOutput]: the lines passed to [f], and the error that is logged. *)
Fixpoint forward (fuel : nat) (s : Scanner) : list bytes * option error :=
  match fuel with
  | O => ([], Some (ErrLib "out of fuel"))
  | S n => match scan_round s with
           | Token t s' => let '(ts, e) := forward n s' in (t :: ts, e)
           | More s' => forward n s'
           | Finished s' => ([], scanner_Err s')
           end
  end.

(** Every read takes from the reader, every token from the buffer. *)
Definition forwardOutput (r : reader) : list bytes * option error :=
  forward (2 * reads r + 4) (NewScanner r).

(** ** Reference: the lines of a text *)

(** The pieces between newlines, without a final carriage return each; a last
    piece that is empty is not a line.  A piece of 64 KiB or more ends it all. *)
Fixpoint scan_pieces (ws : list bytes) : list bytes * option error :=
  match ws with
  | [] => ([], None)
  | w :: ws' =>
      if bool_decide (ws' = []) && bool_decide (w = []) then ([], None)
      else if MaxScanTokenSize <=? len w then ([], Some ErrTooLong)
      else let '(ts, e) := scan_pieces ws' in (dropCR w :: ts, e)
  end.

(** ** Lemmas *)

#[local] Arguments reads : simpl never.

Lemma read_some_clean k n r data :
  clean r data -> 0 < n -> data <> [] ->
  exists b r', read_some (S k) n r = (b, None, r') /\ b <> [] /\ len b <= n /\
    data = b ++ drop (length b) data /\ clean r' (drop (length b) data) /\ (reads r' + length b <= reads r)%nat.
Proof.
  intros Hc Hn Hd. destruct (Read_clean n r data Hc Hn Hd) as (b & r' & Hr & Hb & Hrest).
  exists b, r'. split; [|naive_solver]. cbn [read_some]. rewrite Hr.
  destruct (Z.ltb_spec 0 (len b)); [done|]. destruct b; [done|]. rewrite len_cons in *.
  pose proof (len_nonneg b0). lia.
Qed.

(** What the rounds keep: the held bytes fit the buffer, and once the end of the
    input was seen, they are shorter than a line may be. *)
Definition scan_inv (s : Scanner) (rest : bytes) : Prop :=
  clean (s_r s) rest /\ 0 <= s_start s /\ s_start s + len (s_held s) <= s_cap s /\
  (s_cap s = 0 \/ startBufSize <= s_cap s <= MaxScanTokenSize) /\
  (s_err s = None \/ s_err s = Some EOF /\ rest = [] /\ len (s_held s) < MaxScanTokenSize).

Definition scan_measure (s : Scanner) : nat :=
  (2 * reads (s_r s) + length (s_held s) + (if bool_decide (s_err s = None) then 2 else 0))%nat.

(** A complete line in the buffer is the next token. *)
Lemma round_line s w h :
  s_held s = w ++ newline :: h -> newline ∉ w ->
  scan_round s = Token (dropCR w) (MkScanner (s_r s) h (s_start s + (len w + 1)) (s_cap s) (s_err s)).
Proof.
  intros Hh Hw. unfold scan_round. rewrite Hh.
  assert (Hl : 0 < len (w ++ newline :: h))
    by (rewrite len_app, len_cons; pose proof (len_nonneg w); pose proof (len_nonneg h); lia).
  rewrite (proj2 (Z.ltb_lt _ _)) by done. cbn [orb]. unfold ScanLines.
  rewrite (proj2 (Z.eqb_neq _ _)) by lia. rewrite andb_false_r, Cut_byte by done.
  do 3 f_equal. replace (Z.to_nat (len w + 1)) with (length (w ++ [newline]))
    by (rewrite length_app; unfold len; simpl; lia).
  by rewrite (app_assoc w [newline] h : w ++ newline :: h = _), drop_app_length.
Qed.

(** Without one, more data is needed, or the rest is the last line. *)
Lemma round_partial s :
  newline ∉ s_held s ->
  scan_round s =
  match s_err s with
  | None => refill s
  | Some _ =>
      if bool_decide (s_held s = []) then Finished (MkScanner (s_r s) [] 0 (s_cap s) (s_err s))
      else Token (dropCR (s_held s))
             (MkScanner (s_r s) [] (s_start s + len (s_held s)) (s_cap s) (s_err s))
  end.
Proof.
  intros Hn%Cut_byte_None. unfold scan_round, ScanLines. rewrite Hn.
  destruct (s_err s) as [e|]; simpl.
  - rewrite orb_true_r. case_bool_decide as Hh.
    + by rewrite Hh.
    + destruct (Z.eqb_spec (len (s_held s)) 0) as [E|_]; [by apply len_zero_inv in E|].
      do 2 f_equal. unfold len. rewrite Nat2Z.id. by rewrite drop_all.
  - by destruct (0 <? len (s_held s)).
Qed.

(** A refill of a scanner that has not seen the end. *)
Lemma refill_spec s rest :
  scan_inv s rest -> s_err s = None ->
  (len (s_held s) = MaxScanTokenSize /\ exists s', refill s = Finished s' /\
     s_err s' = Some ErrTooLong) \/
  (exists s' rest', refill s = More s' /\ scan_inv s' rest' /\
     (scan_measure s' < scan_measure s)%nat /\ s_held s ++ rest = s_held s' ++ rest').
Proof.
  intros (Hc & Hs0 & Hfit & Hcap & _) He. unfold refill. rewrite He.
  pose proof (len_nonneg (s_held s)) as Hh. unfold startBufSize, MaxScanTokenSize in *.
  set (start := if (0 <? s_start s) && _ then 0 else s_start s).
  assert (Hst : 0 <= start /\ start + len (s_held s) <= s_cap s /\
    (start + len (s_held s) = s_cap s -> start = 0)).
  { unfold start. destruct (Z.ltb_spec 0 (s_start s)); simpl; [|lia].
    destruct (Z.eqb_spec (s_start s + len (s_held s)) (s_cap s)); simpl; [lia|].
    destruct (s_cap s / 2 <? s_start s); lia. }
  clearbody start.
  set (full := start + len (s_held s) =? s_cap s).
  assert (Hfull : full = true <-> start + len (s_held s) = s_cap s) by apply Z.eqb_eq.
  destruct (full && (64 * 1024 <=? s_cap s)) eqn:Ef.
  { left. apply andb_prop in Ef as [E1%Hfull E2%Z.leb_le]. split; [lia|]. eexists. by split. }
  right. set (cap := if full then _ else s_cap s). set (start' := if full then 0 else start).
  assert (Hcap' : 0 <= start' /\ start' + len (s_held s) < cap /\ 4096 <= cap <= 64 * 1024).
  { unfold start', cap. destruct full eqn:E.
    - apply proj1 in Hfull. specialize (Hfull eq_refl). simpl in Ef. apply Z.leb_gt in Ef.
      destruct (Z.eqb_spec (s_cap s * 2) 0); lia.
    - assert (start + len (s_held s) <> s_cap s) by (intros H%Hfull; congruence). lia. }
  clearbody cap start'.
  destruct (decide (rest = [])) as [->|Hne].
  - apply clean_nil in Hc. rewrite Hc. cbn [read_some maxConsecutiveEmptyReads Read].
    eexists _, []. split; [reflexivity|]. rewrite !app_nil_r. cbn. split_and!; try done.
    + unfold scan_inv, startBufSize, MaxScanTokenSize. cbn. split_and!; try lia; try done.
      right. split_and!; [done|done|lia].
    + unfold scan_measure. cbn. rewrite He, Hc. cbn. lia.
  - destruct (read_some_clean maxConsecutiveEmptyReads (cap - (start' + len (s_held s)))
      (s_r s) rest Hc) as (b & r' & Hr & Hb & Hlb & Hd & Hc' & Hm); [lia|done|].
    rewrite Hr. eexists _, (drop (length b) rest). split; [reflexivity|]. cbn. split_and!.
    + unfold scan_inv, startBufSize, MaxScanTokenSize. cbn. rewrite len_app.
      split_and!; try lia; try done. by left.
    + unfold scan_measure. cbn -[reads]. rewrite He, length_app. cbn -[reads].
      assert (length b <> 0)%nat by (by destruct b). lia.
    + by rewrite <- app_assoc, <- Hd.
Qed.

(** A piece without a newline is the beginning of the first piece of the rest. *)
Lemma Split_prefix h rest : newline ∉ h ->
  exists w ws, Split newline (h ++ rest) = (h ++ w) :: ws /\ (rest = [] -> w = [] /\ ws = []).
Proof.
  intros Hh. induction h as [|c h IH]; simpl.
  - pose proof (Split_nonempty newline rest) as Hne.
    destruct (Split newline rest) as [|w ws] eqn:E; [done|]. exists w, ws. split; [done|].
    intros ->. by injection E as <- <-.
  - apply not_elem_of_cons in Hh as [Hc Hh]. rewrite bool_decide_eq_false_2 by done.
    destruct (IH Hh) as (w & ws & -> & Hr). eauto.
Qed.

Lemma forward_spec n s rest :
  scan_inv s rest -> (scan_measure s < n)%nat ->
  forward n s = scan_pieces (Split newline (s_held s ++ rest)).
Proof.
  revert s rest. induction n as [|n IH]; intros s rest Hi Hn; [lia|]. cbn [forward].
  pose proof Hi as (Hc & Hs0 & Hfit & Hcap & He).
  assert (Hmax : len (s_held s) <= MaxScanTokenSize) by (unfold MaxScanTokenSize, startBufSize in *; lia).
  destruct (decide (newline ∈ s_held s)) as [Hin|Hin].
  - apply list_elem_of_split_l in Hin as (w & h & Hh & Hw). rewrite (round_line s w h) by done.
    rewrite Hh in *. rewrite len_app, len_cons in *. pose proof (len_nonneg h).
    rewrite (IH _ rest).
    + cbn [s_held]. rewrite <- app_assoc. cbn [app]. rewrite Split_app by done. cbn [scan_pieces].
      rewrite bool_decide_eq_false_2 by apply Split_nonempty. cbn [andb].
      rewrite (proj2 (Z.leb_gt _ _)) by lia. done.
    + unfold scan_inv. cbn. pose proof (len_nonneg w). split_and!; try done; try lia.
      destruct He as [?|(? & ? & ?)]; [by left|right]. split_and!; try done. lia.
    + unfold scan_measure in *. cbn. rewrite Hh, length_app in Hn. simpl in Hn. lia.
  - rewrite round_partial by done. destruct He as [He|(He & -> & Hlt)]; rewrite He.
    + destruct (refill_spec s rest Hi He) as [(Hl & s' & -> & Hs')|(s' & rest' & -> & Hi' & Hm & ->)].
      * unfold scanner_Err. rewrite Hs'.
        destruct (Split_prefix (s_held s) rest Hin) as (w & ws & -> & _). cbn [scan_pieces].
        rewrite (bool_decide_eq_false_2 (_ ++ _ = [])), andb_false_r.
        -- rewrite (proj2 (Z.leb_le _ _)); [done|]. rewrite len_app, Hl.
           pose proof (len_nonneg w). lia.
        -- intros E. apply app_nil in E as [E _]. rewrite E in Hl. done.
      * apply IH; [done|lia].
    + rewrite app_nil_r. case_bool_decide as Hh.
      * rewrite Hh. done.
      * rewrite (IH _ []).
        -- rewrite (Split_word _ (s_held s)) by done. cbn. rewrite bool_decide_eq_false_2 by done.
           rewrite (proj2 (Z.leb_gt _ _)) by done. done.
        -- unfold scan_inv. cbn. pose proof (len_nonneg (s_held s)).
           split_and!; try done; [lia|by rewrite len_nil, Z.add_0_r|by right].
        -- unfold scan_measure in *. rewrite He in Hn. cbn -[reads] in *.
           destruct (s_held s); [done|]. simpl in Hn. lia.
Qed.

(** [forwardOutput] against the reference, however the reader cuts its data. *)
Lemma forwardOutput_pieces r data : clean r data -> forwardOutput r = scan_pieces (Split newline data).
Proof.
  intros Hc. apply (forward_spec _ (NewScanner r) data); [|unfold scan_measure; cbn; lia].
  unfold scan_inv. cbn. split_and!; try done; by left.
Qed.

(** Lines, each with its newline. *)
Definition terminated (ls : list bytes) : bytes := concat ((fun l => l ++ [newline]) <$> ls).

Lemma terminated_cons l ls rest : terminated (l :: ls) ++ rest = l ++ newline :: terminated ls ++ rest.
Proof. unfold terminated. cbn. by rewrite <- !app_assoc. Qed.

Definition line_ok (l : bytes) : Prop := newline ∉ l /\ len l < MaxScanTokenSize.

Lemma scan_terminated ls rest :
  Forall line_ok ls ->
  scan_pieces (Split newline (terminated ls ++ rest)) =
  let '(ts, e) := scan_pieces (Split newline rest) in ((dropCR <$> ls) ++ ts, e).
Proof.
  induction 1 as [|l ls [Hn Hl] _ IH]; [by destruct (scan_pieces _)|].
  rewrite terminated_cons, Split_app by done.
  cbn [scan_pieces]. rewrite bool_decide_eq_false_2 by apply Split_nonempty. cbn [andb].
  rewrite (proj2 (Z.leb_gt _ _)), IH by done. by destruct (scan_pieces (Split newline rest)).
Qed.

(** C24: The application's output is forwarded line by line, as long as its lines are
    short.  However the pipe cuts the output into pieces, reading it ends, and
    the lines passed on are exactly those of the output, in order, without their
    line ends, the last one even if it is not terminated.  But a line of 64 KiB
    or more ends the forwarding with an error: neither it nor anything after it
    is passed on. *)
Theorem forwardOutput_lines (r : reader) (ls : list bytes) (tail rest : bytes) :
  Forall line_ok ls -> newline ∉ tail ->
  (len tail < MaxScanTokenSize -> clean r (terminated ls ++ tail) ->
   forwardOutput r = (dropCR <$> ls ++ (if bool_decide (tail = []) then [] else [tail]), None)) /\
  (MaxScanTokenSize <= len tail -> clean r (terminated ls ++ tail ++ rest) ->
   forwardOutput r = (dropCR <$> ls, Some ErrTooLong)).
Proof.
  intros Hls Ht. split; intros Hl Hc; rewrite (forwardOutput_pieces r _ Hc), scan_terminated by done.
  - rewrite Split_word by done. cbn. case_bool_decide as E; cbn; [by rewrite app_nil_r, app_nil_r|].
    rewrite (proj2 (Z.leb_gt _ _)) by done. cbn. by rewrite fmap_app.
  - destruct (Split_prefix tail rest Ht) as (w & ws & -> & _). cbn [scan_pieces].
    rewrite (bool_decide_eq_false_2 (_ ++ _ = [])), andb_false_r.
    + rewrite (proj2 (Z.leb_le _ _)); [by rewrite app_nil_r|]. rewrite len_app.
      pose proof (len_nonneg w). lia.
    + intros [E _]%app_nil. rewrite E in Hl. done.
Qed.

(** Two lines and an unterminated one, in three pieces; then a line of 70000
    bytes, after which the last line is lost. *)
Lemma forwardOutput_lines_witness :
  forwardOutput [(str "on", None); (str "e" ++ [CR; newline; newline] ++ str "th", None);
                 (str "ree", None)] = ([str "one"; []; str "three"], None) /\
  forwardOutput [(str "one" ++ [newline], None);
                 (replicate (Z.to_nat 70000) Byte.x61 ++ [newline] ++ str "two", None)] =
    ([str "one"], Some ErrTooLong).
Proof.
  split.
  - refine (proj1 (forwardOutput_lines _ [str "one" ++ [CR]; []] (str "three") [] _ _) _ _).
    + apply Forall_cons_2; [|apply Forall_cons_2; [|apply Forall_nil_2]];
        (split; [by apply (bool_decide_eq_false_1 (newline ∈ _))|done]).
    + by apply (bool_decide_eq_false_1 (newline ∈ _)).
    + done.
    + split; [|reflexivity]. repeat constructor; discriminate.
  - refine (proj2 (forwardOutput_lines _ [str "one"] (replicate (Z.to_nat 70000) Byte.x61)
      ([newline] ++ str "two") _ _) _ _).
    + apply Forall_cons_2; [|apply Forall_nil_2].
      split; [by apply (bool_decide_eq_false_1 (newline ∈ _))|done].
    + intros [H _]%elem_of_replicate. discriminate.
    + rewrite len_replicate, Z2Nat.id by lia. unfold MaxScanTokenSize. lia.
    + generalize (replicate (Z.to_nat 70000) Byte.x61). intros long. split.
      * apply Forall_cons_2; [split; [discriminate|reflexivity]|].
        apply Forall_cons_2; [|apply Forall_nil_2]. split; [|reflexivity].
        intros H. by apply app_nil in H as [_ H].
      * cbn [map fst concat]. by rewrite app_nil_r.
Defined.
