(* ===== verification/Http.v ===== *)
(** * Http: requests, response writers, URLs

    The part of [net/http], [net/url] and [net] that the handlers rely on: a
    response writer on which the first [WriteHeader] wins, query strings,
    URLs as map keys, and [net.SplitHostPort]. *)
From Stdlib Require Import ZArith Lia.
From Stdlib Require Import Strings.Byte Strings.String.
From stdpp Require Import base gmap strings list fin_maps.
From S2P Require Import Prelude Codec Text System.

Local Open Scope Z_scope.
Local Notation "a =b b" := (Byte.eqb a b) (at level 70).

(** ** Status codes *)

Definition StatusOK : Z := 200.
Definition StatusBadRequest : Z := 400.
Definition StatusForbidden : Z := 403.
Definition StatusNotFound : Z := 404.
Definition StatusMethodNotAllowed : Z := 405.
Definition StatusGone : Z := 410.
Definition StatusTooManyRequests : Z := 429.
Definition StatusInternalServerError : Z := 500.
Definition StatusBadGateway : Z := 502.
Definition StatusServiceUnavailable : Z := 503.

(** ** The response writer *)

(** Body text is either raw bytes or the text of an error value and a newline,
    as [http.Error(w, err.Error(), code)] writes it. *)
Inductive chunk :=
  | Raw (b : bytes)
  | ErrText (e : error).

Record respw := RespW {
  wstatus : option Z;        (* the status line, once it has been sent *)
  ctype : option string;     (* a Content-Type set before that *)
  wbody : list chunk
}.

Definition new_respw : respw := RespW None None [].

(** A second [WriteHeader] is superfluous: it is logged and ignored. *)
Definition WriteHeader (code : Z) (w : respw) : respw :=
  match wstatus w with
  | None => RespW (Some code) (ctype w) (wbody w)
  | Some _ => w
  end.

Definition Write (c : chunk) (w : respw) : respw :=
  let w' := WriteHeader StatusOK w in
  RespW (wstatus w') (ctype w') (wbody w' ++ [c]).

(** Headers set after the status line has been sent are not sent. *)
Definition set_ctype (t : string) (w : respw) : respw :=
  match wstatus w with
  | None => RespW None (Some t) (wbody w)
  | Some _ => w
  end.

Definition http_Error (e : error) (code : Z) (w : respw) : respw :=
  Write (ErrText e) (WriteHeader code (set_ctype "text/plain; charset=utf-8" w)).

(** [fmt.Fprintln(w, s)]. *)
Definition Fprintln (s : bytes) (w : respw) : respw := Write (Raw (s ++ [Byte.x0a])) w.

(** The status the client sees once the handler has returned. *)
Definition status (w : respw) : Z := default StatusOK (wstatus w).

Lemma status_http_Error e code w : wstatus w = None -> status (http_Error e code w) = code.
Proof. intros H. unfold http_Error, set_ctype. by rewrite H. Qed.

(** ** URLs *)

(** The fields of [url.URL] that the sources set. *)
Record url := URL { Scheme : bytes; Host : bytes; Path : bytes; RawQuery : bytes }.

#[export] Instance url_eq_dec : EqDecision url.
Proof. solve_decision. Defined.

#[export] Program Instance url_countable : Countable url :=
  inj_countable' (fun u => (Scheme u, Host u, Path u, RawQuery u))
                 (fun t => let '(a, b, c, d) := t in URL a b c d) _.
Next Obligation. by intros []. Qed.

(** [u] with the given query, as [reqURL := *u; reqURL.RawQuery = q]. *)
Definition with_query (u : url) (q : bytes) : url := URL (Scheme u) (Host u) (Path u) q.

(** ** Query strings *)

(** [url.QueryUnescape]. *)
Fixpoint QueryUnescape (s : bytes) : option bytes :=
  match s with
  | [] => Some []
  | c :: r =>
      if c =b "%"%byte then
        match r with
        | h :: l :: r' =>
            match fromHexChar h, fromHexChar l, QueryUnescape r' with
            | Some a, Some b, Some t => Some (z2b (a * 16 + b) :: t)
            | _, _, _ => None
            end
        | _ => None
        end
      else match QueryUnescape r with
           | Some t => Some ((if c =b "+"%byte then Byte.x20 else c) :: t)
           | None => None
           end
  end.

(** One [key=value] piece: [None] when it is malformed. *)
Definition query_pair (piece : bytes) : option (bytes * bytes) :=
  if existsb (fun c => c =b ";"%byte) piece then None
  else let '(k, v) := default (piece, []) (Cut ["="%byte] piece) in
       match QueryUnescape k, QueryUnescape v with
       | Some k', Some v' => Some (k', v')
       | _, _ => None
       end.

(** [url.ParseQuery]: the well-formed pairs in order, and whether all were. *)
Fixpoint parse_pieces (ps : list bytes) : list (bytes * bytes) * bool :=
  match ps with
  | [] => ([], true)
  | [] :: r => parse_pieces r
  | p :: r =>
      let '(kvs, ok) := parse_pieces r in
      match query_pair p with
      | Some kv => (kv :: kvs, ok)
      | None => (kvs, false)
      end
  end.

Definition ParseQuery (q : bytes) : list (bytes * bytes) * bool :=
  parse_pieces (Split "&"%byte q).

(** [Values.Get]: the first value of the key, or the empty string. *)
Fixpoint Values_Get (kvs : list (bytes * bytes)) (k : bytes) : bytes :=
  match kvs with
  | [] => []
  | (k', v) :: r => if bool_decide (k' = k) then v else Values_Get r k
  end.

(** ** Requests *)

Inductive method := GET | POST | PUT | DELETE | HEAD.

#[export] Instance method_eq_dec : EqDecision method.
Proof. solve_decision. Defined.

Record request := Request {
  Method : method;
  RUrl : url;
  Body : Reader.reader
}.

(** [r.ParseForm()] on a request whose body is not a form. *)
Definition ParseForm (r : request) : bool := (ParseQuery (RawQuery (RUrl r))).2.

(** [r.URL.Query().Get(k)]. *)
Definition Query_Get (r : request) (k : bytes) : bytes :=
  Values_Get (ParseQuery (RawQuery (RUrl r))).1 k.

(** Characters a query value can hold unescaped. *)
Definition query_plain (c : byte) : bool := is_digit c || is_lower c || is_upper c.

Lemma query_plain_spec c :
  query_plain c = true ->
  (c =b "&"%byte) = false /\ (c =b ";"%byte) = false /\ (c =b "="%byte) = false /\
  (c =b "%"%byte) = false /\ (c =b "+"%byte) = false.
Proof.
  revert c. by apply (all_bytes_spec (fun c => query_plain c = true ->
    (c =b "&"%byte) = false /\ (c =b ";"%byte) = false /\ (c =b "="%byte) = false /\
    (c =b "%"%byte) = false /\ (c =b "+"%byte) = false)).
Qed.

Lemma QueryUnescape_plain s :
  Forall (fun c => query_plain c = true) s -> QueryUnescape s = Some s.
Proof.
  induction 1 as [|c s Hc _ IH]; [done|]. simpl.
  destruct (query_plain_spec c Hc) as (_ & _ & _ & -> & ->). by rewrite IH.
Qed.

Lemma query_plain_not_elem x s : query_plain x = false ->
  Forall (fun c => query_plain c = true) s -> x ∉ s.
Proof. rewrite Forall_forall. intros Hx Hs Hin. apply Hs in Hin. congruence. Qed.

(** A query with a single plain [key=value] pair. *)
Lemma ParseQuery_pair k v :
  k <> [] -> Forall (fun c => query_plain c = true) k ->
  Forall (fun c => query_plain c = true) v ->
  ParseQuery (k ++ "="%byte :: v) = ([(k, v)], true).
Proof.
  intros Hne Hk Hv. unfold ParseQuery. rewrite Split_word.
  2:{ apply (query_plain_not_elem "&"%byte) in Hk, Hv; [|done..]. set_solver. }
  destruct k as [|c k]; [done|]. cbn [app parse_pieces]. unfold query_pair.
  change (c :: k ++ "="%byte :: v) with ((c :: k) ++ "="%byte :: v).
  destruct (existsb _ _) eqn:E.
  { apply existsb_exists in E as (x & Hx%list_elem_of_In & E). exfalso.
    apply elem_of_app in Hx as [Hx|Hx].
    - rewrite Forall_forall in Hk. apply Hk, query_plain_spec in Hx as (_ & Hx & _). congruence.
    - apply elem_of_cons in Hx as [->|Hx]; [done|].
      rewrite Forall_forall in Hv. apply Hv, query_plain_spec in Hx as (_ & Hx & _). congruence. }
  rewrite Cut_byte by by apply query_plain_not_elem. cbn [default from_option id].
  by rewrite !QueryUnescape_plain.
Qed.

(** ** [net.SplitHostPort] *)

Definition has (c : byte) (s : bytes) : bool := existsb (fun x => x =b c) s.

(** Split at the last occurrence of a byte. *)
Fixpoint cut_last (sep : byte) (s : bytes) : option (bytes * bytes) :=
  match s with
  | [] => None
  | c :: r =>
      match cut_last sep r with
      | Some (a, b) => Some (c :: a, b)
      | None => if c =b sep then Some ([], r) else None
      end
  end.

Definition addrError : error := ErrLib "net.AddrError".

Definition SplitHostPort (hostport : bytes) : result (bytes * bytes) :=
  match cut_last ":"%byte hostport with
  | None => Err addrError
  | Some (before, port) =>
      match hostport with
      | "["%byte :: rest =>
          match Cut ["]"%byte] rest with
          | None => Err addrError
          | Some (host, after) =>
              (* the bracket must be right before the last colon *)
              if bool_decide (after = ":"%byte :: port) then
                if has "["%byte rest || has "]"%byte after then Err addrError
                else Ok (host, port)
              else Err addrError
          end
      | _ =>
          if has ":"%byte before || has "["%byte hostport || has "]"%byte hostport
          then Err addrError
          else Ok (before, port)
      end
  end.

Lemma has_app c s t : has c (s ++ t) = has c s || has c t.
Proof. apply existsb_app. Qed.

Lemma cut_last_none sep s : has sep s = false -> cut_last sep s = None.
Proof.
  induction s as [|c s IH]; [done|]. simpl. intros [Hc Hs]%orb_false_elim.
  by rewrite IH, Hc.
Qed.

Lemma cut_last_at sep s t :
  has sep t = false -> cut_last sep (s ++ sep :: t) = Some (s, t).
Proof.
  intros Ht. induction s as [|c s IH]; simpl; [|by rewrite IH].
  by rewrite cut_last_none, Byte.byte_dec_lb by done.
Qed.

(** A host name without colons and brackets, joined with a port, splits back. *)
Lemma SplitHostPort_join host port :
  (forall c, c ∈ [":"; "["; "]"]%byte -> has c host = false /\ has c port = false) ->
  SplitHostPort (host ++ ":"%byte :: port) = Ok (host, port).
Proof.
  intros H. destruct (H ":"%byte) as [Hc Hc']; [by constructor|].
  destruct (H "["%byte) as [Ho Ho']; [by apply (bool_decide_unpack _)|].
  destruct (H "]"%byte) as [Hcl Hcl']; [by apply (bool_decide_unpack _)|].
  unfold SplitHostPort. rewrite cut_last_at by done.
  assert (Hno : has ":"%byte host || has "["%byte (host ++ ":"%byte :: port)
    || has "]"%byte (host ++ ":"%byte :: port) = false).
  { rewrite !has_app. simpl. by rewrite Hc, Ho, Hcl, Ho', Hcl'. }
  rewrite Hno.
  destruct host as [|x host]; [done|]. simpl in Ho. apply orb_false_elim in Ho as [Hx _].
  simpl app. destruct x; done.
Qed.

Example SplitHostPort_examples :
  SplitHostPort (str "[::1]:443") = Ok (str "::1", str "443") /\
  SplitHostPort (str "a.b:1:2") = Err addrError /\
  SplitHostPort (str "localhost") = Err addrError /\
  SplitHostPort (str ":80") = Ok ([], str "80").
Proof. vm_compute. done. Qed.
