(* ===== verification/Nonce.v ===== *)
(** * Nonce: [nonce.go] and the nonce helpers of [util.go]

    Creation of nonces from the random source, their hexadecimal form in a
    query string, and their extraction from a request. *)
From Stdlib Require Import ZArith Lia.
From Stdlib Require Import Strings.Byte Strings.String.
From stdpp Require Import base gmap strings list fin_maps.
From S2P Require Import Prelude Codec System Http.

Local Open Scope Z_scope.

Definition nonceLen : Z := 20.

(** [type nonce [nonceLen]byte]: twenty bytes. *)
Abbreviation nonce := bytes.
Definition nonce_ok (n : nonce) : Prop := length n = 20%nat.

(** [nonce{}]. *)
Definition zero_nonce : nonce := replicate 20 Byte.x00.

(** One call of [cryptoRead(b)]: the count and error it returns and the bytes
    it stores. *)
Record rand_read := RandRead { rand_n : Z; rand_err : option error; rand_bytes : bytes }.

Definition newNonce (rd : rand_read) : result nonce :=
  match rand_err rd with
  | Some e => Err e
  | None =>
      if negb (rand_n rd =? nonceLen) then Err errNotEnoughRead
      else Ok (copy_array 20 (rand_bytes rd))
  end.

(** [(n *nonce) b64()]. *)
Definition nonce_b64 (n : nonce) : bytes := b64_Encode n.

Definition sliceToNonce (s : bytes) : result nonce :=
  if negb (len s =? nonceLen) then Err errBadSliceLen
  else Ok (copy_array 20 (take 20 s)).

Definition getNonceFromReq (r : request) : result nonce :=
  if negb (ParseForm r) then Err errBadForm
  else
    let strNonce := Query_Get r (str "nonce") in
    if bool_decide (strNonce = []) then Err errNoNonce
    else match hex_Decode (ToLower strNonce) with
         | Err _ => Err errBadNonceFormat
         | Ok rawNonce =>
             match sliceToNonce rawNonce with
             | Err e => Err e
             | Ok n => Ok n
             end
         end.

(** [fmt.Sprintf("nonce=%x", n)], the query both kinds of request carry. *)
Definition nonce_query (n : nonce) : bytes := str "nonce=" ++ hex_Encode n.

(** ** Lemmas *)

Lemma newNonce_ok rd n : newNonce rd = Ok n -> nonce_ok n.
Proof.
  unfold newNonce. intros H. inv_matches H. apply length_copy_array.
Qed.

Lemma sliceToNonce_spec s n : sliceToNonce s = Ok n <-> s = n /\ nonce_ok n.
Proof.
  unfold sliceToNonce, nonce_ok, nonceLen, len.
  destruct (Z.eqb_spec (Z.of_nat (length s)) 20) as [E|E]; simpl.
  - assert (Hs : length s = 20%nat) by lia.
    rewrite (take_ge s) by lia. rewrite <- Hs at 1. rewrite copy_array_id. naive_solver.
  - split; [done|]. intros [-> ?]. lia.
Qed.

Lemma sliceToNonce_nonce n : nonce_ok n -> sliceToNonce n = Ok n.
Proof. intros. by apply sliceToNonce_spec. Qed.

Lemma nonce_b64_inj n m : nonce_b64 n = nonce_b64 m -> n = m.
Proof. apply b64_Encode_inj. Qed.

Lemma hex_Encode_query_plain s : Forall (fun c => query_plain c = true) (hex_Encode s).
Proof.
  assert (Hc : forall n, 0 <= n < 16 -> query_plain (hex_char n) = true)
    by by apply (range_spec (fun n => query_plain (hex_char n) = true) 0 16).
  induction s as [|b s IH]; [constructor|]. pose proof (b2z_bound b). simpl.
  repeat constructor; try done; apply Hc; [|apply Z.mod_pos_bound; lia].
  split; [apply Z.div_pos; lia | apply Z.div_lt_upper_bound; lia].
Qed.

(** The worker reads the nonce that the leader wrote into the query. *)
Lemma getNonceFromReq_query r n :
  nonce_ok n -> RawQuery (RUrl r) = nonce_query n -> getNonceFromReq r = Ok n.
Proof.
  intros Hn Hq. unfold getNonceFromReq, ParseForm, Query_Get. rewrite Hq.
  assert (HP : ParseQuery (nonce_query n) = ([(str "nonce", hex_Encode n)], true)).
  { change (nonce_query n) with (str "nonce" ++ "="%byte :: hex_Encode n).
    apply ParseQuery_pair; [done|by repeat constructor|apply hex_Encode_query_plain]. }
  rewrite HP. cbn [fst snd negb Values_Get].
  rewrite (bool_decide_eq_true_2 (str "nonce" = str "nonce")) by done.
  rewrite bool_decide_eq_false_2 by (by destruct n).
  rewrite ToLower_hex_Encode, hex_Decode_Encode.
  by rewrite (proj2 (sliceToNonce_spec n n)).
Qed.

(** A request is accepted exactly when its query parses and its [nonce]
    parameter is, up to case, the hexadecimal form of a 20-byte nonce; the
    accepted nonce is the one that was encoded.  In particular an accepted
    nonce is always 20 bytes long and no two nonces are confused. *)
Theorem getNonceFromReq_iff (r : request) (n : nonce) :
  getNonceFromReq r = Ok n <->
  ParseForm r = true /\ nonce_ok n /\
  hex_Decode (ToLower (Query_Get r (str "nonce"))) = Ok n.
Proof.
  unfold getNonceFromReq. destruct (ParseForm r); simpl; [|naive_solver].
  case_bool_decide as E.
  - rewrite E. simpl. split; [done|]. intros (_ & Hn & [= <-]). done.
  - destruct (hex_Decode _) as [raw|]; [|naive_solver].
    pose proof (sliceToNonce_spec raw n) as H. destruct (sliceToNonce raw); naive_solver.
Qed.

(** The nonce that [newNonce] made survives the trip through the query
    string that [makeLeaderRequest] and [syncWith] build: the peer's
    [getNonceFromReq] returns the same nonce. *)
Theorem nonce_query_roundtrip (rd : rand_read) (n : nonce) (r : request) :
  newNonce rd = Ok n -> RawQuery (RUrl r) = nonce_query n -> getNonceFromReq r = Ok n.
Proof. intros Hn Hq. apply getNonceFromReq_query; [by eapply newNonce_ok | done]. Qed.

Definition example_read : rand_read := RandRead 20 None (str "abcdefghijklmnopqrst").
Definition example_request : request :=
  Request GET (URL [] [] [] (str "nonce=6162636465666768696A6b6c6d6e6f7071727374")) [].

Lemma nonce_query_roundtrip_witness :
  getNonceFromReq (Request GET (URL [] [] [] (nonce_query (str "abcdefghijklmnopqrst"))) []) =
  Ok (str "abcdefghijklmnopqrst").
Proof.
  apply (nonce_query_roundtrip example_read); [vm_compute; reflexivity | reflexivity].
Defined.
