(* ===== verification/Errors.v ===== *)
(** * Errors: the texts of errors

    What [Error()] returns, which is what [http.Error] sends to clients and what
    heartbeats are counted under: the sentinels of each source file and wrapped
    errors.  The texts of errors that libraries make are a parameter. *)
From Stdlib Require Import ZArith Lia.
From Stdlib Require Import Strings.Byte Strings.String.
From stdpp Require Import base gmap strings list fin_maps.
From S2P Require Import Prelude Codec Nonce.

Local Open Scope Z_scope.

(** [nonceNumDigits]. *)
Definition nonceNumDigits : Z := nonceLen * 2.

Definition attestation_error (e : error) : option bytes :=
  match e with
  | errBadForm => Some (str "failed to parse POST form data")
  | errNoNonce => Some (str "could not find nonce in URL query parameters")
  | errBadNonceFormat => Some (str "unexpected nonce format; must be " ++ dec_Print nonceNumDigits ++
      str "-digit hex string")
  | errFailedAttestation => Some (str "failed to obtain attestation document from hypervisor")
  | errProfilingSet => Some (str "attestation disabled because profiling is enabled")
  | _ => None
  end.

Definition attester_error (e : error) : option bytes :=
  match e with
  | errPCRMismatch => Some (str "PCR values differ")
  | errNonceMismatch => Some (str "nonce is unexpected")
  | errNoAttstnFromNSM => Some (str "NSM device did not return an attestation")
  | _ => None
  end.

(** The error at the end of the dummy attester's verification. *)
Definition dummy_error (e : error) : option bytes :=
  match e with
  | errInvalidAux => Some (str "invalid auxiliary information")
  | _ => None
  end.

Definition enclave_error (e : error) : option bytes :=
  match e with
  | errCfgMissingFQDN => Some (str "given config is missing FQDN")
  | errCfgMissingPort => Some (str "given config is missing port")
  | _ => None
  end.

Definition handlers_error (e : error) : option bytes :=
  match e with
  | errFailedReqBody => Some (str "failed to read request body")
  | errHashWrongSize => Some (str "given hash is of invalid size")
  | errNoBase64 => Some (str "no Base64 given")
  | errDesignationInProgress => Some (str "leader designation in progress")
  | errEndpointGone => Some (str "endpoint not meant to be used")
  | errKeySyncDisabled => Some (str "key synchronization is disabled")
  | _ => None
  end.

(** The function [errNo200]. *)
Definition no200_error (e : error) : option bytes :=
  match e with
  | errNo200 code => Some (str "peer responded with HTTP code " ++ dec_Print code)
  | _ => None
  end.

Definition sync_leader_error (e : error) : option bytes :=
  match e with
  | errExpectedEmptyKeys => Some (str "expected encrypted keys to be unset")
  | _ => None
  end.

Definition sync_worker_error (e : error) : option bytes :=
  match e with
  | errInProgress => Some (str "key sync already in progress")
  | errFailedToDecrypt => Some (str "error decrypting enclave keys")
  | errHashNotInAttstn => Some (str "hash of encrypted keys not in attestation document")
  | _ => None
  end.

Definition certcache_error (e : error) : option bytes :=
  match e with
  | errUninitializedCert => Some (str "certificate not yet initialized")
  | _ => None
  end.

Definition nonce_error (e : error) : option bytes :=
  match e with
  | errNotEnoughRead => Some (str "failed to read enough random bytes")
  | _ => None
  end.

Definition system_error (e : error) : option bytes :=
  match e with
  | errTooMuchToRead => Some (str "reached read limit")
  | _ => None
  end.

Definition util_error (e : error) : option bytes :=
  match e with
  | errBadSliceLen => Some (str "slice is not of same length as nonce")
  | _ => None
  end.

(** The sentinels of all files. *)
Definition source_errors : list (error -> option bytes) :=
  [attestation_error; attester_error; dummy_error; enclave_error; handlers_error; no200_error;
   sync_leader_error; sync_worker_error; certcache_error; nonce_error; system_error; util_error].

Definition source_text (e : error) : option bytes :=
  foldr (fun f rest => match f e with Some t => Some t | None => rest end) None source_errors.

(** [err.Error()], for the texts [lib] of library errors. *)
Fixpoint Error (lib : error -> bytes) (e : error) : bytes :=
  match e with
  | Wrap ctx e' => str ctx ++ str ": " ++ Error lib e'
  | _ => default (lib e) (source_text e)
  end.

(** Every error of the sources has its text, which does not depend on the
    libraries, and no two of them have the same. *)
Definition sentinels : list error :=
  [errCfgMissingFQDN; errCfgMissingPort; errFailedReqBody; errHashWrongSize; errNoBase64;
   errDesignationInProgress; errEndpointGone; errKeySyncDisabled; errBadSliceLen; errBadForm;
   errNoNonce; errBadNonceFormat; errFailedAttestation; errProfilingSet; errPCRMismatch;
   errNonceMismatch; errNoAttstnFromNSM; errInvalidAux; errInProgress; errFailedToDecrypt;
   errHashNotInAttstn; errExpectedEmptyKeys; errNotEnoughRead; errTooMuchToRead;
   errUninitializedCert].

Lemma sentinel_texts : Forall (fun e => is_Some (source_text e)) sentinels /\
  NoDup (source_text <$> sentinels).
Proof. split; apply (bool_decide_unpack _); vm_compute; exact I. Qed.

Lemma NoDup_fmap_inj {A C} (f : A -> C) l x y :
  NoDup (f <$> l) -> x ∈ l -> y ∈ l -> f x = f y -> x = y.
Proof.
  intros Hnd Hx Hy E. apply list_elem_of_lookup in Hx as [i Hi], Hy as [j Hj].
  assert (i = j) as ->; [|congruence].
  eapply (NoDup_lookup (f <$> l)); [done| |]; rewrite list_lookup_fmap, ?Hi, ?Hj; simpl; [done|congruence].
Qed.

Lemma Error_sentinel lib e : e ∈ sentinels -> exists t, source_text e = Some t /\ Error lib e = t.
Proof.
  intros He. destruct (proj1 (Forall_forall _ _) (proj1 sentinel_texts) e He) as [t Ht].
  exists t. split; [done|]. destruct e; simpl in *; try discriminate Ht; by injection Ht.
Qed.

Lemma Error_sentinel_inj lib e1 e2 :
  e1 ∈ sentinels -> e2 ∈ sentinels -> Error lib e1 = Error lib e2 -> e1 = e2.
Proof.
  intros H1 H2 E. apply (NoDup_fmap_inj source_text sentinels); [apply sentinel_texts|done|done|].
  destruct (Error_sentinel lib e1 H1) as (t1 & -> & <-), (Error_sentinel lib e2 H2) as (t2 & -> & <-).
  by rewrite E.
Qed.
