(* ===== verification/Keys.v ===== *)
(** * Keys: [enclave_keys.go]

    The key material of an enclave, its accessors, the digest that heartbeats
    compare and the JSON form in which the leader sends it to workers.  Every
    accessor holds the mutex for its whole body, so each is one atomic step;
    [set] is two of them. *)
From Stdlib Require Import ZArith Lia.
From Stdlib Require Import Strings.Byte Strings.String.
From stdpp Require Import base gmap strings list fin_maps.
From S2P Require Import Prelude Codec Sha256 Json.

Local Open Scope Z_scope.

Record enclaveKeys := EnclaveKeys {
  NitridingKey : slice;
  NitridingCert : slice;
  AppKeys : slice
}.

(** [&enclaveKeys{}]. *)
Definition no_keys : enclaveKeys := EnclaveKeys None None None.

#[export] Instance enclaveKeys_eq_dec : EqDecision enclaveKeys.
Proof. solve_decision. Defined.

(** [e1.equal(e2)]. *)
Definition keys_equal (e1 e2 : enclaveKeys) : bool :=
  bytes_Equal (NitridingCert e1) (NitridingCert e2) &&
  bytes_Equal (NitridingKey e1) (NitridingKey e2) &&
  bytes_Equal (AppKeys e1) (AppKeys e2).

Definition setAppKeys (appKeys : slice) (e : enclaveKeys) : enclaveKeys :=
  EnclaveKeys (NitridingKey e) (NitridingCert e) appKeys.

Definition setNitridingKeys (key cert : slice) (e : enclaveKeys) : enclaveKeys :=
  EnclaveKeys key cert (AppKeys e).

(** The two critical sections of [set], in order. *)
Definition set_steps (newKeys : enclaveKeys) : list (enclaveKeys -> enclaveKeys) :=
  [setAppKeys (AppKeys newKeys);
   setNitridingKeys (NitridingKey newKeys) (NitridingCert newKeys)].

Definition keys_set (newKeys e : enclaveKeys) : enclaveKeys :=
  fold_left (fun e f => f e) (set_steps newKeys) e.

Definition keys_copy (e : enclaveKeys) : enclaveKeys :=
  EnclaveKeys (NitridingKey e) (NitridingCert e) (AppKeys e).

Definition getAppKeys (e : enclaveKeys) : slice := AppKeys e.

(** [append(append(e.NitridingCert, e.NitridingKey...), e.AppKeys...)]. *)
Definition key_material (e : enclaveKeys) : bytes :=
  (sbytes (NitridingCert e) ++ sbytes (NitridingKey e)) ++ sbytes (AppKeys e).

Definition hashAndB64 (e : enclaveKeys) : bytes := b64_Encode (Sum256 (key_material e)).

(** ** JSON *)

(** [json.Marshal]: the embedded mutex has no exported field. *)
Definition keys_json (e : enclaveKeys) : json :=
  JObj [(str "nitriding_key", of_slice (NitridingKey e));
        (str "nitriding_cert", of_slice (NitridingCert e));
        (str "app_keys", of_slice (AppKeys e))].

Definition keys_Marshal (e : enclaveKeys) : bytes := json_Print (keys_json e).

Definition keys_fields : list (bytes * field enclaveKeys) :=
  [(str "nitriding_key", bytes_field (fun b e => EnclaveKeys b (NitridingCert e) (AppKeys e)));
   (str "nitriding_cert", bytes_field (fun b e => EnclaveKeys (NitridingKey e) b (AppKeys e)));
   (str "app_keys", bytes_field (fun b e => EnclaveKeys (NitridingKey e) (NitridingCert e) b))].

(** [json.Unmarshal(data, &keys)] into a zero [enclaveKeys]. *)
Definition keys_Unmarshal (data : bytes) : enclaveKeys * option error :=
  Unmarshal keys_fields data no_keys.

(** ** Lemmas *)

Lemma keys_set_eq newKeys e : keys_set newKeys e = newKeys.
Proof. by destruct newKeys. Qed.

Lemma keys_copy_eq e : keys_copy e = e.
Proof. by destruct e. Qed.

Lemma keys_Unmarshal_Marshal e : keys_Unmarshal (keys_Marshal e) = (e, None).
Proof.
  destruct e as [k c a]. unfold keys_Unmarshal, keys_Marshal, keys_json.
  destruct (of_slice_ok k) as [Hk Dk], (of_slice_ok c) as [Hc Dc], (of_slice_ok a) as [Ha Da].
  rewrite Unmarshal_Print.
  - by store_members.
  - cbn -[of_slice]. by rewrite Hk, Hc, Ha.
  - cbn -[of_slice]. rewrite Dk, Dc, Da. done.
Qed.

(** The application keys take up their Base64 form in the JSON text. *)
Lemma len_keys_Marshal e : b64_EncodedLen (len (sbytes (AppKeys e))) <= len (keys_Marshal e).
Proof.
  assert (Hq : forall b, b64_EncodedLen (len (sbytes b)) <= len (json_Print (of_slice b))).
  { intros [b|]; [|done]. cbn [of_slice sbytes default]. rewrite json_Print_JStr.
    rewrite len_quote_plain by apply b64_Encode_plain. rewrite len_b64_Encode. unfold id. lia. }
  specialize (Hq (AppKeys e)). unfold keys_Marshal, keys_json. rewrite json_Print_JObj.
  unfold print_member. cbn [map sep_by fst snd].
  repeat (rewrite len_cons || rewrite len_app).
  repeat match goal with |- context [len ?x] =>
    lazymatch goal with H : 0 <= len x |- _ => fail | _ => pose proof (len_nonneg x) end end.
  lia.
Qed.

Lemma len_hashAndB64 e : len (hashAndB64 e) = 44.
Proof. unfold hashAndB64. rewrite len_b64_Encode, len_Sum256. done. Qed.

Lemma hashAndB64_nonempty e : hashAndB64 e <> [].
Proof. intros E. pose proof (len_hashAndB64 e) as H. rewrite E in H. done. Qed.

Lemma keys_equal_material e1 e2 : keys_equal e1 e2 = true -> key_material e1 = key_material e2.
Proof.
  unfold keys_equal, key_material. intros [[Hc Hk]%andb_prop Ha]%andb_prop.
  rewrite !bytes_Equal_eq in *. by rewrite Hc, Hk, Ha.
Qed.

Lemma keys_equal_refl e : keys_equal e e = true.
Proof. unfold keys_equal. by rewrite !(proj2 (bytes_Equal_eq _ _)). Qed.

(** Key material survives the synchronization's JSON encoding unchanged:
    what a worker unmarshals from the leader's [json.Marshal(s.keys.copy())] is
    the leader's key material field by field, nil slices included, and no
    error is reported. *)
Theorem keys_json_roundtrip (e old : enclaveKeys) :
  keys_Unmarshal (keys_Marshal (keys_copy e)) = (e, None) /\ keys_set e old = e.
Proof. rewrite keys_copy_eq, keys_set_eq. split; [apply keys_Unmarshal_Marshal | done]. Qed.

(** C35: The digest in a heartbeat tells whether worker and leader hold the same
    key material: equal keys have equal digests, and as long as SHA-256 does
    not collide on the two materials, equal digests mean that the
    concatenations certificate, key, application keys are the same bytes; for
    certificates and keys of the same sizes this is equality of the keys. *)
Theorem hashAndB64_compares_keys (e1 e2 : enclaveKeys) :
  (keys_equal e1 e2 = true -> hashAndB64 e1 = hashAndB64 e2) /\
  ((Sum256 (key_material e1) = Sum256 (key_material e2) ->
      key_material e1 = key_material e2) ->
   hashAndB64 e1 = hashAndB64 e2 ->
   key_material e1 = key_material e2 /\
   (len (sbytes (NitridingCert e1)) = len (sbytes (NitridingCert e2)) ->
    len (sbytes (NitridingKey e1)) = len (sbytes (NitridingKey e2)) ->
    keys_equal e1 e2 = true)).
Proof.
  split; [intros H%keys_equal_material; unfold hashAndB64; by rewrite H|].
  intros Hcol E%b64_Encode_inj. specialize (Hcol E). split; [done|]. intros Hc Hk. unfold key_material, len in *.
  rewrite <- !app_assoc in Hcol. apply app_inj_1 in Hcol as [E1 Hcol]; [|lia].
  apply app_inj_1 in Hcol as [E2 E3]; [|lia].
  unfold keys_equal. rewrite !andb_true_iff, !bytes_Equal_eq. done.
Qed.

Lemma hashAndB64_compares_keys_witness :
  hashAndB64 (EnclaveKeys (Some (str "k")) (Some (str "c")) None) =
  hashAndB64 (EnclaveKeys (Some (str "k")) (Some (str "c")) (Some [])).
Proof.
  apply (hashAndB64_compares_keys (EnclaveKeys (Some (str "k")) (Some (str "c")) None)
    (EnclaveKeys (Some (str "k")) (Some (str "c")) (Some []))).
  vm_compute. reflexivity.
Defined.

(** The concatenation has no boundaries: different keys, same digest. *)
Example hashAndB64_boundaries :
  let e1 := EnclaveKeys (Some (str "b")) (Some (str "a")) None in
  let e2 := EnclaveKeys None (Some (str "a")) (Some (str "b")) in
  keys_equal e1 e2 = false /\ hashAndB64 e1 = hashAndB64 e2.
Proof. split; [by vm_compute|done]. Qed.
