(* ===== verification/Attestation.v ===== *)
(** * Attestation: [attestation.go]

    The hashes that attestation documents carry, their serialization, and the
    comparison of platform configuration registers. *)
From Stdlib Require Import ZArith Lia.
From Stdlib Require Import Strings.Byte Strings.String.
From stdpp Require Import base gmap strings list fin_maps.
From S2P Require Import Prelude Codec Sha256.

Local Open Scope Z_scope.

(** ** Hashes over public key material *)

(** The multihash prefix: SHA-256 and its size. *)
Definition hashPrefix : bytes := [Byte.x12; z2b sha256_Size].

Record AttestationHashes := Hashes { tlsKeyHash : bytes; appKeyHash : bytes }.

(** Both fields are [[sha256.Size]byte] arrays. *)
Definition hashes_ok (a : AttestationHashes) : Prop :=
  len (tlsKeyHash a) = sha256_Size /\ len (appKeyHash a) = sha256_Size.

(** [new(AttestationHashes)]. *)
Definition zero_hashes : AttestationHashes :=
  Hashes (replicate 32 Byte.x00) (replicate 32 Byte.x00).

Definition Serialize (a : AttestationHashes) : bytes :=
  let ser := [] in
  let ser := ser ++ (hashPrefix ++ tlsKeyHash a) in
  ser ++ (hashPrefix ++ appKeyHash a).

Lemma Serialize_app a : Serialize a = hashPrefix ++ tlsKeyHash a ++ hashPrefix ++ appKeyHash a.
Proof. unfold Serialize. by rewrite app_nil_l, <- app_assoc. Qed.

Lemma len_Serialize a : hashes_ok a -> len (Serialize a) = 68.
Proof. intros [Ht Ha]. unfold Serialize. len_simp. rewrite Ht, Ha. done. Qed.

(** A verifier that knows the layout finds both hashes: the serialization is
    68 bytes long, the TLS key hash is at offset 2 and the application key hash
    at offset 36, each behind the multihash prefix, so different hashes never
    serialize to the same bytes. *)
Theorem Serialize_layout (a b : AttestationHashes) :
  hashes_ok a -> hashes_ok b ->
  len (Serialize a) = 2 * (2 + sha256_Size) /\
  take 2 (Serialize a) = hashPrefix /\
  take 32 (drop 2 (Serialize a)) = tlsKeyHash a /\
  take 2 (drop 34 (Serialize a)) = hashPrefix /\
  drop 36 (Serialize a) = appKeyHash a /\
  (Serialize a = Serialize b -> a = b).
Proof.
  intros Ha Hb. rewrite len_Serialize by done. destruct Ha as [Ht Ha], Hb as [Ht' Hb].
  assert (Lt : length (tlsKeyHash a) = 32%nat) by (unfold len, sha256_Size in *; lia).
  assert (Lt' : length (tlsKeyHash b) = 32%nat) by (unfold len, sha256_Size in *; lia).
  rewrite !Serialize_app.
  assert (Hp : length hashPrefix = 2%nat) by done.
  split_and!; [done| | | | |].
  - by rewrite take_app_length'.
  - by rewrite drop_app_length', take_app_length'.
  - rewrite (app_assoc hashPrefix), drop_app_length' by (rewrite length_app; lia).
    by rewrite take_app_length'.
  - rewrite (app_assoc hashPrefix), drop_app_ge by (rewrite length_app; lia).
    rewrite length_app, Lt, Hp. by apply drop_app_length'.
  - intros E. apply app_inv_head, app_inj_1 in E as [E1 E2%app_inv_head]; [|lia].
    destruct a, b. simpl in *. by subst.
Qed.

Lemma Serialize_layout_witness :
  len (Serialize zero_hashes) = 2 * (2 + sha256_Size) /\
  take 2 (Serialize zero_hashes) = hashPrefix.
Proof.
  destruct (Serialize_layout zero_hashes zero_hashes) as (H1 & H2 & _);
    [by split|by split|]. by split.
Defined.

(** ** Platform configuration registers *)

Abbreviation pcrs := (gmap N bytes).

(** The body of the loop for one register. *)
Definition pcr_matches (theirPCRs : pcrs) (kv : N * bytes) : bool :=
  if (kv.1 =? 4)%N then true
  else match theirPCRs !! kv.1 with
       | None => false
       | Some theirValue => bool_decide (kv.2 = theirValue)
       end.

Definition arePCRsIdentical (ourPCRs theirPCRs : pcrs) : bool :=
  if negb (size ourPCRs =? size theirPCRs)%nat then false
  else forallb (pcr_matches theirPCRs) (map_to_list ourPCRs).

Lemma arePCRsIdentical_spec ours theirs :
  arePCRsIdentical ours theirs = true <->
  size ours = size theirs /\
  forall pcr v, pcr <> 4%N -> ours !! pcr = Some v -> theirs !! pcr = Some v.
Proof.
  unfold arePCRsIdentical. destruct (Nat.eqb_spec (size ours) (size theirs)) as [Hs|Hs]; simpl;
    [|naive_solver].
  rewrite forallb_forall. split.
  - intros H. split; [done|]. intros pcr v Hne Hv.
    specialize (H (pcr, v)). rewrite <- list_elem_of_In, elem_of_map_to_list in H.
    specialize (H Hv). unfold pcr_matches in H. simpl in H.
    destruct (N.eqb_spec pcr 4); [done|]. case_match; [|done].
    apply bool_decide_eq_true in H. by subst.
  - intros [_ H] [pcr v] Hin%list_elem_of_In%elem_of_map_to_list. unfold pcr_matches. simpl.
    destruct (N.eqb_spec pcr 4) as [|Hne]; [done|]. rewrite (H pcr v Hne Hin).
    by apply bool_decide_eq_true.
Qed.

Lemma arePCRsIdentical_refl ours : arePCRsIdentical ours ours = true.
Proof. by apply arePCRsIdentical_spec. Qed.

(** The size of a map with and without PCR4. *)
Lemma size_delete_4 (m : pcrs) :
  size m = (size (delete 4%N m) + if decide (is_Some (m !! 4%N)) then 1 else 0)%nat.
Proof.
  case_decide as E.
  - rewrite map_size_delete_Some by done.
    pose proof (map_size_ne_0_lookup_2 m 4%N E). lia.
  - rewrite map_size_delete_None by (by apply eq_None_not_Some). lia.
Qed.

(** C36: The leader hands its keys only to enclaves whose registers agree with
    its own: if the check succeeds and PCR4 (the parent instance) is present on
    both sides or on neither, the two register maps are the same map once PCR4
    is left out, and conversely such maps pass the check. *)
Theorem arePCRsIdentical_all_but_PCR4 (ours theirs : pcrs) :
  (is_Some (ours !! 4%N) <-> is_Some (theirs !! 4%N)) ->
  (arePCRsIdentical ours theirs = true <-> delete 4%N ours = delete 4%N theirs).
Proof.
  intros H4. rewrite arePCRsIdentical_spec, (size_delete_4 ours), (size_delete_4 theirs).
  rewrite (decide_ext (is_Some (ours !! 4%N)) (is_Some (theirs !! 4%N))) by done.
  split.
  - intros [Hs H]. apply map_subseteq_size_eq; [|lia].
    apply map_subseteq_spec. intros i v [Hi Hv]%lookup_delete_Some.
    apply lookup_delete_Some. eauto.
  - intros E. rewrite E. split; [done|]. intros pcr v Hne Hv.
    assert (Hd : delete 4%N ours !! pcr = Some v) by (by apply lookup_delete_Some).
    rewrite E in Hd. by apply lookup_delete_Some in Hd as [_ ?].
Qed.

Definition pcrs_a : pcrs := <[0%N := str "image"]> (<[4%N := str "host a"]> ∅).
Definition pcrs_b : pcrs := <[0%N := str "image"]> (<[4%N := str "host b"]> ∅).
Definition pcrs_c : pcrs := <[0%N := str "image"]> (<[5%N := str "other"]> ∅).

Lemma arePCRsIdentical_all_but_PCR4_witness : delete 4%N pcrs_a = delete 4%N pcrs_b.
Proof.
  apply (arePCRsIdentical_all_but_PCR4 pcrs_a pcrs_b); [|vm_compute; reflexivity].
  split; intros _; by eexists.
Defined.

(** Without that assumption the check accepts maps that are not identical
    even outside PCR4: a map that has some other register instead of PCR4
    passes, because the sizes agree and only our registers are looked up. *)
Theorem arePCRsIdentical_not_identical :
  arePCRsIdentical pcrs_a pcrs_c = true /\ delete 4%N pcrs_a <> delete 4%N pcrs_c /\
  arePCRsIdentical pcrs_c pcrs_a = false.
Proof.
  split_and!; [by vm_compute| |by vm_compute].
  intros E. apply (f_equal (fun m : pcrs => m !! 5%N)) in E. by vm_compute in E.
Qed.
