(* ===== verification/Attester.v ===== *)
(** * Attester: [attester.go]

    The [attester] interface, what its users rely on (two type classes), and
    the two implementations: the JSON-based [dummyAttester] and the
    [nitroAttester] on top of the Nitro hypervisor (the [nsm] package) and the
    [nitrite] verifier, which are parameters. *)
From Stdlib Require Import ZArith Lia.
From Stdlib Require Import Strings.Byte Strings.String.
From stdpp Require Import base gmap strings list fin_maps.
From S2P Require Import Prelude Codec Sha256 Json System Http Nonce Attestation.

Local Open Scope Z_scope.

(** ** Auxiliary information *)

Record clientAuxInfo := ClientAux { clientNonce : nonce; attestationHashes : slice }.

Record workerAuxInfo := WorkerAux {
  w_WorkersNonce : nonce;
  w_LeadersNonce : nonce;
  w_PublicKey : slice
}.

Record leaderAuxInfo := LeaderAux { l_WorkersNonce : nonce; l_HashOfEncrypted : slice }.

(** [auxInfo] is the empty interface; these are the dynamic types it holds. *)
Inductive auxInfo :=
  | AuxNil
  | AuxClient (a : clientAuxInfo)
  | AuxWorker (a : workerAuxInfo)
  | AuxLeader (a : leaderAuxInfo).

(** ** The interface *)

Record attester := Attester {
  createAttstn : auxInfo -> result bytes;
  verifyAttstn : bytes -> nonce -> result auxInfo
}.

(** Documents made by [a] for a worker or a leader are accepted by [b]. *)
Class Attests (a b : attester) : Prop := {
  attests_worker : forall wn ln pk,
    nonce_ok wn -> nonce_ok ln -> length pk = 32%nat ->
    exists doc, createAttstn a (AuxWorker (WorkerAux wn ln (Some pk))) = Ok doc /\
      verifyAttstn b doc ln = Ok (AuxWorker (WorkerAux wn ln (Some pk)));
  attests_leader : forall wn h,
    nonce_ok wn -> length h = 32%nat ->
    exists doc, createAttstn a (AuxLeader (LeaderAux wn (Some h))) = Ok doc /\
      verifyAttstn b doc wn = Ok (AuxLeader (LeaderAux wn (Some h)))
}.

(** Whoever made it, an accepted document carries the nonce it was checked
    against, and no document is accepted as a client's. *)
Class Fresh (b : attester) : Prop := {
  fresh_worker : forall doc n w, nonce_ok n ->
    verifyAttstn b doc n = Ok (AuxWorker w) -> w_LeadersNonce w = n;
  fresh_leader : forall doc n l, nonce_ok n ->
    verifyAttstn b doc n = Ok (AuxLeader l) -> l_WorkersNonce l = n;
  fresh_kind : forall doc n c, verifyAttstn b doc n <> Ok (AuxClient c) /\
    verifyAttstn b doc n <> Ok AuxNil
}.

(** ** [dummyAttester] *)
Module Dummy.

Definition worker_json (a : workerAuxInfo) : json :=
  JObj [(str "workers_nonce", of_array (w_WorkersNonce a));
        (str "leaders_nonce", of_array (w_LeadersNonce a));
        (str "public_key", of_slice (w_PublicKey a))].

Definition leader_json (a : leaderAuxInfo) : json :=
  JObj [(str "workers_nonce", of_array (l_WorkersNonce a));
        (str "hash_of_encrypted", of_slice (l_HashOfEncrypted a))].

(** [json.Marshal(aux)]; the fields of [clientAuxInfo] are not exported. *)
Definition createAttstn (aux : auxInfo) : result bytes :=
  Ok (json_Print
    match aux with
    | AuxNil => JNull
    | AuxClient _ => JObj []
    | AuxWorker a => worker_json a
    | AuxLeader a => leader_json a
    end).

Definition worker_fields : list (bytes * field workerAuxInfo) :=
  [(str "workers_nonce", array_field 20 (fun b a =>
      WorkerAux b (w_LeadersNonce a) (w_PublicKey a)));
   (str "leaders_nonce", array_field 20 (fun b a =>
      WorkerAux (w_WorkersNonce a) b (w_PublicKey a)));
   (str "public_key", bytes_field (fun b a =>
      WorkerAux (w_WorkersNonce a) (w_LeadersNonce a) b))].

Definition leader_fields : list (bytes * field leaderAuxInfo) :=
  [(str "workers_nonce", array_field 20 (fun b a => LeaderAux b (l_HashOfEncrypted a)));
   (str "hash_of_encrypted", bytes_field (fun b a => LeaderAux (l_WorkersNonce a) b))].

Definition zero_worker : workerAuxInfo := WorkerAux zero_nonce zero_nonce None.
Definition zero_leader : leaderAuxInfo := LeaderAux zero_nonce None.

Definition verifyAttstn (doc : bytes) (n : nonce) : result auxInfo :=
  let '(w, err) := Unmarshal worker_fields doc zero_worker in
  match err with
  | Some e => Err e
  | None =>
      match w_PublicKey w with
      | Some _ =>
          if negb (bool_decide (nonce_b64 n = nonce_b64 (w_LeadersNonce w)))
          then Err errNonceMismatch
          else Ok (AuxWorker w)
      | None =>
          let '(l, err) := Unmarshal leader_fields doc zero_leader in
          match err with
          | Some e => Err e
          | None =>
              match l_HashOfEncrypted l with
              | Some _ =>
                  if negb (bool_decide (nonce_b64 n = nonce_b64 (l_WorkersNonce l)))
                  then Err errNonceMismatch
                  else Ok (AuxLeader l)
              | None => Err errInvalidAux
              end
          end
      end
  end.

Definition dummyAttester : attester := Attester createAttstn verifyAttstn.

Lemma worker_json_ok a : json_ok (worker_json a) = true /\ json_depth (worker_json a) = 2.
Proof.
  destruct (of_array_ok (w_WorkersNonce a)) as [H1 D1], (of_array_ok (w_LeadersNonce a)) as [H2 D2],
    (of_slice_ok (w_PublicKey a)) as [H3 D3].
  cbn -[of_array of_slice]. by rewrite H1, H2, H3, D1, D2, D3.
Qed.

Lemma leader_json_ok a : json_ok (leader_json a) = true /\ json_depth (leader_json a) = 2.
Proof.
  destruct (of_array_ok (l_WorkersNonce a)) as [H1 D1], (of_slice_ok (l_HashOfEncrypted a)) as [H3 D3].
  cbn -[of_array of_slice]. by rewrite H1, H3, D1, D3.
Qed.

Lemma array_field_nonce {S} (set : bytes -> S -> S) n s :
  nonce_ok n -> array_field 20 set (of_array n) s = (set n s, None).
Proof. intros <-. apply array_field_of_array. Qed.

Lemma verify_worker_json wn ln pk :
  nonce_ok wn -> nonce_ok ln ->
  verifyAttstn (json_Print (worker_json (WorkerAux wn ln (Some pk)))) ln =
  Ok (AuxWorker (WorkerAux wn ln (Some pk))).
Proof.
  intros Hw Hl. unfold verifyAttstn.
  destruct (worker_json_ok (WorkerAux wn ln (Some pk))) as [Hok Hd].
  unfold worker_json in *. rewrite Unmarshal_Print by (done || by rewrite Hd).
  cbn [w_WorkersNonce w_LeadersNonce w_PublicKey].
  cbn [fold_left].
  erewrite store_member_hit by reflexivity. rewrite array_field_nonce by done. cbn [fst snd first_error].
  erewrite store_member_hit by reflexivity. rewrite array_field_nonce by done. cbn [fst snd first_error].
  store_members. cbn [w_PublicKey w_LeadersNonce].
  by rewrite bool_decide_eq_true_2.
Qed.

Lemma verify_leader_json wn h :
  nonce_ok wn ->
  verifyAttstn (json_Print (leader_json (LeaderAux wn (Some h)))) wn =
  Ok (AuxLeader (LeaderAux wn (Some h))).
Proof.
  intros Hw. unfold verifyAttstn.
  destruct (leader_json_ok (LeaderAux wn (Some h))) as [Hok Hd].
  unfold leader_json in *. rewrite !Unmarshal_Print by (done || by rewrite Hd).
  cbn [l_WorkersNonce l_HashOfEncrypted fold_left].
  erewrite (store_member_hit worker_fields) by reflexivity.
  rewrite array_field_nonce by done. cbn [fst snd first_error].
  change (store_member worker_fields ?s (str "hash_of_encrypted", ?v)) with s.
  cbn [w_PublicKey zero_worker].
  erewrite store_member_hit by reflexivity. rewrite array_field_nonce by done. cbn [fst snd first_error].
  store_members. cbn [l_HashOfEncrypted l_WorkersNonce].
  by rewrite bool_decide_eq_true_2.
Qed.

#[export] Instance dummy_attests : Attests dummyAttester dummyAttester.
Proof.
  split.
  - intros. eexists. split; [reflexivity|]. by apply verify_worker_json.
  - intros. eexists. split; [reflexivity|]. by apply verify_leader_json.
Qed.

#[export] Instance dummy_fresh : Fresh dummyAttester.
Proof.
  split; simpl; unfold verifyAttstn.
  - intros doc n w _ H. inv_matches H.
    apply negb_false_iff, bool_decide_eq_true, nonce_b64_inj in Heqb. done.
  - intros doc n l _ H. inv_matches H.
    apply negb_false_iff, bool_decide_eq_true, nonce_b64_inj in Heqb. done.
  - intros doc n c. split; intros H; inv_matches H.
Qed.

End Dummy.

(** ** [nitroAttester] *)
Module Nitro.

Definition padding : bytes := str "dummy".

(** The Nitro Secure Module, as [hf/nsm] gives access to it: opening a session
    may fail, and an attestation request (nonce, user data, public key) is
    answered with an optional attestation whose document is optional. *)
Record hypervisor := Hypervisor {
  OpenDefaultSession : option error;
  Send : slice -> slice -> slice -> result (option slice)
}.

(** The fields of a verified document that the sources use. *)
Record document := Document {
  PCRs : pcrs;
  DNonce : slice;
  UserData : slice;
  DPublicKey : slice
}.

(** [nitrite.Verify(doc, VerifyOptions{CurrentTime: t})]; [None] is the zero time. *)
Definition verifier : Type := bytes -> option Z -> result document.

Section nitro.
Context (hv : hypervisor) (Verify : verifier) (now : Z).

Definition createAttstn (aux : auxInfo) : result bytes :=
  let '(nonce, userData, publicKey) :=
    match aux with
    | AuxWorker v => (Some (w_LeadersNonce v), Some (w_WorkersNonce v), w_PublicKey v)
    | AuxLeader v => (Some (l_WorkersNonce v), l_HashOfEncrypted v, Some padding)
    | AuxClient v => (Some (clientNonce v), attestationHashes v, Some padding)
    | AuxNil => (None, None, None)
    end in
  match OpenDefaultSession hv with
  | Some e => Err e
  | None =>
      match Send hv nonce userData publicKey with
      | Err e => Err e
      | Ok None => Err errNoAttstnFromNSM
      | Ok (Some None) => Err errNoAttstnFromNSM
      | Ok (Some (Some doc)) => Ok doc
      end
  end.

Definition getPCRValues : result pcrs :=
  match createAttstn AuxNil with
  | Err e => Err e
  | Ok rawAttDoc =>
      match Verify rawAttDoc None with
      | Err e => Err e
      | Ok res => Ok (PCRs res)
      end
  end.

Definition verifyAttstn (doc : bytes) (ourNonce : nonce) : result auxInfo :=
  match Verify doc (Some now) with
  | Err e => Err e
  | Ok their =>
      match getPCRValues with
      | Err e => Err e
      | Ok ourPCRs =>
          if negb (arePCRsIdentical ourPCRs (PCRs their)) then Err errPCRMismatch
          else match sliceToNonce (sbytes (DNonce their)) with
          | Err e => Err e
          | Ok theirNonce =>
              if negb (bool_decide (ourNonce = theirNonce)) then Err errNonceMismatch
              else if bytes_Equal (DPublicKey their) (Some padding)
              then Ok (AuxLeader (LeaderAux theirNonce (UserData their)))
              else match sliceToNonce (sbytes (UserData their)) with
                   | Err e => Err e
                   | Ok workersNonce =>
                       Ok (AuxWorker (WorkerAux workersNonce theirNonce (DPublicKey their)))
                   end
          end
      end
  end.

Definition nitroAttester : attester := Attester createAttstn verifyAttstn.
End nitro.

(** The documented limits on the fields of a request. *)
Definition request_fits (n ud pk : slice) : bool :=
  (len (sbytes n) <=? 512) && (len (sbytes ud) <=? 512) &&
  match pk with
  | None => true
  | Some k => (1 <=? len k) && (len k <=? 1024)
  end.

(** What the hypervisor and the verifier promise together: a request within the
    limits is answered with a document that verifies (now, and with the zero
    time), and that carries the registers of the enclave and the fields of the
    request. *)
Class Issues (hv : hypervisor) (Verify : verifier) (now : Z) (p : pcrs) : Prop := {
  issues_open : OpenDefaultSession hv = None;
  issues_send : forall n ud pk, request_fits n ud pk = true -> exists doc,
    Send hv n ud pk = Ok (Some (Some doc)) /\
    Verify doc (Some now) = Ok (Document p n ud pk) /\
    Verify doc None = Ok (Document p n ud pk)
}.

(** The requests of the program are within the limits. *)
Lemma nonce_request_fits n ud pk :
  nonce_ok n -> len ud <= 512 -> 1 <= len pk <= 1024 -> request_fits (Some n) (Some ud) (Some pk) = true.
Proof.
  unfold nonce_ok, request_fits. intros Hn Hu Hp. simpl sbytes.
  assert (len n = 20) by (unfold len; lia).
  rewrite !andb_true_iff, !Z.leb_le. lia.
Qed.

Section nitro_laws.
Context (Verify : verifier) (now : Z).

Lemma createAttstn_issues hv p aux `{!Issues hv Verify now p} n ud pk :
  (match aux with
   | AuxWorker v => (Some (w_LeadersNonce v), Some (w_WorkersNonce v), w_PublicKey v)
   | AuxLeader v => (Some (l_WorkersNonce v), l_HashOfEncrypted v, Some padding)
   | AuxClient v => (Some (clientNonce v), attestationHashes v, Some padding)
   | AuxNil => (None, None, None)
   end) = (n, ud, pk) -> request_fits n ud pk = true ->
  exists doc, createAttstn hv aux = Ok doc /\
    Verify doc (Some now) = Ok (Document p n ud pk) /\
    Verify doc None = Ok (Document p n ud pk).
Proof.
  intros E Hfit. destruct (issues_send n ud pk Hfit) as (doc & Hs & Hv & Hv0). exists doc.
  split; [|done]. unfold createAttstn. rewrite E, (issues_open (Verify := Verify)), Hs. done.
Qed.

Lemma getPCRValues_issues hv p `{!Issues hv Verify now p} : getPCRValues hv Verify = Ok p.
Proof.
  destruct (createAttstn_issues hv p AuxNil None None None eq_refl eq_refl) as (doc & Hc & _ & Hv).
  unfold getPCRValues. by rewrite Hc, Hv.
Qed.

Context (hvA hvB : hypervisor) (pA pB : pcrs).
Context `{!Issues hvA Verify now pA, !Issues hvB Verify now pB}.

#[local] Abbreviation A := (nitroAttester hvA Verify now).
#[local] Abbreviation B := (nitroAttester hvB Verify now).

(** Two enclaves with matching registers accept each other's documents. *)
Lemma nitro_attests : arePCRsIdentical pB pA = true -> Attests A B.
Proof.
  intros HP. split.
  - intros wn ln pk Hw Hl Hk.
    destruct (createAttstn_issues hvA pA (AuxWorker (WorkerAux wn ln (Some pk)))
      _ _ _ eq_refl) as (doc & Hc & Hv & _);
      [apply nonce_request_fits; simpl; unfold nonce_ok, len in *; lia|].
    exists doc. split; [done|]. simpl. unfold verifyAttstn. rewrite Hv.
    rewrite (getPCRValues_issues hvB pB). simpl. rewrite HP. simpl.
    rewrite (sliceToNonce_nonce ln) by done. rewrite bool_decide_eq_true_2 by done. simpl.
    unfold bytes_Equal. rewrite bool_decide_eq_false_2 by (simpl; intros ->; done).
    by rewrite (sliceToNonce_nonce wn).
  - intros wn h Hw Hh.
    destruct (createAttstn_issues hvA pA (AuxLeader (LeaderAux wn (Some h)))
      _ _ _ eq_refl) as (doc & Hc & Hv & _);
      [apply nonce_request_fits; [done|unfold len in *; lia|done]|].
    exists doc. split; [done|]. simpl. unfold verifyAttstn. rewrite Hv.
    rewrite (getPCRValues_issues hvB pB). simpl. rewrite HP. simpl.
    rewrite (sliceToNonce_nonce wn) by done. by rewrite bool_decide_eq_true_2.
Qed.
End nitro_laws.

#[export] Instance nitro_fresh hv Verify now : Fresh (nitroAttester hv Verify now).
Proof.
  split; simpl; unfold verifyAttstn.
  - intros doc n w _ H. inv_matches H.
    apply negb_false_iff, bool_decide_eq_true in Heqb0. done.
  - intros doc n l _ H. inv_matches H.
    apply negb_false_iff, bool_decide_eq_true in Heqb0. done.
  - intros doc n c. split; intros H; inv_matches H.
Qed.

(** C5: What a leader or worker learns when the Nitro attester accepts a
    document: the verifier authenticated it at the current time, the registers
    of the enclave that asked for it match ours (all but PCR4), and it carries
    the nonce we sent, so it is neither forged, nor from a different image, nor
    replayed. *)
Theorem nitro_verify_sound hv Verify now (doc : bytes) (n : nonce) (aux : auxInfo) :
  verifyAttstn hv Verify now doc n = Ok aux ->
  exists their ourPCRs,
    Verify doc (Some now) = Ok their /\
    getPCRValues hv Verify = Ok ourPCRs /\ size ourPCRs = size (PCRs their) /\
    (forall pcr v, pcr <> 4%N -> ourPCRs !! pcr = Some v -> PCRs their !! pcr = Some v) /\
    sbytes (DNonce their) = n /\
    (aux = AuxLeader (LeaderAux n (UserData their)) \/
     exists wn, aux = AuxWorker (WorkerAux wn n (DPublicKey their)) /\
       wn = sbytes (UserData their)).
Proof.
  unfold verifyAttstn. intros H. inv_matches H.
  all: apply negb_false_iff in Heqb; apply arePCRsIdentical_spec in Heqb as [Hs Hp].
  all: apply negb_false_iff, bool_decide_eq_true in Heqb0; subst.
  all: match goal with E : sliceToNonce (sbytes (DNonce _)) = Ok _ |- _ =>
         apply sliceToNonce_spec in E as [E _] end.
  - do 2 eexists. split_and!; eauto.
  - match goal with E : sliceToNonce _ = Ok _ |- _ => apply sliceToNonce_spec in E as [E _] end.
    do 2 eexists. split_and!; eauto.
Qed.

(** C34: A client's document cannot pass for a leader's key delivery.  A document
    that the hypervisor issued for a client's attestation request (with any
    nonce, hence also a worker's) is accepted as a leader's, but the user data
    is the 68-byte serialization of the hashes, never the 32-byte SHA-256 of
    some key material. *)
Theorem client_attestation_is_no_key_delivery
    hvA hvB Verify now pA pB (n : nonce) (h : AttestationHashes) (encrypted : bytes) :
  Issues hvA Verify now pA -> Issues hvB Verify now pB -> arePCRsIdentical pB pA = true ->
  nonce_ok n -> hashes_ok h ->
  exists doc,
    createAttstn hvA (AuxClient (ClientAux n (Some (Serialize h)))) = Ok doc /\
    verifyAttstn hvB Verify now doc n = Ok (AuxLeader (LeaderAux n (Some (Serialize h)))) /\
    bytes_Equal (Some (Sum256 encrypted)) (Some (Serialize h)) = false.
Proof.
  intros HA HB HP Hn Hh.
  destruct (createAttstn_issues Verify now hvA pA (AuxClient (ClientAux n (Some (Serialize h))))
    _ _ _ eq_refl) as (doc & Hc & Hv & _);
    [by apply nonce_request_fits; [|rewrite len_Serialize|]|].
  exists doc. split_and!; [done| |].
  - unfold verifyAttstn. rewrite Hv, (getPCRValues_issues Verify now hvB pB). simpl. rewrite HP.
    simpl. rewrite (sliceToNonce_nonce n) by done. by rewrite bool_decide_eq_true_2.
  - unfold bytes_Equal. apply bool_decide_eq_false_2. simpl. intros E.
    apply (f_equal len) in E. rewrite len_Sum256, len_Serialize in E by done. done.
Qed.

(** *** A hypervisor for concrete runs

    Documents in clear JSON; the enclaves run the same image on different
    hosts, so their registers differ in PCR4 only. *)

Definition sample_pcrs (host : bytes) : pcrs := <[0%N := str "image"]> (<[4%N := host]> ∅).

Definition sample_hv (host : bytes) : hypervisor :=
  Hypervisor None (fun n ud pk => Ok (Some (Some (json_Print (JObj
    [(str "h", of_slice (Some host)); (str "n", of_slice n);
     (str "u", of_slice ud); (str "k", of_slice pk)]))))).

Definition sample_fields : list (bytes * field document) :=
  [(str "h", bytes_field (fun b d =>
      Document (sample_pcrs (sbytes b)) (DNonce d) (UserData d) (DPublicKey d)));
   (str "n", bytes_field (fun b d => Document (PCRs d) b (UserData d) (DPublicKey d)));
   (str "u", bytes_field (fun b d => Document (PCRs d) (DNonce d) b (DPublicKey d)));
   (str "k", bytes_field (fun b d => Document (PCRs d) (DNonce d) (UserData d) b))].

Definition sample_Verify : verifier := fun doc _ =>
  match Unmarshal sample_fields doc (Document ∅ None None None) with
  | (d, None) => Ok d
  | (_, Some e) => Err e
  end.

#[export] Instance sample_issues host now :
  Issues (sample_hv host) sample_Verify now (sample_pcrs host).
Proof.
  split; [done|]. intros n ud pk _. eexists. split; [reflexivity|].
  assert (H : forall t, sample_Verify (json_Print (JObj
    [(str "h", of_slice (Some host)); (str "n", of_slice n);
     (str "u", of_slice ud); (str "k", of_slice pk)])) t =
     Ok (Document (sample_pcrs host) n ud pk)); [|by rewrite !H].
  intros t. unfold sample_Verify.
  destruct (of_slice_ok n) as [H1 D1], (of_slice_ok ud) as [H2 D2], (of_slice_ok pk) as [H3 D3],
    (of_slice_ok (Some host)) as [H4 D4].
  rewrite Unmarshal_Print.
  - by store_members.
  - cbn -[of_slice]. by rewrite H1, H2, H3, H4.
  - cbn -[of_slice]. by rewrite D1, D2, D3, D4.
Qed.

Lemma sample_pcrs_identical : arePCRsIdentical (sample_pcrs (str "b")) (sample_pcrs (str "a")) = true.
Proof. by vm_compute. Qed.

Definition sample_nonce : nonce := str "abcdefghijklmnopqrst".

Lemma nitro_verify_sound_witness :
  exists doc their,
    createAttstn (sample_hv (str "a")) (AuxLeader (LeaderAux sample_nonce (Some []))) = Ok doc /\
    sample_Verify doc (Some 0) = Ok their /\ sbytes (DNonce their) = sample_nonce.
Proof.
  eexists.
  destruct (nitro_verify_sound (sample_hv (str "b")) sample_Verify 0
    (match createAttstn (sample_hv (str "a")) (AuxLeader (LeaderAux sample_nonce (Some [])))
     with Ok d => d | Err _ => [] end)
    sample_nonce (AuxLeader (LeaderAux sample_nonce (Some []))))
    as (their & p & Hv & _ & _ & _ & Hn & _); [vm_compute; reflexivity|].
  exists their. split; [reflexivity|]. split; [exact Hv|exact Hn].
Defined.

Lemma client_attestation_is_no_key_delivery_witness :
  exists doc,
    verifyAttstn (sample_hv (str "b")) sample_Verify 0 doc sample_nonce =
    Ok (AuxLeader (LeaderAux sample_nonce (Some (Serialize zero_hashes)))).
Proof.
  destruct (client_attestation_is_no_key_delivery (sample_hv (str "a")) (sample_hv (str "b"))
    sample_Verify 0 _ _ sample_nonce zero_hashes [] _ _ sample_pcrs_identical)
    as (doc & _ & H & _); [reflexivity|by split|].
  exists doc. exact H.
Defined.

End Nitro.
