(* ===== verification/Workers.v ===== *)
(** * Workers: [workers.go]

    The worker manager: the body of its event loop, as a function on the set
    of workers, and the rendezvous of its callers with the loop over unbuffered
    channels, as a step relation.  [run_refines] relates the loop to a
    per-worker automaton. *)
From Stdlib Require Import ZArith Lia.
From Stdlib Require Import Strings.Byte Strings.String.
From stdpp Require Import base gmap strings list fin_maps relations.
From S2P Require Import Prelude Codec System Http.

Local Open Scope Z_scope.

(** [time.Duration] in nanoseconds; [t.Sub(u)] saturates. *)
Definition maxDuration : Z := 9223372036854775807.
Definition minDuration : Z := -9223372036854775808.
Definition time_Sub (t u : Z) : Z := Z.max minDuration (Z.min maxDuration (t - u)).

Definition Second : Z := 1000000000.
Definition Minute : Z := 60 * Second.

(** [type workers map[url.URL]time.Time]. *)
Abbreviation workers := (gmap url Z).

(** ** The event loop *)
Module Loop.

(** What a [select] of the loop receives; [now] is [time.Now()]. *)
Inductive event :=
  | Tick (now : Z)
  | Reg (worker : url) (now : Z)
  | Unreg (worker : url)
  | ForAll
  | Len.

(** One entry of the pruning loop. *)
Definition prune_one (timeout now : Z) (set : workers) (kv : url * Z) : workers :=
  if timeout <? time_Sub now kv.2 then delete kv.1 set else set.

Definition prune (timeout now : Z) (set : workers) : workers :=
  fold_left (prune_one timeout now) (map_to_list set) set.

(** [runForAll]: one goroutine per worker of the set, in some order. *)
Definition runForAll (set : workers) : list url := (map_to_list set).*1.

(** What a round of the loop does besides changing the set: the calls it
    spawns and the length it replies. *)
Inductive effect :=
  | Spawn (calls : list url)
  | Reply (n : Z).

Definition handle (timeout : Z) (set : workers) (ev : event) : workers * list effect :=
  match ev with
  | Tick now => (prune timeout now set, [])
  | Reg worker now => (<[worker := now]> set, [])
  | Unreg worker => (delete worker set, [])
  | ForAll => (set, [Spawn (runForAll set)])
  | Len => (set, [Reply (Z.of_nat (size set))])
  end.

(** The rounds until [stop] is closed. *)
Definition run (timeout : Z) (set : workers) (evs : list event) : workers :=
  fold_left (fun s ev => (handle timeout s ev).1) evs set.

(** ** Specification: each worker on its own

    When a worker was last seen, or [None] when it is not registered. *)
Definition worker_step (timeout : Z) (w : url) (seen : option Z) (ev : event) : option Z :=
  match ev with
  | Tick now =>
      match seen with
      | Some t => if timeout <? time_Sub now t then None else seen
      | None => None
      end
  | Reg w' now => if decide (w' = w) then Some now else seen
  | Unreg w' => if decide (w' = w) then None else seen
  | ForAll | Len => seen
  end.

(** ** Lemmas *)

(** The set that is ranged over may shrink while it is: entries not yet
    visited are still looked at with their own time stamps. *)
Lemma prune_fold timeout now l (set : workers) w :
  fold_left (prune_one timeout now) l set !! w =
  if existsb (fun kv => bool_decide (kv.1 = w) && (timeout <? time_Sub now kv.2)) l
  then None else set !! w.
Proof.
  revert set. induction l as [|[k t] l IH]; intros set; simpl; [done|].
  rewrite IH. unfold prune_one. simpl.
  destruct (timeout <? time_Sub now t); [|by rewrite andb_false_r].
  rewrite andb_true_r. case_bool_decide as E; simpl.
  - subst. case_match; [done|]. by rewrite lookup_delete_eq.
  - case_match; [done|]. by rewrite lookup_delete_ne.
Qed.

Lemma prune_lookup timeout now (set : workers) w :
  prune timeout now set !! w =
  match set !! w with
  | Some t => if timeout <? time_Sub now t then None else Some t
  | None => None
  end.
Proof.
  unfold prune. rewrite prune_fold. destruct (existsb _ _) eqn:E.
  - apply existsb_exists in E as ([k t] & Hin%list_elem_of_In & [Hk Ht]%andb_prop).
    simpl in *. apply bool_decide_eq_true in Hk as ->.
    apply elem_of_map_to_list in Hin as ->. by rewrite Ht.
  - destruct (set !! w) as [t|] eqn:Hw; [|done].
    destruct (timeout <? time_Sub now t) eqn:Ht; [|done].
    apply not_true_iff_false in E. exfalso. apply E, existsb_exists.
    exists (w, t). split; [by apply list_elem_of_In, elem_of_map_to_list|].
    simpl. by rewrite bool_decide_eq_true_2.
Qed.

Lemma handle_lookup timeout set ev w :
  (handle timeout set ev).1 !! w = worker_step timeout w (set !! w) ev.
Proof.
  destruct ev as [now|w' now|w'| |]; simpl; try done.
  - rewrite prune_lookup. by destruct (set !! w).
  - rewrite lookup_insert. repeat case_decide; done.
  - rewrite lookup_delete. repeat case_decide; done.
Qed.

Lemma run_lookup timeout evs set w :
  run timeout set evs !! w = fold_left (worker_step timeout w) evs (set !! w).
Proof.
  unfold run. revert set. induction evs as [|ev evs IH]; intros set; simpl; [done|].
  by rewrite IH, handle_lookup.
Qed.

(** An event that neither unregisters [w] nor finds it too old. *)
Definition spares (timeout : Z) (w : url) (t : Z) (ev : event) : Prop :=
  match ev with
  | Tick now => time_Sub now t <= timeout
  | Unreg w' => w' <> w
  | Reg w' _ => w' <> w
  | ForAll | Len => True
  end.

Lemma spared timeout w t evs :
  Forall (spares timeout w t) evs -> fold_left (worker_step timeout w) evs (Some t) = Some t.
Proof.
  induction 1 as [|ev evs Hev _ IH]; simpl; [done|].
  rewrite <- IH at 2. f_equal. destruct ev; simpl in *; try done.
  - by rewrite (proj2 (Z.ltb_ge _ _)).
  - by case_decide.
  - by case_decide.
Qed.

Lemma elem_of_runForAll set w : w ∈ runForAll set <-> is_Some (set !! w).
Proof.
  unfold runForAll. rewrite list_elem_of_fmap. split.
  - intros ([k t] & -> & Hin%elem_of_map_to_list). by eexists.
  - intros [t Ht]. exists (w, t). by rewrite elem_of_map_to_list.
Qed.

(** C19: The event loop refines the per-worker specification: whatever the other
    workers do, the time stamp the set holds for a worker is the one the
    worker's own automaton computes from the same events; pruning while ranging
    over the map removes exactly the expired workers. *)
Theorem run_refines (timeout : Z) (evs : list event) (set : workers) (w : url) :
  run timeout set evs !! w = fold_left (worker_step timeout w) evs (set !! w).
Proof. apply run_lookup. Qed.

(** Re-synchronization after a state change reaches every registered worker
    exactly once: the calls that [forAll] spawns are the workers of the set,
    without repetition, and [length] replies their number. *)
Theorem forAll_reaches_each_worker_once (timeout : Z) (set : workers) :
  exists calls,
    handle timeout set ForAll = (set, [Spawn calls]) /\
    handle timeout set Len = (set, [Reply (len calls)]) /\
    NoDup calls /\ (forall w, w ∈ calls <-> is_Some (set !! w)).
Proof.
  exists (runForAll set). split_and!; [done| | |].
  - simpl. unfold runForAll, len. by rewrite length_fmap, length_map_to_list.
  - apply NoDup_fst_map_to_list.
  - apply elem_of_runForAll.
Qed.

(** C20: A worker stays registered as long as it is heard of in time and is
    dropped otherwise: after a registration at [t], events that neither
    unregister it nor tick more than the timeout after [t] keep it, and the
    first later tick that is more than the timeout after [t] removes it. *)
Theorem worker_lifetime (timeout : Z) (set : workers) (w : url) (t now : Z)
    (evs : list event) :
  Forall (spares timeout w t) evs -> timeout < time_Sub now t ->
  run timeout set (Reg w t :: evs) !! w = Some t /\
  run timeout set (Reg w t :: evs ++ [Tick now]) !! w = None.
Proof.
  intros Hsp Hnow. rewrite !run_lookup. simpl. rewrite decide_True by done.
  rewrite fold_left_app, spared by done. simpl.
  by rewrite (proj2 (Z.ltb_lt _ _)).
Qed.

Definition example_worker : url := URL (str "https") (str "10.0.0.7:444") (str "/enclave/sync") [].

Lemma worker_lifetime_witness :
  run Minute ∅ [Reg example_worker 5; Tick (5 + Minute); Tick (6 + Minute)] !! example_worker = None.
Proof.
  apply (worker_lifetime Minute ∅ example_worker 5 (6 + Minute) [Tick (5 + Minute)]).
  - repeat constructor; vm_compute; discriminate.
  - vm_compute; reflexivity.
Defined.

End Loop.

(** ** Callers and the loop on the manager's channels *)
Module Channels.
Import Loop.

(** Where a goroutine that uses the manager is: blocked on a send to one of the
    channels, blocked on the reply of [length], or returned. *)
Inductive caller :=
  | Registering (w : url)
  | Unregistering (w : url)
  | CallingForAll
  | AskingLen                 (* at [w.len <- 0] *)
  | AwaitingLen               (* at [return <-w.len] *)
  | Returned (len : option Z).

(** Where the loop is: in its [select], at [w.len <- len(set)], or returned. *)
Inductive loop_pc := Selecting | Replying | Stopped.

Record sys := Sys { wset : workers; pc : loop_pc; callers : gmap nat caller }.

Section steps.
Context (timeout : Z).

(** All channels are unbuffered, so a send and a receive happen together; on
    [w.len] any goroutine at the send can meet any goroutine at a receive. *)
Inductive step : sys -> sys -> Prop :=
  | step_tick s now :
      pc s = Selecting ->
      step s (Sys (prune timeout now (wset s)) Selecting (callers s))
  | step_reg s i w now :
      pc s = Selecting -> callers s !! i = Some (Registering w) ->
      step s (Sys (<[w := now]> (wset s)) Selecting (<[i := Returned None]> (callers s)))
  | step_unreg s i w :
      pc s = Selecting -> callers s !! i = Some (Unregistering w) ->
      step s (Sys (delete w (wset s)) Selecting (<[i := Returned None]> (callers s)))
  | step_forAll s i :
      pc s = Selecting -> callers s !! i = Some CallingForAll ->
      step s (Sys (wset s) Selecting (<[i := Returned None]> (callers s)))
  | step_len s i :
      pc s = Selecting -> callers s !! i = Some AskingLen ->
      step s (Sys (wset s) Replying (<[i := AwaitingLen]> (callers s)))
  | step_reply s i :
      pc s = Replying -> callers s !! i = Some AwaitingLen ->
      step s (Sys (wset s) Selecting
                  (<[i := Returned (Some (Z.of_nat (size (wset s))))]> (callers s)))
  | step_cross s i j :
      i <> j -> callers s !! i = Some AskingLen -> callers s !! j = Some AwaitingLen ->
      step s (Sys (wset s) (pc s)
                  (<[i := AwaitingLen]> (<[j := Returned (Some 0)]> (callers s))))
  | step_call s i c :
      callers s !! i = None ->
      (forall n, c <> Returned n) -> c <> AwaitingLen ->
      step s (Sys (wset s) (pc s) (<[i := c]> (callers s)))
  | step_stop s :
      pc s = Selecting -> step s (Sys (wset s) Stopped (callers s)).

Definition init : sys := Sys ∅ Selecting ∅.

Definition reachable (s : sys) : Prop := rtc step init s.

(** At most one goroutine waits for a reply, and exactly when the loop owes
    one. *)
Definition waiters_ok (s : sys) : Prop :=
  match pc s with
  | Replying => exists i, forall j, callers s !! j = Some AwaitingLen <-> j = i
  | _ => forall j, callers s !! j <> Some AwaitingLen
  end.

Lemma waiters_ok_step s s' : step s s' -> waiters_ok s -> waiters_ok s'.
Proof.
  unfold waiters_ok. intros H Hw.
  destruct H as [s now Hpc|s i w now Hpc Hi|s i w Hpc Hi|s i Hpc Hi|s i Hpc Hi|s i Hpc Hi
    |s i j Hne Hi Hj|s i c Hi Hr Ha|s Hpc]; simpl; try rewrite Hpc in Hw; simpl in Hw; try done.
  (* a caller leaves a channel the loop selects on *)
  1-3: intros k; rewrite lookup_insert; case_decide; [done|apply Hw].
  - exists i. intros k. rewrite lookup_insert. case_decide; [naive_solver|].
    split; [intros E; by apply Hw in E | congruence].
  - destruct Hw as [k Hk]. intros l. rewrite lookup_insert. case_decide; [done|].
    rewrite Hk. intros ->. apply Hk in Hi. congruence.
  - destruct (pc s); [by apply Hw in Hj| |by apply Hw in Hj].
    destruct Hw as [k Hk]. apply Hk in Hj as ->. exists i. intros l.
    rewrite !lookup_insert. repeat case_decide; naive_solver.
  - destruct (pc s); [intros l|destruct Hw as [k Hk]; exists k; intros l|intros l];
      rewrite lookup_insert; case_decide; subst; try apply Hw; try apply Hk; try congruence.
    split; [congruence|]. intros ->. by rewrite (proj2 (Hk k) eq_refl) in Hi.
Qed.

Lemma reachable_waiters_ok s : reachable s -> waiters_ok s.
Proof.
  intros H. unfold reachable in H.
  assert (Hi : waiters_ok init) by (intros j; simpl; by rewrite lookup_empty).
  revert Hi. induction H; eauto using waiters_ok_step.
Qed.
End steps.

Section liveness.
Context (timeout : Z).
Abbreviation size_of s := (Z.of_nat (size (wset s))).

(** Once the loop has stopped, nothing happens to any caller any more. *)
Lemma stopped_step s s' :
  step timeout s s' -> pc s = Stopped -> waiters_ok s ->
  pc s' = Stopped /\ wset s' = wset s /\
  forall i c, callers s !! i = Some c -> callers s' !! i = Some c.
Proof.
  unfold waiters_ok. intros H E Hw. rewrite E in Hw.
  destruct H as [| | | | | |s i j _ _ Hj|s i c Hi _ _|]; try congruence.
  simpl. split_and!; [done|done|]. intros k d Hk. rewrite lookup_insert_ne; congruence.
Qed.

Lemma stopped_forever s s' :
  rtc (step timeout) s s' -> pc s = Stopped -> waiters_ok s ->
  pc s' = Stopped /\ wset s' = wset s /\
  forall i c, callers s !! i = Some c -> callers s' !! i = Some c.
Proof.
  induction 1 as [|s s1 s' H1 _ IH]; intros E Hw; [done|].
  destruct (stopped_step s s1 H1 E Hw) as (E1 & Hs1 & Hc1).
  destruct (IH E1 (waiters_ok_step _ _ _ H1 Hw)) as (E2 & Hs2 & Hc2).
  split_and!; [done|congruence|auto].
Qed.

(** A loop in its [select] can serve a call of [length] at once. *)
Lemma length_served s i :
  pc s = Selecting -> callers s !! i = Some AskingLen ->
  rtc (step timeout) s (Sys (wset s) Selecting (<[i := Returned (Some (size_of s))]> (callers s))).
Proof.
  intros E Hi. eapply rtc_l; [by apply (step_len _ s i)|].
  eapply rtc_l; [apply (step_reply _ _ i); simpl; [done|by rewrite lookup_insert_eq]|].
  simpl. rewrite insert_insert_eq. apply rtc_refl.
Qed.

(** C21: A call of [length] that the loop has taken up is answered, and until the
    loop is stopped every call can be.  In every reachable state: a goroutine
    that awaits a reply is the only one that does, the loop is about to reply
    (and has not stopped), and the next step can give it the number of workers;
    a loop that is about to reply has such a goroutine to reply to, so it does
    not block either; and while the loop has not stopped, a call that is still at
    its first send can be brought to its end with the number of workers.  Once
    the loop has stopped, nobody awaits a reply, but every call of [length],
    [register], [unregister] or [forAll] that is then at its send, or comes
    later, blocks forever: in all later states each caller is where it was. *)
Theorem length_never_stuck (s : sys) :
  reachable timeout s ->
  (forall i, callers s !! i = Some AwaitingLen ->
     pc s = Replying /\ (forall j, callers s !! j = Some AwaitingLen -> j = i) /\
     step timeout s (Sys (wset s) Selecting (<[i := Returned (Some (size_of s))]> (callers s)))) /\
  (pc s = Replying -> exists i, callers s !! i = Some AwaitingLen) /\
  (pc s <> Stopped -> forall i, callers s !! i = Some AskingLen ->
     exists s', rtc (step timeout) s s' /\ callers s' !! i = Some (Returned (Some (size_of s)))) /\
  (pc s = Stopped -> (forall i, callers s !! i <> Some AwaitingLen) /\
     forall s', rtc (step timeout) s s' -> pc s' = Stopped /\
       forall i c, callers s !! i = Some c -> callers s' !! i = Some c).
Proof.
  intros Hok%reachable_waiters_ok. pose proof Hok as H. unfold waiters_ok in H. split_and!.
  - intros i Hi. destruct (pc s) eqn:E; [by destruct (H i)| |by destruct (H i)].
    destruct H as [k Hk]. apply Hk in Hi as ->. split_and!; [done|by intros j ->%Hk|].
    apply step_reply; [done|by apply Hk].
  - intros E. rewrite E in H. destruct H as [i Hi]. exists i. by apply Hi.
  - intros Hns i Hi. destruct (pc s) eqn:E; [| |done].
    + eexists. split; [by apply length_served|]. simpl. by rewrite lookup_insert_eq.
    + destruct H as [k Hk]. assert (Hik : k <> i) by (intros ->; rewrite (proj2 (Hk i) eq_refl) in Hi; done).
      eexists. split.
      * eapply rtc_l; [by apply (step_reply _ s k); [|apply Hk]|].
        apply (length_served _ i); simpl; [done|by rewrite lookup_insert_ne].
      * simpl. by rewrite lookup_insert_eq.
  - intros E. rewrite E in H. split; [done|]. intros s' Hr.
    destruct (stopped_forever s s' Hr E Hok) as (? & _ & ?). done.
Qed.
End liveness.

Lemma length_never_stuck_witness :
  step Minute (Sys ∅ Replying (<[0%nat := AwaitingLen]> {[0%nat := AskingLen]}))
    (Sys ∅ Selecting (<[0%nat := Returned (Some 0)]> (<[0%nat := AwaitingLen]> {[0%nat := AskingLen]}))).
Proof.
  refine (proj2 (proj2 (proj1 (length_never_stuck Minute
    (Sys ∅ Replying (<[0%nat := AwaitingLen]> {[0%nat := AskingLen]})) _) 0%nat eq_refl))).
  unfold reachable.
  apply rtc_l with (Sys ∅ Selecting {[0%nat := AskingLen]}).
  { apply (step_call Minute init 0%nat AskingLen); [reflexivity|discriminate|discriminate]. }
  apply rtc_once. exact (step_len Minute (Sys ∅ Selecting {[0%nat := AskingLen]}) 0%nat eq_refl eq_refl).
Defined.

(** [length] is wrong under contention: from any state in which two
    goroutines are about to call it, one of them can return 0 whatever the
    number of registered workers is, because its receive on the shared channel
    can meet the other caller's request instead of the loop's reply. *)
Theorem length_race (timeout : Z) (s : sys) (i j : nat) :
  i <> j -> pc s = Selecting ->
  callers s !! i = Some AskingLen -> callers s !! j = Some AskingLen ->
  rtc (step timeout) s
    (Sys (wset s) Selecting
       (<[j := Returned (Some (Z.of_nat (size (wset s))))]>
          (<[i := Returned (Some 0)]> (callers s)))).
Proof.
  intros Hne Hpc Hi Hj.
  eapply rtc_l; [by apply (step_len _ s i)|].
  eapply rtc_l; [apply (step_cross _ _ j i); simpl; [done|by rewrite lookup_insert_ne|
    by rewrite lookup_insert_eq]|].
  eapply rtc_l; [apply (step_reply _ _ j); simpl; [done|by rewrite lookup_insert_eq]|].
  simpl. rewrite !insert_insert_eq. apply rtc_refl.
Qed.

Lemma length_race_witness :
  rtc (step Minute) (Sys {[example_worker := 5]} Selecting {[0%nat := AskingLen; 1%nat := AskingLen]})
    (Sys {[example_worker := 5]} Selecting
       (<[1%nat := Returned (Some 1)]> (<[0%nat := Returned (Some 0)]>
          {[0%nat := AskingLen; 1%nat := AskingLen]}))).
Proof.
  pose (s := Sys {[example_worker := 5]} Selecting {[0%nat := AskingLen; 1%nat := AskingLen]}).
  assert (E : size (wset s) = 1%nat) by (vm_compute; reflexivity).
  change 1 with (Z.of_nat 1). rewrite <- E.
  exact (length_race Minute s 0%nat 1%nat ltac:(lia) eq_refl eq_refl eq_refl).
Defined.

End Channels.
