(* ===== verification/SyncWorker.v ===== *)
(** * SyncWorker: [sync_shared.go] and the worker's half of [sync_worker.go]

    The state of a worker's sync handler is two channels of capacity one, and
    every request is served by a goroutine of its own.  The two handlers are
    therefore written once, as programs ([prog]) over the operations that touch
    shared state, among them the critical sections of the installation of keys
    ([setup_stage]), and run in two ways: [run] serves one request to completion,
    [step] interleaves any number of them.  Every error path is as the code has
    it: some of them do not return. *)
From Stdlib Require Import ZArith Lia.
From Stdlib Require Import Strings.Byte Strings.String.
From stdpp Require Import base gmap strings list fin_maps.
From S2P Require Import Prelude Codec Sha256 Json System Http Nonce Keys Attestation Attester.

Local Open Scope Z_scope.

(** ** [sync_shared.go] *)

Definition maxAttstnBodyLen : Z := 16384.
Definition boxKeyLen : Z := 32.

Record attstnBody := AttstnBody { Document : bytes; EncryptedKeys : bytes }.

Definition attstn_Marshal (b : attstnBody) : bytes :=
  json_Print (JObj [(str "document", JStr (Document b));
                    (str "encrypted_keys", JStr (EncryptedKeys b))]).

Definition attstn_fields : list (bytes * field attstnBody) :=
  [(str "document", string_field (fun s b => AttstnBody s (EncryptedKeys b)));
   (str "encrypted_keys", string_field (fun s b => AttstnBody (Document b) s))].

(** [json.Unmarshal] into a zero [attstnBody]. *)
Definition attstn_Unmarshal (data : bytes) : attstnBody * option error :=
  Unmarshal attstn_fields data (AttstnBody [] []).

Record boxKey := BoxKey { pubKey : bytes; privKey : bytes }.

(** The part of [golang.org/x/crypto/nacl/box] that is used; the random bytes
    that [SealAnonymous] reads are an argument. *)
Record box_ops := BoxOps {
  SealAnonymous : bytes -> bytes -> result bytes -> result bytes;
  OpenAnonymous : bytes -> bytes -> bytes -> option bytes;
  keypair : boxKey -> Prop        (* what [GenerateKey] returns *)
}.

(** Documented behaviour: keys are 32 bytes; a sealed message opens under the
    key pair it was sealed for and is 48 bytes longer than the message; only
    reading random bytes can make sealing fail. *)
Class NaCl (B : box_ops) : Prop := {
  keypair_len : forall k, keypair B k -> length (pubKey k) = 32%nat;
  seal_ok : forall m pk r, exists c, SealAnonymous B m pk (Ok r) = Ok c;
  seal_len : forall m pk r c, SealAnonymous B m pk r = Ok c -> len c = len m + 48;
  seal_open : forall m k r c, keypair B k -> SealAnonymous B m (pubKey k) r = Ok c ->
    OpenAnonymous B c (pubKey k) (privKey k) = Some m
}.

(** [newBoxKey]: what [box.GenerateKey] answers. *)
Definition newBoxKey (gen : result boxKey) : result boxKey :=
  match gen with
  | Err e => Err e
  | Ok k => Ok (BoxKey (pubKey k) (privKey k))
  end.

(** The limit for reading an attestation body, in both directions. *)
Definition maxReadLen : Z := b64_EncodedLen maxAttstnBodyLen.

Lemma attstn_json_ok d e :
  let j := JObj [(str "document", JStr (b64_Encode d)); (str "encrypted_keys", JStr (b64_Encode e))] in
  json_ok j = true /\ json_depth j = 1.
Proof. cbn -[b64_Encode text_ok]. by rewrite !plain_text_ok by (done || apply b64_Encode_plain). Qed.

(** Base64 text survives the JSON encoding of the body, a newline included. *)
Lemma attstn_Unmarshal_Marshal d e :
  attstn_Unmarshal (attstn_Marshal (AttstnBody (b64_Encode d) (b64_Encode e))) =
  (AttstnBody (b64_Encode d) (b64_Encode e), None).
Proof.
  unfold attstn_Unmarshal, attstn_Marshal. cbn [Document EncryptedKeys].
  destruct (attstn_json_ok d e) as [Hok Hd].
  rewrite Unmarshal_Print by (done || by rewrite Hd). by store_members.
Qed.

Lemma attstn_Unmarshal_Marshal_nl d e :
  attstn_Unmarshal (attstn_Marshal (AttstnBody (b64_Encode d) (b64_Encode e)) ++ [Byte.x0a]) =
  (AttstnBody (b64_Encode d) (b64_Encode e), None).
Proof.
  rewrite <- attstn_Unmarshal_Marshal. destruct (attstn_json_ok d e) as [Hok Hd].
  apply Unmarshal_Print_nl; [exact Hok|]. etrans; [apply Z.eq_le_incl; exact Hd|done].
Qed.

Lemma len_attstn_Marshal d e :
  len (attstn_Marshal (AttstnBody (b64_Encode d) (b64_Encode e))) =
  len (b64_Encode d) + len (b64_Encode e) + 35.
Proof.
  unfold attstn_Marshal. rewrite json_Print_two. cbn [Document EncryptedKeys].
  rewrite !len_cons, !len_app, !len_cons, !len_app, !len_cons, !len_quote_plain, len_nil
    by (done || apply b64_Encode_plain).
  change (len (str "document")) with 8. change (len (str "encrypted_keys")) with 14. lia.
Qed.

Lemma attstn_Marshal_nonempty b : attstn_Marshal b <> [].
Proof. unfold attstn_Marshal. by rewrite json_Print_two. Qed.

(** ** The worker *)

(** [heartbeatRequest]. *)
Record heartbeatRequest := HeartbeatRequest { HashedKeys : bytes; WorkerHostname : bytes }.

Definition heartbeat_Marshal (h : heartbeatRequest) : bytes :=
  json_Print (JObj [(str "hashed_keys", JStr (HashedKeys h));
                    (str "worker_hostname", JStr (WorkerHostname h))]).

Definition heartbeat_fields : list (bytes * field heartbeatRequest) :=
  [(str "hashed_keys", string_field (fun s h => HeartbeatRequest s (WorkerHostname h)));
   (str "worker_hostname", string_field (fun s h => HeartbeatRequest (HashedKeys h) s))].

Definition heartbeat_Unmarshal (data : bytes) : heartbeatRequest * option error :=
  Unmarshal heartbeat_fields data (HeartbeatRequest [] []).

(** *** Programs of request handlers *)

(** The critical sections of [setupWorkerPostSync], the [setupWorker] that
    [NewEnclave] passes to [asWorker], in the order it runs them: [keys.set]
    takes the lock once for the application keys and once more for the
    nitriding keys, and [httpsCert.set] has a lock of its own.  Nothing holds a
    lock from the first to the last, so requests that overlap may interleave
    them. *)
Inductive setup_stage := StoreAppKeys | StoreNitridingKeys | InstallCert | StartHeartbeat.

#[export] Instance setup_stage_eq_dec : EqDecision setup_stage.
Proof. solve_decision. Defined.

Definition setup_stages : list setup_stage :=
  [StoreAppKeys; StoreNitridingKeys; InstallCert; StartHeartbeat].

(** The operations of a handler that other goroutines can observe. *)
Inductive act : Type -> Type :=
  | LenKeys : act bool                       (* [len(s.ephemeralKeys) > 0] *)
  | SendNonce (n : nonce) : act unit         (* [s.nonce <- n] *)
  | RecvNonce : act nonce                    (* [<-s.nonce] *)
  | SendKey (k : boxKey) : act unit          (* [s.ephemeralKeys <- k] *)
  | RecvKey : act boxKey                     (* [<-s.ephemeralKeys] *)
  | Respond (f : respw -> respw) : act unit  (* write to the own connection *)
  | Setup (st : setup_stage) (keys : enclaveKeys)
      : act (option error).                  (* one section of [s.setupWorker(&keys)] *)

Inductive prog (A : Type) : Type :=
  | Ret (a : A)
  | Fatal                                    (* [elog.Fatalf] ends the process *)
  | Panics                                   (* the server drops the connection *)
  | Vis {X : Type} (e : act X) (k : X -> prog A).
Arguments Ret {A} a.
Arguments Fatal {A}.
Arguments Panics {A}.
Arguments Vis {A X} e k.

Fixpoint prog_bind {A B} (f : A -> prog B) (p : prog A) : prog B :=
  match p with
  | Ret a => f a
  | Fatal => Fatal
  | Panics => Panics
  | Vis e k => Vis e (fun x => prog_bind f (k x))
  end.

#[export] Instance prog_ret : MRet prog := @Ret.
#[export] Instance prog_mbind : MBind prog := @prog_bind.

Definition do {X} (e : act X) : prog X := Vis e Ret.

Section worker.
(** [E]: the enclave that [setupWorker] installs keys into. *)
Context {E : Type}.

(** [workerSync] without the functions it was created with, and the enclave. *)
Record wstate := WState {
  nonce_ch : option nonce;
  ephemeralKeys : option boxKey;
  enclave : E
}.

(** [asWorker]. *)
Definition asWorker (e : E) : wstate := WState None None e.

Context (a : attester) (B : box_ops).
Context (setupWorker : setup_stage -> enclaveKeys -> E -> E * option error).

(** All sections of [setupWorker] in a row, up to the first error: what a caller
    sees who is alone. *)
Fixpoint setup_seq (sts : list setup_stage) (keys : enclaveKeys) (e : E) : E * option error :=
  match sts with
  | [] => (e, None)
  | st :: sts' =>
      match setupWorker st keys e with
      | (e', Some err) => (e', Some err)
      | (e', None) => setup_seq sts' keys e'
      end
  end.

Definition setup_all : enclaveKeys -> E -> E * option error := setup_seq setup_stages.

(** One operation; [None] when it has to wait. *)
Definition exec {X} (e : act X) (s : wstate) (w : respw) : option (wstate * respw * X) :=
  match e with
  | LenKeys => Some (s, w, bool_decide (is_Some (ephemeralKeys s)))
  | SendNonce n =>
      match nonce_ch s with
      | Some _ => None
      | None => Some (WState (Some n) (ephemeralKeys s) (enclave s), w, tt)
      end
  | RecvNonce =>
      match nonce_ch s with
      | Some n => Some (WState None (ephemeralKeys s) (enclave s), w, n)
      | None => None
      end
  | SendKey k =>
      match ephemeralKeys s with
      | Some _ => None
      | None => Some (WState (nonce_ch s) (Some k) (enclave s), w, tt)
      end
  | RecvKey =>
      match ephemeralKeys s with
      | Some k => Some (WState (nonce_ch s) None (enclave s), w, k)
      | None => None
      end
  | Respond f => Some (s, f w, tt)
  | Setup st keys =>
      let '(e', err) := setupWorker st keys (enclave s) in
      Some (WState (nonce_ch s) (ephemeralKeys s) e', w, err)
  end.

(** Serve one request while no other is being served.  A request that has to
    wait ends here as [Blocked], at the state in which it waits: its goroutine
    is not resumed.  [step] below resumes it. *)
Fixpoint run {A} (p : prog A) : M (wstate * respw) A := fun '(s, w) =>
  match p with
  | Ret x => ((s, w), Done x)
  | Fatal => ((s, w), Exit)
  | Panics => ((s, w), Panic)
  | Vis e k =>
      match exec e s w with
      | Some (s', w', x) => run (k x) (s', w')
      | None => ((s, w), Blocked)
      end
  end.
End worker.
Arguments wstate : clear implicits.

(** *** The handlers *)
Section handlers.
Context (a : attester) (B : box_ops).

Definition respond (f : respw -> respw) : prog unit := do (Respond f).

(** [s.setupWorker(&keys)], section by section. *)
Fixpoint setup_prog (sts : list setup_stage) (keys : enclaveKeys) : prog (option error) :=
  match sts with
  | [] => mret None
  | st :: sts' =>
      err ← do (Setup st keys);
      match err with
      | Some e => mret (Some e)
      | None => setup_prog sts' keys
      end
  end.

(** [initSync]: a bad nonce is reported but does not end the handler; the
    sync then goes on with the zero nonce. *)
Definition initSync (rd : rand_read) (gen : result boxKey) (r : request) : prog unit :=
  busy ← do LenKeys;
  if busy : bool then respond (http_Error errInProgress StatusTooManyRequests)
  else
    let got := getNonceFromReq r in
    _ ← (match got with
         | Err e => respond (http_Error e StatusBadRequest)
         | Ok _ => mret tt
         end);
    let leadersNonce := match got with Ok n => n | Err _ => zero_nonce end in
    match newNonce rd with
    | Err e => respond (http_Error e StatusInternalServerError)
    | Ok workersNonce =>
        _ ← do (SendNonce workersNonce);
        match newBoxKey gen with
        | Err e => respond (http_Error e StatusInternalServerError)
        | Ok boxKey =>
            _ ← do (SendKey boxKey);
            match createAttstn a (AuxWorker
                    (WorkerAux workersNonce leadersNonce (Some (pubKey boxKey)))) with
            | Err e => respond (http_Error e StatusInternalServerError)
            | Ok attstnDoc =>
                respond (Fprintln (attstn_Marshal (AttstnBody (b64_Encode attstnDoc) [])))
            end
        end
    end.

(** The body of a request as the handler reads it. *)
Definition read_body (r : request) : bytes * option error :=
  Reader.ReadAll (Reader.newLimitReader (Body r) maxReadLen).

(** [finishSync]: a body that is not JSON is reported but does not end the
    handler; a document of the wrong kind panics. *)
Definition finishSync (r : request) : prog unit :=
  match read_body r with
  | (_, Some e) => respond (http_Error e StatusInternalServerError)
  | (jsonBody, None) =>
      let '(reqBody, err) := attstn_Unmarshal jsonBody in
      _ ← (match err with
           | Some e => respond (http_Error e StatusBadRequest)
           | None => mret tt
           end);
      match b64_Decode (Document reqBody) with
      | Err e => respond (http_Error e StatusInternalServerError)
      | Ok attstnDoc =>
          n ← do RecvNonce;
          match verifyAttstn a attstnDoc n with
          | Err e => respond (http_Error e StatusBadRequest)
          | Ok (AuxLeader leaderAux) =>
              match b64_Decode (EncryptedKeys reqBody) with
              | Err e => respond (http_Error e StatusBadRequest)
              | Ok encrypted =>
                  if negb (bytes_Equal (Some (Sum256 encrypted)) (l_HashOfEncrypted leaderAux))
                  then respond (http_Error errHashNotInAttstn StatusBadRequest)
                  else
                    ephemeralKey ← do RecvKey;
                    match OpenAnonymous B encrypted (pubKey ephemeralKey)
                            (privKey ephemeralKey) with
                    | None => respond (http_Error errFailedToDecrypt StatusBadRequest)
                    | Some decrypted =>
                        let '(keys, err) := keys_Unmarshal decrypted in
                        match err with
                        | Some e => respond (http_Error e StatusInternalServerError)
                        | None =>
                            err ← setup_prog setup_stages keys;
                            match err with
                            | Some e =>
                                _ ← respond (http_Error e StatusInternalServerError);
                                Fatal
                            | None => mret tt
                            end
                        end
                    end
              end
          | Ok _ => Panics
          end
      end
  end.

(** [ServeHTTP]: other methods get an empty response. *)
Definition ServeHTTP (rd : rand_read) (gen : result boxKey) (r : request) : prog unit :=
  match Method r with
  | GET => initSync rd gen r
  | POST => finishSync r
  | _ => mret tt
  end.
End handlers.

(** Served alone, the sections run in a row. *)
Lemma run_setup_seq {E A} (setupWorker : setup_stage -> enclaveKeys -> E -> E * option error)
    sts keys (f : option error -> prog A) s w :
  run setupWorker (setup_prog sts keys ≫= f) (s, w) =
  let '(e', err) := setup_seq setupWorker sts keys (enclave s) in
  run setupWorker (f err) (WState (nonce_ch s) (ephemeralKeys s) e', w).
Proof.
  revert s. induction sts as [|st sts IH]; intros s; [by destruct s|].
  cbn. destruct (setupWorker st keys (enclave s)) as [e' [err|]]; [done|].
  exact (IH (WState (nonce_ch s) (ephemeralKeys s) e')).
Qed.

Lemma run_setup {E A} (setupWorker : setup_stage -> enclaveKeys -> E -> E * option error)
    keys (f : option error -> prog A) s w :
  run setupWorker (setup_prog setup_stages keys ≫= f) (s, w) =
  let '(e', err) := setup_all setupWorker keys (enclave s) in
  run setupWorker (f err) (WState (nonce_ch s) (ephemeralKeys s) e', w).
Proof. apply run_setup_seq. Qed.

(** *** Any number of requests at once *)

(** A section of [setupWorker] that was run, and for which keys. *)
Abbreviation section := (setup_stage * enclaveKeys)%type.

Section concurrent.
Context {E : Type} (a : attester) (B : box_ops).
Context (setupWorker : setup_stage -> enclaveKeys -> E -> E * option error).

(** A request, with the randomness that its goroutine is going to draw. *)
Record arrival := Arrival { a_rd : rand_read; a_gen : result boxKey; a_req : request }.

Record thread := Thread { todo : prog unit; out : respw }.

(** The worker with the goroutines that are serving requests, the [i]-th one
    the [i]-th request; [arrivals] and [installs] record what has happened so
    far: the requests, and the sections of [setupWorker] that were run, each
    with the goroutine that ran it. *)
Record server := Server {
  shared : wstate E;
  threads : list thread;
  arrivals : list arrival;
  installs : list (nat * section)
}.

Definition start (e : E) : server := Server (asWorker e) [] [] [].

Definition serve (x : arrival) : prog unit := ServeHTTP a B (a_rd x) (a_gen x) (a_req x).

Definition installed {X} (e : act X) : list section :=
  match e with Setup st keys => [(st, keys)] | _ => [] end.

(** No goroutine has ended the process. *)
Definition alive (ts : list thread) : Prop := Forall (fun t => todo t <> Fatal) ts.

Inductive step : server -> server -> Prop :=
  | step_arrive x s ts l ks :
      alive ts ->
      step (Server s ts l ks) (Server s (ts ++ [Thread (serve x) new_respw]) (l ++ [x]) ks)
  | step_act i X (e : act X) k s w s' w' x ts l ks :
      alive ts -> ts !! i = Some (Thread (Vis e k) w) ->
      exec setupWorker e s w = Some (s', w', x) ->
      step (Server s ts l ks)
           (Server s' (<[i := Thread (k x) w']> ts) l (ks ++ (pair i <$> installed e))).

(** **** What an installation of keys is justified by *)

Definition made_nonce (l : list arrival) (n : nonce) : Prop :=
  exists x, x ∈ l /\ Method (a_req x) = GET /\ newNonce (a_rd x) = Ok n.

Definition made_key (l : list arrival) (k : boxKey) : Prop :=
  exists x, x ∈ l /\ Method (a_req x) = GET /\ newBoxKey (a_gen x) = Ok k.

(** The POST [x] delivered the keys: its document verifies under a nonce of
    this worker and commits to the ciphertext, which opens under an ephemeral
    key of this worker. *)
Definition delivered (l : list arrival) (x : arrival) (keys : enclaveKeys) : Prop :=
  Method (a_req x) = POST /\
  exists jsonBody reqBody err doc n aux encrypted k decrypted,
    read_body (a_req x) = (jsonBody, None) /\
    attstn_Unmarshal jsonBody = (reqBody, err) /\
    b64_Decode (Document reqBody) = Ok doc /\
    made_nonce l n /\ verifyAttstn a doc n = Ok (AuxLeader aux) /\
    b64_Decode (EncryptedKeys reqBody) = Ok encrypted /\
    sbytes (l_HashOfEncrypted aux) = Sum256 encrypted /\
    made_key l k /\ OpenAnonymous B encrypted (pubKey k) (privKey k) = Some decrypted /\
    keys_Unmarshal decrypted = (keys, None).

(** All sections for the same keys, in order. *)
Definition all_sections (keys : enclaveKeys) : list section :=
  (fun st => (st, keys)) <$> setup_stages.

(** The sections that the [i]-th goroutine has run. *)
Definition sections_of (i : nat) (ks : list (nat * section)) : list section :=
  snd <$> filter (fun y => y.1 = i) ks.

(** It has run a beginning of the sections for the keys that its own request
    delivered, or none. *)
Definition installing (l : list arrival) (x : arrival) (ys : list section) : Prop :=
  ys = [] \/ exists keys, delivered l x keys /\ ys `prefix_of` all_sections keys.

Definition is_GET (x : arrival) : bool := bool_decide (Method (a_req x) = GET).
Definition gets (l : list arrival) : nat := length (List.filter is_GET l).

(** **** A program logic for handlers

    [safe l x n ys p]: whatever the other goroutines do, the rest [p] of the
    goroutine that serves [x] and has run the sections [ys] only sends nonces
    and keys that this worker made and only runs further sections, in order,
    for keys that [x] delivered.  [n] counts nonces: a GET may send one, and
    the first section uses one up. *)

Definition started (ys : list section) : nat := match ys with [] => 0 | _ => 1 end.

Definition wp_act {X} (l : list arrival) (x : arrival) (n : nat) (ys : list section) (e : act X)
    (Q : nat -> list section -> X -> Prop) : Prop :=
  match e in act X return (nat -> list section -> X -> Prop) -> Prop with
  | LenKeys => fun Q => forall b, Q n ys b
  | SendNonce v => fun Q => made_nonce l v /\ exists m, n = S m /\ Q m ys tt
  | RecvNonce => fun Q => forall v, made_nonce l v -> Q (S n) ys v
  | SendKey k => fun Q => made_key l k /\ Q n ys tt
  | RecvKey => fun Q => forall k, made_key l k -> Q n ys k
  | Respond _ => fun Q => Q n ys tt
  | Setup st keys => fun Q =>
      let ys' := ys ++ [(st, keys)] in
      delivered l x keys /\ ys' `prefix_of` all_sections keys /\
      exists m, (m + started ys' = n + started ys)%nat /\ forall err, Q m ys' err
  end Q.

(** More requests may arrive at any moment. *)
Fixpoint safe (l : list arrival) (x : arrival) (n : nat) (ys : list section) (p : prog unit)
    : Prop :=
  match p with
  | Vis e k => forall l', l `prefix_of` l' ->
      wp_act l' x n ys e (fun m ys' v => safe l' x m ys' (k v))
  | _ => True
  end.

Lemma safe_mono l l' x n ys p : l `prefix_of` l' -> safe l x n ys p -> safe l' x n ys p.
Proof.
  intros Hl. destruct p; simpl; try done. intros H l'' Hl'. apply H. by etrans.
Qed.

Lemma made_nonce_mono l l' n : l `prefix_of` l' -> made_nonce l n -> made_nonce l' n.
Proof. intros [k ->] (x & Hx & H). exists x. split; [set_solver|done]. Qed.

Lemma made_key_mono l l' k : l `prefix_of` l' -> made_key l k -> made_key l' k.
Proof. intros [m ->] (x & Hx & H). exists x. split; [set_solver|done]. Qed.

Lemma delivered_mono l l' x keys : l `prefix_of` l' -> delivered l x keys -> delivered l' x keys.
Proof.
  intros Hl (Hp & jb & rb & err & doc & n & aux & enc & k & dec & H). split; [done|].
  exists jb, rb, err, doc, n, aux, enc, k, dec. destruct_and!. split_and!; try done.
  - by eapply made_nonce_mono.
  - by eapply made_key_mono.
Qed.

Lemma installing_mono l l' x ys : l `prefix_of` l' -> installing l x ys -> installing l' x ys.
Proof. intros Hl [?|(keys & H & ?)]; [by left|right]. eauto using delivered_mono. Qed.

Lemma elem_mono (x : arrival) l l' : l `prefix_of` l' -> x ∈ l -> x ∈ l'.
Proof. intros [k ->]. set_solver. Qed.

Lemma safe_respond l x n ys f : safe l x n ys (respond f).
Proof. simpl. done. Qed.

(** An error may have been reported before the handler goes on. *)
Lemma safe_report l x n ys (p k : prog unit) :
  p = mret tt \/ (exists f, p = respond f) ->
  (forall l', l `prefix_of` l' -> safe l' x n ys k) -> safe l x n ys (_ ← p; k).
Proof. intros [->|[f ->]] H; cbn; [by apply H|]. intros l' Hl. by apply H. Qed.

Lemma safe_initSync x l :
  x ∈ l -> Method (a_req x) = GET -> safe l x 1 [] (initSync a (a_rd x) (a_gen x) (a_req x)).
Proof.
  intros Hx Hm. unfold initSync. intros l1 H1 b. destruct b; [apply safe_respond|].
  apply safe_report; [destruct (getNonceFromReq _); eauto|]. intros l2 H2.
  destruct (newNonce (a_rd x)) as [n|] eqn:En; [|apply safe_respond].
  intros l3 H3. split; [exists x; by eauto 10 using elem_mono|]. exists 0%nat. split; [done|].
  destruct (newBoxKey (a_gen x)) as [k|] eqn:Ek; [|apply safe_respond].
  intros l4 H4. split; [exists x; by eauto 10 using elem_mono|].
  destruct (createAttstn _ _); apply safe_respond.
Qed.

(** The sections from any point on, for delivered keys. *)
Lemma safe_setup l x n (f : option error -> prog unit) keys done todo :
  delivered l x keys -> setup_stages = done ++ todo ->
  (forall l' m ys err, l `prefix_of` l' -> safe l' x m ys (f err)) ->
  let ys := (fun st => (st, keys)) <$> done in
  (started ys = 0%nat -> n = 1%nat) ->
  safe l x n ys (setup_prog todo keys ≫= f).
Proof.
  intros Hd Hst Hf. revert l n done Hd Hst Hf.
  induction todo as [|st todo IH]; intros l n done Hd Hst Hf ys Hn; [by apply Hf|].
  change (setup_prog (st :: todo) keys ≫= f) with
    (Vis (Setup st keys) (fun err => match err with
       | Some e => mret (Some e) | None => setup_prog todo keys end ≫= f)).
  intros l1 H1. cbn [wp_act]. cbv zeta.
  assert (Hys : ys ++ [(st, keys)] = (fun st => (st, keys)) <$> (done ++ [st]))
    by by rewrite fmap_app.
  assert (Hs1 : started (ys ++ [(st, keys)]) = 1%nat) by by destruct ys.
  split; [by eapply delivered_mono|]. split.
  { rewrite Hys. unfold all_sections. rewrite Hst. exists ((fun st => (st, keys)) <$> todo).
    by rewrite <- fmap_app, <- app_assoc. }
  exists (if ys then 0 else n)%nat. split.
  { rewrite Hs1. destruct ys; simpl in *; [by rewrite (Hn eq_refl)|done]. }
  intros [e|]; [by apply Hf|]. rewrite Hys.
  apply (IH l1 _ (done ++ [st])).
  - by eapply delivered_mono.
  - by rewrite <- app_assoc.
  - intros l2 m ys' err H2. apply Hf. by etrans.
  - rewrite <- Hys, Hs1. done.
Qed.

Lemma safe_finishSync x l :
  Method (a_req x) = POST -> safe l x 0 [] (finishSync a B (a_req x)).
Proof.
  intros Hm. unfold finishSync. destruct (read_body (a_req x)) as [jb [e|]] eqn:Er;
    [apply safe_respond|].
  destruct (attstn_Unmarshal jb) as [rb err] eqn:Eu.
  apply safe_report; [destruct err; eauto|]. intros l1 H1.
  destruct (b64_Decode (Document rb)) as [doc|] eqn:Ed; [|apply safe_respond].
  intros l2 H2 n Hn. cbn [prog_bind mbind prog_mbind do].
  destruct (verifyAttstn a doc n) as [[| | |aux]|] eqn:Ev; try done.
  destruct (b64_Decode (EncryptedKeys rb)) as [enc|] eqn:Ee; [|apply safe_respond].
  destruct (bytes_Equal _ _) eqn:Eh; [|apply safe_respond]. cbn [negb].
  intros l3 H3 k Hk. cbn [prog_bind mbind prog_mbind do].
  destruct (OpenAnonymous _ _ _ _) as [dec|] eqn:Eo; [|apply safe_respond].
  destruct (keys_Unmarshal dec) as [keys [e|]] eqn:Ek; [apply safe_respond|].
  apply (safe_setup l3 x 1 _ keys [] setup_stages); [|done| |done].
  - apply bytes_Equal_eq in Eh. split; [done|]. exists jb, rb, err, doc, n, aux, enc, k, dec.
    split_and!; eauto using made_nonce_mono.
  - by intros l4 m ys [e|] H4.
Qed.

Lemma safe_serve x l : x ∈ l -> safe l x (if is_GET x then 1 else 0) [] (serve x).
Proof.
  intros Hx. unfold serve, ServeHTTP, is_GET. destruct (Method (a_req x)) eqn:Em; try done.
  - by apply safe_initSync.
  - by apply safe_finishSync.
Qed.

(** **** The invariant of the worker *)

(** The channels only hold what this worker made. *)
Definition made (l : list arrival) (s : wstate E) : Prop :=
  (forall n, nonce_ch s = Some n -> made_nonce l n) /\
  (forall k, ephemeralKeys s = Some k -> made_key l k).

Definition pending (s : wstate E) : nat := if nonce_ch s then 1 else 0.

(** The enclave after these sections, one after the other. *)
Definition install_all (ys : list section) (e : E) : E :=
  fold_left (fun e y => (setupWorker y.1 y.2 e).1) ys e.

(** Soundness of [wp_act]. *)
Lemma exec_sound {X} (e : act X) l x n ys Q s w s' w' v :
  wp_act l x n ys e Q -> exec setupWorker e s w = Some (s', w', v) -> made l s ->
  installing l x ys ->
  exists m, Q m (ys ++ installed e) v /\
    (m + started (ys ++ installed e) + pending s' <= n + started ys + pending s)%nat /\
    made l s' /\ installing l x (ys ++ installed e) /\
    enclave s' = install_all (installed e) (enclave s).
Proof.
  destruct s as [nc ek en]. unfold made, pending, install_all.
  destruct e; simpl; intros Hw Hex [Hn Hk] Hi; repeat case_match; simplify_eq/=; rewrite ?app_nil_r.
  all: try (exists n; split_and!; auto; naive_solver lia).
  2: by exists (S n); split_and!; auto; try lia; naive_solver.
  1: by destruct Hw as (? & m & -> & ?); exists m; split_and!; auto; naive_solver lia.
  all: destruct Hw as (Hd & Hp & m & Hm & HQ); exists m; split_and!; auto; [lia|]; right;
    by exists keys.
Qed.

(** The [i]-th goroutine, with [m] nonces on its account. *)
Definition thread_ok (σ : server) (i m : nat) : Prop :=
  exists t x n, threads σ !! i = Some t /\ arrivals σ !! i = Some x /\
    let ys := sections_of i (installs σ) in
    safe (arrivals σ) x n ys (todo t) /\ installing (arrivals σ) x ys /\
    (n + started ys <= m)%nat.

Definition inv (e0 : E) (σ : server) : Prop :=
  length (arrivals σ) = length (threads σ) /\
  Forall (fun y => y.1 < length (threads σ))%nat (installs σ) /\
  (exists ms : list nat, length ms = length (threads σ) /\
     (forall i m, ms !! i = Some m -> thread_ok σ i m) /\
     (list_sum ms + pending (shared σ) <= gets (arrivals σ))%nat) /\
  made (arrivals σ) (shared σ) /\
  enclave (shared σ) = install_all (snd <$> installs σ) e0.

Lemma inv_start e0 : inv e0 (start e0).
Proof. split_and!; [done|constructor|exists []; by split_and!|done..]. Qed.

Lemma gets_app l l' : gets (l ++ l') = (gets l + gets l')%nat.
Proof. unfold gets. by rewrite List.filter_app, length_app. Qed.

Lemma list_sum_insert ns i m n :
  ns !! i = Some n -> (list_sum (<[i := m]> ns) + n = list_sum ns + m)%nat.
Proof.
  revert i. induction ns as [|x ns IH]; intros [|i]; simpl; [done..| |].
  - intros [= ->]. lia.
  - intros Hi%IH. lia.
Qed.

Lemma sections_of_app i ks ks' : sections_of i (ks ++ ks') = sections_of i ks ++ sections_of i ks'.
Proof. unfold sections_of. by rewrite filter_app, fmap_app. Qed.

Lemma sections_of_own i ys : sections_of i (pair i <$> ys) = ys.
Proof.
  unfold sections_of. induction ys as [|y ys IH]; [done|].
  rewrite fmap_cons, filter_cons_True by done. by rewrite fmap_cons, IH.
Qed.

Lemma sections_of_other i j ys : i <> j -> sections_of j (pair i <$> ys) = [].
Proof.
  intros Hij. unfold sections_of. induction ys as [|y ys IH]; [done|].
  by rewrite fmap_cons, filter_cons_False.
Qed.

Lemma sections_of_fresh i ks :
  Forall (fun y => y.1 < i)%nat ks -> sections_of i ks = [].
Proof.
  unfold sections_of. induction 1 as [|y ks Hy _ IH]; [done|].
  rewrite filter_cons_False by lia. done.
Qed.

(** A new request. *)
Lemma inv_arrive e0 x s ts l ks :
  inv e0 (Server s ts l ks) -> inv e0 (Server s (ts ++ [Thread (serve x) new_respw]) (l ++ [x]) ks).
Proof.
  intros (Hlen & Hks & (ms & Hms & Hok & Hc) & [Hn Hk] & He).
  assert (Hl : l `prefix_of` l ++ [x]) by by eexists.
  unfold inv, thread_ok in *. cbn [shared threads arrivals installs] in *.
  split_and!; [by rewrite !length_app, Hlen| | | |done].
  - eapply Forall_impl; [exact Hks|]. simpl. intros y. rewrite length_app. lia.
  - exists (ms ++ [if is_GET x then 1 else 0]%nat). split; [by rewrite !length_app, Hms|]. split.
    + intros i m Hi. apply lookup_app_Some in Hi as [Hi|[Hge Hi]].
      * destruct (Hok i m Hi) as (t & x' & n & Ht & Hx & Hs & Hin & Hle). exists t, x', n.
        split_and!; eauto using lookup_app_l_Some, safe_mono, installing_mono.
      * apply list_lookup_singleton_Some in Hi as [Hz <-].
        assert (i = length ts) as -> by lia. exists (Thread (serve x) new_respw), x, (if is_GET x then 1 else 0)%nat.
        rewrite (sections_of_fresh _ _ Hks). split_and!; [by apply list_lookup_middle|
          by apply list_lookup_middle| |by left|simpl; lia].
        simpl. apply safe_serve. set_solver.
    + rewrite list_sum_app, gets_app. unfold gets at 2. simpl. destruct (is_GET x); simpl; lia.
  - split; intros; [by eapply made_nonce_mono, Hn | by eapply made_key_mono, Hk].
Qed.

(** One operation of a goroutine. *)
Lemma inv_act e0 i X (e : act X) k s w s' w' v ts l ks :
  ts !! i = Some (Thread (Vis e k) w) -> exec setupWorker e s w = Some (s', w', v) ->
  inv e0 (Server s ts l ks) ->
  inv e0 (Server s' (<[i := Thread (k v) w']> ts) l (ks ++ (pair i <$> installed e))).
Proof.
  intros Hi Hex (Hlen & Hks & (ms & Hms & Hok & Hc) & Hm & He).
  pose proof (lookup_lt_Some _ _ _ Hi) as Hlt. simpl in Hms.
  destruct (lookup_lt_is_Some_2 ms i) as [m0 Hm0]; [lia|].
  destruct (Hok i m0 Hm0) as (t & x & n & Ht & Hx & Hs & Hin & Hle).
  unfold inv, thread_ok in *. cbn [shared threads arrivals installs] in *.
  rewrite Hi in Ht. injection Ht as <-.
  destruct (exec_sound e l x n _ _ _ _ _ _ _ (Hs l ltac:(done)) Hex Hm Hin)
    as (m & HQ & Hcount & Hm' & Hin' & He').
  split_and!; [by rewrite length_insert| | |done|].
  - rewrite length_insert. apply Forall_app. split; [done|]. apply Forall_fmap.
    apply Forall_true. intros y. simpl. lia.
  - set (m1 := (m0 + m + started (sections_of i ks ++ installed e)
                - (n + started (sections_of i ks)))%nat).
    exists (<[i := m1]> ms). split; [by rewrite !length_insert|].
    split; [|pose proof (list_sum_insert ms i m1 m0 Hm0); unfold m1 in *; lia].
    intros j mj. destruct (decide (i = j)) as [<-|Hij].
    + rewrite list_lookup_insert_eq by lia. intros [= <-].
      exists (Thread (k v) w'), x, m. rewrite list_lookup_insert_eq by done.
      rewrite sections_of_app, sections_of_own. split_and!; try done. unfold m1. lia.
    + rewrite list_lookup_insert_ne by done. intros Hj.
      destruct (Hok j mj Hj) as (t & x' & n' & ?). exists t, x', n'.
      rewrite list_lookup_insert_ne by done.
      by rewrite sections_of_app, (sections_of_other i j), app_nil_r.
  - rewrite He', He. unfold install_all. rewrite fmap_app, <- list_fmap_compose, fold_left_app.
    by rewrite list_fmap_id.
Qed.

Lemma inv_reachable e0 σ σ' : inv e0 σ -> rtc step σ σ' -> inv e0 σ'.
Proof.
  intros Hi Hr. induction Hr as [|σ σ1 σ' Hst _ IH]; [done|]. apply IH.
  destruct Hst; [by apply inv_arrive|by eapply inv_act].
Qed.

(** The goroutines that have begun to install keys. *)
Definition installers (σ : server) : list nat :=
  filter (fun i => sections_of i (installs σ) <> []) (seq 0 (length (threads σ))).

Lemma length_installers σ ms :
  length ms = length (threads σ) -> (forall i m, ms !! i = Some m -> thread_ok σ i m) ->
  (length (installers σ) <= list_sum ms)%nat.
Proof.
  intros Hlen Hok. unfold installers. rewrite <- Hlen. clear Hlen.
  assert (H : forall i m, ms !! i = Some m -> (started (sections_of (0 + i) (installs σ)) <= m)%nat).
  { intros i m Hi. destruct (Hok i m Hi) as (t & x & n & _ & _ & _ & _ & Hle). simpl. lia. }
  clear Hok. revert H. generalize 0%nat as b. induction ms as [|m ms IH]; intros b H; [done|].
  simpl seq. rewrite filter_cons. pose proof (H 0%nat m eq_refl) as H0.
  specialize (IH (S b)). rewrite Nat.add_0_r in H0.
  assert (Hl : (length (filter (fun i => sections_of i (installs σ) <> []) (seq (S b) (length ms)))
           <= list_sum ms)%nat).
  { apply IH. intros i m' Hi. specialize (H (S i) m' Hi). by rewrite Nat.add_succ_r in H. }
  destruct (decide _) as [Hd|Hd]; simpl; [|lia].
  destruct (sections_of b (installs σ)); [done|]. simpl in H0. lia.
Qed.

(** **** A worker that can never be synchronized again *)

(** [quiet p]: with an empty nonce channel and a key in flight, [p] can only
    answer its own request or wait for a nonce. *)
Definition quiet_act {X} (e : act X) (Q : X -> Prop) : Prop :=
  match e in act X return (X -> Prop) -> Prop with
  | LenKeys => fun Q => Q true
  | RecvNonce => fun _ => True
  | Respond _ => fun Q => Q tt
  | _ => fun _ => False
  end Q.

Fixpoint quiet (p : prog unit) : Prop :=
  match p with
  | Vis e k => quiet_act e (fun x => quiet (k x))
  | _ => True
  end.

Lemma quiet_serve x : quiet (serve x).
Proof.
  unfold serve, ServeHTTP. destruct (Method (a_req x)); try done.
  unfold finishSync. destruct (read_body _) as [jb [e|]]; [done|].
  destruct (attstn_Unmarshal jb) as [rb [e|]]; simpl; by destruct (b64_Decode _).
Qed.

Definition wedged (e : E) (σ : server) : Prop :=
  (exists k, shared σ = WState None (Some k) e) /\ Forall (fun t => quiet (todo t)) (threads σ).

Lemma wedged_step e σ σ' : wedged e σ -> step σ σ' ->
  wedged e σ' /\ shared σ' = shared σ /\ installs σ' = installs σ.
Proof.
  intros [[key Hs] Hq] Hstep.
  destruct Hstep as [x s ts l ks _|i X ac k s w s' w' x ts l ks _ Hi Hex]; simpl in *; subst.
  - split; [|done]. split; [by eexists|]. simpl. apply Forall_app. split; [done|].
    constructor; [apply quiet_serve|done].
  - pose proof (proj1 (Forall_lookup _ _) Hq _ _ Hi) as Ht. simpl in Ht.
    destruct ac; simplify_eq/=; try done; rewrite app_nil_r; (split; [|done]);
      (split; [by eexists|]); by apply Forall_insert.
Qed.

Lemma wedged_forever e σ σ' : wedged e σ -> rtc step σ σ' ->
  shared σ' = shared σ /\ installs σ' = installs σ.
Proof.
  intros Hw Hr. induction Hr as [|σ σ1 σ' Hst _ IH]; [done|].
  destruct (wedged_step e σ σ1 Hw Hst) as (Hw1 & <- & <-). auto.
Qed.

(** Serving one request alone is an execution of the server. *)
Lemma run_steps ts p s w s' w' l ks :
  alive ts -> run setupWorker p (s, w) = ((s', w'), Done tt) ->
  exists ks', rtc step (Server s (ts ++ [Thread p w]) l ks)
                       (Server s' (ts ++ [Thread (Ret tt) w']) l ks').
Proof.
  intros Hts. revert s w ks. induction p as [[]| | |X e k IH]; intros s w ks H; simplify_eq/=.
  - by exists ks.
  - destruct (exec setupWorker e s w) as [[[s1 w1] x]|] eqn:Hex; [|done].
    destruct (IH x s1 w1 (ks ++ (pair (length ts) <$> installed e)) H) as [ks' Hr]. exists ks'.
    eapply rtc_l; [|exact Hr]. 
    replace (ts ++ [Thread (k x) w1]) with
      (<[length ts := Thread (k x) w1]> (ts ++ [Thread (Vis e k) w]))
      by (by rewrite insert_app_r_alt, Nat.sub_diag by lia).
    apply (step_act (length ts) X e k s w); [|by rewrite lookup_app_r, Nat.sub_diag|done].
    apply Forall_app. split; [done|]. by repeat constructor.
Qed.

Lemma serve_steps x ts s s' w' l ks :
  alive ts -> run setupWorker (serve x) (s, new_respw) = ((s', w'), Done tt) ->
  exists ks', rtc step (Server s ts l ks)
                       (Server s' (ts ++ [Thread (Ret tt) w']) (l ++ [x]) ks').
Proof.
  intros Hts Hr. destruct (run_steps ts _ _ _ _ _ (l ++ [x]) ks Hts Hr) as [ks' H].
  exists ks'. eapply rtc_l; [|exact H]. by constructor.
Qed.

(** C2: A worker only ever installs attested keys, however requests and the
    critical sections of their installations are interleaved.  In every
    reachable state and for every request, the sections of [setupWorker] that
    its goroutine has run are a beginning of the store of the application keys,
    the store of the nitriding keys, the installation of the certificate and
    the start of a heartbeat loop, all with the keys that this very request
    delivered: a POST whose attestation document verified under a nonce that
    this worker made and committed to the SHA-256 of the encrypted keys, which
    opened under an ephemeral key that this worker made.  At most as many
    requests begin to install keys as there were initiating GETs, so no nonce
    is used twice.  And the enclave's state is the result of exactly these
    sections, in the order they were run; sections of different requests may
    alternate. *)
Theorem installs_are_attested (e0 : E) (σ : server) :
  rtc step (start e0) σ ->
  (forall i, sections_of i (installs σ) = [] \/
     exists x keys, arrivals σ !! i = Some x /\ delivered (arrivals σ) x keys /\
       sections_of i (installs σ) `prefix_of` all_sections keys) /\
  (length (installers σ) <= gets (arrivals σ))%nat /\
  enclave (shared σ) = install_all (snd <$> installs σ) e0.
Proof.
  intros Hr. destruct (inv_reachable e0 _ _ (inv_start e0) Hr)
    as (_ & Hks & (ms & Hms & Hok & Hc) & _ & He).
  split_and!; [|pose proof (length_installers σ ms Hms Hok); lia|done].
  intros i. destruct (ms !! i) as [m|] eqn:Hi.
  - destruct (Hok i m Hi) as (t & x & n & _ & Hx & _ & [H|(keys & ? & ?)] & _); [by left|].
    right. by exists x, keys.
  - left. apply lookup_ge_None in Hi. apply sections_of_fresh.
    eapply Forall_impl; [exact Hks|]. simpl. lia.
Qed.

(** C9: One failed POST disables a worker's key synchronization for good.
    After a GET has put a nonce and an ephemeral key into the channels, a POST
    whose document does not verify takes the nonce and leaves the key: from
    then on, whatever requests arrive and however they interleave, the
    channels never change and no keys are ever installed, and every GET is
    answered with 429. *)
Theorem failed_finish_wedges_worker (e : E) (g p : arrival) n k jsonBody reqBody err doc e' :
  Method (a_req g) = GET -> newNonce (a_rd g) = Ok n -> newBoxKey (a_gen g) = Ok k ->
  Method (a_req p) = POST -> read_body (a_req p) = (jsonBody, None) ->
  attstn_Unmarshal jsonBody = (reqBody, err) -> b64_Decode (Document reqBody) = Ok doc ->
  verifyAttstn a doc n = Err e' ->
  let s1 := (run setupWorker (serve g) (asWorker e, new_respw)).1.1 in
  let s2 := (run setupWorker (serve p) (s1, new_respw)).1.1 in
  s1 = WState (Some n) (Some k) e /\ s2 = WState None (Some k) e /\
  (forall l ks σ, rtc step (Server s2 [] l ks) σ -> shared σ = s2 /\ installs σ = ks) /\
  (forall g', Method (a_req g') = GET ->
     run setupWorker (serve g') (s2, new_respw) =
     ((s2, http_Error errInProgress StatusTooManyRequests new_respw), Done tt)).
Proof.
  intros Hg Hn Hk Hp Hb Hu Hd Hv s1 s2.
  assert (E1 : s1 = WState (Some n) (Some k) e).
  { unfold s1, serve, ServeHTTP, initSync. rewrite Hg, Hn, Hk. simpl.
    destruct (getNonceFromReq _); simpl; by destruct (createAttstn _ _). }
  assert (E2 : s2 = WState None (Some k) e).
  { unfold s2, serve, ServeHTTP, finishSync. rewrite E1, Hp, Hb, Hu, Hd.
    destruct err; simpl; by rewrite Hv. }
  split_and!; [done..| |].
  - intros l ks σ. rewrite E2. apply (wedged_forever e). split; [by eexists|constructor].
  - intros g' Hg'. unfold serve, ServeHTTP, initSync. by rewrite E2, Hg'.
Qed.
End concurrent.

(** *** Initiating a synchronization *)

(** The response to an initiating GET of an idle worker. *)
Definition init_response (got : result nonce) (doc : bytes) : respw :=
  Fprintln (attstn_Marshal (AttstnBody (b64_Encode doc) []))
    match got with
    | Ok _ => new_respw
    | Err e => http_Error e StatusBadRequest new_respw
    end.

Lemma run_initSync {E} a setupWorker (e : E) rd gen r n k doc :
  newNonce rd = Ok n -> newBoxKey gen = Ok k ->
  createAttstn a (AuxWorker (WorkerAux n
    (match getNonceFromReq r with Ok m => m | Err _ => zero_nonce end) (Some (pubKey k)))) =
    Ok doc ->
  run setupWorker (initSync a rd gen r) (asWorker e, new_respw) =
  ((WState (Some n) (Some k) e, init_response (getNonceFromReq r) doc), Done tt).
Proof.
  intros Hn Hk Hc. unfold initSync, init_response. simpl. rewrite Hn.
  destruct (getNonceFromReq r) as [ln|err]; simpl; rewrite Hk; simpl; by rewrite Hc.
Qed.

(** C33: A GET to an idle worker starts a synchronization even when it carries no
    usable nonce.  Both channels are filled with the fresh nonce and ephemeral
    key in every case; with a good nonce the answer is 200 and the attestation
    document; with a bad one it is 400, followed by a document that attests the
    all-zero nonce. *)
Theorem initSync_continues_after_bad_nonce {E} a setupWorker (e : E) rd gen r n k doc :
  newNonce rd = Ok n -> newBoxKey gen = Ok k ->
  createAttstn a (AuxWorker (WorkerAux n
    (match getNonceFromReq r with Ok m => m | Err _ => zero_nonce end) (Some (pubKey k)))) =
    Ok doc ->
  exists w, run setupWorker (initSync a rd gen r) (asWorker e, new_respw) =
      ((WState (Some n) (Some k) e, w), Done tt) /\
    status w = (if is_ok (getNonceFromReq r) then StatusOK else StatusBadRequest) /\
    wbody w = (match getNonceFromReq r with Ok _ => [] | Err e => [ErrText e] end) ++
      [Raw (attstn_Marshal (AttstnBody (b64_Encode doc) []) ++ [Byte.x0a])].
Proof.
  intros Hn Hk Hc. eexists. split; [by apply run_initSync|].
  unfold init_response. by destruct (getNonceFromReq r).
Qed.

(** *** A box and requests for concrete runs *)
Module Sample.

(** A box without secrecy: the recipient's key, a tag of 16 zero bytes and the
    message; the private key is the public one. *)
Definition sample_box : box_ops := BoxOps
  (fun m pk r => match r with
                 | Ok _ => Ok (copy_array 32 pk ++ replicate 16 Byte.x00 ++ m)
                 | Err e => Err e
                 end)
  (fun c pk sk => if bool_decide (take 32 c = pk /\ pk = sk) then Some (drop 48 c) else None)
  (fun k => length (pubKey k) = 32%nat /\ privKey k = pubKey k).

#[export] Instance sample_nacl : NaCl sample_box.
Proof.
  split; cbn [keypair sample_box SealAnonymous OpenAnonymous].
  - by intros k [].
  - eauto.
  - intros m pk [r|] c H; [|done].
    assert (c = copy_array 32 pk ++ replicate 16 Byte.x00 ++ m) as -> by congruence.
    rewrite !len_app, len_replicate.
    unfold len at 1. rewrite length_copy_array. lia.
  - intros m k [r|] c [Hk Hp] H; [|done].
    assert (c = copy_array 32 (pubKey k) ++ replicate 16 Byte.x00 ++ m) as -> by congruence.
    rewrite <- Hk, copy_array_id, take_app_length.
    rewrite bool_decide_eq_true_2 by done. f_equal.
    by rewrite app_assoc, drop_app_length' by (rewrite length_app, Hk; done).
Qed.

Definition sample_key : boxKey := BoxKey (replicate 32 Byte.x01) (replicate 32 Byte.x01).
Definition sample_keys : enclaveKeys :=
  EnclaveKeys (Some (str "key")) (Some (str "cert")) (Some (str "app")).

Definition deliver (b : bytes) : Reader.reader := [(b, None)].

Lemma clean_deliver b : b <> [] -> Reader.clean (deliver b) b.
Proof. intros. split; [by repeat constructor|apply app_nil_r]. Qed.

Definition sample_get : arrival := Arrival example_read (Ok sample_key) example_request.

(** A POST that carries a document made for [n] and the keys, sealed. *)
Definition sample_post (n : nonce) : arrival :=
  let sealed := match SealAnonymous sample_box (keys_Marshal sample_keys) (pubKey sample_key)
                        (Ok []) with Ok c => c | Err _ => [] end in
  let doc := match Dummy.createAttstn (AuxLeader (LeaderAux n (Some (Sum256 sealed)))) with
             | Ok d => d | Err _ => [] end in
  Arrival example_read (Ok sample_key) (Request POST (RUrl example_request)
    (deliver (attstn_Marshal (AttstnBody (b64_Encode doc) (b64_Encode sealed))))).

Definition install (st : setup_stage) (k e : enclaveKeys) : enclaveKeys * option error :=
  (match st with
   | StoreAppKeys => setAppKeys (AppKeys k) e
   | StoreNitridingKeys => setNitridingKeys (NitridingKey k) (NitridingCert k) e
   | InstallCert | StartHeartbeat => e
   end, None).

Lemma initSync_continues_after_bad_nonce_witness :
  status (run install (initSync Dummy.dummyAttester example_read (Ok sample_key)
     (Request GET (URL [] [] [] (str "nonce=00")) [])) (asWorker no_keys, new_respw)).1.2 = 400.
Proof.
  edestruct (initSync_continues_after_bad_nonce Dummy.dummyAttester install no_keys example_read
    (Ok sample_key) (Request GET (URL [] [] [] (str "nonce=00")) []))
    as (w & Hr & Hs & _); [reflexivity..|].
  rewrite Hr. exact Hs.
Defined.

Lemma installs_are_attested_witness :
  exists σ, enclave (shared σ) = sample_keys /\
    enclave (shared σ) = install_all install (snd <$> installs σ) no_keys.
Proof.
  edestruct (serve_steps Dummy.dummyAttester sample_box install sample_get []
    (asWorker no_keys)) as [ks1 H1]; [constructor|vm_compute; reflexivity|].
  edestruct (serve_steps Dummy.dummyAttester sample_box install
    (sample_post (rand_bytes example_read))) as [ks2 H2];
    [| |eexists; split; [|apply (installs_are_attested Dummy.dummyAttester sample_box);
      etrans; [exact H1|exact H2]]].
  - by repeat constructor.
  - vm_compute. reflexivity.
  - vm_compute. reflexivity.
Defined.

Lemma failed_finish_wedges_worker_witness :
  (run install (serve Dummy.dummyAttester sample_box sample_get)
     (WState None (Some sample_key) no_keys, new_respw)).2 = Done tt.
Proof.
  edestruct (failed_finish_wedges_worker Dummy.dummyAttester sample_box install no_keys
    sample_get (sample_post zero_nonce)) as (_ & E2 & _ & H);
    [vm_compute; reflexivity..|].
  rewrite E2 in H. rewrite H; reflexivity.
Defined.

End Sample.
