(* ===== verification/SyncOverlap.v ===== *)
(** * SyncOverlap: two synchronizations of one worker that overlap

    The handlers of [sync_worker.go] hold no lock: between taking the nonce and
    the ephemeral key out of their channels and installing the keys, and between
    any two sections of the installation, another synchronization can run from
    beginning to end. *)
From Stdlib Require Import ZArith Lia.
From Stdlib Require Import Strings.Byte Strings.String.
From stdpp Require Import base gmap strings list fin_maps relations.
From S2P Require Import Prelude Codec Sha256 Json System Http Nonce Keys Attestation Attester SyncWorker.

Local Open Scope Z_scope.

Section overlap.
Context {E : Type} (a : attester) (B : box_ops).
Context (setupWorker : setup_stage -> enclaveKeys -> E -> E * option error).

Abbreviation wstep := (step a B setupWorker).

(** Let a goroutine run alone for [n] operations; [None] if it has to wait. *)
Fixpoint run_for (n : nat) (p : prog unit) (s : wstate E) (w : respw)
    : option (prog unit * wstate E * respw * list section) :=
  match n with
  | O => Some (p, s, w, [])
  | S n =>
      match p with
      | Vis e k =>
          match exec setupWorker e s w with
          | Some (s', w', x) =>
              match run_for n (k x) s' w' with
              | Some (p', s'', w'', ks) => Some (p', s'', w'', installed e ++ ks)
              | None => None
              end
          | None => None
          end
      | _ => None
      end
  end.

Lemma run_for_steps n i p s w p' s' w' ks ts l ks0 :
  run_for n p s w = Some (p', s', w', ks) ->
  ts !! i = Some (Thread p w) -> (forall j t, j <> i -> ts !! j = Some t -> todo t <> Fatal) ->
  rtc wstep (Server s ts l ks0) (Server s' (<[i := Thread p' w']> ts) l (ks0 ++ (pair i <$> ks))).
Proof.
  revert p s w ks ts ks0. induction n as [|n IH]; intros p s w ks ts ks0 H Hi Hal; simpl in H.
  { injection H as <- <- <- <-. rewrite list_insert_id, app_nil_r by done. apply rtc_refl. }
  destruct p as [| | |X e k]; try done.
  destruct (exec setupWorker e s w) as [[[s1 w1] x]|] eqn:He; [|done].
  destruct (run_for n (k x) s1 w1) as [[[[p2 s2] w2] ks2]|] eqn:Hr; [|done]. simplify_eq.
  assert (Halive : alive ts).
  { apply Forall_lookup. intros j t Hj. destruct (decide (j = i)) as [->|]; [|by eapply Hal].
    rewrite Hi in Hj. by injection Hj as <-. }
  eapply rtc_l; [by eapply step_act|].
  replace (<[i := Thread p' w']> ts) with (<[i := Thread p' w']> (<[i := Thread (k x) w1]> ts))
    by apply list_insert_insert_eq.
  rewrite fmap_app, app_assoc.
  apply (IH (k x) s1 w1); [done| |].
  - apply list_lookup_insert_eq. by eapply lookup_lt_Some.
  - intros j t Hj. rewrite list_lookup_insert_ne by done. by apply Hal.
Qed.
Lemma run_for_app n m p s w p1 s1 w1 ks1 p2 s2 w2 ks2 :
  run_for n p s w = Some (p1, s1, w1, ks1) -> run_for m p1 s1 w1 = Some (p2, s2, w2, ks2) ->
  run_for (n + m) p s w = Some (p2, s2, w2, ks1 ++ ks2).
Proof.
  revert p s w ks1. induction n as [|n IH]; intros p s w ks1 Hn Hm; simpl in *; [by simplify_eq|].
  destruct p as [| | |X e k]; try done. destruct (exec _ e s w) as [[[s' w'] x]|]; [|done].
  destruct (run_for n (k x) s' w') as [[[[p' s''] w''] ks]|] eqn:Hr; [|done]. simplify_eq.
  by rewrite (IH _ _ _ _ Hr Hm), app_assoc.
Qed.

(** A request that starts a session with the nonce [n] and the key [k]. *)
Definition opens (x : arrival) (n : nonce) (k : boxKey) (doc : bytes) : Prop :=
  Method (a_req x) = GET /\ newNonce (a_rd x) = Ok n /\ newBoxKey (a_gen x) = Ok k /\
  exists ln, getNonceFromReq (a_req x) = Ok ln /\
    createAttstn a (AuxWorker (WorkerAux n ln (Some (pubKey k)))) = Ok doc.

(** A request that delivers [keys] in that session, attested. *)
Definition delivers (x : arrival) (n : nonce) (k : boxKey) (keys : enclaveKeys) : Prop :=
  Method (a_req x) = POST /\
  exists jb doc enc wn, read_body (a_req x) = (jb, None) /\
    attstn_Unmarshal jb = (AttstnBody (b64_Encode doc) (b64_Encode enc), None) /\
    verifyAttstn a doc n = Ok (AuxLeader (LeaderAux wn (Some (Sum256 enc)))) /\
    OpenAnonymous B enc (pubKey k) (privKey k) = Some (keys_Marshal keys).

(** The response to the first request. *)
Definition get_response (doc : bytes) : respw :=
  Fprintln (attstn_Marshal (AttstnBody (b64_Encode doc) [])) new_respw.

(** A GET at an idle worker, to its end. *)
Lemma run_for_get x n k doc (e : E) :
  opens x n k doc ->
  run_for 4 (serve a B x) (asWorker e) new_respw =
  Some (Ret tt, WState (Some n) (Some k) e, get_response doc, []).
Proof.
  intros (Hm & Hn & Hk & ln & Hg & Hc). unfold serve, ServeHTTP, initSync.
  rewrite Hm, Hg, Hn, Hk, Hc. done.
Qed.

(** The sections [sts] for the same keys. *)
Definition sections (sts : list setup_stage) (keys : enclaveKeys) : list section :=
  (fun st => (st, keys)) <$> sts.

(** The first sections of an installation of keys. *)
Lemma run_for_setup sts rest keys (f : option error -> prog unit) nc ek e e' w :
  setup_seq setupWorker sts keys e = (e', None) ->
  run_for (length sts) (setup_prog (sts ++ rest) keys ≫= f) (WState nc ek e) w =
  Some (setup_prog rest keys ≫= f, WState nc ek e', w, sections sts keys).
Proof.
  revert e. induction sts as [|st sts IH]; intros e H; simpl in H; [by simplify_eq|].
  cbn [length app]. change (setup_prog (st :: sts ++ rest) keys ≫= f) with
    (Vis (Setup st keys) (fun err => match err with
       | Some e => mret (Some e) | None => setup_prog (sts ++ rest) keys end ≫= f)).
  simpl. destruct (setupWorker st keys e) as [e1 [err|]]; [done|].
  by rewrite (IH e1 H).
Qed.

(** A POST up to the point where it installs the keys, and from there. *)
Lemma run_for_post x n k keys (e : E) :
  delivers x n k keys ->
  exists rest, run_for 2 (serve a B x) (WState (Some n) (Some k) e) new_respw =
      Some (setup_prog setup_stages keys ≫= rest, asWorker e, new_respw, []) /\
    rest None = Ret tt.
Proof.
  intros (Hm & jb & doc & enc & wn & Hb & Hu & Hv & Ho). unfold serve, ServeHTTP, finishSync.
  rewrite Hm, Hb, Hu. cbn [Document EncryptedKeys]. rewrite !b64_Decode_Encode. simpl. rewrite Hv.
  simpl. rewrite (proj2 (bytes_Equal_eq _ _)) by done. simpl. rewrite Ho, keys_Unmarshal_Marshal.
  eexists. split; [reflexivity|done].
Qed.

(** A POST at a worker that is otherwise idle, to its end. *)
Lemma run_for_whole_post x n k keys (e e' : E) :
  delivers x n k keys -> setup_all setupWorker keys e = (e', None) ->
  run_for 6 (serve a B x) (WState (Some n) (Some k) e) new_respw =
  Some (Ret tt, asWorker e', new_respw, all_sections keys).
Proof.
  intros Hd Hs. destruct (run_for_post x n k keys e Hd) as (rest & Hr & Hrest).
  rewrite <- Hrest. apply (run_for_app 2 4 _ _ _ _ _ _ [] _ _ _ _ Hr).
  by apply (run_for_setup setup_stages []).
Qed.

(** A request arrives and its goroutine, the last one, runs for a while. *)
Lemma arrive_and_run x n s p' s' w' ks ts l ks0 :
  run_for n (serve a B x) s new_respw = Some (p', s', w', ks) -> alive ts ->
  rtc wstep (Server s ts l ks0) (Server s' (ts ++ [Thread p' w']) (l ++ [x])
    (ks0 ++ (pair (length ts) <$> ks))).
Proof.
  intros Hr Hal. eapply rtc_l; [by apply step_arrive|].
  replace (ts ++ [Thread p' w']) with
    (<[length ts := Thread p' w']> (ts ++ [Thread (serve a B x) new_respw])).
  - apply (run_for_steps n (length ts) (serve a B x) s new_respw); [done| |].
    + by apply list_lookup_middle.
    + intros j t Hj Ht. apply lookup_app_Some in Ht as [Ht|[Hge Ht]].
      * by apply (proj1 (Forall_lookup _ _) Hal j t).
      * apply list_lookup_singleton_Some in Ht as [Hz _]. lia.
  - rewrite insert_app_r_alt by lia. by rewrite Nat.sub_diag.
Qed.

(** Two synchronizations, each entirely in order: the POST of the first one is
    interrupted after the sections [sts], the second one runs from beginning to
    end, and then the first one finishes. *)
Lemma overlapping_run (e e1 e2 e3 : E) sts rest g1 p1 g2 p2 n1 n2 k1 k2 doc1 doc2 keys1 keys2 :
  opens g1 n1 k1 doc1 -> delivers p1 n1 k1 keys1 -> opens g2 n2 k2 doc2 -> delivers p2 n2 k2 keys2 ->
  setup_stages = sts ++ rest ->
  setup_seq setupWorker sts keys1 e = (e1, None) -> setup_all setupWorker keys2 e1 = (e2, None) ->
  setup_seq setupWorker rest keys1 e2 = (e3, None) ->
  exists σ, rtc wstep (start e) σ /\ arrivals σ = [g1; p1; g2; p2] /\
    installs σ = (pair 1%nat <$> sections sts keys1) ++ (pair 3%nat <$> all_sections keys2) ++
      (pair 1%nat <$> sections rest keys1) /\
    shared σ = asWorker e3 /\
    Forall (fun t => todo t = Ret tt /\ status (out t) = StatusOK) (threads σ).
Proof.
  intros Hg1 Hp1 Hg2 Hp2 Hst Hs1 Hs2 Hs3.
  destruct (run_for_post p1 n1 k1 keys1 e Hp1) as (f & Hr1 & Hf). rewrite Hst in Hr1.
  pose proof (run_for_app _ _ _ _ _ _ _ _ _ _ _ _ _ Hr1 (run_for_setup _ _ _ _ _ _ _ _ _ Hs1)) as Hfirst.
  pose proof (run_for_setup rest [] keys1 f None None e2 e3 new_respw Hs3) as Hlast.
  rewrite app_nil_r in Hlast.
  assert (Hnf : setup_prog rest keys1 ≫= f <> Fatal)
    by (destruct rest; [change (f None <> Fatal); by rewrite Hf|done]).
  eexists. split; [|split; [|split; [|split]]].
  - etrans; [apply (arrive_and_run g1 4 _ _ _ _ _ _ _ _ (run_for_get g1 n1 k1 doc1 e Hg1)); constructor|].
    etrans; [apply (arrive_and_run p1 _ _ _ _ _ _ _ _ _ Hfirst)|].
    { by repeat constructor. }
    etrans; [apply (arrive_and_run g2 4 _ _ _ _ _ _ _ _ (run_for_get g2 n2 k2 doc2 e1 Hg2))|].
    { apply Forall_app. split; [by repeat constructor|]. by apply Forall_singleton. }
    etrans; [apply (arrive_and_run p2 6 _ _ _ _ _ _ _ _ (run_for_whole_post p2 n2 k2 keys2 e1 e2 Hp2 Hs2))|].
    { apply Forall_app. split; [|by apply Forall_singleton].
      apply Forall_app. split; [by repeat constructor|]. by apply Forall_singleton. }
    eapply (run_for_steps _ 1 _ _ _ _ _ _ _ _ _ _ Hlast); [reflexivity|].
    intros [|[|[|[|j]]]] t Hj Ht; try done; by injection Ht as <-.
  - done.
  - by rewrite <- !app_assoc.
  - done.
  - change (setup_prog [] keys1 ≫= f) with (f None). rewrite Hf. by repeat constructor.
Qed.

(** C7: Overlapping synchronizations can take a worker back to older keys.  Let a
    leader's two synchronizations be entirely in order, the first with [old] keys
    and the second, after the application has changed them, with [new] ones, the
    second even beginning only after the worker has taken up the POST of the
    first.  Then there is an execution of the worker in which all four requests
    are answered with 200, so that the leader takes both synchronizations for
    successful, but the worker first installs [new], from beginning to end, and
    then [old], and stays with [old]. *)
Theorem overlapping_syncs_go_back (e e1 e2 : E) g1 p1 g2 p2 n1 n2 k1 k2 doc1 doc2 old new :
  opens g1 n1 k1 doc1 -> delivers p1 n1 k1 old -> opens g2 n2 k2 doc2 -> delivers p2 n2 k2 new ->
  setup_all setupWorker new e = (e2, None) -> setup_all setupWorker old e2 = (e1, None) ->
  exists σ, rtc wstep (start e) σ /\ arrivals σ = [g1; p1; g2; p2] /\
    installs σ = (pair 3%nat <$> all_sections new) ++ (pair 1%nat <$> all_sections old) /\
    shared σ = asWorker e1 /\
    Forall (fun t => todo t = Ret tt /\ status (out t) = StatusOK) (threads σ).
Proof.
  intros Hg1 Hp1 Hg2 Hp2 Hs2 Hs1.
  by apply (overlapping_run e e e2 e1 [] setup_stages g1 p1 g2 p2 n1 n2 k1 k2 doc1 doc2).
Qed.

End overlap.

(** ** A concrete run *)
Module SampleOverlap.
Import SyncWorker.Sample.

Definition second_read : rand_read := RandRead 20 None (str "ABCDEFGHIJKLMNOPQRST").
Definition second_key : boxKey := BoxKey (replicate 32 Byte.x02) (replicate 32 Byte.x02).
Definition second_get : arrival := Arrival second_read (Ok second_key) example_request.
Definition new_keys : enclaveKeys := setAppKeys (Some (str "new")) sample_keys.

Definition ok_or_nil (r : result bytes) : bytes := match r with Ok b => b | Err _ => [] end.

(** The ciphertext and the document of a leader that sends [keys]. *)
Definition sealed (k : boxKey) (keys : enclaveKeys) : bytes :=
  ok_or_nil (SealAnonymous sample_box (keys_Marshal keys) (pubKey k) (Ok [])).
Definition doc_for (n : nonce) (k : boxKey) (keys : enclaveKeys) : bytes :=
  ok_or_nil (Dummy.createAttstn (AuxLeader (LeaderAux n (Some (Sum256 (sealed k keys)))))).
Definition post_body (n : nonce) (k : boxKey) (keys : enclaveKeys) : bytes :=
  attstn_Marshal (AttstnBody (b64_Encode (doc_for n k keys)) (b64_Encode (sealed k keys))).
Definition post_of (n : nonce) (k : boxKey) (keys : enclaveKeys) : arrival :=
  Arrival example_read (Ok sample_key) (Request POST (RUrl example_request) (deliver (post_body n k keys))).

Lemma sample_opens rd n pub priv : newNonce rd = Ok n ->
  exists doc, opens Dummy.dummyAttester (Arrival rd (Ok (BoxKey pub priv)) example_request) n
    (BoxKey pub priv) doc.
Proof.
  intros Hn. eexists. split; [done|]. split; [done|]. split; [done|].
  exists (str "abcdefghijklmnopqrst"). split; [vm_compute; reflexivity|].
  cbn [createAttstn Dummy.dummyAttester Dummy.createAttstn]. reflexivity.
Qed.

Lemma overlapping_syncs_go_back_witness :
  exists σ, rtc (step Dummy.dummyAttester sample_box install) (start no_keys) σ /\
    snd <$> installs σ = all_sections new_keys ++ all_sections sample_keys /\
    enclave (shared σ) = sample_keys.
Proof.
  destruct (sample_opens example_read (rand_bytes example_read) (pubKey sample_key) (pubKey sample_key))
    as [doc1 Hg1]; [reflexivity|].
  destruct (sample_opens second_read (rand_bytes second_read) (pubKey second_key) (pubKey second_key))
    as [doc2 Hg2]; [reflexivity|].
  destruct (overlapping_syncs_go_back Dummy.dummyAttester sample_box install no_keys sample_keys
    new_keys sample_get (post_of (rand_bytes example_read) sample_key sample_keys) second_get
    (post_of (rand_bytes second_read) second_key new_keys) (rand_bytes example_read)
    (rand_bytes second_read) sample_key second_key doc1 doc2 sample_keys new_keys) as (σ & Hrun & _ & Hi & Hsh & _).
  - exact Hg1.
  - split; [reflexivity|]. exists (post_body (rand_bytes example_read) sample_key sample_keys),
      (doc_for (rand_bytes example_read) sample_key sample_keys), (sealed sample_key sample_keys),
      (rand_bytes example_read). split; [vm_compute; reflexivity|].
    split; [apply attstn_Unmarshal_Marshal|]. split; vm_compute; reflexivity.
  - exact Hg2.
  - split; [reflexivity|]. exists (post_body (rand_bytes second_read) second_key new_keys),
      (doc_for (rand_bytes second_read) second_key new_keys), (sealed second_key new_keys),
      (rand_bytes second_read). split; [vm_compute; reflexivity|].
    split; [apply attstn_Unmarshal_Marshal|]. split; vm_compute; reflexivity.
  - reflexivity.
  - reflexivity.
  - exists σ. split; [exact Hrun|]. split; [rewrite Hi; reflexivity|]. rewrite Hsh. reflexivity.
Defined.

End SampleOverlap.
