(* ===== verification/HttpClient.v ===== *)
(** * HttpClient: the client of [_newUnauthenticatedHTTPClient] in [util.go]

    The client sets no [CheckRedirect], so [net/http] follows redirects for it:
    a request of the program can become up to ten requests, to whatever
    addresses the answers name.  [client] makes the program's [Get] and [Post] of
    a transport that sends single requests; [spy] is a transport that records
    everything that is sent and answers as an adversary likes.  The client's
    timeout of three seconds is one of the errors that a transport may return, and
    headers are left out but for [Location]. *)
From Stdlib Require Import ZArith Lia.
From Stdlib Require Import Strings.Byte Strings.String.
From stdpp Require Import base gmap strings list fin_maps.
From S2P Require Import Prelude Codec System Http.

Local Open Scope Z_scope.

Record response := Response { StatusCode : Z; RBody : Reader.reader }.

(** The HTTP client as the program sees it: a request may fail, and may change
    the state [N] of the rest of the world. *)
Record network (N : Type) := Network {
  http_Get : url -> M N (result response);
  http_Post : url -> bytes -> M N (result response)
}.
Arguments Network {N}.
Arguments http_Get {N}.
Arguments http_Post {N}.

(** ** Single requests *)

(** A request that is handed to the transport. *)
Record message := Msg { m_method : method; m_url : url; m_body : option bytes }.

Abbreviation MGet u := (Msg GET u None).
Abbreviation MPost u body := (Msg POST u (Some body)).

(** An answer, with what its [Location] header resolves to against the URL of
    the request: [None] when there is no such header, an error when it is not a
    URL. *)
Record reply := Reply { r_resp : response; r_location : option (result url) }.

Definition transport (N : Type) : Type := message -> M N (result reply).

(** ** Redirects *)

(** [maxRedirects]: after ten requests [defaultCheckRedirect] gives up. *)
Definition maxRequests : nat := 10.
Definition errRedirects : error := ErrLib "stopped after 10 redirects".

(** [redirectBehavior]: the method of the next request and whether it has the
    body of this one; [None] when the answer is final. *)
Definition redirectBehavior (reqMethod : method) (code : Z) : option (method * bool) :=
  if existsb (Z.eqb code) [301; 302; 303] then
    Some (match reqMethod with GET => GET | HEAD => HEAD | _ => GET end, false)
  else if existsb (Z.eqb code) [307; 308] then Some (reqMethod, true)
  else None.

Section client.
Context {N : Type} (tr : transport N).

(** [Client.do] from the request [m] on, with [more] requests to spare.  Once a
    redirect has dropped the body it is not sent again. *)
Fixpoint follow (more : nat) (m : message) : M N (result response) :=
  rep ← tr m;
  match rep with
  | Err e => mret (Err e)
  | Ok rep =>
      let resp := r_resp rep in
      match redirectBehavior (m_method m) (StatusCode resp), r_location rep with
      | None, _ | _, None => mret (Ok resp)
      | Some _, Some (Err e) => mret (Err e)
      | Some (meth, includeBody), Some (Ok u) =>
          match more with
          | O => mret (Err errRedirects)
          | S more => follow more (Msg meth u (if includeBody then m_body m else None))
          end
      end
  end.

Definition client : network N := Network
  (fun u => follow (pred maxRequests) (MGet u))
  (fun u body => follow (pred maxRequests) (MPost u body)).
End client.

(** One round of the client. *)
Lemma follow_eq {N} (tr : transport N) more m :
  follow tr more m =
  (rep ← tr m;
   match rep with
   | Err e => mret (Err e)
   | Ok rep =>
       match redirectBehavior (m_method m) (StatusCode (r_resp rep)), r_location rep with
       | None, _ | _, None => mret (Ok (r_resp rep))
       | Some _, Some (Err e) => mret (Err e)
       | Some (meth, includeBody), Some (Ok u) =>
           match more with
           | O => mret (Err errRedirects)
           | S more => follow tr more (Msg meth u (if includeBody then m_body m else None))
           end
       end
   end).
Proof. by destruct more. Qed.

(** ** Servers that never redirect *)

(** The answers of a server that sets no [Location] header. *)
Definition no_redirects {N} (f : message -> M N (result response)) : transport N := fun m =>
  resp ← f m;
  mret (match resp with Ok resp => Ok (Reply resp None) | Err e => Err e end).

(** For such a server the client is the server. *)
Lemma follow_no_redirects {N} (f : message -> M N (result response)) more m s :
  follow (no_redirects f) more m s = f m s.
Proof.
  rewrite follow_eq. unfold no_redirects. unfold_M.
  destruct (f m s) as [s' [[resp|e]| | |]]; try done. simpl.
  by destruct (redirectBehavior _ _) as [[]|].
Qed.

Lemma client_Get_direct {N} (f : message -> M N (result response)) u s :
  http_Get (client (no_redirects f)) u s = f (MGet u) s.
Proof. apply follow_no_redirects. Qed.

Lemma client_Post_direct {N} (f : message -> M N (result response)) u body s :
  http_Post (client (no_redirects f)) u body s = f (MPost u body) s.
Proof. apply follow_no_redirects. Qed.

(** ** A network under the adversary's control *)

(** The adversary answers knowing all messages so far. *)
Definition adversary : Type := list message -> message -> result reply.

Definition spy (adv : adversary) : transport (list message) := fun m log =>
  (log ++ [m], Done (adv log m)).

(** The messages [ms] of one request of the program that begins with [m], sent
    after [log], and what the program gets: each further message goes where the
    answer to the one before it points. *)
Inductive exchange (adv : adversary) : list message -> message -> list message -> result response -> Prop :=
  | exchange_failed log m e :
      adv log m = Err e -> exchange adv log m [m] (Err e)
  | exchange_final log m rep :
      adv log m = Ok rep ->
      redirectBehavior (m_method m) (StatusCode (r_resp rep)) = None \/ r_location rep = None ->
      exchange adv log m [m] (Ok (r_resp rep))
  | exchange_given_up log m rep e :
      adv log m = Ok rep ->
      is_Some (redirectBehavior (m_method m) (StatusCode (r_resp rep))) ->
      r_location rep = Some (Err e) \/ e = errRedirects /\ (exists u, r_location rep = Some (Ok u)) ->
      exchange adv log m [m] (Err e)
  | exchange_redirected log m rep meth includeBody u ms res :
      adv log m = Ok rep ->
      redirectBehavior (m_method m) (StatusCode (r_resp rep)) = Some (meth, includeBody) ->
      r_location rep = Some (Ok u) ->
      exchange adv (log ++ [m]) (Msg meth u (if includeBody then m_body m else None)) ms res ->
      exchange adv log m (m :: ms) res.

(** Every request of the program is such an exchange, of at most ten messages. *)
Lemma follow_spy adv more m log log' o :
  follow (spy adv) more m log = (log', o) ->
  exists ms res, exchange adv log m ms res /\ (length ms <= S more)%nat /\
    log' = log ++ ms /\ o = Done res.
Proof.
  revert m log. induction more as [more IH] using lt_wf_ind. intros m log.
  rewrite follow_eq. unfold_M. change (spy adv m log) with (log ++ [m], Done (adv log m)). cbv iota beta zeta.
  destruct (adv log m) as [rep|e] eqn:Ha.
  2:{ intros [= <- <-]. exists [m], (Err e). split_and!; [by apply exchange_failed|simpl; lia|done..]. }
  destruct (redirectBehavior _ _) as [[meth b]|] eqn:Hr.
  2:{ intros [= <- <-]. exists [m], (Ok (r_resp rep)).
      split_and!; [by eapply exchange_final; eauto|simpl; lia|done..]. }
  destruct (r_location rep) as [[u|e]|] eqn:Hu.
  2:{ intros [= <- <-]. exists [m], (Err e).
      split_and!; [by eapply exchange_given_up; eauto|simpl; lia|done..]. }
  2:{ intros [= <- <-]. exists [m], (Ok (r_resp rep)).
      split_and!; [by eapply exchange_final; eauto|simpl; lia|done..]. }
  destruct more as [|more].
  - intros [= <- <-]. exists [m], (Err errRedirects).
    split_and!; [by eapply exchange_given_up; eauto|simpl; lia|done..].
  - intros H. destruct (IH more ltac:(lia) _ _ H) as (ms & res & He & Hl & -> & ->).
    exists (m :: ms), res.
    split_and!; [by eapply exchange_redirected|simpl; lia|by rewrite <- app_assoc|done].
Qed.

(** A GET stays a GET without a body; and no message carries a body but the
    first one's. *)
Lemma exchange_get adv log m ms res :
  exchange adv log m ms res -> m_method m = GET -> m_body m = None ->
  Forall (fun m => m_method m = GET /\ m_body m = None) ms.
Proof.
  induction 1 as [| | |log m rep meth b u ms res _ Hr _ _ IH]; intros Hm Hb; try by repeat constructor.
  constructor; [done|]. apply IH; simpl; [|by destruct b].
  unfold redirectBehavior in Hr. rewrite Hm in Hr. by repeat case_match; simplify_eq.
Qed.

Lemma exchange_bodies adv log m ms res b :
  exchange adv log m ms res -> m_body m = None \/ m_body m = Some b ->
  Forall (fun m => m_body m = None \/ m_body m = Some b) ms.
Proof.
  induction 1 as [| | |log m rep meth ib u ms res _ _ _ _ IH]; intros Hb;
    [by apply Forall_singleton..|].
  constructor; [done|]. apply IH. simpl. destruct ib; [done|by left].
Qed.

Lemma exchange_head adv log m ms res : exchange adv log m ms res -> head ms = Some m.
Proof. by destruct 1. Qed.
