(* ===== verification/SyncLeader.v ===== *)
(** * SyncLeader: [sync_leader.go]

    The leader's half of the key synchronization, over an arbitrary network,
    and what it sends to whom, redirects included, when every answer is chosen
    by an adversary who has seen all messages so far. *)
From Stdlib Require Import ZArith Lia.
From Stdlib Require Import Strings.Byte Strings.String.
From stdpp Require Import base gmap strings list fin_maps.
From S2P Require Import Prelude Codec Sha256 Json System Http Nonce Keys Attestation Attester.
From S2P Require Import SyncWorker HttpClient.

Local Open Scope Z_scope.

Section leader.
Context {N : Type} (net : network N) (a : attester) (B : box_ops).

(** [syncWith], for a leader that holds [keys]; [rd] and [r] are the random
    bytes that the nonce and the sealing draw. *)
Definition syncWith (keys : enclaveKeys) (rd : rand_read) (r : result bytes) (worker : url)
    : M N (option error) :=
  match newNonce rd with
  | Err e => mret (Some e)
  | Ok nonce =>
      resp ← http_Get net (with_query worker (nonce_query nonce));
      match resp with
      | Err e => mret (Some e)
      | Ok resp =>
          if negb (StatusCode resp =? StatusOK) then mret (Some (errNo200 (StatusCode resp)))
          else match Reader.ReadAll (Reader.newLimitReader (RBody resp) maxReadLen) with
          | (_, Some e) => mret (Some e)
          | (jsonBody, None) =>
              match attstn_Unmarshal jsonBody with
              | (_, Some e) => mret (Some e)
              | (reqBody, None) =>
                  if negb (len (EncryptedKeys reqBody) =? 0)
                  then mret (Some errExpectedEmptyKeys)
                  else match b64_Decode (Document reqBody) with
                  | Err e => mret (Some e)
                  | Ok attstnDoc =>
                      match verifyAttstn a attstnDoc nonce with
                      | Err e => mret (Some e)
                      | Ok (AuxWorker workerAux) =>
                          let pubKey := copy_array 32 (sbytes (w_PublicKey workerAux)) in
                          let jsonKeys := keys_Marshal (keys_copy keys) in
                          match SealAnonymous B jsonKeys pubKey r with
                          | Err e => mret (Some e)
                          | Ok encrypted =>
                              match createAttstn a (AuxLeader (LeaderAux
                                (w_WorkersNonce workerAux) (Some (Sum256 encrypted)))) with
                              | Err e => mret (Some e)
                              | Ok attstnDoc =>
                                  let jsonBody := attstn_Marshal (AttstnBody
                                    (b64_Encode attstnDoc) (b64_Encode encrypted)) in
                                  resp ← http_Post net worker jsonBody;
                                  match resp with
                                  | Err e => mret (Some e)
                                  | Ok resp =>
                                      if negb (StatusCode resp =? StatusOK)
                                      then mret (Some (errNo200 (StatusCode resp)))
                                      else mret None
                                  end
                              end
                          end
                      | Ok _ => m_panic
                      end
                  end
              end
          end
      end
  end.
End leader.

(** A leader cannot tell a network from one that contains it: if the requests to
    the worker do the same on [s] and on [f s], so does [syncWith]. *)
Lemma syncWith_map {N1 N2} (net1 : network N1) (net2 : network N2) (f : N1 -> N2)
    a B keys rd r worker :
  (forall q s, http_Get net2 (with_query worker q) (f s) =
     let '(s', o) := http_Get net1 (with_query worker q) s in (f s', o)) ->
  (forall body s, http_Post net2 worker body (f s) =
     let '(s', o) := http_Post net1 worker body s in (f s', o)) ->
  forall s, syncWith net2 a B keys rd r worker (f s) =
    let '(s', o) := syncWith net1 a B keys rd r worker s in (f s', o).
Proof.
  intros Hg Hp s. unfold syncWith. destruct (newNonce rd) as [n|]; [|done].
  unfold mbind, M_bind, m_bind. rewrite Hg.
  destruct (http_Get net1 _ s) as [s1 [[resp|]| | |]]; try done.
  destruct (negb _); [done|]. destruct (Reader.ReadAll _) as [jb [e|]]; [done|].
  destruct (attstn_Unmarshal jb) as [rb [e|]]; [done|]. destruct (negb _); [done|].
  destruct (b64_Decode _) as [doc|]; [|done].
  destruct (verifyAttstn a doc n) as [[| |w|]|]; try done.
  destruct (SealAnonymous _ _ _ _) as [enc|]; [|done]. destruct (createAttstn _ _) as [ld|]; [|done].
  rewrite Hp. destruct (http_Post net1 _ _ s1) as [s2 [[resp'|]| | |]]; try done.
  by destruct (negb _).
Qed.

(** ** What the leader sends, on a network under the adversary's control *)
Section leader_security.
Context (a : attester) (B : box_ops) (adv : adversary).
Context (keys : enclaveKeys) (rd : rand_read) (r : result bytes) (worker : url).

(** The answer to the leader's GET carries an acceptable attestation of [w]. *)
Definition attested (n : nonce) (w : workerAuxInfo) (got : result response) : Prop :=
  exists resp jsonBody reqBody doc,
    got = Ok resp /\ StatusCode resp = StatusOK /\
    Reader.ReadAll (Reader.newLimitReader (RBody resp) maxReadLen) = (jsonBody, None) /\
    attstn_Unmarshal jsonBody = (reqBody, None) /\ EncryptedKeys reqBody = [] /\
    b64_Decode (Document reqBody) = Ok doc /\ verifyAttstn a doc n = Ok (AuxWorker w).

(** The body of the POST: the keys sealed for the attested key, and an
    attestation of their hash for the worker's nonce. *)
Definition delivery (w : workerAuxInfo) (body : bytes) : Prop :=
  exists encrypted doc,
    SealAnonymous B (keys_Marshal keys) (copy_array 32 (sbytes (w_PublicKey w))) r
      = Ok encrypted /\
    createAttstn a (AuxLeader (LeaderAux (w_WorkersNonce w) (Some (Sum256 encrypted))))
      = Ok doc /\
    body = attstn_Marshal (AttstnBody (b64_Encode doc) (b64_Encode encrypted)).

(** A request of the leader and the messages it becomes. *)
Lemma client_Get_spy u log :
  exists gets got, http_Get (client (spy adv)) u log = (log ++ gets, Done got) /\
    exchange adv log (MGet u) gets got /\ (length gets <= maxRequests)%nat.
Proof.
  destruct (http_Get (client (spy adv)) u log) as [log' o] eqn:E.
  destruct (follow_spy _ _ _ _ _ _ E) as (ms & res & He & Hl & -> & ->). by exists ms, res.
Qed.

Lemma client_Post_spy u body log :
  exists posts got, http_Post (client (spy adv)) u body log = (log ++ posts, Done got) /\
    exchange adv log (MPost u body) posts got /\ (length posts <= maxRequests)%nat.
Proof.
  destruct (http_Post (client (spy adv)) u body log) as [log' o] eqn:E.
  destruct (follow_spy _ _ _ _ _ _ E) as (ms & res & He & Hl & -> & ->). by exists ms, res.
Qed.

Lemma syncWith_spy log o :
  syncWith (client (spy adv)) a B keys rd r worker [] = (log, o) ->
  (log = [] /\ (exists e, newNonce rd = Err e /\ o = Done (Some e))) \/
  exists n gets got, newNonce rd = Ok n /\
    exchange adv [] (MGet (with_query worker (nonce_query n))) gets got /\
    (length gets <= maxRequests)%nat /\
    ((log = gets /\ o <> Done None) \/
     exists w body posts got', attested n w got /\ delivery w body /\
       exchange adv gets (MPost worker body) posts got' /\
       (length posts <= maxRequests)%nat /\ log = gets ++ posts /\
       (o = Done None <-> exists resp, got' = Ok resp /\ StatusCode resp = StatusOK)).
Proof.
  unfold syncWith. intros H.
  destruct (newNonce rd) as [n|e] eqn:En; [|left; unfold_M; simplify_eq; eauto].
  right. unfold_M.
  destruct (client_Get_spy (with_query worker (nonce_query n)) []) as (gets & got & Eg & Hg & Hlg).
  rewrite Eg in H. simpl app in H. exists n, gets, got. split_and!; [done..|].
  destruct got as [resp|]; [|left; by simplify_eq].
  destruct (StatusCode resp =? StatusOK) eqn:Es; [|left; by simplify_eq/=]. cbn [negb] in H.
  destruct (Reader.ReadAll _) as [jb [e|]] eqn:Er; [left; by simplify_eq|].
  destruct (attstn_Unmarshal jb) as [rb [e|]] eqn:Eu; [left; by simplify_eq|].
  destruct (len (EncryptedKeys rb) =? 0) eqn:El; [|left; by simplify_eq/=]. cbn [negb] in H.
  destruct (b64_Decode (Document rb)) as [doc|] eqn:Ed; [|left; by simplify_eq].
  destruct (verifyAttstn a doc n) as [[| |w|]|] eqn:Ev; [left; by simplify_eq..| | |];
    [|left; by simplify_eq..].
  rewrite keys_copy_eq in H.
  destruct (SealAnonymous _ _ _ _) as [enc|] eqn:Ec; [|left; by simplify_eq].
  destruct (createAttstn _ _) as [ld|] eqn:Ea; [|left; by simplify_eq].
  right. apply Z.eqb_eq in Es, El. apply len_zero_inv in El.
  set (body := attstn_Marshal _) in H.
  destruct (client_Post_spy worker body gets) as (posts & got' & Ep & Hp & Hlp).
  rewrite Ep in H. exists w, body, posts, got'.
  split; [by exists resp, jb, rb, doc|]. split; [by exists enc, ld|].
  split; [done|]. split; [done|].
  destruct got' as [resp'|]; [|simplify_eq; split; [done|]; split; [done|]; by intros (?&?&?)].
  destruct (StatusCode resp' =? StatusOK) eqn:Es'; simplify_eq/=; (split; [done|]).
  - apply Z.eqb_eq in Es'. split; [by eauto|done].
  - apply Z.eqb_neq in Es'. split; [done|]. by intros (? & [= <-] & ?).
Qed.
End leader_security.

Section leader_claims.
Context (a : attester) (B : box_ops) (adv : adversary).
Context (keys : enclaveKeys) (rd : rand_read) (r : result bytes) (worker : url).

(** C1: The leader's keys leave the enclave only encrypted for an attested
    worker.  Whatever the network answers, and whether the call succeeds, fails
    or panics, all it sends is this.  Without a fresh nonce, nothing.
    Otherwise a GET to the worker that carries the nonce; as the client follows
    redirects, it may be followed by further GETs without a body to the
    addresses that the answers name, ten messages in all.  Only if the last
    answer carries a document that verifies under the nonce drawn in this very
    call and embeds it, the call sends a POST to the worker, which redirects can
    again turn into at most ten messages, to any address; but each of them has
    either no body or the same one, which holds of the keys only their encryption
    for the public key in that document.  Success is reported exactly if that
    POST was sent and its last answer has status 200. *)
Theorem keys_leave_only_for_attested_workers log o :
  Fresh a -> syncWith (client (spy adv)) a B keys rd r worker [] = (log, o) ->
  (log = [] /\ exists e, newNonce rd = Err e /\ o = Done (Some e)) \/
  exists n gets got, newNonce rd = Ok n /\
    exchange adv [] (MGet (with_query worker (nonce_query n))) gets got /\
    (length gets <= maxRequests)%nat /\
    Forall (fun m => m_method m = GET /\ m_body m = None) gets /\
    ((log = gets /\ o <> Done None) \/
     exists w body posts got',
       attested a n w got /\ w_LeadersNonce w = n /\ delivery a B keys r w body /\
       exchange adv gets (MPost worker body) posts got' /\
       (length posts <= maxRequests)%nat /\
       Forall (fun m => m_body m = None \/ m_body m = Some body) posts /\
       log = gets ++ posts /\
       (o = Done None <-> exists resp, got' = Ok resp /\ StatusCode resp = StatusOK)).
Proof.
  intros Hf [H|(n & gets & got & Hn & Hg & Hl & H)]%syncWith_spy; [by left|right].
  exists n, gets, got. split_and!; [done..|by eapply exchange_get|].
  destruct H as [H|(w & body & posts & got' & Hw & Hd & Hp & Hlp & Hlog & Ho)]; [by left|right].
  exists w, body, posts, got'. split_and!; try done.
  - destruct Hw as (? & ? & ? & doc & Hw). destruct_and! Hw.
    eapply fresh_worker; [|done]. by eapply newNonce_ok.
  - eapply exchange_bodies; [done|by right].
Qed.
End leader_claims.

(** C11: Whoever answers the leader's GET can make the leader panic, with
    documents that any enclave of the same image hands out to the public.  A
    Nitro document issued for a client's attestation request with the leader's
    nonce verifies, but not as a worker's, and the type assertion that follows
    panics. *)
Theorem client_document_crashes_leader
    hvA hvB Verify now pA pB B keys rd r worker (n : nonce) (h : AttestationHashes) :
  Nitro.Issues hvA Verify now pA -> Nitro.Issues hvB Verify now pB ->
  arePCRsIdentical pB pA = true -> newNonce rd = Ok n -> hashes_ok h ->
  exists doc,
    Nitro.createAttstn hvA (AuxClient (ClientAux n (Some (Serialize h)))) = Ok doc /\
    forall (adv : adversary) (rest : Reader.reader) (loc : option (result url)),
      let body := attstn_Marshal (AttstnBody (b64_Encode doc) []) in
      len body <= maxReadLen -> Reader.clean rest body ->
      adv [] (MGet (with_query worker (nonce_query n))) = Ok (Reply (Response StatusOK rest) loc) ->
      (syncWith (client (spy adv)) (Nitro.nitroAttester hvB Verify now) B keys rd r worker []).2 = Panic.
Proof.
  intros HA HB HP Hn Hh.
  destruct (Nitro.createAttstn_issues Verify now hvA pA (AuxClient (ClientAux n (Some (Serialize h))))
    _ _ _ eq_refl) as (doc & Hc & Hv & _);
    [apply Nitro.nonce_request_fits; [by eapply newNonce_ok|by rewrite len_Serialize|done]|].
  exists doc. split; [done|]. intros adv rest loc body Hlen Hclean Hadv.
  unfold syncWith, mbind, M_bind, m_bind. rewrite Hn.
  assert (Hget : http_Get (client (spy adv)) (with_query worker (nonce_query n)) [] =
    ([MGet (with_query worker (nonce_query n))], Done (Ok (Response StatusOK rest)))).
  { cbn [http_Get client]. rewrite follow_eq. unfold_M.
    change (spy adv ?m []) with ([m], Done (adv [] m)). rewrite Hadv. reflexivity. }
  rewrite Hget. cbn [StatusCode RBody]. rewrite Z.eqb_refl. cbn [negb].
  rewrite Reader.ReadAll_limited by done.
  rewrite (Reader.read_limited_clean _ _ body) by done. rewrite (proj2 (Z.leb_le _ _) Hlen).
  unfold body. pose proof (attstn_Unmarshal_Marshal doc []) as Hu.
  change (b64_Encode []) with (@nil byte) in Hu. rewrite Hu. cbn [Document EncryptedKeys].
  rewrite b64_Decode_Encode. simpl. unfold Nitro.verifyAttstn.
  rewrite Hv, (Nitro.getPCRValues_issues Verify now hvB pB). simpl. rewrite HP. simpl.
  rewrite sliceToNonce_nonce by (by eapply newNonce_ok). by rewrite bool_decide_eq_true_2.
Qed.

Module SampleLeader.
Import SyncWorker.Sample.

Definition sample_worker : url := URL (str "https") (str "worker:443") (str "/enclave/sync") [].

(** An honest worker's answer to the GET, and 200 to the POST. *)
Definition sample_adv (doc : bytes) : adversary := fun _ m =>
  Ok (Reply (Response StatusOK
    (match m_method m with
     | GET => deliver (attstn_Marshal (AttstnBody (b64_Encode doc) []))
     | _ => []
     end)) None).

(** The same, but the POST is redirected, first with its body and then without. *)
Definition elsewhere : url := URL (str "http") (str "elsewhere:80") (str "/") [].
Definition sample_redirects (doc : bytes) : adversary := fun log m =>
  match log with
  | [_] => Ok (Reply (Response 307 []) (Some (Ok elsewhere)))
  | [_; _] => Ok (Reply (Response 302 []) (Some (Ok sample_worker)))
  | _ => sample_adv doc log m
  end.

Definition sample_doc : bytes :=
  match Dummy.createAttstn (AuxWorker (WorkerAux zero_nonce (rand_bytes example_read)
          (Some (pubKey sample_key)))) with
  | Ok d => d
  | Err _ => []
  end.

(** The leader reports success although the last message of its POST was a GET:
    four messages, of which the POST to the worker and its first redirection
    carry the encrypted keys. *)
Definition redirected_run : list message * outcome (option error) :=
  syncWith (client (spy (sample_redirects sample_doc))) Dummy.dummyAttester sample_box sample_keys
    example_read (Ok []) sample_worker [].

Lemma keys_leave_only_for_attested_workers_witness :
  redirected_run.2 = Done None /\ m_method <$> redirected_run.1 = [GET; POST; POST; GET] /\
  exists gets body posts, redirected_run.1 = gets ++ posts /\
    head posts = Some (MPost sample_worker body) /\
    Forall (fun m => m_body m = None \/ m_body m = Some body) posts.
Proof.
  split; [vm_compute; reflexivity|]. split; [vm_compute; reflexivity|].
  destruct (keys_leave_only_for_attested_workers Dummy.dummyAttester sample_box
    (sample_redirects sample_doc) sample_keys example_read (Ok []) sample_worker
    redirected_run.1 redirected_run.2 Dummy.dummy_fresh (surjective_pairing _))
    as [(_ & e & Hn & _)|(n & gets & got & _ & _ & _ & _ & [(_ & Ho)|(w & body & posts & got' &
        _ & _ & _ & Hp & _ & Hb & Hlog & _)])].
  - exfalso. vm_compute in Hn. congruence.
  - destruct Ho. vm_compute. reflexivity.
  - exists gets, body, posts. split; [exact Hlog|]. split; [|exact Hb].
    exact (exchange_head _ _ _ _ _ Hp).
Defined.

Lemma client_document_crashes_leader_witness :
  exists adv, (syncWith (client (spy adv)) (Nitro.nitroAttester (Nitro.sample_hv (str "b"))
    Nitro.sample_Verify 0) sample_box sample_keys example_read (Ok []) sample_worker []).2 = Panic.
Proof.
  destruct (client_document_crashes_leader (Nitro.sample_hv (str "a")) (Nitro.sample_hv (str "b"))
    Nitro.sample_Verify 0 _ _ sample_box sample_keys example_read (Ok []) sample_worker
    (rand_bytes example_read) zero_hashes (Nitro.sample_issues _ _) (Nitro.sample_issues _ _)
    Nitro.sample_pcrs_identical)
    as (doc & Hc & H); [reflexivity|split; reflexivity|].
  exists (sample_adv doc).
  apply (H (sample_adv doc) (deliver (attstn_Marshal (AttstnBody (b64_Encode doc) []))) None);
    [|apply clean_deliver, attstn_Marshal_nonempty|reflexivity].
  replace doc with
    (match Nitro.createAttstn (Nitro.sample_hv (str "a")) (AuxClient
       (ClientAux (rand_bytes example_read) (Some (Serialize zero_hashes))))
     with Ok d => d | Err _ => [] end) by (rewrite Hc; reflexivity).
  vm_compute. discriminate.
Defined.

End SampleLeader.
