(* ===== verification/SyncProtocol.v ===== *)
(** * SyncProtocol: leader and worker together

    [syncWith] of [sync_leader.go] run against [ServeHTTP] of [sync_worker.go]
    over a network that delivers requests and responses: a worker ends up with
    the leader's keys, unless they do not fit the limit on attestation bodies. *)
From Stdlib Require Import ZArith Lia.
From Stdlib Require Import Strings.Byte Strings.String.
From stdpp Require Import base gmap strings list fin_maps.
From S2P Require Import Prelude Codec Sha256 Json System Http Nonce Errors Keys Attestation Attester.
From S2P Require Import SyncWorker HttpClient SyncLeader.

Local Open Scope Z_scope.
Local Opaque setup_prog.

Section protocol.
Context {E : Type} (B : box_ops) (setupWorker : setup_stage -> enclaveKeys -> E -> E * option error).
(** The attester of the worker, and the random bytes it draws. *)
Context (aw : attester) (rdW : rand_read) (gen : result boxKey).
(** How a body is cut into pieces, and the texts of library errors. *)
Context (deliver : bytes -> Reader.reader) (lib_text : error -> bytes).

Definition render (w : respw) : bytes :=
  concat (map (fun c => match c with Raw b => b | ErrText e => Error lib_text e ++ [Byte.x0a] end)
            (wbody w)).

(** The worker's server: a handler that panics or ends the process leaves the
    client with a broken connection; one that blocks leaves it waiting until the
    three seconds of [_newUnauthenticatedHTTPClient] have passed.  The goroutine
    of a handler that blocks is not followed any further here: in the program it
    goes on waiting at its channel, as it does in [SyncWorker.step], and may
    consume a nonce of a later session, which then fails. *)
Definition serve_http (r : request) : M (wstate E) (result response) := fun s =>
  match run setupWorker (ServeHTTP aw B rdW gen r) (s, new_respw) with
  | ((s', w), Done _) => (s', Done (Ok (Response (status w) (deliver (render w)))))
  | ((s', _), Exit) | ((s', _), Panic) => (s', Done (Err EOF))
  | ((s', _), Blocked) => (s', Done (Err (ErrLib "Client.Timeout exceeded")))
  end.

(** One request on the wire. *)
Definition worker_server (m : message) : M (wstate E) (result response) :=
  serve_http (Request (m_method m) (m_url m)
    (match m_body m with Some body => deliver body | None => [] end)).

(** The leader's client, connected to the worker.  No handler of the worker sets
    a [Location] header. *)
Definition worker_net : network (wstate E) := client (no_redirects worker_server).

Lemma worker_net_Get u s : http_Get worker_net u s = serve_http (Request GET u []) s.
Proof. apply client_Get_direct. Qed.

Lemma worker_net_Post u body s :
  http_Post worker_net u body s = serve_http (Request POST u (deliver body)) s.
Proof. apply client_Post_direct. Qed.

(** Bodies arrive completely, in whatever pieces. *)
Hypothesis deliver_clean : forall b, b <> [] -> Reader.clean (deliver b) b.

Lemma read_delivered b :
  b <> [] -> len b <= maxReadLen ->
  Reader.ReadAll (Reader.newLimitReader (deliver b) maxReadLen) = (b, None).
Proof.
  intros Hb Hl. rewrite Reader.ReadAll_limited by done.
  rewrite (Reader.read_limited_clean _ _ b) by (done || auto). by rewrite (proj2 (Z.leb_le _ _) Hl).
Qed.

Lemma read_too_much b :
  maxReadLen < len b ->
  exists t, Reader.ReadAll (Reader.newLimitReader (deliver b) maxReadLen) =
    (t, Some errTooMuchToRead).
Proof.
  intros Hl. assert (b <> []) by (intros ->; done).
  rewrite Reader.ReadAll_limited by done.
  rewrite (Reader.read_limited_clean _ _ b) by (done || auto). rewrite (proj2 (Z.leb_gt _ _) Hl). eauto.
Qed.

(** The worker's answer to the leader's GET. *)
Lemma worker_answers_GET e u ln n k doc :
  newNonce rdW = Ok n -> newBoxKey gen = Ok k -> nonce_ok ln -> RawQuery u = nonce_query ln ->
  createAttstn aw (AuxWorker (WorkerAux n ln (Some (pubKey k)))) = Ok doc ->
  http_Get worker_net u (asWorker e) =
  (WState (Some n) (Some k) e, Done (Ok (Response StatusOK
     (deliver (attstn_Marshal (AttstnBody (b64_Encode doc) []) ++ [Byte.x0a]))))).
Proof.
  intros Hn Hk Hln Hq Hc.
  assert (Hg : getNonceFromReq (Request GET u []) = Ok ln) by by apply getNonceFromReq_query.
  rewrite worker_net_Get. unfold serve_http. cbn [ServeHTTP Method].
  rewrite (run_initSync aw setupWorker e rdW gen _ n k doc); [|done..|by rewrite Hg].
  rewrite Hg. unfold init_response, render. simpl. by rewrite app_nil_r.
Qed.

(** The worker's answer to the leader's POST. *)
Lemma worker_answers_POST e e' u n k doc encrypted keys :
  verifyAttstn aw doc n = Ok (AuxLeader (LeaderAux n (Some (Sum256 encrypted)))) ->
  OpenAnonymous B encrypted (pubKey k) (privKey k) = Some (keys_Marshal keys) ->
  setup_all setupWorker keys e = (e', None) ->
  let body := attstn_Marshal (AttstnBody (b64_Encode doc) (b64_Encode encrypted)) in
  len body <= maxReadLen ->
  exists r, http_Post worker_net u body (WState (Some n) (Some k) e) =
    (asWorker e', Done (Ok (Response StatusOK r))).
Proof.
  intros Hv Ho Hs body Hl. eexists. rewrite worker_net_Post. unfold serve_http.
  cbn [ServeHTTP Method]. unfold finishSync, read_body. cbn [Body].
  rewrite read_delivered by (apply attstn_Marshal_nonempty || done).
  unfold body. rewrite attstn_Unmarshal_Marshal. cbn [Document EncryptedKeys].
  rewrite !b64_Decode_Encode. simpl. rewrite Hv. simpl.
  rewrite (proj2 (bytes_Equal_eq _ _)) by done. simpl. rewrite Ho, keys_Unmarshal_Marshal.
    rewrite run_setup. cbn [enclave]. by rewrite Hs.
Qed.

(** The leader's run up to the POST, against an idle worker. *)
Lemma syncWith_until_POST (al : attester) keys rdL r worker e ln n k doc encrypted ldoc :
  newNonce rdL = Ok ln -> newNonce rdW = Ok n -> newBoxKey gen = Ok k ->
  length (pubKey k) = 32%nat ->
  createAttstn aw (AuxWorker (WorkerAux n ln (Some (pubKey k)))) = Ok doc ->
  verifyAttstn al doc ln = Ok (AuxWorker (WorkerAux n ln (Some (pubKey k)))) ->
  len (b64_Encode doc) + 36 <= maxReadLen ->
  SealAnonymous B (keys_Marshal keys) (pubKey k) r = Ok encrypted ->
  createAttstn al (AuxLeader (LeaderAux n (Some (Sum256 encrypted)))) = Ok ldoc ->
  syncWith worker_net al B keys rdL r worker (asWorker e) =
  (resp ← http_Post worker_net worker
            (attstn_Marshal (AttstnBody (b64_Encode ldoc) (b64_Encode encrypted)));
   match resp with
   | Err e => mret (Some e)
   | Ok resp => if negb (StatusCode resp =? StatusOK)
                then mret (Some (errNo200 (StatusCode resp))) else mret None
   end) (WState (Some n) (Some k) e).
Proof.
  intros Hl Hn Hk Hlen Hc Hv Hfit Hseal Ha. unfold syncWith. rewrite Hl.
  unfold mbind, M_bind at 1, m_bind at 1.
  rewrite (worker_answers_GET e _ ln n k doc) by (done || by eapply newNonce_ok).
  cbn [StatusCode RBody]. rewrite Z.eqb_refl. cbn [negb].
  pose proof (attstn_Unmarshal_Marshal_nl doc []) as Hu.
  pose proof (len_attstn_Marshal doc []) as Hm.
  change (b64_Encode []) with (@nil byte) in Hu, Hm. rewrite len_nil in Hm.
  rewrite read_delivered; [|by intros [? [=]]%app_nil|rewrite len_app, Hm; unfold len in *; simpl length; lia].
  rewrite Hu. cbn [Document EncryptedKeys]. rewrite len_nil. cbn [Z.eqb negb].
  rewrite b64_Decode_Encode, Hv. cbn [w_PublicKey w_WorkersNonce sbytes default].
  assert (Hp : copy_array 32 (pubKey k) = pubKey k) by (rewrite <- Hlen; apply copy_array_id).
  unfold id. rewrite keys_copy_eq, Hp, Hseal. by rewrite Ha.
Qed.

Context (al : attester).

(** If worker and leader accept each other's documents, the box opens what it
    sealed, the random source works and the documents and the keys fit the
    limit on bodies, then [syncWith] against an idle worker succeeds, and the
    worker has run [setupWorker] on exactly the leader's keys. *)
Lemma sync_succeeds (keys : enclaveKeys) rdL seed worker (e e' : E) ln n k D :
  Attests aw al -> Attests al aw -> NaCl B ->
  newNonce rdL = Ok ln -> newNonce rdW = Ok n -> newBoxKey gen = Ok k -> keypair B k ->
  (forall doc, createAttstn aw (AuxWorker (WorkerAux n ln (Some (pubKey k)))) = Ok doc ->
     len doc <= D) ->
  (forall enc doc, SealAnonymous B (keys_Marshal keys) (pubKey k) (Ok seed) = Ok enc ->
     createAttstn al (AuxLeader (LeaderAux n (Some (Sum256 enc)))) = Ok doc -> len doc <= D) ->
  b64_EncodedLen D + b64_EncodedLen (len (keys_Marshal keys) + 48) + 35 <= maxReadLen ->
  setup_all setupWorker keys e = (e', None) ->
  syncWith worker_net al B keys rdL (Ok seed) worker (asWorker e) = (asWorker e', Done None).
Proof.
  intros Hwl Hlw HB Hl Hn Hk Hkp Hdw Hdl Hfit Hs.
  pose proof (newNonce_ok _ _ Hl) as Hlo. pose proof (newNonce_ok _ _ Hn) as Hno.
  pose proof (keypair_len k Hkp) as Hlen.
  destruct (attests_worker (a := aw) (b := al) n ln (pubKey k) Hno Hlo Hlen) as (doc & Hc & Hv).
  destruct (seal_ok (keys_Marshal keys) (pubKey k) seed) as (enc & Hseal).
  destruct (attests_leader (a := al) (b := aw) n (Sum256 enc) Hno) as (ldoc & Hla & Hlv);
    [pose proof (len_Sum256 enc); unfold len, sha256_Size in *; lia|].
  pose proof (Hdw _ Hc) as HD1. pose proof (Hdl _ _ Hseal Hla) as HD2.
  pose proof (seal_len _ _ _ _ Hseal) as Hsl.
  apply b64_EncodedLen_mono in HD1, HD2.
  assert (4 <= b64_EncodedLen (len (keys_Marshal keys) + 48)).
  { change 4 with (b64_EncodedLen 1). apply b64_EncodedLen_mono.
    pose proof (len_nonneg (keys_Marshal keys)). lia. }
  rewrite (syncWith_until_POST al keys rdL (Ok seed) worker e ln n k doc enc ldoc);
    try done; [|rewrite len_b64_Encode; lia].
  destruct (worker_answers_POST e e' worker n k ldoc enc keys) as [r Hr]; try done.
  { by eapply seal_open. }
  { rewrite len_attstn_Marshal, !len_b64_Encode, Hsl. lia. }
  unfold mbind, M_bind, m_bind. by rewrite Hr.
Qed.

(** The worker's answer to a body beyond the limit. *)
Lemma worker_answers_large_POST s u body :
  maxReadLen < len body ->
  exists r, http_Post worker_net u body s =
    (s, Done (Ok (Response StatusInternalServerError r))).
Proof.
  intros Hl. eexists. rewrite worker_net_Post. unfold serve_http.
  cbn [ServeHTTP Method]. unfold finishSync, read_body. cbn [Body].
  destruct (read_too_much body Hl) as [t ->]. done.
Qed.

(** C10: Application keys of 12 KiB or more can never be synchronized, although
    the leader accepts up to 1 MiB of them.  However the enclaves attest, the
    delivery exceeds the limit on bodies, the worker answers 500, the leader
    reports the error, and the worker's enclave is unchanged while its nonce
    and ephemeral key stay in the channels, where they block every further
    attempt with 429. *)
Theorem large_app_keys_never_sync (keys : enclaveKeys) rdL seed worker (e : E) ln n k
    app doc enc ldoc :
  AppKeys keys = Some app -> 12288 <= len app -> NaCl B ->
  newNonce rdL = Ok ln -> newNonce rdW = Ok n -> newBoxKey gen = Ok k ->
  length (pubKey k) = 32%nat ->
  createAttstn aw (AuxWorker (WorkerAux n ln (Some (pubKey k)))) = Ok doc ->
  verifyAttstn al doc ln = Ok (AuxWorker (WorkerAux n ln (Some (pubKey k)))) ->
  len (b64_Encode doc) + 36 <= maxReadLen ->
  SealAnonymous B (keys_Marshal keys) (pubKey k) (Ok seed) = Ok enc ->
  createAttstn al (AuxLeader (LeaderAux n (Some (Sum256 enc)))) = Ok ldoc ->
  syncWith worker_net al B keys rdL (Ok seed) worker (asWorker e) =
  (WState (Some n) (Some k) e, Done (Some (errNo200 StatusInternalServerError))).
Proof.
  intros Happ Hlong HB Hl Hn Hk Hlen Hc Hv Hfit Hseal Ha.
  rewrite (syncWith_until_POST al keys rdL (Ok seed) worker e ln n k doc enc ldoc) by done.
  destruct (worker_answers_large_POST (WState (Some n) (Some k) e) worker
    (attstn_Marshal (AttstnBody (b64_Encode ldoc) (b64_Encode enc)))) as [r Hr].
  { rewrite len_attstn_Marshal, !len_b64_Encode, (seal_len _ _ _ _ Hseal).
    pose proof (len_keys_Marshal keys) as Hm. rewrite Happ in Hm. simpl in Hm.
    assert (Hb : b64_EncodedLen 12288 <= b64_EncodedLen (len app)) by by apply b64_EncodedLen_mono.
    assert (b64_EncodedLen 16384 <= b64_EncodedLen (len (keys_Marshal keys) + 48)).
    { apply b64_EncodedLen_mono. change (b64_EncodedLen 12288) with 16384 in Hb. lia. }
    pose proof (len_nonneg ldoc). assert (0 <= b64_EncodedLen (len ldoc)).
    { change 0 with (b64_EncodedLen 0). by apply b64_EncodedLen_mono. }
    unfold maxReadLen, maxAttstnBodyLen. lia. }
  unfold mbind, M_bind, m_bind. by rewrite Hr.
Qed.
End protocol.

(** ** Concrete runs *)
Module SampleSync.
Import SyncWorker.Sample SyncLeader.SampleLeader.

Abbreviation dummy := Dummy.dummyAttester.

Definition workers_read : rand_read := RandRead 20 None (replicate 20 Byte.x07).

Definition sample_net : network (wstate enclaveKeys) :=
  worker_net sample_box install dummy workers_read (Ok sample_key) deliver (fun _ => []).

(** What a successful call returned. *)
Definition get_ok (r : result bytes) : bytes := match r with Ok b => b | Err _ => [] end.

Lemma get_ok_eq r b : r = Ok b -> b = get_ok r.
Proof. by intros ->. Qed.

(** Application keys that the leader's application may well PUT. *)
Definition large_keys : enclaveKeys := EnclaveKeys None None (Some (replicate 12288 Byte.x00)).

Definition sealed_large : bytes :=
  get_ok (SealAnonymous sample_box (keys_Marshal large_keys) (pubKey sample_key) (Ok [])).

Lemma large_app_keys_never_sync_witness :
  syncWith sample_net dummy sample_box large_keys example_read (Ok []) sample_worker
    (asWorker no_keys) =
  (WState (Some (rand_bytes workers_read)) (Some sample_key) no_keys,
   Done (Some (errNo200 StatusInternalServerError))).
Proof.
  refine (large_app_keys_never_sync sample_box install dummy workers_read (Ok sample_key) deliver
    (fun _ => []) clean_deliver dummy large_keys example_read [] sample_worker no_keys
    (rand_bytes example_read) (rand_bytes workers_read) sample_key (replicate 12288 Byte.x00)
    _ sealed_large _ eq_refl _ sample_nacl eq_refl eq_refl eq_refl eq_refl eq_refl _ _
    eq_refl eq_refl).
  - vm_compute. discriminate.
  - vm_compute. reflexivity.
  - vm_compute. discriminate.
Defined.

End SampleSync.
