(* ===== verification/Config.v ===== *)
(** * Config: the configuration and the addresses derived from it

    [Config] of [enclave.go], the command line of [main.go], the URLs under
    which enclaves reach each other, and the heartbeat message that carries a
    worker's address to its leader. *)
From Stdlib Require Import ZArith Lia.
From Stdlib Require Import Strings.Byte Strings.String.
From stdpp Require Import base gmap strings list fin_maps.
From S2P Require Import Prelude Codec Sha256 Json System Http Nonce Keys SyncWorker.

Local Open Scope Z_scope.

(** ** [Config] *)

(** [url.Userinfo]: none of its fields is exported. *)
Record userinfo := Userinfo { username : bytes; password : bytes; passwordSet : bool }.

(** The fields of a parsed [url.URL], in their order. *)
Record goURL := GoURL {
  u_Scheme : bytes; u_Opaque : bytes; u_User : option userinfo; u_Host : bytes; u_Path : bytes;
  u_RawPath : bytes; u_OmitHost : bool; u_ForceQuery : bool; u_RawQuery : bytes;
  u_Fragment : bytes; u_RawFragment : bytes
}.

(** Ports are unsigned integers of the width given. *)
Record Config := MkConfig {
  FQDN : bytes;
  FQDNLeader : bytes;
  ExtPubPort : Z;            (* uint16 *)
  ExtPrivPort : Z;           (* uint16 *)
  IntPort : Z;               (* uint16 *)
  UseVsockForExtPort : bool;
  DisableKeepAlives : bool;
  HostProxyPort : Z;         (* uint32 *)
  PrometheusPort : Z;        (* uint16 *)
  PrometheusNamespace : bytes;
  UseProfiling : bool;
  UseACME : bool;
  Debug : bool;
  FdCur : Z;                 (* uint64 *)
  FdMax : Z;                 (* uint64 *)
  AppURL : option goURL;
  AppWebSrv : option goURL;
  WaitForApp : bool;
  MockCertFp : bytes
}.

Definition Validate (c : Config) : option error :=
  if (ExtPubPort c =? 0) || (IntPort c =? 0) || (HostProxyPort c =? 0)
  then Some errCfgMissingPort
  else if bool_decide (FQDN c = []) then Some errCfgMissingFQDN
  else None.

Definition isScalingEnabled (c : Config) : bool := negb (bool_decide (FQDNLeader c = [])).

(** *** [String]: indented JSON *)

(** A URL is printed as the struct it is; [Userinfo] has no exported fields, so
    that credentials in a URL are not shown. *)
Definition url_json (u : goURL) : json :=
  JObj [(str "Scheme", JStr (u_Scheme u)); (str "Opaque", JStr (u_Opaque u));
        (str "User", from_option (fun _ => JObj []) JNull (u_User u)); (str "Host", JStr (u_Host u));
        (str "Path", JStr (u_Path u)); (str "RawPath", JStr (u_RawPath u));
        (str "OmitHost", JBool (u_OmitHost u)); (str "ForceQuery", JBool (u_ForceQuery u));
        (str "RawQuery", JStr (u_RawQuery u)); (str "Fragment", JStr (u_Fragment u));
        (str "RawFragment", JStr (u_RawFragment u))].

Definition opt_url_json (u : option goURL) : json := from_option url_json JNull u.

Definition uint_json (n : Z) : json := JNum (dec_Print n).

Definition config_json (c : Config) : json :=
  JObj [(str "FQDN", JStr (FQDN c)); (str "FQDNLeader", JStr (FQDNLeader c));
        (str "ExtPubPort", uint_json (ExtPubPort c)); (str "ExtPrivPort", uint_json (ExtPrivPort c));
        (str "IntPort", uint_json (IntPort c));
        (str "UseVsockForExtPort", JBool (UseVsockForExtPort c));
        (str "DisableKeepAlives", JBool (DisableKeepAlives c));
        (str "HostProxyPort", uint_json (HostProxyPort c));
        (str "PrometheusPort", uint_json (PrometheusPort c));
        (str "PrometheusNamespace", JStr (PrometheusNamespace c));
        (str "UseProfiling", JBool (UseProfiling c)); (str "UseACME", JBool (UseACME c));
        (str "Debug", JBool (Debug c)); (str "FdCur", uint_json (FdCur c));
        (str "FdMax", uint_json (FdMax c)); (str "AppURL", opt_url_json (AppURL c));
        (str "AppWebSrv", opt_url_json (AppWebSrv c)); (str "WaitForApp", JBool (WaitForApp c));
        (str "MockCertFp", JStr (MockCertFp c))].

(** [Config.String]; marshalling strings, booleans and integers does not fail. *)
Definition Config_String (c : Config) : bytes := json_Indent (config_json c).

(** ** The command line *)

(** The values of the flags; [uint] is 64 bits wide. *)
Record flags := Flags {
  fqdn : bytes; fqdnLeader : bytes; appURL : bytes; appWebSrv : bytes; appCmd : bytes;
  prometheusNamespace : bytes; mockCertFp : bytes;
  extPubPort : Z; extPrivPort : Z; intPort : Z; hostProxyPort : Z; prometheusPort : Z;
  useACME : bool; waitForApp : bool; useProfiling : bool; useVsockForExtPort : bool;
  disableKeepAlives : bool; debug : bool
}.

Definition MaxUint16 : Z := 65535.
Definition MaxUint32 : Z := 4294967295.

Definition to_uint32 (z : Z) : Z := z mod 4294967296.

(** An optional URL; [None]: [url.Parse] failed and [main] ends the process. *)
Definition parse_flag_url (url_Parse : bytes -> result goURL) (s : bytes)
    : option (option goURL) :=
  if bool_decide (s = []) then Some None
  else match url_Parse s with
       | Err _ => None
       | Ok u => Some (Some u)
       end.

(** [main] up to [NewEnclave(c)]; [None]: it ends the process. *)
Definition mainConfig (url_Parse : bytes -> result goURL) (f : flags) : option Config :=
  if bool_decide (fqdn f = []) then None
  else if (extPubPort f <? 1) || (MaxUint16 <? extPubPort f) then None
  else if (extPrivPort f <? 1) || (MaxUint16 <? extPrivPort f) then None
  else if (intPort f <? 1) || (MaxUint16 <? intPort f) then None
  else if (hostProxyPort f <? 1) || (MaxUint32 <? hostProxyPort f) then None
  else if MaxUint16 <? prometheusPort f then None
  else if negb (prometheusPort f =? 0) && bool_decide (prometheusNamespace f = []) then None
  else
    match parse_flag_url url_Parse (appURL f) with
    | None => None
    | Some au =>
        match parse_flag_url url_Parse (appWebSrv f) with
        | None => None
        | Some aw =>
            Some (MkConfig (fqdn f) (fqdnLeader f) (to_uint16 (extPubPort f))
              (to_uint16 (extPrivPort f)) (to_uint16 (intPort f)) (useVsockForExtPort f)
              (disableKeepAlives f) (to_uint32 (hostProxyPort f)) (to_uint16 (prometheusPort f))
              (prometheusNamespace f) (useProfiling f) (useACME f) (debug f) 0 0 au aw
              (waitForApp f) (mockCertFp f))
        end
    end.

(** ** URLs of enclaves *)

Definition pathRoot : bytes := str "/enclave".
Definition pathAttestation : bytes := str "/enclave/attestation".
Definition pathState : bytes := str "/enclave/state".
Definition pathSync : bytes := str "/enclave/sync".
Definition pathHash : bytes := str "/enclave/hash".
Definition pathReady : bytes := str "/enclave/ready".
Definition pathProfiling : bytes := str "/enclave/debug".
Definition pathConfig : bytes := str "/enclave/config".
Definition pathLeader : bytes := str "/enclave/leader".
Definition pathHeartbeat : bytes := str "/enclave/heartbeat".

(** [fmt.Sprintf("%s:%d", host, port)]. *)
Definition host_port (host : bytes) (port : Z) : bytes := host ++ ":"%byte :: dec_Print port.

Definition getSyncURL (host : bytes) (port : Z) : url :=
  URL (str "https") (host_port host port) pathSync [].

Definition getLeader (c : Config) (path : bytes) : url :=
  URL (str "https") (host_port (FQDNLeader c) (ExtPrivPort c)) path [].

Definition getWorker (c : Config) (hb : heartbeatRequest) : result url :=
  match SplitHostPort (WorkerHostname hb) with
  | Err e => Err e
  | Ok (host, _) => Ok (getSyncURL host (ExtPrivPort c))
  end.

(** ** Lemmas *)

(** Host names and IPv4 addresses. *)
Definition host_ok (host : bytes) : bool :=
  forallb (fun c => is_digit c || is_lower c || is_upper c || Byte.eqb c "."%byte
                    || Byte.eqb c "-"%byte) host.

Lemma host_ok_char c :
  is_digit c || is_lower c || is_upper c || Byte.eqb c "."%byte || Byte.eqb c "-"%byte = true ->
  plain c = true /\ Byte.eqb c ":"%byte = false /\ Byte.eqb c "["%byte = false /\
  Byte.eqb c "]"%byte = false.
Proof.
  revert c. by apply (all_bytes_spec (fun c =>
    is_digit c || is_lower c || is_upper c || Byte.eqb c "."%byte || Byte.eqb c "-"%byte = true ->
    plain c = true /\ Byte.eqb c ":"%byte = false /\ Byte.eqb c "["%byte = false /\
    Byte.eqb c "]"%byte = false)).
Qed.

Lemma host_ok_spec host : host_ok host = true ->
  forallb plain host = true /\ forall c, c ∈ [":"; "["; "]"]%byte -> has c host = false.
Proof.
  induction host as [|x host IH]; [done|]. simpl. intros [Hx Hh]%andb_prop.
  apply host_ok_char in Hx as (Hp & H1 & H2 & H3). apply IH in Hh as [Hpl Hh]. split.
  - by rewrite Hp, Hpl.
  - intros c Hc. rewrite Hh by done. rewrite orb_false_r. set_solver.
Qed.

Lemma dec_Print_host_ok n : 0 <= n -> host_ok (dec_Print n) = true.
Proof.
  intros Hn. pose proof (dec_Print_Forall n Hn) as H. unfold host_ok. induction H as [|c l Hc _ IH];
    [done|]. simpl. by rewrite Hc, IH.
Qed.

Lemma SplitHostPort_host_port host port :
  host_ok host = true -> 0 <= port -> SplitHostPort (host_port host port) = Ok (host, dec_Print port).
Proof.
  intros Hh Hp. apply SplitHostPort_join. intros c Hc. split.
  - by apply host_ok_spec.
  - by apply (host_ok_spec (dec_Print port)); [apply dec_Print_host_ok|].
Qed.

(** *** What [String] shows *)

(** Text fields are well-formed UTF-8 and integers in their ranges. *)
Definition url_ok (u : goURL) : bool :=
  forallb text_ok [u_Scheme u; u_Opaque u; u_Host u; u_Path u; u_RawPath u; u_RawQuery u;
                   u_Fragment u; u_RawFragment u].

Definition config_ok (c : Config) : Prop :=
  forallb text_ok [FQDN c; FQDNLeader c; PrometheusNamespace c; MockCertFp c] = true /\
  from_option url_ok true (AppURL c) = true /\ from_option url_ok true (AppWebSrv c) = true /\
  0 <= ExtPubPort c < 2 ^ 16 /\ 0 <= ExtPrivPort c < 2 ^ 16 /\ 0 <= IntPort c < 2 ^ 16 /\
  0 <= HostProxyPort c < 2 ^ 32 /\ 0 <= PrometheusPort c < 2 ^ 16 /\
  0 <= FdCur c < 2 ^ 64 /\ 0 <= FdMax c < 2 ^ 64.

Lemma uint_json_ok n : 0 <= n < 2 ^ 64 -> num_ok (dec_Print n) = true.
Proof.
  intros Hn. assert (n = 0 \/ 0 < n < 10 ^ 20) as [->|Hp] by lia; [done|].
  assert (Hd : forallb is_digit (dec_Print n) = true).
  { apply forallb_forall. intros c Hc%list_elem_of_In. revert c Hc.
    apply Forall_forall, dec_Print_Forall. lia. }
  destruct (dec_Print_head n Hp) as (c & r & E & Hc). rewrite E in *. unfold num_ok.
  rewrite Hd. apply orb_true_intro. left. apply negb_true_iff.
  destruct (Byte.eqb c "0"%byte) eqn:Ec; [|done]. by apply Byte.byte_dec_bl in Ec.
Qed.

Lemma opt_url_json_ok u : from_option url_ok true u = true ->
  json_ok (opt_url_json u) = true /\ json_depth (opt_url_json u) <= 2.
Proof.
  destruct u as [u|]; [|done]. simpl. unfold url_ok. cbn [forallb]. rewrite !andb_true_iff.
  intros (H1 & H2 & H3 & H4 & H5 & H6 & H7 & H8 & _). split.
  - cbn -[text_ok]. rewrite H1, H2, H3, H4, H5, H6, H7, H8. by destruct (u_User u).
  - cbn. destruct (u_User u); simpl; lia.
Qed.

Lemma config_json_ok c : config_ok c ->
  json_ok (config_json c) = true /\ json_depth (config_json c) <= 3.
Proof.
  intros (Ht & Hu1 & Hu2 & Hnum). cbn [forallb] in Ht. rewrite !andb_true_iff in Ht.
  destruct Ht as (T1 & T2 & T3 & T4 & _).
  apply opt_url_json_ok in Hu1 as [U1 D1], Hu2 as [U2 D2].
  split; cbn -[text_ok num_ok opt_url_json]; [|lia].
  rewrite T1, T2, T3, T4, U1, U2. rewrite !uint_json_ok by lia. done.
Qed.

Lemma uint_json_inj n m : 0 <= n < 2 ^ 64 -> 0 <= m < 2 ^ 64 ->
  dec_Print n = dec_Print m -> n = m.
Proof. intros. apply dec_Print_inj; [lia|lia|done]. Qed.

(** What the page cannot show: the name and the password in a URL. *)
Definition redact_url (u : goURL) : goURL :=
  GoURL (u_Scheme u) (u_Opaque u) ((fun _ => Userinfo [] [] false) <$> u_User u) (u_Host u) (u_Path u)
    (u_RawPath u) (u_OmitHost u) (u_ForceQuery u) (u_RawQuery u) (u_Fragment u) (u_RawFragment u).

Lemma opt_url_json_redact u : opt_url_json (redact_url <$> u) = opt_url_json u.
Proof. destruct u as [[? ? [|] ? ? ? ? ? ? ? ?]|]; done. Qed.

Lemma opt_url_json_inj u v :
  opt_url_json u = opt_url_json v -> redact_url <$> u = redact_url <$> v.
Proof.
  destruct u as [[? ? [|] ? ? ? ? ? ? ? ?]|], v as [[? ? [|] ? ? ? ? ? ? ? ?]|]; simpl; try done;
    intros H; injection H; intros; by simplify_eq.
Qed.

Definition redact (c : Config) : Config :=
  MkConfig (FQDN c) (FQDNLeader c) (ExtPubPort c) (ExtPrivPort c) (IntPort c) (UseVsockForExtPort c)
    (DisableKeepAlives c) (HostProxyPort c) (PrometheusPort c) (PrometheusNamespace c)
    (UseProfiling c) (UseACME c) (Debug c) (FdCur c) (FdMax c) (redact_url <$> AppURL c)
    (redact_url <$> AppWebSrv c) (WaitForApp c) (MockCertFp c).

Lemma config_json_redact c : config_json (redact c) = config_json c.
Proof. unfold config_json, redact. simpl. by rewrite !opt_url_json_redact. Qed.

Lemma config_json_inj c1 c2 :
  config_ok c1 -> config_ok c2 -> config_json c1 = config_json c2 -> redact c1 = redact c2.
Proof.
  intros (_ & _ & _ & H1) (_ & _ & _ & H2). destruct c1, c2. unfold redact. simpl in *.
  unfold config_json. simpl.
  intros E. injection E. intros.
  f_equal; try done; try (by apply opt_url_json_inj); apply uint_json_inj; try done; lia.
Qed.

(** The text of a configuration, with the newline of [Fprintln], is JSON for it. *)
Lemma Config_String_parses c : config_ok c ->
  json_Parse (Config_String c ++ [Byte.x0a]) = Some (config_json c).
Proof.
  intros Hc. destruct (config_json_ok c Hc) as [Hok Hd].
  apply json_Parse_Indent_nl; [done|done|]. unfold maxNestingDepth. lia.
Qed.

(** What [main] checks is enough for [Validate] and for the conversions. *)
Lemma mainConfig_valid url_Parse (f : flags) (c : Config) :
  0 <= prometheusPort f -> mainConfig url_Parse f = Some c ->
  Validate c = None /\
  ExtPubPort c = extPubPort f /\ ExtPrivPort c = extPrivPort f /\ IntPort c = intPort f /\
  HostProxyPort c = hostProxyPort f /\ PrometheusPort c = prometheusPort f /\
  1 <= ExtPrivPort c <= MaxUint16 /\
  (PrometheusPort c <> 0 -> PrometheusNamespace c <> []).
Proof.
  intros Hp. unfold mainConfig, MaxUint16, MaxUint32. intros H. inv_matches H.
  unfold Validate, to_uint16, to_uint32. simpl.
  repeat match goal with
    | E : (_ || _)%bool = false |- _ => apply orb_false_elim in E as [? ?]
    | E : (_ <? _) = false |- _ => apply Z.ltb_ge in E
    | E : bool_decide _ = false |- _ => apply bool_decide_eq_false in E
    end.
  rewrite !Z.mod_small by lia.
  rewrite !(proj2 (Z.eqb_neq _ 0)) by lia. simpl.
  rewrite bool_decide_eq_false_2 by done. split_and!; try done; try lia.
  intros Hne Hns. apply Z.eqb_neq in Hne.
  match goal with E : (negb _ && _)%bool = false |- _ => rewrite Hne in E; simpl in E;
    apply bool_decide_eq_false in E end. done.
Qed.

Definition sample_flags : flags :=
  Flags (str "example.com") (str "leader.example.com") [] [] [] [] [] 443 444 8080 1024 0
    false false false false false false.

(** A parser that takes every text for a path. *)
Definition parse_path (s : bytes) : result goURL :=
  Ok (GoURL [] [] None [] s [] false false [] [] []).

(** ** Heartbeats *)

Definition maxHeartbeatBody : Z := 44 + 255 + 128.

(** The body that [workerHeartbeat] sends in every round, for the worker's own
    URL and keys, and the one that [registerWith] sends, without a digest. *)
Definition heartbeat_body (keys : enclaveKeys) (worker : url) : bytes :=
  heartbeat_Marshal (HeartbeatRequest (hashAndB64 keys) (Host worker)).

Definition register_body (worker : url) : bytes :=
  heartbeat_Marshal (HeartbeatRequest [] (Host worker)).

Lemma heartbeat_Unmarshal_Marshal h host port :
  host_ok host = true -> 0 <= port -> forallb plain h = true ->
  heartbeat_Unmarshal (heartbeat_Marshal (HeartbeatRequest h (host_port host port))) =
  (HeartbeatRequest h (host_port host port), None).
Proof.
  intros Hh Hp Hpl. unfold heartbeat_Unmarshal, heartbeat_Marshal. cbn [HashedKeys WorkerHostname].
  assert (Hpl2 : forallb plain (host_port host port) = true).
  { unfold host_port. rewrite forallb_app. simpl.
    destruct (host_ok_spec host Hh) as [-> _].
    by destruct (host_ok_spec _ (dec_Print_host_ok port Hp)) as [-> _]. }
  rewrite Unmarshal_Print; [by store_members| |done].
  cbn -[text_ok host_port]. by rewrite !plain_text_ok by done.
Qed.

Lemma hashAndB64_plain e : forallb plain (hashAndB64 e) = true.
Proof. apply b64_Encode_plain. Qed.

Lemma len_heartbeat_Marshal h host port :
  host_ok host = true -> 0 <= port -> forallb plain h = true ->
  len (heartbeat_Marshal (HeartbeatRequest h (host_port host port))) <= len h + len host + 60.
Proof.
  intros Hh Hp Hpl. unfold heartbeat_Marshal. rewrite json_Print_two. cbn [HashedKeys WorkerHostname].
  rewrite !len_cons, !len_app, !len_cons, !len_app, !len_cons, len_nil.
  rewrite !(len_quote_plain (str _)) by done. rewrite (len_quote_plain h) by done.
  rewrite (len_quote_plain (host_port host port)).
  - unfold host_port. rewrite len_app, len_cons. pose proof (len_dec_Print port).
    change (len (str "hashed_keys")) with 11. change (len (str "worker_hostname")) with 15. lia.
  - unfold host_port. rewrite forallb_app. simpl. destruct (host_ok_spec host Hh) as [-> _].
    by destruct (host_ok_spec _ (dec_Print_host_ok port Hp)) as [-> _].
Qed.
