(* ===== verification/Flags.v ===== *)
(** * Flags: the command line of [main.go]

    What [main] uses of the [flag] package: the flags it defines with their
    defaults, the syntax of arguments, the values of booleans and unsigned
    integers, and what [flag.Parse] makes of an argument list. *)
From Stdlib Require Import ZArith Lia.
From Stdlib Require Import Strings.Byte Strings.String.
From stdpp Require Import base gmap strings list fin_maps.
From S2P Require Import Prelude Codec Text Config.

Local Open Scope Z_scope.

(** ** Values *)

Inductive value :=
  | VString (s : bytes)
  | VUint (n : Z)
  | VBool (b : bool).

#[export] Instance value_eq_dec : EqDecision value.
Proof. solve_decision. Defined.

(** [strconv.ParseBool]. *)
Definition ParseBool (s : bytes) : option bool :=
  if bool_decide (s ∈ str <$> ["1"; "t"; "T"; "true"; "TRUE"; "True"]%string) then Some true
  else if bool_decide (s ∈ str <$> ["0"; "f"; "F"; "false"; "FALSE"; "False"]%string) then Some false
  else None.

Definition underscore : byte := "_"%byte.

(** The digit that a byte stands for, up to base 36. *)
Definition digit_of (c : byte) : option Z :=
  if is_digit c then Some (b2z c - 48)
  else if is_lower (to_lower c) then Some (b2z (to_lower c) - 97 + 10)
  else None.

Definition maxUint64 : Z := 2 ^ 64 - 1.

(** The loop of [strconv.ParseUint]; underscores are skipped. *)
Fixpoint parse_digits (base : Z) (s : bytes) (n : Z) : option Z :=
  match s with
  | [] => Some n
  | c :: s' =>
      if bool_decide (c = underscore) then parse_digits base s' n
      else match digit_of c with
           | None => None
           | Some d =>
               if base <=? d then None
               else if maxUint64 / base + 1 <=? n then None
               else let n := (n * base) mod 2 ^ 64 in
                    let n1 := (n + d) mod 2 ^ 64 in
                    if (n1 <? n) || (maxUint64 <? n1) then None
                    else parse_digits base s' n1
           end
  end.

(** [underscoreOK]: underscores separate digits, where a base prefix counts as
    a digit; [saw] is what came last. *)
Inductive last_seen := SawStart | SawDigit | SawUnderscore | SawOther.

Fixpoint underscore_scan (hex : bool) (s : bytes) (saw : last_seen) : bool :=
  match s with
  | [] => match saw with SawUnderscore => false | _ => true end
  | c :: s' =>
      if is_digit c || hex && in_range 97 102 (to_lower c) then underscore_scan hex s' SawDigit
      else if bool_decide (c = underscore) then
        match saw with SawDigit => underscore_scan hex s' SawUnderscore | _ => false end
      else match saw with SawUnderscore => false | _ => underscore_scan hex s' SawOther end
  end.

Definition underscoreOK (s : bytes) : bool :=
  let s := match s with
           | c :: s' => if bool_decide (c ∈ ["-"; "+"]%byte) then s' else s
           | [] => s
           end in
  match s with
  | c :: d :: s' =>
      if bool_decide (c = "0"%byte) && bool_decide (to_lower d ∈ ["b"; "o"; "x"]%byte)
      then underscore_scan (bool_decide (to_lower d = "x"%byte)) s' SawDigit
      else underscore_scan false s SawStart
  | _ => underscore_scan false s SawStart
  end.

(** The base of a literal and its digits. *)
Definition literal_base (s : bytes) : Z * bytes :=
  match s with
  | c :: s' =>
      if bool_decide (c = "0"%byte) then
        match s' with
        | p :: ((_ :: _) as ds) =>
            if bool_decide (to_lower p = "b"%byte) then (2, ds)
            else if bool_decide (to_lower p = "o"%byte) then (8, ds)
            else if bool_decide (to_lower p = "x"%byte) then (16, ds)
            else (8, s')
        | _ => (8, s')
        end
      else (10, s)
  | [] => (10, [])
  end.

(** [strconv.ParseUint(s, 0, 64)]. *)
Definition ParseUint (s : bytes) : option Z :=
  if bool_decide (s = []) then None
  else let '(base, ds) := literal_base s in
       match parse_digits base ds 0 with
       | None => None
       | Some n => if bool_decide (underscore ∈ ds) && negb (underscoreOK s) then None else Some n
       end.

(** [flag.Value.Set]: the new value of a flag that has the value [old]. *)
Definition Set_value (old : value) (s : bytes) : option value :=
  match old with
  | VString _ => Some (VString s)
  | VUint _ => VUint <$> ParseUint s
  | VBool _ => VBool <$> ParseBool s
  end.

Definition IsBoolFlag (v : value) : bool := match v with VBool _ => true | _ => false end.

(** ** The flags of [main] *)

(** The flags with their defaults, in the order of their definition. *)
Definition main_flags : list (bytes * value) :=
  [(str "fqdn", VString []); (str "fqdn-leader", VString []); (str "appurl", VString []);
   (str "appwebsrv", VString []); (str "appcmd", VString []);
   (str "prometheus-namespace", VString []); (str "ext-pub-port", VUint 443);
   (str "ext-priv-port", VUint 444); (str "disable-keep-alives", VBool false);
   (str "vsock-ext", VBool false); (str "intport", VUint 8080);
   (str "host-proxy-port", VUint 1024); (str "prometheus-port", VUint 0);
   (str "profile", VBool false); (str "acme", VBool false); (str "wait-for-app", VBool false);
   (str "debug", VBool false); (str "mock-cert-fp", VString [])].

(** The flag set: [formal] of [flag.CommandLine], with the current values. *)
Abbreviation flag_set := (gmap bytes value).

Definition CommandLine : flag_set := list_to_map main_flags.

(** The variables of [main] that the flags are bound to. *)
Definition string_var (fs : flag_set) (name : string) : bytes :=
  match fs !! str name with Some (VString s) => s | _ => [] end.
Definition uint_var (fs : flag_set) (name : string) : Z :=
  match fs !! str name with Some (VUint n) => n | _ => 0 end.
Definition bool_var (fs : flag_set) (name : string) : bool :=
  match fs !! str name with Some (VBool b) => b | _ => false end.

Definition variables (fs : flag_set) : flags :=
  Flags (string_var fs "fqdn") (string_var fs "fqdn-leader") (string_var fs "appurl")
    (string_var fs "appwebsrv") (string_var fs "appcmd") (string_var fs "prometheus-namespace")
    (string_var fs "mock-cert-fp") (uint_var fs "ext-pub-port") (uint_var fs "ext-priv-port")
    (uint_var fs "intport") (uint_var fs "host-proxy-port") (uint_var fs "prometheus-port")
    (bool_var fs "acme") (bool_var fs "wait-for-app") (bool_var fs "profile")
    (bool_var fs "vsock-ext") (bool_var fs "disable-keep-alives") (bool_var fs "debug").

(** ** [flag.Parse] *)

(** What an argument is: not a flag, the terminator, a flag with its name and
    the value after the first [=], or a syntax error. *)
Inductive argument :=
  | NoFlag
  | Terminator
  | AFlag (name : bytes) (val : option bytes)
  | BadSyntax.

Definition dash : byte := "-"%byte.
Definition equals : byte := "="%byte.

(** The name and the value; an [=] cannot be the first byte of a name. *)
Definition split_name (name : bytes) : argument :=
  match name with
  | [] => BadSyntax
  | c :: rest =>
      if bool_decide (c = dash) || bool_decide (c = equals) then BadSyntax
      else match Cut [equals] rest with
           | Some (n, v) => AFlag (c :: n) (Some v)
           | None => AFlag (c :: rest) None
           end
  end.

Definition classify (s : bytes) : argument :=
  match s with
  | c :: d :: rest =>
      if negb (bool_decide (c = dash)) then NoFlag
      else if bool_decide (d = dash)
           then match rest with [] => Terminator | _ => split_name rest end
           else split_name (d :: rest)
  | _ => NoFlag
  end.

(** Set the flag [name], whose value is [old], and go on. *)
Definition set_flag {A : Type} (name : bytes) (old : value) (v : bytes) (fs : flag_set)
    (k : flag_set -> option A) : option A :=
  match Set_value old v with
  | None => None
  | Some new => k (<[name := new]> fs)
  end.

(** [FlagSet.Parse]: the flags and the arguments that are left; [None] is an
    error, or a request for help, on which the process exits.  A flag that is
    not a boolean takes the next argument if it has no [=]. *)
Fixpoint parse_args (args : list bytes) (fs : flag_set) : option (flag_set * list bytes) :=
  match args with
  | [] => Some (fs, [])
  | s :: args' =>
      match classify s with
      | NoFlag => Some (fs, args)
      | Terminator => Some (fs, args')
      | BadSyntax => None
      | AFlag name val =>
          match fs !! name with
          | None => None
          | Some old =>
              if IsBoolFlag old
              then set_flag name old (default (str "true") val) fs (parse_args args')
              else match val, args' with
                   | Some v, _ => set_flag name old v fs (parse_args args')
                   | None, v :: args'' => set_flag name old v fs (parse_args args'')
                   | None, [] => None
                   end
          end
      end
  end.

(** [main] up to and including [flag.Parse()]; the remaining arguments are not
    looked at. *)
Definition parse_command_line (args : list bytes) : option flags :=
  match parse_args args CommandLine with
  | Some (fs, _) => Some (variables fs)
  | None => None
  end.

(** ** Writing a command line *)

(** How a flag is written: with one or two dashes, and with [=] or, for a
    string or an integer, with a separate argument and for a boolean without
    any. *)
Record style := Style { two_dashes : bool; separate : bool }.

Definition dashes (st : style) : bytes := if two_dashes st then [dash; dash] else [dash].

Definition print_value (v : value) : bytes :=
  match v with
  | VString s => s
  | VUint n => dec_Print n
  | VBool b => if b then str "true" else str "false"
  end.

(** A flag with its value, as arguments. *)
Definition setting : Type := style * (bytes * value).

Definition render (s : setting) : list bytes :=
  let '(st, (name, v)) := s in
  match separate st, v with
  | true, VBool true => [dashes st ++ name]
  | true, VString _ | true, VUint _ => [dashes st ++ name; print_value v]
  | _, _ => [dashes st ++ name ++ equals :: print_value v]
  end.

Definition same_kind (v w : value) : bool :=
  match v, w with
  | VString _, VString _ | VUint _, VUint _ | VBool _, VBool _ => true
  | _, _ => false
  end.

Definition value_ok (v : value) : bool :=
  match v with VUint n => (0 <=? n) && (n <? 2 ^ 64) | _ => true end.

(** A setting of one of [main]'s flags, to a value of its kind. *)
Definition setting_ok (s : setting) : Prop :=
  value_ok s.2.2 = true /\
  exists d, (s.2.1, d) ∈ main_flags /\ same_kind d s.2.2 = true.

(** The settings that make the flags [f]. *)
Definition settings_of (f : flags) : list (bytes * value) :=
  [(str "fqdn", VString (fqdn f)); (str "fqdn-leader", VString (fqdnLeader f));
   (str "appurl", VString (appURL f)); (str "appwebsrv", VString (appWebSrv f));
   (str "appcmd", VString (appCmd f)); (str "prometheus-namespace", VString (prometheusNamespace f));
   (str "ext-pub-port", VUint (extPubPort f)); (str "ext-priv-port", VUint (extPrivPort f));
   (str "disable-keep-alives", VBool (disableKeepAlives f));
   (str "vsock-ext", VBool (useVsockForExtPort f)); (str "intport", VUint (intPort f));
   (str "host-proxy-port", VUint (hostProxyPort f));
   (str "prometheus-port", VUint (prometheusPort f)); (str "profile", VBool (useProfiling f));
   (str "acme", VBool (useACME f)); (str "wait-for-app", VBool (waitForApp f));
   (str "debug", VBool (debug f)); (str "mock-cert-fp", VString (mockCertFp f))].

Definition ports (f : flags) : list Z :=
  [extPubPort f; extPrivPort f; intPort f; hostProxyPort f; prometheusPort f].

(** Arguments that do not start with a flag. *)
Definition no_flag (args : list bytes) : bool :=
  match args with
  | [] => true
  | s :: _ => match classify s with NoFlag | Terminator => true | _ => false end
  end.

(** ** Numbers *)

Lemma digit_of_digit c : is_digit c = true -> digit_of c = Some (b2z c - 48) /\ c <> underscore.
Proof.
  intros Hc. split; [unfold digit_of; by rewrite Hc|]. by intros ->.
Qed.

Lemma is_digit_range c : is_digit c = true -> 48 <= b2z c <= 57.
Proof. unfold is_digit, in_range. lia. Qed.

Lemma dec_Value_cons c s : dec_Value (c :: s) = (b2z c - 48) * 10 ^ len s + dec_Value s.
Proof. unfold dec_Value at 1. simpl. by rewrite dec_fold_acc. Qed.

Lemma dec_Value_nonneg s : Forall (fun c => is_digit c = true) s -> 0 <= dec_Value s.
Proof.
  induction 1 as [|c s Hc _ IH]; [done|]. rewrite dec_Value_cons. apply is_digit_range in Hc.
  pose proof (Z.pow_pos_nonneg 10 (len s) ltac:(lia) (len_nonneg s)). nia.
Qed.

(** Decimal digits are read as their value if it fits 64 bits. *)
Lemma parse_digits_dec s acc :
  0 <= acc -> Forall (fun c => is_digit c = true) s -> acc * 10 ^ len s + dec_Value s < 2 ^ 64 ->
  parse_digits 10 s acc = Some (acc * 10 ^ len s + dec_Value s).
Proof.
  intros Ha Hs. revert acc Ha. induction Hs as [|c s Hc Hs IH]; intros acc Ha Hb.
  { cbn [parse_digits]. f_equal. change (dec_Value []) with 0. rewrite len_nil. lia. }
  pose proof (is_digit_range c Hc) as Hr. destruct (digit_of_digit c Hc) as [Hd Hu].
  pose proof (dec_Value_nonneg s Hs).
  rewrite dec_Value_cons, len_cons, Z.pow_add_r, Z.pow_1_r in * by (pose proof (len_nonneg s); lia).
  pose proof (Z.pow_pos_nonneg 10 (len s) ltac:(lia) (len_nonneg s)) as Hpos.
  cbn [parse_digits]. rewrite bool_decide_eq_false_2, Hd by done.
  set (P := 10 ^ len s) in *. set (d := b2z c - 48) in *.
  replace (acc * (10 * P) + (d * P + dec_Value s)) with ((acc * 10 + d) * P + dec_Value s) in * by ring.
  assert (0 <= d <= 9) by (unfold d; lia). assert (Hn : acc * 10 + d < 2 ^ 64) by nia.
  rewrite (proj2 (Z.leb_gt _ _)) by lia.
  change (maxUint64 / 10) with 1844674407370955161.
  rewrite (proj2 (Z.leb_gt _ _)) by lia.
  cbv zeta. rewrite !(Z.mod_small (acc * 10)) by lia. rewrite Z.mod_small by lia.
  rewrite (proj2 (Z.ltb_ge _ _)), (proj2 (Z.ltb_ge _ _)) by (unfold maxUint64; lia). simpl.
  by rewrite IH by lia.
Qed.

Lemma ParseUint_dec_Print n : 0 <= n < 2 ^ 64 -> ParseUint (dec_Print n) = Some n.
Proof.
  intros Hn. assert (n = 0 \/ 0 < n < 10 ^ 20) as [->|Hp] by lia; [done|].
  pose proof (dec_Print_Forall n ltac:(lia)) as Hd.
  pose proof (dec_Value_Print n ltac:(lia)) as Hv.
  destruct (dec_Print_head n Hp) as (c & r & E & Hc). rewrite E in *. unfold ParseUint.
  rewrite bool_decide_eq_false_2 by done. cbn [literal_base].
  rewrite bool_decide_eq_false_2 by done. rewrite parse_digits_dec by (rewrite ?Hv; done || lia).
  rewrite bool_decide_eq_false_2, Hv; [done|].
  intros Hu. by apply (Forall_forall _ _) with (x := underscore) in Hd.
Qed.

(** ** Arguments *)

(** A name that [split_name] finds as it was written. *)
Definition name_ok (name : bytes) : bool :=
  match name with
  | [] => false
  | c :: rest => negb (bool_decide (c = dash)) && negb (bool_decide (c = equals)) &&
                 negb (bool_decide (equals ∈ rest))
  end.

Lemma main_flags_names : Forall (fun f => name_ok f.1 = true) main_flags.
Proof. apply (bool_decide_unpack _). vm_compute. exact I. Qed.

Lemma split_name_ok name rest : name_ok name = true ->
  split_name name = AFlag name None /\ split_name (name ++ equals :: rest) = AFlag name (Some rest).
Proof.
  destruct name as [|c name]; [done|]. cbn [name_ok app split_name]. rewrite !andb_true_iff, !negb_true_iff.
  intros [[-> ->] Hn%bool_decide_eq_false]. simpl. split.
  - by rewrite (proj2 (Cut_byte_None equals name)).
  - by rewrite Cut_byte.
Qed.

Lemma classify_dashes st name : name_ok name = true -> forall rest,
  classify (dashes st ++ name ++ rest) = split_name (name ++ rest).
Proof.
  destruct name as [|c name]; [done|]. cbn [name_ok]. rewrite !andb_true_iff, !negb_true_iff.
  intros [[Hc _] _] rest. unfold dashes. destruct (two_dashes st); simpl; [done|].
  by rewrite Hc.
Qed.

Lemma classify_flag st name v : name_ok name = true ->
  classify (dashes st ++ name) = AFlag name None /\
  classify (dashes st ++ name ++ equals :: v) = AFlag name (Some v).
Proof.
  intros Hn. rewrite <- (app_nil_r (dashes st ++ name)), <- app_assoc.
  rewrite !classify_dashes, app_nil_r by done. by apply split_name_ok.
Qed.

Lemma same_kind_Set d v w : same_kind d v = true -> same_kind d w = true -> value_ok w = true ->
  Set_value v (print_value w) = Some w.
Proof.
  destruct d, v, w; try done; intros _ _ Hw; simpl in *.
  - apply andb_prop in Hw as [H1 H2]. rewrite ParseUint_dec_Print; [done|lia].
  - by destruct b1.
Qed.

(** Every flag of [main] is there, with a value of its kind. *)
Definition flags_typed (fs : flag_set) : Prop :=
  forall name v, fs !! name = Some v ->
  value_ok v = true /\ exists d, (name, d) ∈ main_flags /\ same_kind d v = true.

Definition flags_complete (fs : flag_set) : Prop :=
  forall name d, (name, d) ∈ main_flags -> exists v, fs !! name = Some v /\ same_kind d v = true.

Lemma main_flags_nodup : NoDup main_flags.*1.
Proof. apply (bool_decide_unpack _). vm_compute. exact I. Qed.

Lemma same_kind_refl v : same_kind v v = true.
Proof. by destruct v. Qed.

Lemma same_kind_trans u v w : same_kind u v = true -> same_kind u w = true -> same_kind v w = true.
Proof. by destruct u, v, w. Qed.

Lemma flags_typed_start : flags_typed CommandLine.
Proof.
  intros name v Hv%elem_of_list_to_map_2. split; [|exists v; by rewrite same_kind_refl].
  assert (Hall : Forall (fun f => value_ok f.2 = true) main_flags)
    by (apply (bool_decide_unpack _); vm_compute; exact I).
  by apply (proj1 (Forall_forall _ _) Hall (name, v)).
Qed.

Lemma CommandLine_default name d : (name, d) ∈ main_flags -> CommandLine !! name = Some d.
Proof. apply elem_of_list_to_map_1, main_flags_nodup. Qed.

Lemma flags_complete_start : flags_complete CommandLine.
Proof. intros name d Hd. exists d. split; [by apply CommandLine_default|by destruct d]. Qed.

Lemma flags_complete_set fs name d v : flags_complete fs ->
  (name, d) ∈ main_flags -> same_kind d v = true -> flags_complete (<[name := v]> fs).
Proof.
  intros Hfs Hd Hv name' d' Hd'. destruct (decide (name = name')) as [<-|Hne].
  - exists v. rewrite lookup_insert, decide_True by done. split; [done|].
    apply CommandLine_default in Hd, Hd'. rewrite Hd in Hd'. by injection Hd' as <-.
  - rewrite lookup_insert_ne by done. by apply Hfs.
Qed.

(** ** Settings *)

Definition apply_setting (fs : flag_set) (s : setting) : flag_set := <[s.2.1 := s.2.2]> fs.

(** A setting, however it is written, is understood. *)
Lemma parse_setting fs s rest : flags_complete fs -> setting_ok s ->
  parse_args (render s ++ rest) fs = parse_args rest (apply_setting fs s) /\
  flags_complete (apply_setting fs s).
Proof.
  intros Hfs [Hok (d & Hd & Hk)]. destruct s as [st [name v]]. cbn [fst snd] in *.
  split; [|by eapply flags_complete_set].
  pose proof (proj1 (Forall_forall _ _) main_flags_names _ Hd) as Hn. cbn [fst] in Hn.
  destruct (Hfs name d Hd) as (old & Hold & Hko).
  pose proof (same_kind_Set d old v Hko Hk Hok) as Hset.
  destruct (classify_flag st name (print_value v) Hn) as [Hc1 Hc2].
  unfold render, apply_setting. cbn [fst snd].
  destruct (separate st), v as [s|n|[]]; cbn [app parse_args]; rewrite ?Hc1, ?Hc2, Hold;
    destruct d, old; try done; cbn [IsBoolFlag default]; unfold set_flag; by rewrite ?Hset.
Qed.

(** Settings in a row: a later setting of a flag replaces an earlier one, and
    what is not a flag ends the options. *)
Lemma parse_settings fs settings rest : flags_complete fs -> Forall setting_ok settings ->
  parse_args (concat (render <$> settings) ++ rest) fs =
  parse_args rest (foldl apply_setting fs settings).
Proof.
  intros Hfs Hs. revert fs Hfs. induction Hs as [|s settings Hs _ IH]; intros fs Hfs; [done|].
  cbn [fmap list_fmap concat foldl]. rewrite <- app_assoc.
  destruct (parse_setting fs s (concat (render <$> settings) ++ rest) Hfs Hs) as [-> Hfs'].
  by apply IH.
Qed.

Lemma parse_no_flag args fs : no_flag args = true -> exists left, parse_args args fs = Some (fs, left).
Proof.
  destruct args as [|s args]; simpl; [by eexists|]. destruct (classify s); by eauto.
Qed.

Lemma settings_of_kinds f :
  Forall2 (fun m s => m.1 = s.1 /\ same_kind m.2 s.2 = true) main_flags (settings_of f).
Proof. repeat constructor. Qed.

Lemma settings_of_ok f (how : bytes -> style) : Forall (fun n => 0 <= n < 2 ^ 64) (ports f) ->
  Forall (fun nv => setting_ok (how nv.1, nv)) (settings_of f).
Proof.
  intros Hp. unfold ports in Hp. rewrite !Forall_cons in Hp. destruct Hp as (P1 & P2 & P3 & P4 & P5 & _).
  assert (Hv : Forall (fun nv => value_ok nv.2 = true) (settings_of f))
    by (repeat apply Forall_cons_2; simpl; lia || done).
  apply Forall_forall. intros [name v] Hin. split; [by apply (proj1 (Forall_forall _ _) Hv _ Hin)|].
  apply list_elem_of_lookup in Hin as [i Hi].
  destruct (Forall2_lookup_r _ _ _ _ _ (settings_of_kinds f) Hi) as ([n d] & Hd & Hn & Hk).
  simpl in *. subst n. exists d. split; [by eapply list_elem_of_lookup_2|done].
Qed.

Lemma settings_of_names f : (settings_of f).*1 = main_flags.*1.
Proof. done. Qed.

(** Of settings of different flags, each takes effect. *)
Lemma foldl_setting_lookup fs settings s :
  NoDup (settings.*2.*1) -> s ∈ settings ->
  foldl apply_setting fs settings !! s.2.1 = Some s.2.2.
Proof.
  induction settings as [|s' settings IH] using rev_ind; [set_solver|].
  rewrite !fmap_app, NoDup_app. intros (Hnd & Hdis & _) Hs. rewrite foldl_app. simpl.
  unfold apply_setting at 1. apply elem_of_app in Hs as [Hs| ->%list_elem_of_singleton].
  - rewrite lookup_insert_ne; [by apply IH|]. intros E. apply (Hdis s.2.1); [|set_solver].
    apply list_elem_of_fmap. exists s.2. split; [done|]. by apply list_elem_of_fmap_2.
  - by rewrite lookup_insert, decide_True.
Qed.

(** The variables are those of [f] if every flag has its setting. *)
Lemma variables_settings_of fs f :
  Forall (fun nv => fs !! nv.1 = Some nv.2) (settings_of f) -> variables fs = f.
Proof.
  unfold settings_of. rewrite !Forall_cons. cbn [fst snd]. intros H. destruct_and! H.
  unfold variables, string_var, uint_var, bool_var. 
  repeat match goal with E : fs !! _ = _ |- _ => rewrite E; clear E end. by destruct f.
Qed.

(** C25: The command line says what it seems to say.  For all values of the flags,
    in whatever order and style they are written (one dash or two, with [=] or
    with a separate argument, booleans without an argument), whatever settings
    come before them and whatever non-flag arguments after, [main] sees exactly
    these values; so no text, not even one that starts with a dash or contains
    an equals sign, needs quoting, and later settings replace earlier ones. *)
Theorem command_line_roundtrip (f : flags) (how : bytes -> style) (earlier : list setting)
    (order : list (bytes * value)) (rest : list bytes) :
  Forall (fun n => 0 <= n < 2 ^ 64) (ports f) -> Forall setting_ok earlier ->
  order ≡ₚ settings_of f -> no_flag rest = true ->
  parse_command_line (concat (render <$> earlier ++ ((fun nv => (how nv.1, nv)) <$> order)) ++ rest)
  = Some f.
Proof.
  intros Hp He Ho Hr. unfold parse_command_line.
  assert (Hok : Forall setting_ok ((fun nv => (how nv.1, nv)) <$> order)).
  { apply Forall_fmap. unfold compose. rewrite Ho. by apply settings_of_ok. }
  rewrite parse_settings; [|apply flags_complete_start|by apply Forall_app].
  destruct (parse_no_flag rest (foldl apply_setting CommandLine
    (earlier ++ ((fun nv => (how nv.1, nv)) <$> order))) Hr) as [left ->].
  f_equal. apply variables_settings_of, Forall_forall. intros nv Hnv.
  rewrite foldl_app. apply (foldl_setting_lookup _ _ (how nv.1, nv)).
  - rewrite <- (list_fmap_compose _ snd). change (NoDup (id <$> order).*1).
    rewrite list_fmap_id, Ho, settings_of_names. apply main_flags_nodup.
  - apply list_elem_of_fmap. exists nv. by rewrite Ho.
Qed.

(** ** What every accepted command line gives *)

Lemma parse_digits_range base s n m : 0 <= n < 2 ^ 64 ->
  parse_digits base s n = Some m -> 0 <= m < 2 ^ 64.
Proof.
  revert n. induction s as [|c s IH]; intros n Hn; cbn [parse_digits]; [by intros [= <-]|].
  destruct (bool_decide _); [by apply IH|]. destruct (digit_of c) as [d|]; [|done].
  destruct (base <=? d); [done|]. destruct (_ <=? n); [done|]. cbv zeta.
  destruct (_ || _); [done|]. apply IH, Z.mod_pos_bound. lia.
Qed.

Lemma Set_value_typed old s new : Set_value old s = Some new ->
  same_kind old new = true /\ value_ok new = true.
Proof.
  destruct old as [s0|n|b]; simpl; [by intros [= <-]| |].
  - unfold ParseUint. destruct (bool_decide (s = [])); [done|]. destruct (literal_base s) as [base ds].
    destruct (parse_digits base ds 0) as [m|] eqn:E; [|done]. destruct (_ && _); [done|].
    intros [= <-]. apply parse_digits_range in E; [|lia]. split; [done|]. simpl. lia.
  - destruct (ParseBool s); [|done]. by intros [= <-].
Qed.

Lemma same_kind_step d old new : same_kind d old = true -> same_kind old new = true ->
  same_kind d new = true.
Proof. by destruct d, old, new. Qed.

Lemma flags_typed_set fs name old s new :
  flags_typed fs -> flags_complete fs -> fs !! name = Some old -> Set_value old s = Some new ->
  flags_typed (<[name := new]> fs) /\ flags_complete (<[name := new]> fs).
Proof.
  intros Ht Hc Hold [Hk Hok]%Set_value_typed. destruct (Ht _ _ Hold) as (_ & d & Hd & Hdk).
  pose proof (same_kind_step d old new Hdk Hk) as Hnew. split; [|by eapply flags_complete_set].
  intros name' v. destruct (decide (name = name')) as [<-|Hne].
  - rewrite lookup_insert, decide_True by done. intros [= <-]. by eauto.
  - rewrite lookup_insert_ne by done. apply Ht.
Qed.

Lemma parse_args_typed args fs fs' left :
  flags_typed fs -> flags_complete fs -> parse_args args fs = Some (fs', left) ->
  flags_typed fs' /\ flags_complete fs' /\ left `suffix_of` args.
Proof.
  revert args fs. induction args as [args IH] using list_len_ind. intros fs Ht Hc.
  destruct args as [|s args]; cbn [parse_args]; [by intros [= <- <-]|].
  destruct (classify s) as [| |name val|]; try done.
  { by intros [= <- <-]. }
  { intros [= <- <-]. split_and!; [done|done|]. by exists [s]. }
  destruct (fs !! name) as [old|] eqn:Hold; [|done].
  assert (Hgo : forall v args', args' `suffix_of` args ->
    set_flag name old v fs (parse_args args') = Some (fs', left) ->
    flags_typed fs' /\ flags_complete fs' /\ left `suffix_of` s :: args).
  { intros v args' Hsuf. unfold set_flag. destruct (Set_value old v) as [new|] eqn:Hs; [|done].
    destruct (flags_typed_set fs name old v new Ht Hc Hold Hs) as [Ht' Hc']. intros H.
    assert (Hlen : (length args' <= length args)%nat) by by apply suffix_length.
    destruct (IH args' ltac:(simpl; lia) _ Ht' Hc' H) as (H1 & H2 & H3).
    split_and!; [done|done|]. etrans; [done|]. by apply suffix_cons_r. }
  destruct (IsBoolFlag old); [by apply Hgo|]. destruct val as [v|]; [by apply Hgo|].
  destruct args as [|v args']; [done|]. apply Hgo. by apply suffix_cons_r.
Qed.

Lemma uint_var_range fs name : flags_typed fs -> 0 <= uint_var fs name < 2 ^ 64.
Proof.
  intros Ht. unfold uint_var. destruct (fs !! str name) as [[]|] eqn:E; try lia.
  apply Ht in E as [E _]. simpl in E. lia.
Qed.

Lemma ports_range fs : flags_typed fs -> Forall (fun n => 0 <= n < 2 ^ 64) (ports (variables fs)).
Proof. intros Ht. repeat apply Forall_cons_2; try done; by apply uint_var_range. Qed.

Lemma parse_command_line_ports args f : parse_command_line args = Some f ->
  Forall (fun n => 0 <= n < 2 ^ 64) (ports f).
Proof.
  unfold parse_command_line. destruct (parse_args args CommandLine) as [[fs left]|] eqn:E; [|done].
  intros [= <-]. apply ports_range.
  by apply parse_args_typed in E as [? _]; [|apply flags_typed_start|apply flags_complete_start].
Qed.

(** C27: A command line that [main] accepts yields a configuration that
    [NewEnclave] accepts.  Whatever the arguments of the process are: every check
    of [Validate] has been made before, the ports are the numbers that were
    written, none truncated by its conversion to 16 or 32 bits, those of the
    external and internal servers are not 0, and metrics always have a namespace. *)
Theorem accepted_command_line url_Parse (args : list bytes) (f : flags) (c : Config) :
  parse_command_line args = Some f -> mainConfig url_Parse f = Some c ->
  Validate c = None /\
  ExtPubPort c = extPubPort f /\ ExtPrivPort c = extPrivPort f /\ IntPort c = intPort f /\
  HostProxyPort c = hostProxyPort f /\ PrometheusPort c = prometheusPort f /\
  1 <= ExtPrivPort c <= MaxUint16 /\
  (PrometheusPort c <> 0 -> PrometheusNamespace c <> []).
Proof.
  intros Hf%parse_command_line_ports. apply mainConfig_valid. unfold ports in Hf.
  rewrite !Forall_cons in Hf. lia.
Qed.

(** The flags of [sample_flags], the last one first, written in several styles
    after a port that they replace, and before an argument that ends them. *)
Lemma command_line_roundtrip_witness :
  parse_command_line (concat (render <$> (Style false true, (str "intport", VUint 9000)) ::
    ((fun nv => (Style (bool_decide (len nv.1 = 4)) (IsBoolFlag nv.2), nv)) <$>
       reverse (settings_of sample_flags))) ++ [str "foo"; str "-debug"]) = Some sample_flags.
Proof.
  refine (command_line_roundtrip sample_flags (fun name =>
      Style (bool_decide (len name = 4))
        (from_option IsBoolFlag false (CommandLine !! name)))
    [(Style false true, (str "intport", VUint 9000))] (reverse (settings_of sample_flags))
    [str "foo"; str "-debug"] _ _ _ _).
  - repeat constructor; vm_compute; discriminate.
  - apply Forall_cons_2; [|apply Forall_nil_2]. split; [reflexivity|]. exists (VUint 8080).
    split; [apply (bool_decide_unpack _); vm_compute; exact I|reflexivity].
  - apply reverse_Permutation.
  - reflexivity.
Defined.

Lemma accepted_command_line_witness :
  exists f c, parse_command_line [str "-fqdn=a"; str "-intport"; str "0x1F90"] = Some f /\
    mainConfig parse_path f = Some c /\ Validate c = None /\ IntPort c = 8080.
Proof.
  destruct (parse_command_line [str "-fqdn=a"; str "-intport"; str "0x1F90"]) as [f|] eqn:Hf;
    [|vm_compute in Hf; discriminate].
  destruct (mainConfig parse_path f) as [c|] eqn:Hc.
  - exists f, c. destruct (accepted_command_line parse_path _ f c Hf Hc) as (Hv & _ & _ & Hi & _).
    split; [reflexivity|]. split; [exact Hc|]. split; [exact Hv|]. rewrite Hi.
    vm_compute in Hf. injection Hf as <-. reflexivity.
  - exfalso. vm_compute in Hf. injection Hf as <-. vm_compute in Hc. discriminate.
Defined.
