(* ===== verification/Handlers.v ===== *)
(** * Handlers: [handlers.go]

    Every HTTP handler of the enclave except the sync handler, over the parts
    of the enclave that the handlers share.  A call into the worker manager
    blocks while its event loop is not running; a [go] statement is recorded
    and run by the model of the cluster. *)
From Stdlib Require Import ZArith Lia.
From Stdlib Require Import Strings.Byte Strings.String.
From stdpp Require Import base gmap strings list fin_maps.
From S2P Require Import Prelude Codec Sha256 Json System Http Nonce Keys Attestation Attester.
From S2P Require Import SyncWorker Config.

Local Open Scope Z_scope.

Definition maxKeyMaterialLen : Z := 1024 * 1024.

Definition indexPage : bytes := str "This host runs inside an AWS Nitro Enclave." ++ [Byte.x0a].

(** The states of an enclave relating to key synchronization. *)
Inductive sync_state := noSync | inProgress | isLeader | isWorker.

#[export] Instance sync_state_eq_dec : EqDecision sync_state.
Proof. solve_decision. Defined.

(** Calls that handlers make into the worker manager, and goroutines they start. *)
Inductive call :=
  | CallLength                       (* [workers.length()] *)
  | CallRegister (worker : url)      (* [workers.register(worker)] *)
  | GoForAllSync                     (* [go workers.forAll(...)] of [putStateHandler] *)
  | GoSyncAndRegister (worker : url) (* [go syncAndRegister(e.keys, worker)] *).

Record hstate := HState {
  h_sync : sync_state;
  h_keys : enclaveKeys;
  h_hashes : AttestationHashes;
  h_loop : bool;              (* the event loop of the worker manager is running *)
  h_calls : list call;
  h_w : respw
}.

Abbreviation H := (M hstate).

Definition h_respond (f : respw -> respw) : H unit := m_modify (fun s =>
  HState (h_sync s) (h_keys s) (h_hashes s) (h_loop s) (h_calls s) (f (h_w s))).

Definition h_log (c : call) (s : hstate) : hstate :=
  HState (h_sync s) (h_keys s) (h_hashes s) (h_loop s) (h_calls s ++ [c]) (h_w s).

(** An unbuffered send to the event loop. *)
Definition h_call (c : call) : H unit := fun s =>
  if h_loop s then (h_log c s, Done tt) else (s, Blocked).

Definition h_go (c : call) : H unit := m_modify (h_log c).

Definition h_set_keys (f : enclaveKeys -> enclaveKeys) : H unit := m_modify (fun s =>
  HState (h_sync s) (f (h_keys s)) (h_hashes s) (h_loop s) (h_calls s) (h_w s)).

Definition h_set_hashes (f : AttestationHashes -> AttestationHashes) : H unit :=
  m_modify (fun s =>
    HState (h_sync s) (h_keys s) (f (h_hashes s)) (h_loop s) (h_calls s) (h_w s)).

(** ** The handlers *)

(** [url_String]: the text of a URL, [URL.String]. *)
Definition formatIndexPage (url_String : goURL -> bytes) (appURL : option goURL) : bytes :=
  match appURL with
  | None => indexPage
  | Some u =>
      indexPage ++ [Byte.x0a] ++ str "It runs the following code: " ++ url_String u ++ [Byte.x0a] ++
      str "Use the following tool to verify the enclave: " ++
      str "https://github.com/brave-experiments/verify-enclave"
  end.

Definition rootHandler (url_String : goURL -> bytes) (cfg : Config) (r : request) : H unit :=
  h_respond (Fprintln (formatIndexPage url_String (AppURL cfg))).

(** [configHandler]: [Fprintln] calls the configuration's [String] method. *)
Definition configHandler (cfg : Config) (r : request) : H unit :=
  h_respond (Fprintln (Config_String cfg)).

(** [sent]: the count and error that the connection's [Write] returns. *)
Definition getStateHandler (sent : Z * option error) (r : request) : H unit :=
  s ← m_get;
  match h_sync s with
  | noSync => h_respond (http_Error errKeySyncDisabled StatusForbidden)
  | isLeader => h_respond (http_Error errEndpointGone StatusGone)
  | inProgress => h_respond (http_Error errDesignationInProgress StatusServiceUnavailable)
  | isWorker =>
      let appKeys := sbytes (getAppKeys (h_keys s)) in
      _ ← h_respond (fun w => Write (Raw appKeys) (set_ctype "application/octet-stream" w));
      match sent.2 with
      | Some _ => m_exit
      | None => if negb (sent.1 =? len appKeys) then m_exit else mret tt
      end
  end.

Definition putStateHandler (r : request) : H unit :=
  s ← m_get;
  match h_sync s with
  | noSync => h_respond (http_Error errKeySyncDisabled StatusForbidden)
  | isWorker => h_respond (http_Error errEndpointGone StatusGone)
  | inProgress => h_respond (http_Error errDesignationInProgress StatusServiceUnavailable)
  | isLeader =>
      match Reader.ReadAll (Reader.newLimitReader (Body r) maxKeyMaterialLen) with
      | (_, Some _) => h_respond (http_Error errFailedReqBody StatusInternalServerError)
      | (keys, None) =>
          _ ← h_set_keys (setAppKeys (Some keys));
          _ ← h_respond (WriteHeader StatusOK);
          _ ← h_call CallLength;
          h_go GoForAllSync
      end
  end.

(** [hashHandler]: after a read error other than the limit's, the handler goes
    on with the bytes read so far. *)
Definition hashHandler (r : request) : H unit :=
  let maxReadLen := b64_EncodedLen sha256_Size + 1 in
  let '(body, err) := Reader.ReadAll (Reader.newLimitReader (Body r) maxReadLen) in
  if (match err with Some e => errors_Is e errTooMuchToRead | None => false end)
  then h_respond (http_Error errTooMuchToRead StatusBadRequest)
  else
    _ ← (match err with
         | Some _ => h_respond (http_Error errFailedReqBody StatusInternalServerError)
         | None => mret tt
         end);
    match b64_Decode (TrimSpace body) with
    | Err _ => h_respond (http_Error errNoBase64 StatusBadRequest)
    | Ok keyHash =>
        if negb (len keyHash =? sha256_Size)
        then h_respond (http_Error errHashWrongSize StatusBadRequest)
        else h_set_hashes (fun a => Hashes (tlsKeyHash a) (copy_array 32 keyHash))
    end.

Definition attestationHandler (useProfiling : bool) (a : attester) (r : request) : H unit :=
  s ← m_get;
  if useProfiling then h_respond (http_Error errProfilingSet StatusServiceUnavailable)
  else match getNonceFromReq r with
  | Err e => h_respond (http_Error e StatusBadRequest)
  | Ok n =>
      match createAttstn a (AuxClient (ClientAux n (Some (Serialize (h_hashes s))))) with
      | Err _ => h_respond (http_Error errFailedAttestation StatusInternalServerError)
      | Ok rawDoc => h_respond (Fprintln (b64_Encode rawDoc))
      end
  end.

Definition heartbeatHandler (cfg : Config) (r : request) : H unit :=
  match Reader.ReadAll (Reader.newLimitReader (Body r) maxHeartbeatBody) with
  | (_, Some _) => h_respond (http_Error errFailedReqBody StatusInternalServerError)
  | (body, None) =>
      match heartbeat_Unmarshal body with
      | (_, Some e) => h_respond (http_Error e StatusBadRequest)
      | (hb, None) =>
          match getWorker cfg hb with
          | Err e => h_respond (http_Error e StatusInternalServerError)
          | Ok worker =>
              s ← m_get;
              _ ← (if negb (bool_decide (hashAndB64 (h_keys s) = HashedKeys hb))
                   then h_go (GoSyncAndRegister worker)
                   else h_call (CallRegister worker));
              h_respond (WriteHeader StatusOK)
          end
      end
  end.

(** [readyHandler]: the [sync.Once] and the channel, which is closed once. *)
Record ready_state := ReadyState { once_done : bool; ready_closed : bool }.

Definition close_ready (s : ready_state) : ready_state * outcome unit :=
  if ready_closed s then (ReadyState true true, Panic)   (* close of a closed channel *)
  else (ReadyState true true, Done tt).

Definition readyHandler (r : request) : M (ready_state * respw) unit := fun '(s, w) =>
  if once_done s then ((s, WriteHeader StatusGone w), Done tt)
  else match close_ready s with
       | (s', Done _) => ((s', WriteHeader StatusGone (WriteHeader StatusOK w)), Done tt)
       | (s', o) => ((s', w), o)
       end.

(** [getLeaderHandler]: the channel [weAreLeader] has room for one signal. *)
Definition getLeaderHandler (ourNonce : nonce) (r : request) : M (bool * respw) unit :=
  fun '(signalled, w) =>
    match getNonceFromReq r with
    | Err e => ((signalled, http_Error e StatusBadRequest w), Done tt)
    | Ok theirNonce =>
        ((signalled || bool_decide (ourNonce = theirNonce), WriteHeader StatusOK w), Done tt)
    end.

(** Serve requests one after another, each with a fresh response; the status
    codes that the clients see. *)
Fixpoint serve_all {S} (h : request -> M (S * respw) unit) (rs : list request) (s : S)
    : S * list (outcome Z) :=
  match rs with
  | [] => (s, [])
  | r :: rs =>
      let '((s', w), o) := h r (s, new_respw) in
      let '(s'', codes) := serve_all h rs s' in
      (s'', (match o with
             | Done _ => Done (status w)
             | Exit => Exit | Panic => Panic | Blocked => Blocked
             end) :: codes)
  end.

(** ** Application state *)

(** A handler run on an enclave, and the status of its response. *)
Definition serve (h : H unit) (s : hstate) : hstate * outcome unit :=
  h (HState (h_sync s) (h_keys s) (h_hashes s) (h_loop s) (h_calls s) new_respw).

(** A PUT that a leader accepts. *)
Lemma serve_putState_leader r data s :
  Reader.clean (Body r) data -> len data <= maxKeyMaterialLen ->
  h_sync s = isLeader -> h_loop s = true ->
  serve (putStateHandler r) s =
  (HState isLeader (setAppKeys (Some data) (h_keys s)) (h_hashes s) true
     (h_calls s ++ [CallLength; GoForAllSync]) (WriteHeader StatusOK new_respw), Done tt).
Proof.
  intros Hc Hd Hst Hl. unfold serve, putStateHandler. unfold_M.
  destruct s as [st keys hashes loop calls w]; simpl in *; subst.
  rewrite Reader.ReadAll_limited by done. rewrite (Reader.read_limited_clean _ _ data) by done.
  rewrite (proj2 (Z.leb_le _ _) Hd).
  unfold h_set_keys, h_respond, h_call, h_go, h_log, m_modify. cbn -[WriteHeader].
  by rewrite <- app_assoc.
Qed.

(** C29: Only the leader's application can change the application keys.  A PUT of
    at most 1 MiB to a leader stores exactly its body, answers 200 and starts
    the synchronization of all workers; a longer one is refused with 500 and
    changes nothing; anybody else is refused with 403, 410 or 503 according to
    the state and changes nothing. *)
Theorem putState_spec (r : request) (data : bytes) (s : hstate) :
  Reader.clean (Body r) data -> h_loop s = true ->
  let accepted := bool_decide (h_sync s = isLeader) && (len data <=? maxKeyMaterialLen) in
  exists s', serve (putStateHandler r) s = (s', Done tt) /\
    status (h_w s') =
      match h_sync s with
      | noSync => StatusForbidden
      | isWorker => StatusGone
      | inProgress => StatusServiceUnavailable
      | isLeader => if accepted then StatusOK else StatusInternalServerError
      end /\
    h_keys s' = (if accepted then setAppKeys (Some data) (h_keys s) else h_keys s) /\
    h_calls s' = h_calls s ++ (if accepted then [CallLength; GoForAllSync] else []) /\
    h_hashes s' = h_hashes s /\ h_sync s' = h_sync s.
Proof.
  intros Hc Hl. unfold serve, putStateHandler. unfold_M.
  destruct s as [st keys hashes loop calls w]; simpl in *; subst loop.
  destruct st; simpl; try by eexists; rewrite app_nil_r.
  rewrite Reader.ReadAll_limited by done. rewrite (Reader.read_limited_clean _ _ data) by done.
  destruct (Z.leb_spec (len data) maxKeyMaterialLen).
  - eexists. split_and!; [reflexivity|done|done| |done|done]. simpl. by rewrite <- app_assoc.
  - eexists. by rewrite app_nil_r.
Qed.

(** A worker's application reads back exactly the application keys that the
    leader sent: the GET is answered with 200 and the bytes of the keys, unless
    the connection breaks, which ends the process; in every other state it is
    refused, and no state is changed. *)
Theorem getState_spec (sent : Z * option error) (r : request) (s : hstate) :
  exists w o, serve (getStateHandler sent r) s =
      (HState (h_sync s) (h_keys s) (h_hashes s) (h_loop s) (h_calls s) w, o) /\
    status w =
      match h_sync s with
      | noSync => StatusForbidden
      | isLeader => StatusGone
      | inProgress => StatusServiceUnavailable
      | isWorker => StatusOK
      end /\
    (h_sync s = isWorker -> wbody w = [Raw (sbytes (AppKeys (h_keys s)))]) /\
    (o = Done tt <-> (h_sync s = isWorker -> sent = (len (sbytes (AppKeys (h_keys s))), None))) /\
    (o <> Done tt -> o = Exit).
Proof.
  unfold serve, getStateHandler. unfold_M. destruct s as [st keys hashes loop calls w].
  destruct st; simpl; try by do 2 eexists; split; [reflexivity|]; naive_solver.
  destruct sent as [n [e|]]; simpl; [by do 2 eexists; split; [reflexivity|]; naive_solver|].
  destruct (Z.eqb_spec n (len (sbytes (getAppKeys keys)))) as [->|Hn]; simpl;
    do 2 eexists; (split; [reflexivity|]); naive_solver.
Qed.

Lemma putState_spec_witness :
  exists s', serve (putStateHandler (Request PUT (RUrl example_request) (Sample.deliver (str "key"))))
    (HState isLeader no_keys zero_hashes true [] new_respw) = (s', Done tt) /\
    AppKeys (h_keys s') = Some (str "key").
Proof.
  edestruct (putState_spec (Request PUT (RUrl example_request) (Sample.deliver (str "key")))
    (str "key") (HState isLeader no_keys zero_hashes true [] new_respw)) as (s' & Hs & _ & Hk & _);
    [by apply Sample.clean_deliver|reflexivity|].
  exists s'. split; [exact Hs|]. rewrite Hk. reflexivity.
Defined.

(** ** Application hashes and attestation *)

Definition hash_limit : Z := b64_EncodedLen sha256_Size + 1.

(** The hash that a body registers, or the error that it is refused with. *)
Definition parse_hash (data : bytes) : result bytes :=
  if hash_limit <? len data then Err errTooMuchToRead
  else match b64_Decode (TrimSpace data) with
       | Err _ => Err errNoBase64
       | Ok h => if len h =? sha256_Size then Ok h else Err errHashWrongSize
       end.

Lemma copy_array_sha h : len h = sha256_Size -> copy_array 32 h = h.
Proof. intros Hl. assert (length h = 32%nat) as <- by (unfold len, sha256_Size in *; lia).
  apply copy_array_id. Qed.

Lemma parse_hash_encoded h nl :
  len h = sha256_Size -> nl = [] \/ nl = [Byte.x0a] -> parse_hash (b64_Encode h ++ nl) = Ok h.
Proof.
  intros Hl Hnl. unfold parse_hash. rewrite len_app, len_b64_Encode, Hl.
  assert (Hn : len nl <= 1) by (by destruct Hnl as [-> | ->]).
  rewrite (proj2 (Z.ltb_ge _ _)) by (unfold hash_limit; lia).
  assert (Ht : TrimSpace (b64_Encode h ++ nl) = b64_Encode h).
  { destruct Hnl as [-> | ->].
    - rewrite app_nil_r. apply TrimSpace_id, b64_Encode_not_space.
    - apply TrimSpace_newline; [apply b64_Encode_not_space|].
      apply b64_Encode_nonempty. by intros ->. }
  rewrite Ht, b64_Decode_Encode, Hl. done.
Qed.

(** The handler computes [parse_hash] when the body arrives without error. *)
Lemma hashHandler_clean r data s :
  Reader.clean (Body r) data ->
  serve (hashHandler r) s =
  (match parse_hash data with
   | Ok h => HState (h_sync s) (h_keys s) (Hashes (tlsKeyHash (h_hashes s)) h) (h_loop s)
               (h_calls s) new_respw
   | Err e => HState (h_sync s) (h_keys s) (h_hashes s) (h_loop s) (h_calls s)
                (http_Error e StatusBadRequest new_respw)
   end, Done tt).
Proof.
  intros Hc. unfold serve, hashHandler, parse_hash.
  rewrite Reader.ReadAll_limited by done. fold hash_limit.
  rewrite (Reader.read_limited_clean _ _ data) by done.
  destruct (Z.leb_spec (len data) hash_limit), (Z.ltb_spec hash_limit (len data)); try lia; [|done].
  unfold_M. simpl. destruct (b64_Decode (TrimSpace data)) as [h|]; [|done].
  destruct (Z.eqb_spec (len h) sha256_Size); simpl; [|done]. by rewrite copy_array_sha.
Qed.

(** C30: A hash is registered exactly when the body, at most 45 bytes and up to
    surrounding white space, is the Base64 form of 32 bytes; then the answer is
    200 and that hash replaces the old one, and otherwise the answer is 400 and
    nothing changes.  Registering never touches the TLS key hash. *)
Theorem hashHandler_spec (r : request) (data : bytes) (s : hstate) :
  Reader.clean (Body r) data ->
  exists s', serve (hashHandler r) s = (s', Done tt) /\
    (status (h_w s') = StatusOK \/ status (h_w s') = StatusBadRequest) /\
    (status (h_w s') = StatusOK <-> exists h, len data <= 45 /\ len h = 32 /\
       b64_Decode (TrimSpace data) = Ok h /\ h_hashes s' = Hashes (tlsKeyHash (h_hashes s)) h) /\
    (status (h_w s') = StatusBadRequest -> h_hashes s' = h_hashes s) /\
    h_keys s' = h_keys s /\ h_calls s' = h_calls s.
Proof.
  intros Hc. eexists. split; [by apply hashHandler_clean|]. unfold parse_hash.
  change hash_limit with 45. destruct (Z.ltb_spec 45 (len data)); simpl.
  { split_and!; [by right|split; [done|intros (h & ? & _); lia]|done..]. }
  destruct (b64_Decode (TrimSpace data)) as [h|]; simpl;
    [|split_and!; [by right|split; [done|naive_solver]|done..]].
  destruct (Z.eqb_spec (len h) sha256_Size) as [Hh|Hh]; simpl.
  - split_and!; [by left|split; [intros _; by exists h|done]|done..].
  - split_and!; [by right|split; [done|]|done..]. by intros (h' & _ & Hl & [= <-] & _).
Qed.

Lemma hashHandler_spec_witness :
  exists s', serve (hashHandler (Request POST (RUrl example_request)
      (Sample.deliver (b64_Encode (replicate 32 Byte.x07) ++ [Byte.x0a]))))
    (HState noSync no_keys zero_hashes false [] new_respw) = (s', Done tt).
Proof.
  edestruct (hashHandler_spec (Request POST (RUrl example_request)
      (Sample.deliver (b64_Encode (replicate 32 Byte.x07) ++ [Byte.x0a]))))
    as (s' & Hs & _); [by apply Sample.clean_deliver|]. exists s'. exact Hs.
Defined.

(** A failed upload can still register a hash.  If reading the body fails
    after a complete hash has arrived, the client is told 500, but the hash has
    been replaced and is attested from then on. *)
Theorem hash_stored_despite_read_error (r : request) (h : bytes) (what : string) (s : hstate) :
  len h = sha256_Size -> Body r = [(b64_Encode h, Some (ErrLib what))] ->
  exists s', serve (hashHandler r) s = (s', Done tt) /\
    status (h_w s') = StatusInternalServerError /\ appKeyHash (h_hashes s') = h.
Proof.
  intros Hl Hb. unfold serve, hashHandler. rewrite Hb, Reader.ReadAll_limited by done.
  fold hash_limit. cbn [Reader.read_limited]. rewrite len_b64_Encode, Hl.
  change (hash_limit =? 0) with false. change (hash_limit <? b64_EncodedLen sha256_Size) with false.
  cbn -[b64_Decode TrimSpace copy_array]. unfold_M. simpl.
  rewrite TrimSpace_id by apply b64_Encode_not_space.
  rewrite b64_Decode_Encode, Hl. eexists. split; [reflexivity|]. simpl.
  by rewrite copy_array_sha.
Qed.

Lemma hash_stored_despite_read_error_witness :
  exists s', serve (hashHandler (Request POST (RUrl example_request)
      [(b64_Encode (replicate 32 Byte.x07), Some (ErrLib "connection reset"))]))
    (HState noSync no_keys zero_hashes false [] new_respw) = (s', Done tt) /\
    appKeyHash (h_hashes s') = replicate 32 Byte.x07.
Proof.
  edestruct (hash_stored_despite_read_error (Request POST (RUrl example_request)
      [(b64_Encode (replicate 32 Byte.x07), Some (ErrLib "connection reset"))])
      (replicate 32 Byte.x07)) as (s' & Hs & _ & Hh); [reflexivity..|].
  exists s'. split; [exact Hs|exact Hh].
Defined.

(** C14: The hash that the application registers is bound to the client's nonce in
    the next attestation document.  After a POST of a Base64-encoded hash, with
    or without a newline, a GET with a nonce is answered with a Base64-encoded
    document that the verifier accepts and that carries this nonce and, behind
    the multihash prefix at offset 36 of the user data, this hash. *)
Theorem registered_hash_is_attested hv Verify now p (h nl : bytes) (n : nonce)
    (post get : request) (s : hstate) :
  Nitro.Issues hv Verify now p -> hashes_ok (h_hashes s) -> len h = sha256_Size ->
  nl = [] \/ nl = [Byte.x0a] -> Reader.clean (Body post) (b64_Encode h ++ nl) ->
  nonce_ok n -> RawQuery (RUrl get) = nonce_query n ->
  let s1 := (serve (hashHandler post) s).1 in
  exists s2 doc d ud,
    serve (attestationHandler false (Nitro.nitroAttester hv Verify now) get) s1 = (s2, Done tt) /\
    status (h_w s2) = StatusOK /\ wbody (h_w s2) = [Raw (b64_Encode doc ++ [Byte.x0a])] /\
    Verify doc (Some now) = Ok d /\ Nitro.PCRs d = p /\ Nitro.DNonce d = Some n /\
    Nitro.UserData d = Some ud /\ take 32 (drop 2 ud) = tlsKeyHash (h_hashes s) /\
    drop 36 ud = h.
Proof.
  intros Hi Hok Hl Hnl Hc Hn Hq s1.
  assert (E : h_hashes s1 = Hashes (tlsKeyHash (h_hashes s)) h).
  { unfold s1. rewrite (hashHandler_clean post _ s Hc), parse_hash_encoded by done. done. }
  destruct (Nitro.createAttstn_issues Verify now hv p
    (AuxClient (ClientAux n (Some (Serialize (h_hashes s1))))) _ _ _ eq_refl) as (doc & Hd & Hv & _).
  { apply Nitro.nonce_request_fits; [done| |done]. rewrite E, len_Serialize; [done|].
    by destruct Hok. }
  exists (HState (h_sync s1) (h_keys s1) (h_hashes s1) (h_loop s1) (h_calls s1)
    (Fprintln (b64_Encode doc) new_respw)), doc. do 2 eexists.
  split_and!; [|done|done|exact Hv|done..| |].
  - unfold serve, attestationHandler. unfold_M. cbn [h_hashes].
    rewrite (getNonceFromReq_query get n) by done. cbn [createAttstn Nitro.nitroAttester].
    by rewrite Hd.
  - rewrite E, Serialize_app. cbn [tlsKeyHash appKeyHash].
    rewrite drop_app_length' by done. rewrite take_app_length'; [done|].
    destruct Hok as [Ht _]. unfold len, sha256_Size in Ht. lia.
  - rewrite E, Serialize_app. destruct Hok as [Ht _]. unfold len, sha256_Size in Ht.
    cbn [tlsKeyHash appKeyHash]. rewrite (app_assoc hashPrefix), drop_app_ge.
    + rewrite length_app. change (length hashPrefix) with 2%nat.
      replace (36 - (2 + length (tlsKeyHash (h_hashes s))))%nat with 2%nat by lia. done.
    + rewrite length_app. change (length hashPrefix) with 2%nat. lia.
Qed.

Lemma registered_hash_is_attested_witness :
  exists s2, serve (attestationHandler false
      (Nitro.nitroAttester (Nitro.sample_hv (str "a")) Nitro.sample_Verify 0) example_request)
    (HState noSync no_keys (Hashes (replicate 32 Byte.x00) (replicate 32 Byte.x07)) false []
       new_respw) = (s2, Done tt) /\ status (h_w s2) = StatusOK.
Proof.
  destruct (registered_hash_is_attested (Nitro.sample_hv (str "a")) Nitro.sample_Verify 0 _
    (replicate 32 Byte.x07) [Byte.x0a] (str "abcdefghijklmnopqrst")
    (Request POST (RUrl example_request)
      (Sample.deliver (b64_Encode (replicate 32 Byte.x07) ++ [Byte.x0a])))
    (Request GET (URL [] [] [] (nonce_query (str "abcdefghijklmnopqrst"))) [])
    (HState noSync no_keys zero_hashes false [] new_respw) (Nitro.sample_issues _ _))
    as (s2 & doc & d & ud & Hs & Hst & _);
    [by split|reflexivity|by right|by apply Sample.clean_deliver|reflexivity|reflexivity|].
  exists s2. split; [|exact Hst]. rewrite <- Hs. vm_compute. reflexivity.
Defined.

(** C31: No attestation document leaves an enclave that is being profiled or that
    did not get a well-formed nonce.  With profiling the answer is 503, without
    a usable nonce it is 400, and if the hypervisor fails it is 500; only in the
    remaining case the body is a document, and no state is ever changed. *)
Theorem attestationHandler_spec (useProfiling : bool) (a : attester) (r : request) (s : hstate) :
  exists w, serve (attestationHandler useProfiling a r) s =
      (HState (h_sync s) (h_keys s) (h_hashes s) (h_loop s) (h_calls s) w, Done tt) /\
    match useProfiling, getNonceFromReq r with
    | true, _ => status w = StatusServiceUnavailable /\ wbody w = [ErrText errProfilingSet]
    | false, Err e => status w = StatusBadRequest /\ wbody w = [ErrText e]
    | false, Ok n =>
        match createAttstn a (AuxClient (ClientAux n (Some (Serialize (h_hashes s))))) with
        | Err _ => status w = StatusInternalServerError /\ wbody w = [ErrText errFailedAttestation]
        | Ok doc => status w = StatusOK /\ wbody w = [Raw (b64_Encode doc ++ [Byte.x0a])]
        end
    end.
Proof.
  unfold serve, attestationHandler. unfold_M. cbn [h_hashes].
  destruct useProfiling; [by eexists|]. destruct (getNonceFromReq r) as [n|e]; [|by eexists].
  destruct (createAttstn _ _); by eexists.
Qed.

(** ** Readiness and leader designation *)

(** The application can signal readiness exactly once: the first request is
    answered with 200 and closes the channel that the public Web server waits
    for, every later one with 410, and the channel is never closed twice (which
    would panic). *)
Theorem readyHandler_once (r : request) (rs : list request) :
  serve_all readyHandler (r :: rs) (ReadyState false false) =
  (ReadyState true true, Done StatusOK :: replicate (length rs) (Done StatusGone)).
Proof.
  assert (Hrest : forall rs, serve_all readyHandler rs (ReadyState true true) =
    (ReadyState true true, replicate (length rs) (Done StatusGone))).
  { induction rs0 as [|r' rs' IH]; [done|]. simpl. by rewrite IH. }
  simpl. by rewrite Hrest.
Qed.

(** An enclave learns that it is the leader only from a request that carries
    the nonce it drew itself, and then it does: after any sequence of requests
    to the designation endpoint the signal is set if and only if one of them
    carried our nonce.  Every request with a well-formed nonce is answered with
    200, every other with 400, so strangers learn nothing. *)
Theorem getLeader_signals_own_nonce (ourNonce : nonce) (rs : list request) :
  let '(signalled, codes) := serve_all (getLeaderHandler ourNonce) rs false in
  (signalled = true <-> exists r, r ∈ rs /\ getNonceFromReq r = Ok ourNonce) /\
  codes = (fun r => Done (if is_ok (getNonceFromReq r) then StatusOK else StatusBadRequest)) <$> rs.
Proof.
  assert (Hgen : forall b, let '(signalled, codes) := serve_all (getLeaderHandler ourNonce) rs b in
    (signalled = true <-> b = true \/ Exists (fun r => getNonceFromReq r = Ok ourNonce) rs) /\
    codes = (fun r => Done (if is_ok (getNonceFromReq r) then StatusOK else StatusBadRequest)) <$> rs).
  { induction rs as [|r rs IH]; intros b; simpl; [rewrite Exists_nil; tauto|].
    unfold getLeaderHandler at 1.
    destruct (getNonceFromReq r) as [n|e] eqn:En.
    - specialize (IH (b || bool_decide (ourNonce = n))). destruct (serve_all _ rs _) as [sg codes].
      destruct IH as [IH ->]. split; [|done]. rewrite IH, orb_true_iff, bool_decide_eq_true, Exists_cons, En.
      assert (Ok n = Ok ourNonce <-> ourNonce = n) by (split; congruence). tauto.
    - specialize (IH b). destruct (serve_all _ rs _) as [sg codes]. destruct IH as [IH ->].
      split; [|done]. rewrite Exists_cons, En. assert (Err e <> Ok ourNonce) by done. tauto. }
  specialize (Hgen false). destruct (serve_all _ rs false). destruct Hgen as [Hg ->].
  split; [|done]. rewrite Hg, Exists_exists. split; [|tauto]. by intros [?|?].
Qed.

(** ** Heartbeats *)

(** The leader's run on a message of a worker with digest [h]. *)
Lemma serve_heartbeat cfg host h r s :
  let worker := getSyncURL host (ExtPrivPort cfg) in
  host_ok host = true -> len host <= 255 -> 0 <= ExtPrivPort cfg <= MaxUint16 ->
  forallb plain h = true -> len h <= 44 ->
  Reader.clean (Body r) (heartbeat_Marshal (HeartbeatRequest h (Host worker))) ->
  h_loop s = true ->
  serve (heartbeatHandler cfg r) s =
  (HState (h_sync s) (h_keys s) (h_hashes s) true
     (h_calls s ++ [if bool_decide (hashAndB64 (h_keys s) = h)
                    then CallRegister worker else GoSyncAndRegister worker])
     (WriteHeader StatusOK new_respw), Done tt).
Proof.
  intros worker Hh Hlen Hport Hpl Hhl Hc Hl. unfold serve, heartbeatHandler.
  rewrite Reader.ReadAll_limited by done.
  rewrite (Reader.read_limited_clean _ _ _ Hc) by done.
  change (Host worker) with (host_port host (ExtPrivPort cfg)).
  pose proof (len_heartbeat_Marshal h host (ExtPrivPort cfg) Hh ltac:(lia) Hpl) as Hm.
  rewrite (proj2 (Z.leb_le _ _)) by (unfold maxHeartbeatBody; lia).
  rewrite heartbeat_Unmarshal_Marshal by (lia || done).
  unfold getWorker. cbn [WorkerHostname HashedKeys].
  rewrite SplitHostPort_host_port by (lia || done). unfold_M. cbn [h_keys]. fold worker.
  destruct s as [st keys hashes loop calls w]; simpl in *; subst loop.
  case_bool_decide; simpl; done.
Qed.

(** C32: A worker's messages reach the leader as they were meant.  For a worker
    with a host name of up to 255 characters, what [workerHeartbeat] and
    [registerWith] send fits the limit and parses; the leader answers 200 and
    knows the worker by the very URL at which the worker serves key
    synchronization (both run on the same port).  On a heartbeat it registers
    the worker at once if the digests of the keys agree and starts a
    synchronization otherwise; on a registration it always synchronizes. *)
Theorem heartbeat_accepted (cfg : Config) (host : bytes) (workerKeys : enclaveKeys)
    (hb reg : request) (s : hstate) :
  let worker := getSyncURL host (ExtPrivPort cfg) in
  host_ok host = true -> len host <= 255 -> 0 <= ExtPrivPort cfg <= MaxUint16 ->
  Reader.clean (Body hb) (heartbeat_body workerKeys worker) ->
  Reader.clean (Body reg) (register_body worker) -> h_loop s = true ->
  (exists s', serve (heartbeatHandler cfg hb) s = (s', Done tt) /\
    status (h_w s') = StatusOK /\ h_keys s' = h_keys s /\
    h_calls s' = h_calls s ++
      [if bool_decide (hashAndB64 (h_keys s) = hashAndB64 workerKeys)
       then CallRegister worker else GoSyncAndRegister worker]) /\
  (exists s', serve (heartbeatHandler cfg reg) s = (s', Done tt) /\
    status (h_w s') = StatusOK /\ h_keys s' = h_keys s /\
    h_calls s' = h_calls s ++ [GoSyncAndRegister worker]).
Proof.
  intros worker Hh Hlen Hport Hc Hr Hl. split; eexists.
  - rewrite (serve_heartbeat _ host (hashAndB64 workerKeys));
      [done|done..|apply hashAndB64_plain|by rewrite len_hashAndB64|done|done].
  - rewrite (serve_heartbeat _ host []) by done.
    rewrite bool_decide_eq_false_2 by apply hashAndB64_nonempty. done.
Qed.

Definition sample_config : Config :=
  match mainConfig parse_path sample_flags with
  | Some c => c
  | None => MkConfig [] [] 0 0 0 false false 0 0 [] false false false 0 0 None None false []
  end.

Lemma heartbeat_accepted_witness :
  exists s', serve (heartbeatHandler sample_config (Request POST (RUrl example_request)
      (Sample.deliver (heartbeat_body no_keys (getSyncURL (str "10.0.0.7") 444)))))
    (HState isLeader no_keys zero_hashes true [] new_respw) = (s', Done tt) /\
    h_calls s' = [CallRegister (getSyncURL (str "10.0.0.7") 444)].
Proof.
  destruct (heartbeat_accepted sample_config (str "10.0.0.7") no_keys
    (Request POST (RUrl example_request)
      (Sample.deliver (heartbeat_body no_keys (getSyncURL (str "10.0.0.7") 444))))
    (Request POST (RUrl example_request)
      (Sample.deliver (register_body (getSyncURL (str "10.0.0.7") 444))))
    (HState isLeader no_keys zero_hashes true [] new_respw)) as [(s' & Hs & _ & _ & Hcalls) _];
    [vm_compute; reflexivity|vm_compute; discriminate|vm_compute; split; discriminate
    |apply Sample.clean_deliver; vm_compute; discriminate
    |apply Sample.clean_deliver; vm_compute; discriminate|reflexivity|].
  exists s'. split; [exact Hs|]. rewrite Hcalls. vm_compute. reflexivity.
Defined.

(** What the leader does with any other heartbeat: it is refused, with 500 or
    400, and neither registers a worker nor starts a synchronization. *)
Lemma heartbeat_refused cfg r s body err :
  Reader.ReadAll (Reader.newLimitReader (Body r) maxHeartbeatBody) = (body, err) ->
  (err <> None \/ (heartbeat_Unmarshal body).2 <> None \/
   exists e, SplitHostPort (WorkerHostname (heartbeat_Unmarshal body).1) = Err e) ->
  exists s', serve (heartbeatHandler cfg r) s = (s', Done tt) /\
    status (h_w s') <> StatusOK /\ h_calls s' = h_calls s /\ h_keys s' = h_keys s.
Proof.
  intros Hr Hbad. unfold serve, heartbeatHandler. rewrite Hr.
  destruct err as [e|]; [by eexists|].
  destruct (heartbeat_Unmarshal body) as [hb [e|]]; [by eexists|].
  destruct Hbad as [|[|[e Hs]]]; [done..|]. unfold getWorker. simpl in Hs. rewrite Hs. by eexists.
Qed.

(** ** The configuration endpoint *)

(** C28: The configuration page is a faithful, machine-readable rendering of the
    whole configuration.  It is answered with 200 and changes nothing; its text
    is indented JSON that parses back to one object with a member per field, in
    the order of the struct, whatever quotes, control characters or non-ASCII
    UTF-8 text the strings contain; and another configuration has the same page
    exactly if it differs at most in the user names and passwords of its two
    URLs, which the page does not show. *)
Theorem config_page_roundtrip (cfg : Config) (r : request) (s : hstate) :
  config_ok cfg ->
  exists page,
    serve (configHandler cfg r) s =
      (HState (h_sync s) (h_keys s) (h_hashes s) (h_loop s) (h_calls s)
         (Write (Raw page) new_respw), Done tt) /\
    json_Parse page = Some (config_json cfg) /\
    (forall cfg', config_ok cfg' ->
       Config_String cfg' ++ [Byte.x0a] = page <-> redact cfg' = redact cfg).
Proof.
  intros Hc. exists (Config_String cfg ++ [Byte.x0a]). split_and!.
  - done.
  - by apply Config_String_parses.
  - intros cfg' Hc'. split; intros E.
    + apply config_json_inj; [done..|].
      pose proof (Config_String_parses cfg' Hc') as H'. rewrite E, Config_String_parses in H' by done.
      symmetry. by apply (inj Some).
    + unfold Config_String. rewrite <- (config_json_redact cfg'), E. by rewrite config_json_redact.
Qed.

(** A configuration whose strings need escaping. *)
Definition odd_config : Config :=
  MkConfig (str "example.com") [Byte.x22; Byte.x0a; Byte.xc3; Byte.xa9] 443 444 8080 true false 1024 0
    [] false true false 0 18446744073709551615
    (Some (GoURL (str "https") [] (Some (Userinfo (str "alice") (str "pw") true)) (str "github.com") (str "/foo") [] false false (str "a=1&b=<2>")
       [] [])) None true (str "ab").

Lemma config_page_roundtrip_witness :
  json_Parse (Config_String odd_config ++ [Byte.x0a]) = Some (config_json odd_config) /\
  Config_String (redact odd_config) = Config_String odd_config.
Proof.
  assert (Hok : config_ok odd_config) by (vm_compute; repeat split; discriminate).
  destruct (config_page_roundtrip odd_config example_request
    (HState noSync no_keys zero_hashes false [] new_respw) Hok) as (page & E & Hp & Hr).
  assert (Ep : Config_String odd_config ++ [Byte.x0a] = page) by (injection E; trivial).
  split; [rewrite Ep; exact Hp|].
  assert (Hok' : config_ok (redact odd_config)) by (vm_compute; repeat split; discriminate).
  destruct (Hr (redact odd_config) Hok') as [_ H]. specialize (H eq_refl).
  rewrite <- Ep in H. exact (app_inv_tail _ _ _ H).
Defined.
