(* ===== verification/Network.v ===== *)
(** * Network: the interfaces of the enclave

    The network constants of [system.go], [system_linux.go]'s configuration of the
    loopback and TAP interfaces and of DNS, [linkUp] of [proxy.go], and the stubs
    of [system_darwin.go].  The answers of the [tenus] and [netlink] packages
    and of the file system are arguments. *)
From Stdlib Require Import ZArith Lia.
From Stdlib Require Import Strings.Byte Strings.String.
From stdpp Require Import base gmap strings list fin_maps.
From S2P Require Import Prelude Codec Text.

Local Open Scope Z_scope.

Definition defaultGw : bytes := str "192.168.127.1".
Definition addrLo : bytes := str "127.0.0.1/8".
Definition addrTap : bytes := str "192.168.127.2/24".
Definition mac : bytes := str "ba:aa:ad:c0:ff:ee".
Definition ifaceTap : bytes := str "tap0".

(** ** IPv4 addresses in text form *)

(** An octet: one to three digits, no leading zero, at most 255. *)
Definition parse_octet (s : bytes) : option Z :=
  if forallb is_digit s && (1 <=? len s) && (len s <=? 3) &&
     negb (bool_decide (head s = Some "0"%byte) && (1 <? len s)) && (dec_Value s <=? 255)
  then Some (dec_Value s) else None.

(** [net.ParseIP] on the dotted form: the address as a 32-bit number. *)
Definition ParseIP (s : bytes) : option Z :=
  match Split "."%byte s with
  | [a; b; c; d] =>
      match parse_octet a, parse_octet b, parse_octet c, parse_octet d with
      | Some a, Some b, Some c, Some d => Some (((a * 256 + b) * 256 + c) * 256 + d)
      | _, _, _, _ => None
      end
  | _ => None
  end.

(** [net.CIDRMask(n, 32)]. *)
Definition CIDRMask (n : Z) : Z := 2 ^ 32 - 2 ^ (32 - n).

Record IPNet := MkIPNet { n_IP : Z; n_Mask : Z }.

(** [net.ParseCIDR]: the address and the network it is in. *)
Definition ParseCIDR (s : bytes) : result (Z * IPNet) :=
  match Cut (str "/") s with
  | None => Err (ErrLib "net.ParseError: CIDR address")
  | Some (addr, m) =>
      match ParseIP addr with
      | Some ip =>
          if forallb is_digit m && (1 <=? len m) && (dec_Value m <=? 32)
          then Ok (ip, MkIPNet (Z.land ip (CIDRMask (dec_Value m))) (CIDRMask (dec_Value m)))
          else Err (ErrLib "net.ParseError: CIDR address")
      | None => Err (ErrLib "net.ParseError: CIDR address")
      end
  end.

(** [IPNet.Contains]. *)
Definition Contains (n : IPNet) (ip : Z) : bool := Z.land ip (n_Mask n) =? n_IP n.

(** ** Interfaces *)

Record iface := Iface {
  i_addr : option (Z * IPNet);
  i_mtu : option Z;
  i_mac : option bytes;
  i_up : bool;
  i_gw : option Z
}.

Definition fresh_iface : iface := Iface None None None false None.

Definition set_ip a i := Iface (Some a) (i_mtu i) (i_mac i) (i_up i) (i_gw i).
Definition set_mtu m i := Iface (i_addr i) (Some m) (i_mac i) (i_up i) (i_gw i).
Definition set_mac m i := Iface (i_addr i) (i_mtu i) (Some m) (i_up i) (i_gw i).
Definition set_link_up i := Iface (i_addr i) (i_mtu i) (i_mac i) true (i_gw i).
Definition set_gw g i := Iface (i_addr i) (i_mtu i) (i_mac i) (i_up i) (Some g).

(** A call that fails with the given answer or makes a change, and the rest. *)
Definition link_call (answer : option error) (wrap : error -> error) (change : iface -> iface)
    (k : M iface (option error)) : M iface (option error) := fun i =>
  match answer with
  | Some e => (i, Done (Some (wrap e)))
  | None => k (change i)
  end.

Record lo_answers := LoAnswers {
  lo_link : option error; lo_ip : option error; lo_up : option error
}.

(** [configureLoIface]. *)
Definition configureLoIface (a : lo_answers) : M iface (option error) :=
  link_call (lo_link a) id id (
  match ParseCIDR addrLo with
  | Err e => mret (Some e)
  | Ok an =>
      link_call (lo_ip a) id (set_ip an) (
      link_call (lo_up a) id set_link_up (mret None))
  end).

Record tap_answers := TapAnswers {
  tap_link : option error; tap_ip : option error; tap_mtu : option error; tap_mac : option error;
  tap_up : option error; tap_gw : option error
}.

(** [configureTapIface]. *)
Definition configureTapIface (a : tap_answers) : M iface (option error) :=
  link_call (tap_link a) (Wrap "failed to retrieve link") id (
  match ParseCIDR addrTap with
  | Err e => mret (Some (Wrap "failed to parse CIDR" e))
  | Ok an =>
      link_call (tap_ip a) (Wrap "failed to set link address") (set_ip an) (
      link_call (tap_mtu a) (Wrap "failed to set link MTU") (set_mtu 1500) (
      link_call (tap_mac a) (Wrap "failed to set MAC address") (set_mac mac) (
      link_call (tap_up a) (Wrap "failed to bring up link") set_link_up (
      match ParseIP defaultGw with
      | Some gw => link_call (tap_gw a) (Wrap "failed to set default gateway") (set_gw gw) (mret None)
      | None => mret (option_map (Wrap "failed to set default gateway") (tap_gw a))
      end))))
  end).

(** [linkUp], with what the [netlink] calls and [net.ParseMAC] answer: without a
    MAC address the link is only brought up. *)
Record link_answers := LinkAnswers {
  link_by_name : option error; parse_mac : option error;
  set_hardware_addr : option error; set_up : option error
}.

Definition linkUp (mac : bytes) (a : link_answers) : M iface (option error) :=
  link_call (link_by_name a) id id (
  if bool_decide (mac = []) then link_call (set_up a) id set_link_up (mret None)
  else link_call (parse_mac a) id id (
       link_call (set_hardware_addr a) id (set_mac mac) (
       link_call (set_up a) id set_link_up (mret None)))).

(** ** DNS *)

Definition resolvconf_dir : bytes := str "/run/resolvconf/".
Definition resolvconf_file : bytes := resolvconf_dir ++ str "resolv.conf".

(** [writeResolvconf], on the contents of the file system; what [MkdirAll] and
    [WriteFile] answer. *)
Definition writeResolvconf (mkdir write : option error) : M (gmap bytes bytes) (option error) :=
  fun fs =>
  match mkdir with
  | Some e => (fs, Done (Some (Wrap "failed to create directories" e)))
  | None =>
      let c := str "nameserver " ++ defaultGw ++ [newline] in
      match write with
      | Some e => (fs, Done (Some (Wrap "failed to write file" e)))
      | None => (<[resolvconf_file := c]> fs, Done None)
      end
  end.

(** ** [system_darwin.go] *)
Module Darwin.
Definition configureLoIface : M iface (option error) := mret None.
Definition configureTapIface : M iface (option error) := mret None.
Definition writeResolvconf : M (gmap bytes bytes) (option error) := mret None.
Definition maybeSeedEntropy : M iface unit := mret tt.
End Darwin.

(** ** Lemmas *)

(** The TAP interface as the enclave needs it. *)
Definition tap_configured (i : iface) : Prop :=
  exists ip net gw, i_addr i = Some (ip, net) /\ i_gw i = Some gw /\ i_up i = true /\
    i_mac i = Some mac /\ i_mtu i = Some 1500 /\
    Contains net ip = true /\ Contains net gw = true /\ gw <> ip.

Definition tap_ready : iface :=
  Iface (Some (3232268034, MkIPNet 3232268032 4294967040)) (Some 1500) (Some mac) true (Some 3232268033).

Lemma tap_ready_configured : tap_configured tap_ready.
Proof. by exists 3232268034, (MkIPNet 3232268032 4294967040), 3232268033. Qed.

(** Every outcome of [configureTapIface]: it is complete exactly if no call
    failed, and it never brings up an interface that has no address. *)
Lemma configureTapIface_spec a :
  (exists i, configureTapIface a fresh_iface = (i, Done None) /\ i = tap_ready) \/
  (exists i e, configureTapIface a fresh_iface = (i, Done (Some e)) /\
     (i_up i = true -> i_gw i = None /\ is_Some (i_addr i) /\ i_mac i = Some mac)).
Proof.
  destruct a as [[] [] [] [] [] []]; unfold configureTapIface, link_call;
    cbn [tap_link tap_ip tap_mtu tap_mac tap_up tap_gw];
    try (right; do 2 eexists; split; [reflexivity|]; vm_compute; naive_solver).
  left. eexists. split; reflexivity.
Qed.

Lemma linkUp_spec a i :
  i_mac i = Some mac -> i_up i = true ->
  exists err, linkUp mac a i = (i, Done err).
Proof.
  intros Hm Hu. destruct i as [addr mtu m up gw]. simpl in *. subst.
  unfold linkUp, link_call. rewrite bool_decide_eq_false_2 by done.
  destruct a as [[] [] [] []]; simpl; by eexists.
Qed.
