(* ===== verification/Proxy.v ===== *)
(** * Proxy: [proxy.go]

    The forwarding of Ethernet frames between the TAP device and the host: the
    framing of [rx] and [tx] over readers and writers that may fail or accept
    only a part, the set-up of the networking environment, and the loop that
    repeats it. *)
From Stdlib Require Import ZArith Lia.
From Stdlib Require Import Strings.Byte Strings.String.
From stdpp Require Import base gmap strings list fin_maps.
From S2P Require Import Prelude Codec Text System Config Network.

Local Open Scope Z_scope.

Definition frameLen : Z := 65535.
Definition frameSizeLen : Z := 2.

(** ** Readers and writers *)

(** [io.ReadFull(r, buf)] with [k = len(buf)]; every round of its loop takes a
    delivery or ends it, so [reads r] rounds are enough. *)
Fixpoint read_full (fuel : nat) (k : Z) (acc : bytes) (r : Reader.reader)
    : bytes * option error * Reader.reader :=
  if k <=? len acc then (acc, None, r)
  else match fuel with
       | O => (acc, Some (ErrLib "out of fuel"), r)
       | S f =>
           let '(b, e, r') := Reader.Read (k - len acc) r in
           let acc' := acc ++ b in
           match e with
           | None => read_full f k acc' r'
           | Some err =>
               if k <=? len acc' then (acc', None, r')
               else if (0 <? len acc') && bool_decide (err = EOF)
               then (acc', Some ErrUnexpectedEOF, r')
               else (acc', Some err, r')
           end
       end.

Definition ReadFull (k : Z) (r : Reader.reader) : bytes * option error * Reader.reader :=
  read_full (S (Reader.reads r)) k [] r.

(** How an [io.Writer] answers its next calls: everything is taken unless the
    list says that only some bytes are, with or without an error. *)
Record short_write := Short { taken : Z; short_err : option error }.

Definition Write (ws : list (option short_write)) (b : bytes)
    : bytes * Z * option error * list (option short_write) :=
  match ws with
  | [] => (b, len b, None, [])
  | None :: ws' => (b, len b, None, ws')
  | Some s :: ws' => (take (Z.to_nat (taken s)) b, taken s, short_err s, ws')
  end.

(** ** Frames to the host *)

(** [rx]: the bytes that the connection took and the error sent to [errCh]. *)
Fixpoint rx_loop (fuel : nat) (tap : Reader.reader) (conn : list (option short_write))
    : bytes * error :=
  match fuel with
  | O => ([], ErrLib "out of fuel")
  | S f =>
      let '(b, err, tap') := Reader.Read frameLen tap in
      match err with
      | Some e => ([], Wrap "failed to read payload from enclave application" e)
      | None =>
          let n := len b in
          let '(out, m, err, conn') := Write conn (PutUint16 (to_uint16 n) ++ b) in
          match err with
          | Some e => (out, Wrap "failed to write payload to host" e)
          | None =>
              let m := m - frameSizeLen in
              if negb (m =? n) then (out, ErrLib "wrote a different number of bytes to host")
              else let '(rest, e) := rx_loop f tap' conn' in (out ++ rest, e)
          end
      end
  end.

Definition rx (tap : Reader.reader) (conn : list (option short_write)) : bytes * error :=
  rx_loop (S (Reader.reads tap)) tap conn.

(** ** Frames from the host *)

(** [tx]: the frames that the TAP device took and the error sent to [errCh]. *)
Fixpoint tx_loop (fuel : nat) (conn : Reader.reader) (tap : list (option short_write))
    : list bytes * error :=
  match fuel with
  | O => ([], ErrLib "out of fuel")
  | S f =>
      let '(hdr, err, conn1) := ReadFull frameSizeLen conn in
      match err with
      | Some e => ([], Wrap "failed to read length from host" e)
      | None =>
          match hdr with
          | [b0; b1] =>
              let size := Uint16 b0 b1 in
              let '(payload, err, conn2) := ReadFull size conn1 in
              let n := len payload in
              match err with
              | Some e => ([], Wrap "failed to read payload from host" e)
              | None =>
                  if (n =? 0) || negb (n =? size)
                  then ([], ErrLib "expected payload of a different size")
                  else
                    let '(out, m, err, tap') := Write tap payload in
                    match err with
                    | Some e => ([out], Wrap "failed to write payload to enclave application" e)
                    | None =>
                        if negb (m =? n)
                        then ([out], ErrLib "wrote a different number of bytes to host")
                        else let '(rest, e) := tx_loop f conn2 tap' in (out :: rest, e)
                    end
              end
          | _ => ([], ErrLib "received unexpected length")
          end
      end
  end.

Definition tx (conn : Reader.reader) (tap : list (option short_write)) : list bytes * error :=
  tx_loop (S (Reader.reads conn)) conn tap.

(** The encoding of a frame on the connection. *)
Definition frame (b : bytes) : bytes := PutUint16 (len b) ++ b.
Definition frame_ok (b : bytes) : Prop := 1 <= len b <= frameLen.

(** ** Lemmas *)

(** A reader with enough data fills the buffer. *)
Lemma read_full_clean fuel k acc r data :
  Reader.clean r data -> (Reader.reads r < fuel)%nat -> len acc <= k <= len acc + len data ->
  exists r', read_full fuel k acc r = (acc ++ take (Z.to_nat (k - len acc)) data, None, r') /\
    Reader.clean r' (drop (Z.to_nat (k - len acc)) data) /\
    (Reader.reads r' <= Reader.reads r)%nat.
Proof.
  revert acc r data. induction fuel as [|f IH]; intros acc r data Hc Hf Hk; [lia|].
  cbn [read_full]. destruct (Z.leb_spec k (len acc)) as [Hle|Hgt].
  - replace (k - len acc) with 0 by lia. exists r. simpl. by rewrite app_nil_r.
  - assert (data <> []) by (intros ->; rewrite len_nil in Hk; lia).
    destruct (Reader.Read_clean (k - len acc) r data Hc ltac:(lia) ltac:(done))
      as (b & r1 & -> & Hb & Hbl & Hd & Hc1 & Hr1).
    destruct (IH (acc ++ b) r1 (drop (length b) data) Hc1 ltac:(lia)) as (r' & -> & Hc' & Hr').
    { rewrite len_app. rewrite Hd, len_app in Hk. lia. }
    exists r'. rewrite len_app in *.
    assert (Hn : Z.to_nat (k - (len acc + len b)) = (Z.to_nat (k - len acc) - length b)%nat)
      by (unfold len; lia).
    assert (Hn2 : (length b <= Z.to_nat (k - len acc))%nat) by (unfold len in *; lia).
    rewrite Hn in *. split_and!; [|rewrite drop_drop in Hc'; by rewrite Nat.add_sub_assoc, Nat.add_comm, Nat.add_sub in Hc' by lia|lia].
    rewrite <- app_assoc. do 3 f_equal. rewrite Hd at 2.
    rewrite take_app_ge by done. done.
Qed.

Lemma ReadFull_clean k r data :
  Reader.clean r data -> 0 <= k <= len data ->
  exists r', ReadFull k r = (take (Z.to_nat k) data, None, r') /\
    Reader.clean r' (drop (Z.to_nat k) data) /\ (Reader.reads r' <= Reader.reads r)%nat.
Proof.
  intros Hc Hk. destruct (read_full_clean (S (Reader.reads r)) k [] r data Hc) as (r' & H & H1 & H2);
    [lia|rewrite len_nil; lia|].
  rewrite len_nil, Z.sub_0_r in *. exists r'. done.
Qed.

Lemma Write_all b : Write [] b = (b, len b, None, []).
Proof. done. Qed.

Lemma PutUint16_frame b : len b <= frameLen -> PutUint16 (to_uint16 (len b)) ++ b = frame b.
Proof.
  intros Hb. unfold to_uint16, frameLen in *. pose proof (len_nonneg b).
  by rewrite Z.mod_small by lia.
Qed.

(** [rx] forwards the reads of the TAP device as frames, until it fails. *)
Lemma rx_loop_frames fs e fuel :
  Forall (fun b => len b <= frameLen) fs -> (length fs < fuel)%nat ->
  rx_loop fuel (((fun b => (b, None)) <$> fs) ++ [([], Some e)]) [] =
  (concat (map frame fs), Wrap "failed to read payload from enclave application" e).
Proof.
  intros Hfs. revert fuel. induction Hfs as [|b fs Hb _ IH]; intros [|f] Hf; simpl in Hf; try lia.
  - done.
  - cbn [fmap list_fmap app rx_loop Reader.Read]. rewrite (proj2 (Z.leb_le _ _) Hb).
    rewrite PutUint16_frame by done. cbn [Write].
    assert (Hl : len (frame b) = 2 + len b) by (unfold frame; rewrite len_app; done).
    rewrite Hl. replace (2 + len b - frameSizeLen) with (len b) by (unfold frameSizeLen; lia).
    rewrite Z.eqb_refl. cbn [negb]. rewrite IH by lia. done.
Qed.

(** [tx] recovers the frames from the stream, however it is cut. *)
Lemma tx_loop_frames fs fuel r :
  Forall frame_ok fs -> (length fs < fuel)%nat -> Reader.clean r (concat (map frame fs)) ->
  tx_loop fuel r [] = (fs, Wrap "failed to read length from host" EOF).
Proof.
  intros Hfs. revert fuel r. induction Hfs as [|b fs [Hb1 Hb2] _ IH]; intros [|f] r Hf Hc;
    simpl in Hf; try lia.
  - apply Reader.clean_nil in Hc as ->. done.
  - cbn [map concat] in Hc. unfold frameLen in *. cbn [tx_loop].
    assert (Hfr : frame b ++ concat (map frame fs) =
      z2b (len b) :: z2b (Z.shiftr (len b) 8) :: b ++ concat (map frame fs)) by done.
    rewrite Hfr in Hc.
    destruct (ReadFull_clean frameSizeLen r _ Hc) as (r1 & -> & Hc1 & _).
    { unfold frameSizeLen. rewrite !len_cons. pose proof (len_nonneg (b ++ concat (map frame fs))). lia. }
    change (Z.to_nat frameSizeLen) with 2%nat in *. cbn [firstn skipn] in *.
    rewrite drop_0 in Hc1.
    rewrite Uint16_Put by lia.
    destruct (ReadFull_clean (len b) r1 _ Hc1) as (r2 & -> & Hc2 & _).
    { rewrite len_app. pose proof (len_nonneg (concat (map frame fs))). lia. }
    assert (Hn : Z.to_nat (len b) = length b) by (unfold len; lia).
    rewrite Hn, take_app_length, drop_app_length in *.
    rewrite (proj2 (Z.eqb_neq (len b) 0)) by lia. rewrite Z.eqb_refl. simpl.
    rewrite Z.eqb_refl. simpl. rewrite (IH f r2) by (done || lia). done.
Qed.

Lemma frames_reads fs r :
  Forall frame_ok fs -> Reader.clean r (concat (map frame fs)) -> (length fs <= Reader.reads r)%nat.
Proof.
  intros Hfs Hc.
  assert (Hd : (length (concat (map fst r)) <= Reader.reads r)%nat).
  { clear. induction r as [|[b e] r IH]; [done|]. rewrite Reader.reads_cons. simpl.
    rewrite length_app. lia. }
  destruct Hc as [_ Hc]. rewrite Hc in Hd. etrans; [|exact Hd].
  clear Hc Hd. induction Hfs as [|b fs _ _ IH]; cbn [map concat length]; [lia|].
  rewrite length_app. assert (2 <= length (frame b))%nat by (unfold frame; simpl; lia). lia.
Qed.

(** C22: Frames survive the trip to the host and back.  Whatever non-empty frames
    the TAP device delivers, [rx] puts on the connection a stream from which
    [tx], however the stream is cut into pieces on the way, recovers exactly
    these frames in order; a 16-bit length is always enough. *)
Theorem frames_roundtrip (fs : list bytes) (e : error) (conn : Reader.reader) :
  Forall frame_ok fs ->
  let '(stream, err) := rx (((fun b => (b, None)) <$> fs) ++ [([], Some e)]) [] in
  err = Wrap "failed to read payload from enclave application" e /\
  (Reader.clean conn stream -> tx conn [] = (fs, Wrap "failed to read length from host" EOF)).
Proof.
  intros Hfs. unfold rx. rewrite rx_loop_frames.
  - split; [done|]. intros Hc. pose proof (frames_reads fs conn Hfs Hc).
    apply tx_loop_frames; [done|lia|done].
  - eapply Forall_impl; [exact Hfs|]. by intros b [_ ?].
  - clear. induction fs as [|b fs IH]; cbn [fmap list_fmap app length]; [lia|].
    rewrite Reader.reads_cons. cbn [fmap] in IH. lia.
Qed.

Lemma frames_roundtrip_witness :
  tx [(str "x", None); ([Byte.x00] ++ str "ab", None); ([Byte.x62; Byte.x01], None)] [] =
    ([], Wrap "failed to read payload from host" ErrUnexpectedEOF) /\
  tx [([Byte.x01], None); ([Byte.x00] ++ str "a" ++ [Byte.x02], None);
      ([Byte.x00] ++ str "bc", None)] [] =
    ([str "a"; str "bc"], Wrap "failed to read length from host" EOF).
Proof.
  split; [vm_compute; reflexivity|].
  refine (proj2 (frames_roundtrip [str "a"; str "bc"] EOF _ _) _).
  - repeat constructor; vm_compute; discriminate.
  - split; [|vm_compute; reflexivity]. repeat constructor; discriminate.
Defined.

(** ** Hostile input *)

Lemma Read_bound k r b e r' : 0 <= k -> Reader.Read k r = (b, e, r') -> len b <= k.
Proof.
  intros Hk. unfold Reader.Read. destruct r as [|[b0 e0] r0]; [intros [= <- _ _]; by rewrite len_nil|].
  destruct (Z.leb_spec (len b0) k); intros [= <- _ _]; [done|].
  unfold len. rewrite length_take. lia.
Qed.

Lemma read_full_len fuel k acc r b r' :
  len acc <= k -> read_full fuel k acc r = (b, None, r') -> len b = k.
Proof.
  revert acc r. induction fuel as [|f IH]; intros acc r Ha; cbn [read_full];
    destruct (Z.leb_spec k (len acc)); try by intros [= <- _]; lia.
  destruct (Reader.Read (k - len acc) r) as [[b1 e1] r1] eqn:E.
  apply Read_bound in E; [|lia]. assert (Hl : len (acc ++ b1) <= k) by (rewrite len_app; lia).
  destruct e1 as [e|]; [|by apply IH].
  destruct (Z.leb_spec k (len (acc ++ b1))); [intros [= <- _]; lia|]. by case_match.
Qed.

Lemma ReadFull_len k r b r' : 0 <= k -> ReadFull k r = (b, None, r') -> len b = k.
Proof. intros Hk. apply read_full_len. by rewrite len_nil. Qed.

Lemma Write_taken ws b out m e ws' : Write ws b = (out, m, e, ws') -> len out <= len b.
Proof.
  unfold Write. intros H. destruct ws as [|[s|] ws0]; injection H as <- _ _ _; try lia.
  unfold len. rewrite length_take. lia.
Qed.

Lemma tx_loop_bounded fuel conn tap :
  Forall (fun b => len b <= frameLen) (tx_loop fuel conn tap).1.
Proof.
  revert conn tap. induction fuel as [|f IH]; intros conn tap; cbn [tx_loop]; [constructor|].
  destruct (ReadFull frameSizeLen conn) as [[hdr [e|]] conn1]; [constructor|].
  destruct hdr as [|b0 [|b1 [|]]]; try constructor.
  destruct (ReadFull (Uint16 b0 b1) conn1) as [[p [e|]] conn2] eqn:Hp; [constructor|].
  pose proof (Uint16_bound b0 b1) as Hu. apply ReadFull_len in Hp; [|lia].
  destruct ((len p =? 0) || _) eqn:Hz; [constructor|].
  destruct (Write tap p) as [[[out m] we] tap'] eqn:Hw. apply Write_taken in Hw.
  assert (len out <= frameLen) by (unfold frameLen; lia).
  destruct we; [by constructor|]. destruct (negb (m =? len p)); [by constructor|].
  specialize (IH conn2 tap'). destruct (tx_loop f conn2 tap'). by constructor.
Qed.

(** Whatever the host sends, and however the TAP device behaves, the frames
    that [tx] writes never exceed the 65535 bytes of its buffer. *)
Theorem tx_bounded (conn : Reader.reader) (tap : list (option short_write)) :
  Forall (fun b => len b <= frameLen) (tx conn tap).1.
Proof. apply tx_loop_bounded. Qed.

(** An empty frame ends the forwarding: the reader of a zero length reads
    nothing, which is taken for a short read. *)
Lemma tx_empty_frame conn rest :
  Reader.clean conn ([Byte.x00; Byte.x00] ++ rest) ->
  tx conn [] = ([], ErrLib "expected payload of a different size").
Proof.
  intros Hc. unfold tx. cbn [tx_loop].
  destruct (ReadFull_clean frameSizeLen conn _ Hc) as (r1 & -> & Hc1 & _).
  { unfold frameSizeLen. rewrite len_app. pose proof (len_nonneg rest). split; [lia|].
    change (len [Byte.x00; Byte.x00]) with 2. lia. }
  change (take (Z.to_nat frameSizeLen) ([Byte.x00; Byte.x00] ++ rest)) with [Byte.x00; Byte.x00].
  cbv iota. change (Uint16 Byte.x00 Byte.x00) with 0.
  destruct (ReadFull_clean 0 r1 _ Hc1) as (r2 & -> & _ & _); [|done].
  split; [lia|apply len_nonneg].
Qed.

(** ** Setting up the networking environment *)

Definition parentCID : Z := 3.

(** The endpoint of the proxy on the EC2 host. *)
Definition host_endpoint (c : Config) : bytes :=
  str "vsock://" ++ dec_Print parentCID ++ str ":" ++ dec_Print (HostProxyPort c) ++ str "/connect".

(** What the calls of [setupNetworking] answer, in the order they are made. *)
Record net_answers := NetAnswers {
  dial : bytes -> option error; new_request : option error; send_request : option error;
  new_tap : option error; configure_tap : tap_answers;
  mkdir_resolvconf : option error; write_resolvconf : option error; link : link_answers
}.

(** The connection to the host, the TAP device while it is open, and the files. *)
Record net_state := NetState {
  conn_open : bool;
  tap_dev : option iface;
  files : gmap bytes bytes
}.

Definition set_conn b s := NetState b (tap_dev s) (files s).
Definition set_tap t s := NetState (conn_open s) t (files s).
Definition set_files f s := NetState (conn_open s) (tap_dev s) f.

(** Operations on the TAP device and on the file system. *)
Definition on_tap {A} (m : M iface A) : M net_state A :=
  m_zoom (fun s => default fresh_iface (tap_dev s)) (fun i => set_tap (Some i)) m.
Definition on_files {A} (m : M (gmap bytes bytes) A) : M net_state A := m_zoom files set_files m.

(** Run [k] if the call succeeded, or return the wrapped error. *)
Definition net_step (call : M net_state (option error)) (what : string)
    (k : M net_state (option error)) : M net_state (option error) :=
  r ← call;
  match r with
  | Some e => mret (Some (Wrap what e))
  | None => k
  end.

(** A [defer] runs when the rest of the function has returned. *)
Definition deferred {S A} (cleanup : S -> S) (m : M S A) : M S A := fun s =>
  let '(s', o) := m s in (cleanup s', o).

(** [setupNetworking]; [forwarding] is the forwarding of traffic until an error
    of a forwarding goroutine or the closed [stop] channel ends it. *)
Definition setupNetworking (c : Config) (a : net_answers) (forwarding : M net_state (option error))
    : M net_state (option error) :=
  net_step (mret (dial a (host_endpoint c))) "failed to connect to host" (
  _ ← m_modify (set_conn true);
  deferred (set_conn false) (
  net_step (mret (new_request a)) "failed to create POST request" (
  net_step (mret (send_request a)) "failed to send POST request to host" (
  net_step (mret (new_tap a)) "failed to create tap device" (
  _ ← m_modify (set_tap (Some fresh_iface));
  deferred (set_tap None) (
  net_step (on_tap (configureTapIface (configure_tap a))) "failed to configure tap interface" (
  net_step (on_files (writeResolvconf (mkdir_resolvconf a) (write_resolvconf a)))
    "failed to create resolv.conf" (
  net_step (on_tap (linkUp mac (link a))) "failed to set MAC address"
  forwarding)))))))).

(** One attempt of [runNetworking]: the answers and how its forwarding ends. *)
Definition attempt : Type := net_answers * option error.

(** [runNetworking]: repeat until [setupNetworking] returns nil; [None] when
    the attempts are used up. *)
Fixpoint runNetworking (c : Config) (attempts : list attempt) (s : net_state) : option net_state :=
  match attempts with
  | [] => None
  | (a, fwd) :: rest =>
      match setupNetworking c a (mret fwd) s with
      | (s', Done None) => Some s'
      | (s', _) => runNetworking c rest s'
      end
  end.

(** Nothing but the forwarding is left to do. *)
Definition set_up_ok (c : Config) (a : net_answers) : bool :=
  bool_decide (dial a (host_endpoint c) = None) && bool_decide (new_request a = None) &&
  bool_decide (send_request a = None) && bool_decide (new_tap a = None) &&
  bool_decide ((configureTapIface (configure_tap a) fresh_iface).2 = Done None) &&
  bool_decide (mkdir_resolvconf a = None) && bool_decide (write_resolvconf a = None) &&
  bool_decide ((linkUp mac (link a) tap_ready).2 = Done None).

Definition resolvconf_text : bytes := str "nameserver 192.168.127.1" ++ [newline].

(** [setupNetworking] as a whole: traffic is only forwarded in one state, and
    afterwards, as after every error, connection and device are closed. *)
Lemma setupNetworking_spec c a fwd fs :
  (set_up_ok c a = true /\
   setupNetworking c a fwd (NetState false None fs) =
   let '(s', o) := fwd (NetState true (Some tap_ready) (<[resolvconf_file := resolvconf_text]> fs)) in
   (set_conn false (set_tap None s'), o)) \/
  (set_up_ok c a = false /\ exists fs' e,
   setupNetworking c a fwd (NetState false None fs) = (NetState false None fs', Done (Some e))).
Proof.
  unfold setupNetworking, net_step, deferred, set_up_ok, on_tap, on_files, writeResolvconf. unfold_M.
  destruct (dial a _); [right; simpl; split; eauto|].
  destruct (new_request a); [right; simpl; split; eauto|].
  destruct (send_request a); [right; simpl; split; eauto|].
  destruct (new_tap a); [right; simpl; split; eauto|].
  cbn -[tap_ready linkUp configureTapIface resolvconf_file mac str].
  destruct (configureTapIface_spec (configure_tap a)) as [(i & -> & ->)|(i & e & -> & _)];
    [|right; simpl; split; eauto]. cbn -[tap_ready linkUp resolvconf_file mac str].
  destruct (mkdir_resolvconf a); [right; simpl; split; eauto|].
  destruct (write_resolvconf a); [right; simpl; split; eauto|]. cbn -[tap_ready linkUp resolvconf_file mac str].
  destruct (linkUp_spec (link a) tap_ready) as [err Hl]; [done|done|]. rewrite Hl.
  destruct err as [e|]; [right; simpl; split; eauto|left; split; [done|]].
  cbn -[tap_ready resolvconf_file str]. by destruct (fwd _).
Qed.

(** C39: Networking is set up again after every failure until the enclave stops,
    completely, and without leaks.  The loop returns exactly when the traffic of
    an attempt was forwarded until the enclave stopped.  Whenever an attempt ends,
    successfully or in any of its error paths, the connection to the host and the
    TAP device are closed.  And traffic is only forwarded when the TAP device is
    up with its addresses, in one network with the default gateway, which is
    also the name server of the resolver's configuration. *)
Theorem runNetworking_spec (c : Config) (attempts : list attempt) fs :
  match runNetworking c attempts (NetState false None fs) with
  | Some s => conn_open s = false /\ tap_dev s = None /\
      exists a, a ∈ attempts /\ set_up_ok c a.1 = true /\ a.2 = None
  | None => forall a, a ∈ attempts -> ~ (set_up_ok c a.1 = true /\ a.2 = None)
  end /\
  (forall a fwd, exists s' o, setupNetworking c a fwd (NetState false None fs) =
     (set_conn false (set_tap None s'), o) /\
     if set_up_ok c a then exists i, tap_configured i /\ i_gw i = ParseIP defaultGw /\
       fwd (NetState true (Some i)
         (<[resolvconf_file := str "nameserver " ++ defaultGw ++ [newline]]> fs)) = (s', o)
     else exists e, o = Done (Some e)).
Proof.
  split.
  - revert fs. induction attempts as [|[a fwd] attempts IH]; intros fs; simpl; [set_solver|].
    destruct (setupNetworking_spec c a (mret fwd) fs) as [[Hok ->]|[Hok (fs' & e & ->)]].
    + cbn -[resolvconf_file]. destruct fwd as [e|].
      * specialize (IH (<[resolvconf_file := resolvconf_text]> fs)).
        destruct (runNetworking c attempts _); set_solver.
      * split_and!; [done..|]. exists (a, None). set_solver.
    + specialize (IH fs'). destruct (runNetworking c attempts _); [set_solver|].
      intros a' [->|Ha]%elem_of_cons; [cbn [fst]; rewrite Hok; by intros []|auto].
  - intros a fwd. destruct (setupNetworking_spec c a fwd fs) as [[-> ->]|[-> (fs' & e & ->)]].
    + destruct (fwd _) as [s' o] eqn:Ef. exists s', o. split; [done|].
      exists tap_ready. split; [apply tap_ready_configured|]. done.
    + exists (NetState false None fs'), (Done (Some e)). split; [done|by eexists].
Qed.
