(* ===== verification/Caches.v ===== *)
(** * Caches: [certcache.go], [cache.go] and [bufferpool.go]

    The certificate holder and the certificate cache, whose methods hold their
    lock and are atomic; the cache with expiring items, whose removals happen
    in goroutines of their own and are steps of a transition system; and the
    buffer pool of the reverse proxy. *)
From Stdlib Require Import ZArith Lia.
From Stdlib Require Import Strings.Byte Strings.String.
From stdpp Require Import base gmap strings list fin_maps relations.
From S2P Require Import Prelude.

Local Open Scope Z_scope.

(** ** [certcache.go] *)
Module Cert.

(** [certRetriever], for a type of certificates. *)
Section retriever.
Context {C : Type}.
Abbreviation certRetriever := (option C).

Definition set (cert : C) (c : certRetriever) : certRetriever := Some cert.

Definition get (c : certRetriever) : result C :=
  match c with
  | None => Err errUninitializedCert
  | Some cert => Ok cert
  end.
End retriever.

Abbreviation certCache := (gmap bytes bytes).

Definition newCertCache : certCache := ∅.

Definition Get (c : certCache) (key : bytes) : result bytes :=
  match c !! key with
  | None => Err ErrCacheMiss
  | Some cert => Ok cert
  end.

Definition Put (key data : bytes) (c : certCache) : certCache := <[key := data]> c.
Definition Delete (key : bytes) (c : certCache) : certCache := delete key c.

(** A history of writing calls, the oldest first. *)
Inductive op :=
  | OpPut (key data : bytes)
  | OpDelete (key : bytes).

Definition apply_op (c : certCache) (o : op) : certCache :=
  match o with
  | OpPut k d => Put k d c
  | OpDelete k => Delete k c
  end.

(** What the [autocert.Cache] interface promises: the data of the last [Put] of
    the key, unless a [Delete] came later. *)
Fixpoint last_write (key : bytes) (rev_history : list op) : result bytes :=
  match rev_history with
  | [] => Err ErrCacheMiss
  | OpPut k d :: h => if decide (k = key) then Ok d else last_write key h
  | OpDelete k :: h => if decide (k = key) then Err ErrCacheMiss else last_write key h
  end.

(** The in-memory certificate cache implements the contract of
    [autocert.Cache]: after any history of calls, [Get] returns the data of the
    last [Put] of the key, and [ErrCacheMiss] if there was none or the key has
    been deleted since. *)
Theorem certCache_refines (history : list op) (key : bytes) :
  Get (fold_left apply_op history newCertCache) key = last_write key (reverse history).
Proof.
  induction history as [|o history IH] using rev_ind; [done|].
  rewrite fold_left_app, reverse_app. simpl. rewrite <- IH. unfold Get.
  destruct o as [k d|k]; unfold apply_op, Put, Delete; case_decide as E.
  - subst. by rewrite lookup_insert_eq.
  - by rewrite lookup_insert_ne.
  - subst. by rewrite lookup_delete_eq.
  - by rewrite lookup_delete_ne.
Qed.

End Cert.

(** ** [cache.go] *)
Module Expiring.

Section cache.
Context (TTL : Z).

(** [pending]: the goroutines of [pruneLater], with the time at which each
    wakes up; [now] is the clock. *)
Record cache := Cache { Items : gmap bytes Z; pending : list (bytes * Z); now : Z }.

Definition newCache (t : Z) : cache := Cache ∅ [] t.

Definition Count (c : cache) : Z := Z.of_nat (size (Items c)).
Definition Exists (c : cache) (key : bytes) : bool := bool_decide (is_Some (Items c !! key)).

Definition Add (key : bytes) (c : cache) : cache :=
  Cache (<[key := now c]> (Items c)) (pending c ++ [(key, now c + TTL)]) (now c).

(** The critical section of [pruneLater]. *)
Definition prune (key : bytes) (c : cache) : gmap bytes Z := delete key (Items c).

Inductive step : cache -> cache -> Prop :=
  | step_add key c : step c (Add key c)
  | step_prune p1 p2 key t c :
      pending c = p1 ++ (key, t) :: p2 -> t <= now c ->
      step c (Cache (prune key c) (p1 ++ p2) (now c))
  | step_time c t : now c <= t -> step c (Cache (Items c) (pending c) t).

(** Every item has a goroutine that is going to remove it in time. *)
Definition scheduled (c : cache) : Prop :=
  forall key t, Items c !! key = Some t -> (key, t + TTL) ∈ pending c.

Lemma scheduled_step c c' : scheduled c -> step c c' -> scheduled c'.
Proof.
  intros Hs. destruct 1 as [key c|p1 p2 key t c Hp Ht|c t Ht]; intros k u; simpl.
  - destruct (decide (k = key)) as [->|Hne].
    + rewrite lookup_insert_eq. intros [= <-]. set_solver.
    + rewrite lookup_insert_ne by done. intros Hk%Hs. set_solver.
  - unfold prune. rewrite lookup_delete_Some. intros [Hne Hk%Hs]. rewrite Hp in Hk. set_solver.
  - apply Hs.
Qed.

Lemma scheduled_reachable c c' : scheduled c -> rtc step c c' -> scheduled c'.
Proof. intros Hs. induction 1; eauto using scheduled_step. Qed.

(** No goroutine that is due is still waiting to run. *)
Definition settled (c : cache) : Prop := forall key t, (key, t) ∈ pending c -> now c < t.

(** Items of the expiring cache do not outlive their time: in every state
    reachable from an empty cache each item has a goroutine that removes it at
    most [TTL] after it was last added, so once all goroutines that are due
    have run, every item that [Exists] finds was added less than [TTL] ago. *)
Theorem cache_items_expire (t0 : Z) (c : cache) (key : bytes) :
  rtc step (newCache t0) c ->
  (forall t, Items c !! key = Some t -> (key, t + TTL) ∈ pending c) /\
  (settled c -> Exists c key = true ->
   exists t, Items c !! key = Some t /\ now c < t + TTL).
Proof.
  intros Hr. assert (Hs : scheduled c) by (eapply scheduled_reachable; [|exact Hr]; done).
  split; [by intros t Ht%Hs|]. unfold Exists.
  intros Hset [t Ht]%bool_decide_eq_true. exists t. split; [done|]. by eapply Hset, Hs.
Qed.
End cache.

(** Adding an item again does not extend its life: the goroutine of the first
    [Add] removes the item on its own schedule, so an item that was just added
    can be gone although its time has not passed. *)
Theorem readd_does_not_extend (TTL : Z) (key : bytes) :
  0 < TTL ->
  exists c, rtc (step TTL) (newCache 0) c /\ Exists c key = false /\ now c = TTL /\
    (key, (TTL - 1) + TTL) ∈ pending c.
Proof.
  intros Ht.
  set (c1 := Add TTL key (newCache 0)).
  set (c2 := Cache (Items c1) (pending c1) (TTL - 1)).
  set (c3 := Add TTL key c2).
  set (c4 := Cache (Items c3) (pending c3) TTL).
  exists (Cache (prune key c4) [(key, (TTL - 1) + TTL)] TTL). split_and!.
  - eapply rtc_l; [apply (step_add TTL key)|]. fold c1.
    eapply rtc_l; [apply (step_time TTL c1 (TTL - 1)); simpl; lia|]. fold c2.
    eapply rtc_l; [apply (step_add TTL key)|]. fold c3.
    eapply rtc_l; [apply (step_time TTL c3 TTL); simpl; lia|]. fold c4.
    eapply rtc_l; [apply (step_prune TTL [] [(key, (TTL - 1) + TTL)] key (0 + TTL)); [done|simpl; lia]|].
    done.
  - unfold Exists, prune. simpl. by rewrite lookup_delete_eq.
  - done.
  - set_solver.
Qed.

Lemma readd_does_not_extend_witness :
  exists c, Exists c (str "nonce") = false /\ now c = 60.
Proof.
  destruct (readd_does_not_extend 60 (str "nonce") ltac:(lia)) as (c & _ & He & Hn & _).
  exists c. split; [exact He|exact Hn].
Defined.

Lemma cache_items_expire_witness :
  exists c, Exists c (str "nonce") = true /\ now c = 0.
Proof.
  exists (Add 60 (str "nonce") (newCache 0)).
  destruct (cache_items_expire 60 0 (Add 60 (str "nonce") (newCache 0)) (str "nonce"))
    as [H _]; [apply rtc_once; constructor|].
  split; vm_compute; reflexivity.
Defined.

End Expiring.

(** ** [bufferpool.go] *)
Module BufPool.

Definition bufSize : Z := 32 * 1024.

(** The buffers that [sync.Pool] currently holds; it may drop any of them at
    any time, and [Get] may return any of them. *)
Abbreviation bufPool := (list bytes).

(** [Get]: [pick] is the index of the buffer that the pool chooses; without
    such a buffer [New] makes one. *)
Definition Get (pick : nat) (p : bufPool) : bytes * bufPool :=
  match p !! pick with
  | Some s => (s, delete pick p)
  | None => (replicate (Z.to_nat bufSize) Byte.x00, p)
  end.

Definition Put (buf : bytes) (p : bufPool) : bufPool := buf :: p.

(** What happens to the pool: calls, and buffers that the pool drops. *)
Inductive step : bufPool -> bufPool -> Prop :=
  | step_get pick p : step p (Get pick p).2
  | step_put buf p : len buf = bufSize -> step p (Put buf p)
  | step_drop i p : step p (delete i p).

(** As long as the reverse proxy only returns buffers that it got, every
    buffer it gets is 32 KiB long, whatever the pool keeps or drops. *)
Theorem bufPool_sizes (p : bufPool) (pick : nat) :
  rtc step [] p -> len (Get pick p).1 = bufSize.
Proof.
  intros Hr. assert (Hp : Forall (fun b => len b = bufSize) p).
  { assert (H0 : Forall (fun b => len b = bufSize) (@nil bytes)) by constructor. revert H0.
    induction Hr as [|p p1 p2 Hst _ IH]; [done|]. intros H0. apply IH. destruct Hst as [i q|b q|i q].
    - unfold Get. destruct (q !! i); [by apply Forall_delete|done].
    - by constructor.
    - by apply Forall_delete. }
  unfold Get. destruct (p !! pick) as [b|] eqn:E; cbn [fst].
  - by eapply (Forall_lookup_1 _ _ _ _ Hp).
  - rewrite len_replicate. by apply Z2Nat.id.
Qed.

Definition new_buf : bytes := replicate (Z.to_nat bufSize) Byte.x01.

Lemma bufPool_sizes_witness : len (Get 0 (Put new_buf [])).1 = bufSize.
Proof.
  apply (bufPool_sizes (Put new_buf []) 0).
  apply rtc_once. constructor. unfold new_buf. rewrite len_replicate. apply Z2Nat.id. discriminate.
Defined.

End BufPool.
