(* ===== verification/Metrics.v ===== *)
(** * Metrics: [metrics.go]

    The request counters: the middleware around the handlers of the three Web
    servers, the reverse proxy and its callbacks, which reach the same counters.
    A counter vector of the Prometheus client is a map from label values to
    counts, and its [With] panics on label values that are not UTF-8. *)
From Stdlib Require Import ZArith Lia.
From Stdlib Require Import Strings.Byte Strings.String.
From stdpp Require Import base gmap strings list fin_maps.
From S2P Require Import Prelude Codec Json System Http Errors.

Local Open Scope Z_scope.

Definition notAvailable : bytes := str "n/a".

(** The values of [http_req_path], [http_req_method], [http_resp_status] and
    [http_resp_error]. *)
Record labels := Labels { reqPath : bytes; reqMethod : bytes; respStatus : bytes; respErr : bytes }.

#[export] Instance labels_eq_dec : EqDecision labels.
Proof. solve_decision. Defined.

#[export] Program Instance labels_countable : Countable labels :=
  inj_countable' (fun l => (reqPath l, reqMethod l, respStatus l, respErr l))
                 (fun t => let '(a, b, c, d) := t in Labels a b c d) _.
Next Obligation. by intros []. Qed.

Abbreviation counterVec K := (gmap K Z).

(** [c.Inc()] on the counter of [l]. *)
Definition Inc {K} `{Countable K} (l : K) (v : counterVec K) : counterVec K :=
  <[l := default 0 (v !! l) + 1]> v.

(** Heartbeats have the one label [http_resp_error]. *)
Record metrics := MkMetrics {
  reqs : counterVec labels;
  proxiedReqs : counterVec labels;
  heartbeats : counterVec bytes
}.

Definition newMetrics : metrics := MkMetrics ∅ ∅ ∅.

(** [validateValuesInLabels]: label values have to be UTF-8. *)
Definition labels_valid (l : labels) : bool :=
  text_ok (reqPath l) && text_ok (reqMethod l) && text_ok (respStatus l) && text_ok (respErr l).

(** [m.reqs.With(l).Inc()], and so on: an invalid label makes [With] panic. *)
Definition inc_reqs (l : labels) : M metrics unit := fun m =>
  if labels_valid l
  then (MkMetrics (Inc l (reqs m)) (proxiedReqs m) (heartbeats m), Done tt)
  else (m, Panic).

Definition inc_proxiedReqs (l : labels) : M metrics unit := fun m =>
  if labels_valid l
  then (MkMetrics (reqs m) (Inc l (proxiedReqs m)) (heartbeats m), Done tt)
  else (m, Panic).

Definition inc_heartbeats (l : bytes) : M metrics unit := fun m =>
  if text_ok l
  then (MkMetrics (reqs m) (proxiedReqs m) (Inc l (heartbeats m)), Done tt)
  else (m, Panic).

Definition goodHb : bytes := notAvailable.
Definition badHb (err_text : bytes) : bytes := err_text.

Definition method_text (m : method) : bytes :=
  match m with
  | GET => str "GET" | POST => str "POST" | PUT => str "PUT"
  | DELETE => str "DELETE" | HEAD => str "HEAD"
  end.

(** [checkRevProxyResp], for the response with status [code] of the application's
    Web server to the request [r]. *)
Definition checkRevProxyResp (r : request) (code : Z) : M metrics (option error) :=
  _ ← inc_proxiedReqs
        (Labels (Path (RUrl r)) (method_text (Method r)) (dec_Print code) notAvailable);
  mret None.

(** What a handler works on: the metrics, the state [S] of the enclave and the
    response writer. *)
Abbreviation served S := (metrics * S * respw)%type.

Definition on_metrics {S A} (x : M metrics A) : M (served S) A := fun '(m, s, w) =>
  let '(m', o) := x m in ((m', s, w), o).
Definition on_writer {S} (f : respw -> respw) : M (served S) unit := fun '(m, s, w) =>
  ((m, s, f w), Done tt).

Definition the_writer {S} : M (served S) respw := fun '(m, s, w) => ((m, s, w), Done w).

(** [checkRevProxyErr]: the client is told 502. *)
Definition checkRevProxyErr {S} (err_text : bytes) (r : request) : M (served S) unit :=
  _ ← on_metrics (inc_proxiedReqs
        (Labels (Path (RUrl r)) (method_text (Method r)) notAvailable err_text));
  on_writer (WriteHeader StatusBadGateway).

(** How the application's Web server answers: with a response whose body arrives
    completely or not, or not at all. *)
Inductive backend :=
  | BackendResponse (code : Z) (body : bytes) (complete : bool)
  | BackendError (err_text : bytes).

(** [revProxy.ServeHTTP] with the callbacks that [NewEnclave] installs: [Director]
    turns the URL of the request into the one that the application sees.  A
    response that breaks off makes the proxy abort with a panic. *)
Definition revProxy_ServeHTTP {S} (lib_text : error -> bytes) (Director : url -> url) (app : request -> backend)
    (r : request) : M (served S) unit :=
  let outreq := Request (Method r) (Director (RUrl r)) (Body r) in
  match app outreq with
  | BackendError err_text => checkRevProxyErr err_text outreq
  | BackendResponse code body complete =>
      err ← on_metrics (checkRevProxyResp outreq code);
      match err with
      | Some e => checkRevProxyErr (Error lib_text e) outreq
      | None =>
          _ ← on_writer (fun w => Write (Raw body) (WriteHeader code w));
          if complete : bool then mret tt else m_panic
      end
  end.

Section middleware.
(** [ww.Status()] of chi's wrapped response writer. *)
Context (Status : respw -> Z).

Definition request_labels (r : request) (w : respw) : labels :=
  Labels (Path (RUrl r)) (method_text (Method r)) (dec_Print (Status w)) notAvailable.

(** [middleware]: the request is counted when its handler has returned. *)
Definition middleware {S} (h : request -> M (served S) unit) (r : request) : M (served S) unit :=
  _ ← h r;
  ww ← the_writer;
  on_metrics (inc_reqs (request_labels r ww)).
End middleware.

(** ** Lemmas *)

Section counters.
Context {K} `{Countable K}.
Implicit Types (l : K) (v : counterVec K).

(** The number of events that a counter vector has seen. *)
Definition total (v : counterVec K) : Z := map_fold (fun _ n t => n + t) 0 v.

Lemma total_insert v l n : v !! l = None -> total (<[l := n]> v) = n + total v.
Proof. intros Hl. unfold total. rewrite map_fold_insert_L; [done|intros; lia|done]. Qed.

Lemma total_Inc l v : total (Inc l v) = total v + 1.
Proof.
  unfold Inc. destruct (v !! l) as [n|] eqn:E; simpl.
  - rewrite <- (insert_delete_id v l n E) at 2. rewrite <- (insert_delete_eq v).
    rewrite !total_insert by apply lookup_delete_eq. unfold id. lia.
  - rewrite total_insert by done. lia.
Qed.

Lemma lookup_Inc l v l' :
  default 0 (Inc l v !! l') = default 0 (v !! l') + (if decide (l' = l) then 1 else 0).
Proof.
  unfold Inc. destruct (decide (l' = l)) as [->|Hne].
  - rewrite lookup_insert_eq. done.
  - rewrite lookup_insert_ne by done. lia.
Qed.
End counters.

(** Everything but the path is ASCII. *)
Lemma digits_text_ok s : Forall (fun c => is_digit c = true) s -> text_ok s = true.
Proof.
  intros H. apply plain_text_ok, forallb_forall. intros c Hc%list_elem_of_In.
  apply (proj1 (Forall_forall _ _) H) in Hc. revert c Hc.
  by apply (all_bytes_spec (fun c => is_digit c = true -> plain c = true)).
Qed.

Lemma request_labels_valid Status r w :
  labels_valid (request_labels Status r w) = text_ok (Path (RUrl r)).
Proof.
  unfold labels_valid, request_labels. cbn [reqPath reqMethod respStatus respErr].
  rewrite (digits_text_ok _ (dec_Print_digits _)). destruct (text_ok (Path _)); [|done].
  by destruct (Method r).
Qed.

(** A request through the middleware, when its handler returns. *)
Lemma middleware_done {S} Status (h : request -> M (served S) unit) r st m s w :
  h r st = ((m, s, w), Done tt) ->
  middleware Status h r st =
  if text_ok (Path (RUrl r))
  then ((MkMetrics (Inc (request_labels Status r w) (reqs m)) (proxiedReqs m) (heartbeats m), s, w),
        Done tt)
  else ((m, s, w), Panic).
Proof.
  intros H. unfold middleware. unfold_M. rewrite H. unfold the_writer, on_metrics, inc_reqs.
  rewrite request_labels_valid. by destruct (text_ok _).
Qed.

(** A proxied request whose response arrives, or that fails. *)
Lemma revProxy_response {S} lib_text Director app r (s : S) m w code body :
  app (Request (Method r) (Director (RUrl r)) (Body r)) = BackendResponse code body true ->
  text_ok (Path (Director (RUrl r))) = true ->
  exists l, revProxy_ServeHTTP lib_text Director app r (m, s, w) =
    ((MkMetrics (reqs m) (Inc l (proxiedReqs m)) (heartbeats m), s,
      Write (Raw body) (WriteHeader code w)), Done tt) /\
    l = Labels (Path (Director (RUrl r))) (method_text (Method r)) (dec_Print code) notAvailable.
Proof.
  intros Ha Ht. eexists. split; [|reflexivity]. unfold revProxy_ServeHTTP. rewrite Ha.
  unfold on_metrics, checkRevProxyResp, inc_proxiedReqs, labels_valid. unfold_M.
  cbn [reqPath reqMethod respStatus respErr Path RUrl Method].
  rewrite Ht, (digits_text_ok _ (dec_Print_digits _)). by destruct (Method r).
Qed.

Lemma revProxy_error {S} lib_text Director app r (s : S) m w err_text :
  app (Request (Method r) (Director (RUrl r)) (Body r)) = BackendError err_text ->
  text_ok (Path (Director (RUrl r))) = true -> text_ok err_text = true ->
  exists l, revProxy_ServeHTTP lib_text Director app r (m, s, w) =
    ((MkMetrics (reqs m) (Inc l (proxiedReqs m)) (heartbeats m), s,
      WriteHeader StatusBadGateway w), Done tt) /\
    l = Labels (Path (Director (RUrl r))) (method_text (Method r)) notAvailable err_text.
Proof.
  intros Ha Ht He. eexists. split; [|reflexivity]. unfold revProxy_ServeHTTP. rewrite Ha.
  unfold checkRevProxyErr, on_metrics, inc_proxiedReqs, labels_valid. unfold_M.
  cbn [reqPath reqMethod respStatus respErr Path RUrl Method].
  rewrite Ht, He. by destruct (Method r).
Qed.

(** Serve requests through the middleware, each on a fresh connection. *)
Fixpoint serve_counted {S} (Status : respw -> Z) (h : request -> M (served S) unit)
    (rs : list request) (m : metrics) (s : S) : metrics * S :=
  match rs with
  | [] => (m, s)
  | r :: rs' =>
      let '((m', s', _), _) := middleware Status h r (m, s, new_respw) in
      serve_counted Status h rs' m' s'
  end.

(** C38: Requests are counted exactly once, if their paths are UTF-8.  Let the
    handlers return, and leave the request counters alone, which no handler of this
    program touches; they may change the counters of the reverse proxy.  Then a sequence of
    requests with such paths adds its number to the total, and each raises by one
    exactly the counter of its own path, method and status; a response without
    an explicit status, which the client sees as 200, is counted with status 0.
    A request whose path is not UTF-8 is not counted: the middleware panics after
    the handler has run, and the server drops the connection.  And a request that
    the reverse proxy passes on raises both totals by one, that of the requests
    and that of the proxied requests, whether the application answers or the
    client is told 502. *)
Theorem middleware_counts {S} (Status : respw -> Z) (h : request -> M (served S) unit)
    lib_text Director (app : request -> backend) (rs : list request) (m : metrics) (s : S) :
  (forall w, Status w = default 0 (wstatus w)) ->
  (forall r m s w, exists m' s' w', h r (m, s, w) = ((m', s', w'), Done tt) /\ reqs m' = reqs m) ->
  (Forall (fun r => text_ok (Path (RUrl r)) = true) rs ->
   total (reqs (serve_counted Status h rs m s).1) = total (reqs m) + len rs) /\
  (forall r, text_ok (Path (RUrl r)) = true ->
   exists m' s' w', middleware Status h r (m, s, new_respw) = ((m', s', w'), Done tt) /\
     (forall l, default 0 (reqs m' !! l) = default 0 (reqs m !! l) +
        if decide (l = request_labels Status r w') then 1 else 0) /\
     (wstatus w' = None -> status w' = 200 /\ respStatus (request_labels Status r w') = str "0")) /\
  (forall r, text_ok (Path (RUrl r)) = false ->
   exists m' s' w', middleware Status h r (m, s, new_respw) = ((m', s', w'), Panic) /\
     reqs m' = reqs m) /\
  (forall r, let outreq := Request (Method r) (Director (RUrl r)) (Body r) in
   text_ok (Path (RUrl r)) = true -> text_ok (Path (RUrl outreq)) = true ->
   match app outreq with
   | BackendResponse _ _ complete => complete = true
   | BackendError err_text => text_ok err_text = true
   end ->
   exists m' w', middleware Status (revProxy_ServeHTTP lib_text Director app) r (m, s, new_respw) =
       ((m', s, w'), Done tt) /\
     total (reqs m') = total (reqs m) + 1 /\ total (proxiedReqs m') = total (proxiedReqs m) + 1 /\
     status w' = match app outreq with
                 | BackendResponse code _ _ => code
                 | BackendError _ => StatusBadGateway
                 end).
Proof.
  intros Hst Hh. split_and!.
  - intros Hrs. revert m s. induction Hrs as [|r rs Hr _ IH]; intros m s; cbn [serve_counted];
      [rewrite len_nil; simpl; lia|].
    destruct (Hh r m s new_respw) as (m1 & s1 & w1 & E & Hm).
    rewrite (middleware_done _ _ _ _ _ _ _ E), Hr, IH, len_cons. cbn [reqs].
    rewrite total_Inc, Hm. lia.
  - intros r Hr. destruct (Hh r m s new_respw) as (m1 & s1 & w1 & E & Hm).
    do 3 eexists. split; [by rewrite (middleware_done _ _ _ _ _ _ _ E), Hr|]. cbn [reqs].
    split; [intros l; rewrite lookup_Inc, Hm; done|].
    intros Hw. unfold status, request_labels. rewrite Hst, Hw. done.
  - intros r Hr. destruct (Hh r m s new_respw) as (m1 & s1 & w1 & E & Hm).
    do 3 eexists. split; [by rewrite (middleware_done _ _ _ _ _ _ _ E), Hr|done].
  - intros r outreq Hr Ho Happ. destruct (app outreq) as [code body complete|err_text] eqn:Ea.
    + rewrite Happ in Ea. destruct (revProxy_response lib_text Director app r s m new_respw code body Ea Ho)
        as (l & E & _).
      do 2 eexists. split; [by rewrite (middleware_done _ _ _ _ _ _ _ E), Hr|]. cbn [reqs proxiedReqs].
      by rewrite !total_Inc.
    + destruct (revProxy_error lib_text Director app r s m new_respw err_text Ea Ho Happ) as (l & E & _).
      do 2 eexists. split; [by rewrite (middleware_done _ _ _ _ _ _ _ E), Hr|]. cbn [reqs proxiedReqs].
      by rewrite !total_Inc.
Qed.

Definition silent_handler (r : request) : M (served unit) unit := mret tt.

Definition sample_path (p : bytes) : request := Request GET (URL [] [] p []) [].

Lemma middleware_counts_witness :
  total (reqs (serve_counted (fun w => default 0 (wstatus w)) silent_handler
    [sample_path (str "/enclave"); sample_path []] newMetrics tt).1) = 2 /\
  (middleware (fun w => default 0 (wstatus w)) silent_handler (sample_path [Byte.xff])
    (newMetrics, tt, new_respw)).2 = Panic.
Proof.
  destruct (middleware_counts (fun w => default 0 (wstatus w)) silent_handler (fun _ => []) (fun u => u)
    (fun _ => BackendError (str "refused")) [sample_path (str "/enclave"); sample_path []]
    newMetrics tt) as (Htotal & _ & Hpanic & _).
  - reflexivity.
  - intros r m s w. exists m, s, w. split; reflexivity.
  - split; [apply Htotal; repeat constructor|].
    destruct (Hpanic (sample_path [Byte.xff])) as (m' & s' & w' & E & _); [reflexivity|].
    rewrite E. reflexivity.
Defined.
