(* ===== verification/Enclave.v ===== *)
(** * Enclave: the enclave object of [enclave.go]

    The enclave object: its construction with the routes of its three Web
    servers and their middleware, and the set-up of leaders and, after a
    synchronization, of workers.  [tls.X509KeyPair] is a parameter. *)
From Stdlib Require Import ZArith Lia.
From Stdlib Require Import Strings.Byte Strings.String.
From stdpp Require Import base gmap strings list fin_maps relations.
From S2P Require Import Prelude Codec System Http Keys Attestation SyncWorker Config Handlers Caches.

Local Open Scope Z_scope.

(** ** Routes *)

Inductive server := ExtPub | ExtPriv | Internal.

Inductive handler :=
  | HProfiler | HAttestation | HRoot | HConfig | HProxy        (* public *)
  | HSync | HGetLeader | HGone | HHeartbeat                    (* between enclaves *)
  | HReady | HGetState | HPutState | HHash                     (* enclave application *).

#[export] Instance server_eq_dec : EqDecision server.
Proof. solve_decision. Defined.
#[export] Instance handler_eq_dec : EqDecision handler.
Proof. solve_decision. Defined.

(** A registration: the server, the method ([None] for all of them), the
    pattern and the handler. *)
Record route := Route { r_srv : server; r_method : option method; r_path : bytes; r_handler : handler }.

#[export] Instance route_eq_dec : EqDecision route.
Proof. solve_decision. Defined.

Definition pathProxy : bytes := str "/*".

(** Registering a pattern again replaces its handler. *)
Definition add_route (r : route) (rs : list route) : list route :=
  List.filter (fun r' => negb (bool_decide
    (r_srv r' = r_srv r /\ r_method r' = r_method r /\ r_path r' = r_path r))) rs ++ [r].

Definition when {A} (b : bool) (l : list A) : list A := if b then l else [].

(** The registrations of [NewEnclave], in order. *)
Definition initial_routes (cfg : Config) : list route :=
  when (UseProfiling cfg) [Route ExtPub None pathProfiling HProfiler] ++
  [Route ExtPub (Some GET) pathAttestation HAttestation;
   Route ExtPub (Some GET) pathRoot HRoot;
   Route ExtPub (Some GET) pathConfig HConfig;
   Route ExtPriv None pathSync HSync] ++
  when (WaitForApp cfg) [Route Internal (Some GET) pathReady HReady] ++
  [Route Internal (Some GET) pathState HGetState;
   Route Internal (Some PUT) pathState HPutState;
   Route Internal (Some POST) pathHash HHash] ++
  when (bool_decide (is_Some (AppWebSrv cfg))) [Route ExtPub None pathProxy HProxy].

(** What [NewEnclave] configures besides routes: the middleware of the three
    servers in the order it is passed, keep-alive connections of the public
    server, and the reverse proxy with its target and whether the metrics are
    its callbacks. *)
Inductive mw := MwLogger | MwMetrics.

Record http_setup := HttpSetup {
  middlewares : list mw;
  keep_alives : bool;
  rev_proxy : option (goURL * bool)
}.

Definition initial_setup (cfg : Config) : http_setup :=
  HttpSetup (when (Debug cfg) [MwLogger] ++ when (0 <? PrometheusPort cfg) [MwMetrics])
    (negb (DisableKeepAlives cfg))
    ((fun u => (u, 0 <? PrometheusPort cfg)) <$> AppWebSrv cfg).

Section enclave.
(** [tls.Certificate] and [tls.X509KeyPair(cert, key)]. *)
Context {Cert : Type} (X509KeyPair : slice -> slice -> result Cert).

(** Where a server's TLS configuration takes its certificate from. *)
Inductive tls_config :=
  | TLSRetriever     (* [GetCertificate: e.httpsCert.get] *)
  | TLSAcme.         (* [certManager.TLSConfig()] *)

Record Enclave := MkEnclave {
  e_debug_attester : bool;            (* [dummyAttester] instead of [nitroAttester] *)
  e_cfg : Config;
  e_syncState : sync_state;
  e_routes : list route;
  e_pub_tls : option tls_config;
  e_priv_tls : option tls_config;
  e_hashes : AttestationHashes;
  e_workers_loop : bool;              (* [workers.start] has been started *)
  e_keys : enclaveKeys;
  e_httpsCert : option Cert;
  e_heartbeats : list url;            (* the [workerHeartbeat] goroutines *)
  e_setup : http_setup
}.

(** Functional updates, as the methods make them. *)
Definition set_syncState st e := MkEnclave (e_debug_attester e) (e_cfg e) st (e_routes e)
  (e_pub_tls e) (e_priv_tls e) (e_hashes e) (e_workers_loop e) (e_keys e) (e_httpsCert e)
  (e_heartbeats e) (e_setup e).
Definition set_routes rs e := MkEnclave (e_debug_attester e) (e_cfg e) (e_syncState e) rs
  (e_pub_tls e) (e_priv_tls e) (e_hashes e) (e_workers_loop e) (e_keys e) (e_httpsCert e)
  (e_heartbeats e) (e_setup e).
Definition set_tls pub priv e := MkEnclave (e_debug_attester e) (e_cfg e) (e_syncState e)
  (e_routes e) pub priv (e_hashes e) (e_workers_loop e) (e_keys e) (e_httpsCert e)
  (e_heartbeats e) (e_setup e).
Definition set_hashes h e := MkEnclave (e_debug_attester e) (e_cfg e) (e_syncState e)
  (e_routes e) (e_pub_tls e) (e_priv_tls e) h (e_workers_loop e) (e_keys e) (e_httpsCert e)
  (e_heartbeats e) (e_setup e).
Definition set_keys k e := MkEnclave (e_debug_attester e) (e_cfg e) (e_syncState e)
  (e_routes e) (e_pub_tls e) (e_priv_tls e) (e_hashes e) (e_workers_loop e) k (e_httpsCert e)
  (e_heartbeats e) (e_setup e).
Definition set_httpsCert c e := MkEnclave (e_debug_attester e) (e_cfg e) (e_syncState e)
  (e_routes e) (e_pub_tls e) (e_priv_tls e) (e_hashes e) (e_workers_loop e) (e_keys e)
  (Cert.set c (e_httpsCert e)) (e_heartbeats e) (e_setup e).
Definition start_loop e := MkEnclave (e_debug_attester e) (e_cfg e) (e_syncState e)
  (e_routes e) (e_pub_tls e) (e_priv_tls e) (e_hashes e) true (e_keys e) (e_httpsCert e)
  (e_heartbeats e) (e_setup e).
Definition start_heartbeat w e := MkEnclave (e_debug_attester e) (e_cfg e) (e_syncState e)
  (e_routes e) (e_pub_tls e) (e_priv_tls e) (e_hashes e) (e_workers_loop e) (e_keys e)
  (e_httpsCert e) (e_heartbeats e ++ [w]) (e_setup e).

(** ** [NewEnclave] *)
Definition NewEnclave (cfg : Config) : result Enclave :=
  match Validate cfg with
  | Some e => Err (Wrap "failed to create enclave" e)
  | None =>
      Ok (MkEnclave (Debug cfg) cfg (if isScalingEnabled cfg then inProgress else noSync)
            (initial_routes cfg) None None zero_hashes false no_keys None []
            (initial_setup cfg))
  end.

Definition getSyncState (e : Enclave) : sync_state := e_syncState e.
Definition setSyncState (st : sync_state) (e : Enclave) : Enclave := set_syncState st e.
End enclave.
Arguments Enclave : clear implicits.

Section post_sync.
Context {Cert : Type} (X509KeyPair : slice -> slice -> result Cert).

(** The certificate that a connecting client is shown. *)
Definition served_cert (e : Enclave Cert) : option Cert :=
  match e_pub_tls e with
  | Some TLSRetriever => match Cert.get (e_httpsCert e) with Ok c => Some c | Err _ => None end
  | _ => None
  end.

(** ** After a synchronization *)

(** The critical sections of [setupWorkerPostSync], one by one; [hostname] is
    what [getHostnameOrDie] returns. *)
Definition setup_section (hostname : bytes) (st : setup_stage) (keys : enclaveKeys)
    (e : Enclave Cert) : Enclave Cert * option error :=
  match st with
  | StoreAppKeys => (set_keys (setAppKeys (AppKeys keys) (e_keys e)) e, None)
  | StoreNitridingKeys =>
      (set_keys (setNitridingKeys (NitridingKey keys) (NitridingCert keys) (e_keys e)) e, None)
  | InstallCert =>
      match X509KeyPair (NitridingCert keys) (NitridingKey keys) with
      | Err err => (e, Some err)
      | Ok cert => (set_httpsCert cert e, None)
      end
  | StartHeartbeat =>
      (start_heartbeat (getSyncURL hostname (ExtPrivPort (e_cfg e))) e, None)
  end.

(** [setupWorkerPostSync] when nothing interferes. *)
Definition setupWorkerPostSync (hostname : bytes) (keys : enclaveKeys) (e : Enclave Cert)
    : Enclave Cert * option error :=
  setup_all (setup_section hostname) keys e.

(** It stores the keys as [keys.set] does, then the certificate if there is one,
    and then starts the heartbeat. *)
Lemma setupWorkerPostSync_eq hostname keys e :
  setupWorkerPostSync hostname keys e =
  let e := set_keys (keys_set keys (e_keys e)) e in
  match X509KeyPair (NitridingCert keys) (NitridingKey keys) with
  | Err err => (e, Some err)
  | Ok cert =>
      (start_heartbeat (getSyncURL hostname (ExtPrivPort (e_cfg e))) (set_httpsCert cert e), None)
  end.
Proof.
  unfold setupWorkerPostSync, setup_all. simpl. by destruct (X509KeyPair _ _).
Qed.

Definition setupLeader (e : Enclave Cert) : Enclave Cert :=
  let e := start_loop e in
  set_routes (add_route (Route ExtPriv (Some POST) pathHeartbeat HHeartbeat) (e_routes e)) e.
(** C13: After a key synchronization a worker attests to a certificate that it no
    longer serves.  [setupWorkerPostSync] installs the leader's keys and
    serves the leader's certificate from then on, but leaves the TLS key hash
    as it was, that of the worker's own discarded certificate; and every
    further synchronization starts one more heartbeat loop. *)
Theorem synced_worker_attests_old_cert hostname keys c (e : Enclave Cert) :
  X509KeyPair (NitridingCert keys) (NitridingKey keys) = Ok c ->
  e_pub_tls e = Some TLSRetriever ->
  let '(e', err) := setupWorkerPostSync hostname keys e in
  err = None /\ e_keys e' = keys /\ served_cert e' = Some c /\
  e_hashes e' = e_hashes e /\ length (e_heartbeats e') = S (length (e_heartbeats e)).
Proof.
  intros Hc Ht. rewrite setupWorkerPostSync_eq, Hc, keys_set_eq. simpl.
  unfold served_cert. simpl. rewrite Ht, length_app. simpl. rewrite Nat.add_1_r. done.
Qed.

End post_sync.

(** ** Which endpoint is on which server *)

Definition home (h : handler) : server :=
  match h with
  | HProfiler | HAttestation | HRoot | HConfig | HProxy => ExtPub
  | HSync | HGetLeader | HGone | HHeartbeat => ExtPriv
  | HReady | HGetState | HPutState | HHash => Internal
  end.

Definition at_home (r : route) : Prop := r_srv r = home (r_handler r).

Lemma add_route_elem r rs r' :
  r' ∈ add_route r rs <-> r' = r \/ r' ∈ rs /\
    ~ (r_srv r' = r_srv r /\ r_method r' = r_method r /\ r_path r' = r_path r).
Proof.
  unfold add_route. rewrite elem_of_app, list_elem_of_singleton, !list_elem_of_In, filter_In.
  rewrite negb_true_iff, bool_decide_eq_false. tauto.
Qed.

Lemma add_route_Forall (P : route -> Prop) r rs : P r -> Forall P rs -> Forall P (add_route r rs).
Proof.
  rewrite !Forall_forall. intros Hr Hrs r' [->|[H _]]%add_route_elem; auto.
Qed.

(** The initial routes, decided for each of the three options they depend on. *)
Lemma initial_routes_ok cfg :
  Forall (fun r => at_home r /\ (r_handler r = HProfiler -> UseProfiling cfg = true) /\
                   r_handler r <> HHeartbeat /\ r_path r <> pathLeader) (initial_routes cfg).
Proof.
  unfold initial_routes, when, at_home.
  destruct (UseProfiling cfg), (WaitForApp cfg), (bool_decide _); repeat constructor; done.
Qed.

(** ** A concrete enclave *)
Module SampleEnclave.

Definition sample_pair (cert key : slice) : result (slice * slice) := Ok (cert, key).

Definition sample_enclave : Enclave (slice * slice) :=
  MkEnclave false sample_config inProgress (initial_routes sample_config) None None zero_hashes
    false no_keys None [] (initial_setup sample_config).

Definition leader_keys : enclaveKeys := EnclaveKeys (Some (str "K")) (Some (str "L")) None.

Lemma synced_worker_attests_old_cert_witness :
  e_hashes (setupWorkerPostSync sample_pair (str "host") leader_keys
    (set_tls (Some TLSRetriever) (Some TLSRetriever) sample_enclave)).1 = zero_hashes.
Proof.
  refine (proj1 (proj2 (proj2 (proj2 (synced_worker_attests_old_cert sample_pair (str "host")
    leader_keys (Some (str "L"), Some (str "K"))
    (set_tls (Some TLSRetriever) (Some TLSRetriever) sample_enclave) _ _))))); reflexivity.
Defined.

End SampleEnclave.
