(* ===== verification/Certificate.v ===== *)
(** * Certificate: the HTTPS certificate and its fingerprint

    [createCertificate] of [util.go], and [genSelfSignedCert], [setupAcme] and
    [setCertFingerprint] of [enclave.go].  PEM is the model of Pem.v; key
    generation, signing and parsing of certificates ([crypto/x509] and
    [crypto/tls]) are parameters, with the class [X509] for what the code relies
    on: a certificate that was created parses back as what was asked for. *)
From Stdlib Require Import ZArith Lia.
From Stdlib Require Import Strings.Byte Strings.String.
From stdpp Require Import base gmap strings list fin_maps.
From S2P Require Import Prelude Codec Text Pem Sha256 Keys Attestation Config Handlers Caches Enclave.

Local Open Scope Z_scope.

(** ** Creating a certificate *)

Definition certificateOrg : bytes := str "AWS Nitro enclave application".

(** Nanoseconds: [time.Hour * 24 * 356]. *)
Definition certificateValidity : Z := 3600 * 1000000000 * 24 * 356.

(** The fields of [x509.Certificate] that the template sets; [t_IsCA] keeps its
    zero value. *)
Record template := Template {
  t_SerialNumber : Z;
  t_Organization : list bytes;
  t_DNSNames : list bytes;
  t_NotBefore : Z;
  t_NotAfter : Z;
  t_KeyUsageDigitalSignature : bool;
  t_ExtKeyUsageServerAuth : bool;
  t_BasicConstraintsValid : bool;
  t_IsCA : bool
}.

(** What the sources read of a parsed certificate. *)
Record x509_cert := X509Cert { IsCA : bool; x_Raw : bytes }.

(** *** [crypto/rand.Int] *)

(** [big.Int.SetBytes]: big-endian. *)
Definition SetBytes (bs : bytes) : Z := fold_left (fun v c => v * 256 + b2z c) bs 0.

(** [big.Int.BitLen] of a number that is not negative. *)
Definition BitLen (n : Z) : Z := if n =? 0 then 0 else Z.log2 n + 1.

(** Clear the bits of the first byte that no candidate below the limit has. *)
Definition mask_first (b : Z) (bs : bytes) : bytes :=
  match bs with
  | [] => []
  | c :: r => z2b (Z.land (b2z c) (Z.shiftl 1 b - 1)) :: r
  end.

(** [rand i] is what the [i]-th [io.ReadFull] puts into the buffer. *)
Fixpoint rand_candidates (fuel i k : nat) (b max : Z) (rand : nat -> result bytes) : result Z :=
  match fuel with
  | O => Err (ErrLib "out of fuel")
  | S f =>
      match rand i with
      | Err e => Err e
      | Ok bs =>
          let n := SetBytes (mask_first b (copy_array k bs)) in
          if n <? max then Ok n else rand_candidates f (S i) k b max rand
      end
  end.

(** [rand.Int(rand, max)] for a positive [max]: candidates of as many bits as
    [max - 1] has, until one is below [max]. *)
Definition rand_Int (fuel : nat) (rand : nat -> result bytes) (max : Z) : result Z :=
  let bitLen := BitLen (max - 1) in
  if bitLen =? 0 then Ok 0
  else
    let b := if bitLen mod 8 =? 0 then 8 else bitLen mod 8 in
    rand_candidates fuel 0 (Z.to_nat ((bitLen + 7) / 8)) b max rand.

Lemma SetBytes_app v bs :
  fold_left (fun v c => v * 256 + b2z c) bs v = v * 256 ^ len bs + SetBytes bs.
Proof.
  unfold SetBytes. revert v. induction bs as [|c bs IH]; intros v; [rewrite len_nil; simpl; lia|].
  cbn [fold_left]. rewrite (IH (v * 256 + b2z c)), (IH (0 * 256 + b2z c)), len_cons.
  rewrite Z.pow_add_r by (pose proof (len_nonneg bs); lia). change (256 ^ 1) with 256. ring.
Qed.

Lemma SetBytes_bound bs : 0 <= SetBytes bs < 256 ^ len bs.
Proof.
  induction bs as [|c bs IH]; [by cbn|]. unfold SetBytes. cbn [fold_left].
  rewrite SetBytes_app, len_cons. pose proof (b2z_bound c). pose proof (len_nonneg bs).
  rewrite Z.pow_add_r by lia. nia.
Qed.

(** What [createCertificate] draws: a key, the random bytes for the serial number,
    and the clock, which is read twice. *)
Record cert_draws (K : Type) := CertDraws {
  d_key : result K;
  d_serial : nat -> result bytes;
  d_now1 : Z;
  d_now2 : Z
}.
Arguments CertDraws {K}. Arguments d_key {K}. Arguments d_serial {K}.
Arguments d_now1 {K}. Arguments d_now2 {K}.

Definition serialNumberLimit : Z := Z.shiftl 1 128.

(** [rand.Int(rand.Reader, serialNumberLimit)]; the fuel is more than enough. *)
Definition serial_number (rand : nat -> result bytes) : result Z :=
  rand_Int 64 rand serialNumberLimit.

(** Sixteen random bytes are below the limit, so the first candidate is taken. *)
Lemma serial_number_eq rand :
  serial_number rand =
  match rand 0%nat with Ok bs => Ok (SetBytes (copy_array 16 bs)) | Err e => Err e end.
Proof.
  change (serial_number rand) with (rand_candidates 64 0 16 8 serialNumberLimit rand).
  cbn [rand_candidates]. destruct (rand 0%nat) as [bs|]; [|done].
  assert (Hm : mask_first 8 (copy_array 16 bs) = copy_array 16 bs).
  { destruct (copy_array 16 bs) as [|c r]; [done|]. cbn [mask_first]. f_equal.
    change (Z.shiftl 1 8 - 1) with 255.
    change (Z.land (b2z c) 255) with (Z.land (b2z c) (Z.ones 8)).
    rewrite Z.land_ones by lia. change (2 ^ 8) with 256.
    rewrite Z.mod_small by apply b2z_bound. apply z2b_b2z. }
  rewrite Hm. pose proof (SetBytes_bound (copy_array 16 bs)) as Hb.
  unfold len in Hb. rewrite length_copy_array in Hb.
  rewrite (proj2 (Z.ltb_lt _ _)); [done|]. apply Hb.
Qed.

Lemma serial_number_bound rand n : serial_number rand = Ok n -> 0 <= n < 2 ^ 128.
Proof.
  rewrite serial_number_eq. destruct (rand 0%nat) as [bs|]; [|done]. intros [= <-].
  pose proof (SetBytes_bound (copy_array 16 bs)) as Hb.
  unfold len in Hb. by rewrite length_copy_array in Hb.
Qed.

Definition cert_template (fqdn : bytes) (serialNumber now1 now2 : Z) : template :=
  Template serialNumber [certificateOrg] [fqdn] now1 (now2 + certificateValidity) true true true false.

Section create.
Context {K : Type} (CreateCertificate : template -> K -> result bytes).
Context (MarshalPKCS8PrivateKey : K -> result bytes).

(** [createCertificate]: the PEM forms of a self-signed certificate and its key. *)
Definition createCertificate (fqdn : bytes) (d : cert_draws K) : result (bytes * bytes) :=
  match d_key d with
  | Err e => Err e
  | Ok privateKey =>
      match serial_number (d_serial d) with
      | Err e => Err e
      | Ok serialNumber =>
          match CreateCertificate (cert_template fqdn serialNumber (d_now1 d) (d_now2 d)) privateKey with
          | Err e => Err e
          | Ok derBytes =>
              match EncodeToMemory (str "CERTIFICATE") derBytes with
              | None => Err (ErrLib "error encoding cert as PEM")
              | Some pemCert =>
                  match MarshalPKCS8PrivateKey privateKey with
                  | Err e => Err e
                  | Ok privBytes =>
                      match EncodeToMemory (str "PRIVATE KEY") privBytes with
                      | None => Err (ErrLib "error encoding key as PEM")
                      | Some pemKey => Ok (pemCert, pemKey)
                      end
                  end
              end
          end
      end
  end.

(** It fails only if one of the library's functions does, and what it returns are
    PEM files with exactly the signed certificate and the key. *)
Lemma createCertificate_Ok fqdn d cert key :
  createCertificate fqdn d = Ok (cert, key) ->
  exists k serial der priv, d_key d = Ok k /\ serial_number (d_serial d) = Ok serial /\
    CreateCertificate (cert_template fqdn serial (d_now1 d) (d_now2 d)) k = Ok der /\
    MarshalPKCS8PrivateKey k = Ok priv /\
    Decode cert = (Some (MkBlock (str "CERTIFICATE") ∅ der), []) /\
    Decode key = (Some (MkBlock (str "PRIVATE KEY") ∅ priv), []).
Proof.
  unfold createCertificate. intros H.
  destruct (d_key d) as [k|]; [|done]. destruct (serial_number (d_serial d)) as [serial|]; [|done].
  destruct (CreateCertificate _ k) as [der|] eqn:Ed; [|done].
  destruct (EncodeToMemory (str "CERTIFICATE") der) as [pc|] eqn:E1; [|done].
  destruct (MarshalPKCS8PrivateKey k) as [priv|] eqn:Ep; [|done].
  destruct (EncodeToMemory (str "PRIVATE KEY") priv) as [pk|] eqn:E2; [|done].
  assert (pc = cert /\ pk = key) as [-> ->] by (split; congruence).
  exists k, serial, der, priv. split_and!; try done.
  - rewrite <- (app_nil_r cert). apply Decode_Encode; try done;
      by apply (bool_decide_eq_false_1 (_ ∈ str "CERTIFICATE")).
  - rewrite <- (app_nil_r key). apply Decode_Encode; try done;
      by apply (bool_decide_eq_false_1 (_ ∈ str "PRIVATE KEY")).
Qed.
End create.

(** What is documented of [crypto/x509]: [CreateCertificate] makes a certificate
    that [ParseCertificate] accepts, with the template's basic constraints and
    the DER bytes as its raw content. *)
Class X509 {K} (CreateCertificate : template -> K -> result bytes)
    (ParseCertificate : bytes -> result x509_cert) : Prop := {
  parse_created t k der : CreateCertificate t k = Ok der -> t_BasicConstraintsValid t = true ->
    exists x, ParseCertificate der = Ok x /\ IsCA x = t_IsCA t /\ x_Raw x = der
}.

(** ** Installing a certificate *)

(** [copy(dst[:], src)]: what lies beyond the source keeps its value. *)
Definition copy_into (dst src : bytes) : bytes :=
  take (length dst) src ++ drop (length src) dst.

Definition errMockFp : error := ErrLib "failed to decode mock certificate fingerprint hex".
Definition errNoPEM : error := ErrLib "pem.Decode failed".

Section certificates.
Context {Cert : Type} (X509KeyPair : slice -> slice -> result Cert).
Context (ParseCertificate : bytes -> result x509_cert).
Context {K : Type} (CreateCertificate : template -> K -> result bytes).
Context (MarshalPKCS8PrivateKey : K -> result bytes).

(** The loop of [setCertFingerprint]; its condition tests an outer [rest]
    that is never assigned, so only [return] ends it. *)
Fixpoint fingerprint_loop (fuel : nat) (rawData : bytes) : result bytes :=
  match fuel with
  | O => Err (ErrLib "out of fuel")
  | S f =>
      let '(block, rest) := Decode rawData in
      match block with
      | None => Err errNoPEM
      | Some block =>
          if bool_decide (b_Type block = str "CERTIFICATE") then
            match ParseCertificate (b_Bytes block) with
            | Err e => Err e
            | Ok cert => if negb (IsCA cert) then Ok (Sum256 (x_Raw cert))
                         else fingerprint_loop f rest
            end
          else fingerprint_loop f rest
      end
  end.

Definition setCertFingerprint (rawData : bytes) (e : Enclave Cert)
    : Enclave Cert * option error :=
  let h := e_hashes e in
  if negb (bool_decide (MockCertFp (e_cfg e) = [])) then
    match hex_Decode (MockCertFp (e_cfg e)) with
    | Err _ => (e, Some errMockFp)
    | Ok hash => (set_hashes (Hashes (copy_into (tlsKeyHash h) hash) (appKeyHash h)) e, None)
    end
  else
    match fingerprint_loop (S (length rawData)) rawData with
    | Err err => (e, Some err)
    | Ok fp => (set_hashes (Hashes fp (appKeyHash h)) e, None)
    end.

Definition genSelfSignedCert (d : cert_draws K) (e : Enclave Cert)
    : Enclave Cert * option error :=
  match createCertificate CreateCertificate MarshalPKCS8PrivateKey (FQDN (e_cfg e)) d with
  | Err err => (e, Some err)
  | Ok (cert, key) =>
      match setCertFingerprint cert e with
      | (e, Some err) => (e, Some err)
      | (e, None) =>
          let e := set_keys (setNitridingKeys (Some key) (Some cert) (e_keys e)) e in
          match X509KeyPair (Some cert) (Some key) with
          | Err err => (e, Some err)
          | Ok tlsCert =>
              let e := set_httpsCert tlsCert e in
              (set_tls (Some TLSRetriever) (Some TLSRetriever) e, None)
          end
      end
  end.

(** [setupAcme]: only the public server gets a TLS configuration.  The
    fingerprint is set by a goroutine, once the certificate is there. *)
Definition setupAcme (e : Enclave Cert) : Enclave Cert * option error :=
  (set_tls (Some TLSAcme) (e_priv_tls e) e, None).

(** The goroutine of [setupAcme]: what successive [cache.Get]s return. *)
Fixpoint acme_goroutine (gets : list (result bytes)) (e : Enclave Cert)
    : Enclave Cert * outcome unit :=
  match gets with
  | [] => (e, Blocked)
  | Err _ :: gets' => acme_goroutine gets' e
  | Ok rawData :: _ =>
      match setCertFingerprint rawData e with
      | (e', Some _) => (e', Exit)
      | (e', None) => (e', Done tt)
      end
  end.
End certificates.

Section certificate_laws.
Context {Cert : Type} (X509KeyPair : slice -> slice -> result Cert).
Context (ParseCertificate : bytes -> result x509_cert).
Context {K : Type} (CreateCertificate : template -> K -> result bytes).
Context (MarshalPKCS8PrivateKey : K -> result bytes).

(** The blocks of a PEM file, in order. *)
Inductive pem_blocks : bytes -> list Block -> Prop :=
  | pem_end data rest : Decode data = (None, rest) -> pem_blocks data []
  | pem_more data b rest bs :
      Decode data = (Some b, rest) -> pem_blocks rest bs -> pem_blocks data (b :: bs).

(** The first certificate that is not a CA's. *)
Fixpoint leaf_cert (bs : list Block) : result x509_cert :=
  match bs with
  | [] => Err errNoPEM
  | b :: bs' =>
      if bool_decide (b_Type b = str "CERTIFICATE") then
        match ParseCertificate (b_Bytes b) with
        | Err e => Err e
        | Ok cert => if IsCA cert then leaf_cert bs' else Ok cert
        end
      else leaf_cert bs'
  end.

Lemma pem_blocks_total data : exists bs, pem_blocks data bs.
Proof.
  induction data as [data IH] using list_len_ind.
  destruct (Decode data) as [[b|] rest] eqn:E; [|exists []; by econstructor].
  destruct (IH rest (Decode_consumes _ _ _ E)) as [bs Hbs]. exists (b :: bs). by econstructor.
Qed.

Lemma fingerprint_loop_leaf fuel data bs :
  pem_blocks data bs -> (length data < fuel)%nat ->
  fingerprint_loop ParseCertificate fuel data =
  match leaf_cert bs with Ok c => Ok (Sum256 (x_Raw c)) | Err e => Err e end.
Proof.
  intros Hbs. revert fuel.
  induction Hbs as [data rest E|data b rest bs E _ IH]; intros [|f] Hf; try lia;
    cbn [fingerprint_loop leaf_cert]; rewrite E; [done|].
  apply Decode_consumes in E. case_bool_decide; [|apply IH; lia].
  destruct (ParseCertificate (b_Bytes b)) as [c|]; [|done].
  destruct (IsCA c); simpl; [apply IH; lia|done].
Qed.

(** C37: The fingerprint in attestation documents is that of the server's own
    certificate.  For every input the loop over the PEM blocks ends; it sets
    the TLS key hash to the SHA-256 of the first certificate that is not a
    CA's, leaving the application's hash alone, and reports an error and
    changes nothing if a certificate before it is malformed or there is no
    such certificate. *)
Theorem setCertFingerprint_leaf (data : bytes) (e : Enclave Cert) :
  MockCertFp (e_cfg e) = [] ->
  exists bs, pem_blocks data bs /\
    setCertFingerprint ParseCertificate data e =
    match leaf_cert bs with
    | Ok c => (set_hashes (Hashes (Sum256 (x_Raw c)) (appKeyHash (e_hashes e))) e, None)
    | Err err => (e, Some err)
    end.
Proof.
  intros Hm. destruct (pem_blocks_total data) as [bs Hbs]. exists bs. split; [done|].
  unfold setCertFingerprint. rewrite Hm, bool_decide_eq_true_2 by done. cbn [negb].
  rewrite (fingerprint_loop_leaf _ _ bs) by (done || lia). by destruct (leaf_cert bs).
Qed.

Lemma setCertFingerprint_first data der rest x (e : Enclave Cert) :
  MockCertFp (e_cfg e) = [] ->
  Decode data = (Some (MkBlock (str "CERTIFICATE") ∅ der), rest) ->
  ParseCertificate der = Ok x -> IsCA x = false ->
  setCertFingerprint ParseCertificate data e =
  (set_hashes (Hashes (Sum256 (x_Raw x)) (appKeyHash (e_hashes e))) e, None).
Proof.
  intros Hm Hd Hx Hca. unfold setCertFingerprint. rewrite Hm, bool_decide_eq_true_2 by done.
  cbn [negb fingerprint_loop]. rewrite Hd. cbn [b_Type b_Bytes].
  rewrite bool_decide_eq_true_2, Hx, Hca by done. done.
Qed.

(** The goroutine of [setupAcme] ends the process exactly if the first
    certificate that the cache returns has no fingerprint. *)
Definition first_without_fingerprint (gets : list (result bytes)) (e : Enclave Cert) : Prop :=
  exists before rawData after err,
    gets = before ++ Ok rawData :: after /\ Forall (fun r => is_ok r = false) before /\
    (setCertFingerprint ParseCertificate rawData e).2 = Some err.

Lemma acme_goroutine_Exit gets (e : Enclave Cert) :
  (acme_goroutine ParseCertificate gets e).2 = Exit <-> first_without_fingerprint gets e.
Proof.
  induction gets as [|[raw|err] gets IH]; cbn [acme_goroutine].
  - split; [done|]. by intros ([|] & ? & ? & ? & ? & _).
  - destruct (setCertFingerprint ParseCertificate raw e) as [e' [err|]] eqn:E.
    + split; [|done]. intros _. exists [], raw, gets, err. by rewrite E.
    + split; [done|]. intros (before & raw' & after & err & Hg & Hb & Hs).
      destruct before as [|r before]; simplify_eq/=; [by rewrite E in Hs|]. by inversion Hb.
  - rewrite IH. split.
    + intros (before & raw' & after & err' & -> & Hb & Hs). exists (Err err :: before), raw', after, err'.
      split_and!; [done|by constructor|done].
    + intros (before & raw' & after & err' & Hg & Hb & Hs).
      destruct before as [|r before]; simplify_eq/=. inversion Hb. by exists before, raw', after, err'.
Qed.

(** C15: With a self-signed certificate, attestation and TLS agree, unless a mock
    fingerprint is configured.  If none is, then once [genSelfSignedCert] has
    succeeded, it has asked for a certificate for the configured name with a
    serial number that [rand.Int] drew, from 0 to 2^128 - 1, and a validity of
    [certificateValidity], clients of the external servers are shown that
    certificate, the attested TLS key hash is the SHA-256 of exactly its DER
    bytes, and the same certificate and key are what the leader is going to
    share with its workers. *)
Theorem self_signed_cert_is_attested d (e e' : Enclave Cert) :
  X509 CreateCertificate ParseCertificate -> MockCertFp (e_cfg e) = [] ->
  genSelfSignedCert X509KeyPair ParseCertificate CreateCertificate MarshalPKCS8PrivateKey d e =
    (e', None) ->
  exists k serial der cert key c,
    CreateCertificate (cert_template (FQDN (e_cfg e)) serial (d_now1 d) (d_now2 d)) k = Ok der /\
    serial_number (d_serial d) = Ok serial /\ 0 <= serial < 2 ^ 128 /\
    Decode cert = (Some (MkBlock (str "CERTIFICATE") ∅ der), []) /\
    X509KeyPair (Some cert) (Some key) = Ok c /\ served_cert e' = Some c /\
    e_hashes e' = Hashes (Sum256 der) (appKeyHash (e_hashes e)) /\
    e_keys e' = EnclaveKeys (Some key) (Some cert) (AppKeys (e_keys e)) /\
    e_pub_tls e' = Some TLSRetriever /\ e_priv_tls e' = Some TLSRetriever.
Proof.
  intros HX Hm H. unfold genSelfSignedCert in H.
  destruct (createCertificate _ _ _ d) as [[cert key]|] eqn:E; [|done].
  apply createCertificate_Ok in E as (k & serial & der & priv & Hk & Hs & Hd & Hp & Dc & Dk).
  destruct (parse_created _ _ _ Hd) as (x & Hx & Hca & Hraw); [done|].
  rewrite (setCertFingerprint_first cert der [] x), Hraw in H by done.
  destruct (X509KeyPair _ _) as [c|] eqn:Ec; [|done]. injection H as <-.
  pose proof (serial_number_bound _ _ Hs).
  exists k, serial, der, cert, key, c. split_and!; done || lia.
Qed.

(** It fails only if the library does: if a key, a serial number and a signature
    are there and the pair is accepted, the certificate is installed. *)
Theorem genSelfSignedCert_succeeds d k serial der priv (e : Enclave Cert) :
  X509 CreateCertificate ParseCertificate -> MockCertFp (e_cfg e) = [] ->
  d_key d = Ok k -> serial_number (d_serial d) = Ok serial ->
  CreateCertificate (cert_template (FQDN (e_cfg e)) serial (d_now1 d) (d_now2 d)) k = Ok der ->
  MarshalPKCS8PrivateKey k = Ok priv ->
  (forall cert key, is_ok (X509KeyPair (Some cert) (Some key)) = true) ->
  (genSelfSignedCert X509KeyPair ParseCertificate CreateCertificate MarshalPKCS8PrivateKey d e).2 = None.
Proof.
  intros HX Hm Hk Hs Hd Hp Hpair.
  assert (Hc : exists cert key,
    createCertificate CreateCertificate MarshalPKCS8PrivateKey (FQDN (e_cfg e)) d = Ok (cert, key)).
  { unfold createCertificate. rewrite Hk, Hs, Hd. unfold EncodeToMemory. rewrite Hp. eauto. }
  destruct Hc as (cert & key & Hc). unfold genSelfSignedCert. rewrite Hc.
  apply createCertificate_Ok in Hc as (k' & s' & der' & priv' & _ & _ & Hd' & _ & Dc & _).
  destruct (parse_created _ _ _ Hd') as (x & Hx & Hca & _); [done|].
  rewrite (setCertFingerprint_first cert der' [] x) by done.
  specialize (Hpair cert key). by destruct (X509KeyPair _ _).
Qed.
End certificate_laws.

(** ** Concrete runs *)
Module SampleCert.
Import SampleEnclave.

(** Certificates of two bytes: whether it is a CA's, and the key. *)
Definition sample_create (t : template) (k : byte) : result bytes :=
  Ok [if t_IsCA t then Byte.x01 else Byte.x00; k].

Definition sample_parse (der : bytes) : result x509_cert :=
  match der with
  | [] => Err (ErrLib "x509: malformed certificate")
  | c :: _ => Ok (X509Cert (Byte.eqb c Byte.x01) der)
  end.

Definition sample_marshal (k : byte) : result bytes := Ok [k].

Definition sample_draws : cert_draws byte := CertDraws (Ok Byte.x2a) (fun _ => Ok (replicate 16 Byte.xff)) 0 0.

#[export] Instance sample_x509 : X509 sample_create sample_parse.
Proof.
  split. intros t k der [= <-] _. eexists. split; [reflexivity|]. simpl. by destruct (t_IsCA t).
Qed.

(** A chain: a CA's certificate before the server's own. *)
Definition sample_chain : bytes :=
  sbytes (EncodeToMemory (str "CERTIFICATE") [Byte.x01; Byte.x07]) ++
  sbytes (EncodeToMemory (str "CERTIFICATE") [Byte.x00; Byte.x08]).

Lemma setCertFingerprint_leaf_witness :
  tlsKeyHash (e_hashes (setCertFingerprint sample_parse sample_chain sample_enclave).1) =
  Sum256 [Byte.x00; Byte.x08].
Proof.
  destruct (setCertFingerprint_leaf sample_parse sample_chain sample_enclave)
    as (bs & Hbs & H); [reflexivity|].
  vm_compute. reflexivity.
Defined.

Lemma self_signed_cert_is_attested_witness :
  exists k serial der, sample_create
    (cert_template (str "example.com") serial 0 0) k = Ok der /\ 0 <= serial < 2 ^ 128 /\
    e_hashes (genSelfSignedCert sample_pair sample_parse sample_create sample_marshal sample_draws
      sample_enclave).1 = Hashes (Sum256 der) (appKeyHash zero_hashes).
Proof.
  assert (E : (genSelfSignedCert sample_pair sample_parse sample_create sample_marshal sample_draws
    sample_enclave).2 = None).
  { apply (genSelfSignedCert_succeeds sample_pair sample_parse sample_create sample_marshal
      sample_draws Byte.x2a (2 ^ 128 - 1) [Byte.x00; Byte.x2a] [Byte.x2a]);
      [exact sample_x509|reflexivity..]. }
  destruct (self_signed_cert_is_attested sample_pair sample_parse sample_create sample_marshal
    sample_draws sample_enclave _ sample_x509 eq_refl (eq_trans (surjective_pairing _)
      (f_equal (pair _) E))) as (k & serial & der & cert & key & c & Hd & _ & Hb & _ & _ & _ & Hh & _).
  exists k, serial, der. split; [exact Hd|]. split; [exact Hb|exact Hh].
Defined.

End SampleCert.
