(* ===== verification/Startup.v ===== *)
(** * Startup: starting and stopping the enclave

    The host name of [util.go], leader designation, registration and heartbeats
    of workers, the Web servers, and [Start] and [Stop] of [enclave.go].  What
    happens on channels, timers and the network is a sequence of events; the
    answers of the operating system are arguments. *)
From Stdlib Require Import ZArith Lia.
From Stdlib Require Import Strings.Byte Strings.String.
From stdpp Require Import base gmap strings list fin_maps relations.
From S2P Require Import Prelude Codec Json System Http Nonce Errors Keys Attestation SyncWorker HttpClient SyncLeader.
From S2P Require Import Config Proxy Handlers Caches Metrics Enclave Certificate.

Local Open Scope Z_scope.

(** ** The host name *)

Definition maxTokenLen : Z := 100.
Definition maxHostnameLen : Z := 255.

(** [getLocalEC2Hostname]: a session token from the metadata service, then the
    host name with that token.  The status of the responses is not looked at. *)
Definition getLocalEC2Hostname (req1 : option error) (do1 : result response)
    (req2 : option error) (do2 : bytes -> result response) : result bytes :=
  match req1 with
  | Some e => Err e
  | None =>
      match do1 with
      | Err e => Err e
      | Ok resp =>
          match Reader.ReadAll (Reader.newLimitReader (RBody resp) maxTokenLen) with
          | (_, Some e) => Err e
          | (token, None) =>
              match req2 with
              | Some e => Err e
              | None =>
                  match do2 token with
                  | Err e => Err e
                  | Ok resp =>
                      match Reader.ReadAll (Reader.newLimitReader (RBody resp) maxHostnameLen) with
                      | (_, Some e) => Err e
                      | (body, None) => Ok body
                      end
                  end
              end
          end
      end
  end.

(** [getLocalAddr]; [addr] is the local address of the dialled connection. *)
Definition getLocalAddr (addr : result bytes) : outcome bytes :=
  match addr with
  | Err _ => Exit
  | Ok a => match SplitHostPort a with
            | Err _ => Exit
            | Ok (host, _) => Done host
            end
  end.

(** The loop of [getHostnameOrDie] over what its attempts return. *)
Fixpoint hostname_attempts (retries : nat) (attempts : list (result bytes)) : outcome bytes :=
  match retries with
  | O => Exit
  | S n => match attempts with
           | [] => Blocked
           | Ok hostname :: _ => Done hostname
           | Err _ :: rest => hostname_attempts n rest
           end
  end.

Definition getHostnameOrDie (inEnclave : bool) (addr : result bytes)
    (attempts : list (result bytes)) : outcome bytes :=
  if negb inEnclave then getLocalAddr addr else hostname_attempts 5 attempts.

(** A host name from the metadata service has at most 255 bytes. *)
Lemma getLocalEC2Hostname_bound req1 do1 req2 do2 h :
  getLocalEC2Hostname req1 do1 req2 do2 = Ok h -> len h <= maxHostnameLen.
Proof.
  unfold getLocalEC2Hostname. intros H.
  destruct req1; [done|]. destruct do1 as [resp|]; [|done].
  destruct (Reader.ReadAll (Reader.newLimitReader (RBody resp) maxTokenLen)) as [token [e|]]; [done|].
  destruct req2; [done|]. destruct (do2 token) as [resp'|]; [|done].
  rewrite Reader.ReadAll_limited in H by done.
  pose proof (Reader.read_limited_bound maxHostnameLen (RBody resp') ltac:(done)) as Hb.
  destruct (Reader.read_limited _ _) as [body [e|]]; [done|]. by injection H as <-.
Qed.

(** Five failed attempts end the process; a success before is returned. *)
Lemma hostname_attempts_spec n attempts :
  (n <= length attempts)%nat ->
  hostname_attempts n attempts =
  match list_find (fun r => is_ok r = true) (take n attempts) with
  | Some (_, Ok h) => Done h
  | _ => Exit
  end.
Proof.
  revert attempts. induction n as [|n IH]; intros [|[h|e] attempts] Hl; simpl in *; try done; [lia|].
  rewrite IH by lia. destruct (list_find _ (take n attempts)) as [[i [h|e']]|]; done.
Qed.

(** ** Starting and stopping *)

(** What the [select] of [weAreLeader] receives. *)
Inductive lead_event :=
  | LStop                     (* [e.stop] was closed *)
  | LErr                      (* [errChan]: the endpoint cannot be reached yet *)
  | LAreWe (b : bool)         (* [areWeLeader]: the endpoint said 410 *)
  | LWeAre                    (* our own handler saw our nonce *)
  | LTimeout.                 (* ten seconds have passed *)

(** What [makeLeaderRequest] sends to [weAreLeader] for a response. *)
Definition makeLeaderRequest (resp : result response) : lead_event :=
  match resp with
  | Err _ => LErr
  | Ok resp => if StatusCode resp =? StatusGone then LAreWe false else LErr
  end.

(** What the [select] of [registerWith] receives; [register] sends its error,
    or nil, on [errChan]. *)
Inductive reg_event :=
  | RResult (err : option error)
  | RTimeout
  | RRetry.

(** The goroutine [register] of [registerWith]. *)
Definition register_result (resp : result response) : option error :=
  match resp with
  | Err e => Some e
  | Ok resp => if negb (StatusCode resp =? StatusOK)
               then Some (ErrLib "leader returned another HTTP code")
               else None
  end.

(** The loop of [registerWith]: the number of requests made and the result. *)
Fixpoint registerWith (evs : list reg_event) (requests : Z) : outcome (Z * option error) :=
  match evs with
  | [] => Blocked
  | RResult None :: _ => Done (requests, None)
  | RResult (Some _) :: evs' => registerWith evs' requests
  | RTimeout :: _ => Done (requests, Some (ErrLib "timed out syncing with leader"))
  | RRetry :: evs' => registerWith evs' (requests + 1)
  end.

(** A round of the heartbeat loop: [Tick] with the leader's answer. *)
Inductive hb_event :=
  | HbStop
  | HbTick (resp : result response).

(** The label under which a round is counted: the error of the request, the
    status if it is not 200, or none. *)
Definition heartbeat_label (lib_text : error -> bytes) (resp : result response) : bytes :=
  match resp with
  | Err e => badHb (Error lib_text e)
  | Ok resp => if negb (StatusCode resp =? StatusOK)
               then badHb (str "got status code " ++ dec_Print (StatusCode resp))
               else goodHb
  end.

(** [workerHeartbeat]: the bodies that are sent, with the enclave's keys in each
    round, and the counters.  Marshalling two strings does not fail; a label that
    is not UTF-8 makes the goroutine panic, which ends the process. *)
Fixpoint workerHeartbeat (lib_text : error -> bytes) (worker : url)
    (evs : list (hb_event * enclaveKeys)) : M metrics (list bytes) :=
  match evs with
  | [] | (HbStop, _) :: _ => mret []
  | (HbTick resp, keys) :: evs' =>
      let body := heartbeat_body keys worker in
      _ ← inc_heartbeats (heartbeat_label lib_text resp);
      bodies ← workerHeartbeat lib_text worker evs';
      mret (body :: bodies)
  end.

Section designation.
Context {Cert : Type}.
Abbreviation EM := (M (Enclave Cert)).

(** The loop of [weAreLeader], before its deferred calls. *)
Fixpoint designation (evs : list lead_event) : EM bool :=
  match evs with
  | [] => m_block
  | LStop :: _ => mret false
  | LErr :: evs' => designation evs'
  | LAreWe b :: _ => mret b
  | LWeAre :: _ => _ ← m_modify setupLeader; mret true
  | LTimeout :: _ => m_exit
  end.

(** [weAreLeader]: the handler of the designation endpoint is installed, and
    on return replaced by one that answers 410 before the state is set. *)
Definition weAreLeader (rd : rand_read) (evs : list lead_event) : EM bool :=
  match newNonce rd with
  | Err _ => m_exit
  | Ok _ =>
      _ ← m_modify (fun e => set_routes
            (add_route (Route ExtPriv (Some GET) pathLeader HGetLeader) (e_routes e)) e);
      result ← designation evs;
      _ ← m_modify (fun e => set_routes
            (add_route (Route ExtPriv (Some GET) pathLeader HGone) (e_routes e)) e);
      _ ← m_modify (setSyncState (if (result : bool) then isLeader else isWorker));
      mret result
  end.

End designation.

(** ** The Web servers *)

Inductive goroutine :=
  | GoNetworking | GoAcme | GoPrometheus | GoInternal | GoExtPriv | GoExtPub.

#[export] Instance goroutine_eq_dec : EqDecision goroutine.
Proof. solve_decision. Defined.

(** The goroutines that [startWebServers] starts. *)
Definition startWebServers (cfg : Config) : list goroutine :=
  when (0 <? PrometheusPort cfg) [GoPrometheus] ++ [GoInternal; GoExtPriv; GoExtPub].

Inductive listen_addr :=
  | TCP (addr : bytes)
  | VSOCK (port : Z).

Definition getExtListener (cfg : Config) : listen_addr :=
  if UseVsockForExtPort cfg then VSOCK (to_uint32 (ExtPubPort cfg))
  else TCP (":"%byte :: dec_Print (ExtPubPort cfg)).

(** The [Addr] fields that [NewEnclave] sets. *)
Definition extPrivAddr (cfg : Config) : listen_addr := TCP (":"%byte :: dec_Print (ExtPrivPort cfg)).
Definition intAddr (cfg : Config) : listen_addr :=
  TCP (str "127.0.0.1:" ++ dec_Print (IntPort cfg)).
Definition promAddr (cfg : Config) : listen_addr := TCP (":"%byte :: dec_Print (PrometheusPort cfg)).

Definition ErrServerClosed : error := ErrLib "http: Server closed".

(** What the goroutines meet: whether the [ready] channel is closed, whether an
    address can be listened on, what [Serve] returns in the end, what the cache
    of the ACME client returns from one [Get] to the next, and how the attempts
    at networking end. *)
Record web_env := WebEnv {
  w_ready : bool;
  w_listen : listen_addr -> option error;
  w_serve : goroutine -> option error;
  w_acme : list (result bytes);
  w_attempts : list attempt
}.

(** An error other than [http.ErrServerClosed] ends the process. *)
Definition serve_end (err : option error) : outcome unit :=
  match err with
  | Some e => if errors_Is e ErrServerClosed then Done tt else Exit
  | None => Done tt
  end.

(** [ListenAndServe]. *)
Definition listenAndServe (env : web_env) (a : listen_addr) (g : goroutine) : option error :=
  match w_listen env a with
  | Some e => Some e
  | None => w_serve env g
  end.

(** [ServeTLS(l, "", "")] and, after listening, [ListenAndServeTLS("", "")]:
    without a source of certificates in the configuration, the server tries to
    load the files named by the empty strings. *)
Definition serveTLS (env : web_env) (cfg : option tls_config) (g : goroutine) : option error :=
  match cfg with
  | None => Some (ErrLib "open : no such file or directory")
  | Some _ => w_serve env g
  end.

(** The goroutines that [Start] and [startWebServers] start; [Blocked] is waiting
    for the application, for a certificate, or for networking to end. *)
Definition web_goroutine {Cert} (ParseCertificate : bytes -> result x509_cert) (env : web_env)
    (e : Enclave Cert) (g : goroutine) : outcome unit :=
  match g with
  | GoPrometheus => serve_end (listenAndServe env (promAddr (e_cfg e)) g)
  | GoInternal => serve_end (listenAndServe env (intAddr (e_cfg e)) g)
  | GoExtPriv =>
      serve_end (match w_listen env (extPrivAddr (e_cfg e)) with
                 | Some err => Some err
                 | None => serveTLS env (e_priv_tls e) g
                 end)
  | GoExtPub =>
      if WaitForApp (e_cfg e) && negb (w_ready env) then Blocked
      else match w_listen env (getExtListener (e_cfg e)) with
           | Some _ => Exit
           | None => serve_end (serveTLS env (e_pub_tls e) g)
           end
  | GoAcme => (acme_goroutine ParseCertificate (w_acme env) e).2
  | GoNetworking =>
      match runNetworking (e_cfg e) (w_attempts env) (NetState false None ∅) with
      | Some _ => Done tt
      | None => Blocked
      end
  end.

(** ** [Start] and [Stop] *)

(** What [Start] meets on its way. *)
Record start_env (K : Type) := StartEnv {
  s_inEnclave : bool;
  s_fd : FdLimit.answers;
  s_lo : option error;                    (* [configureLoIface] *)
  s_cert : cert_draws K;                  (* [createCertificate] *)
  s_addr : result bytes;                  (* our address, outside an enclave *)
  s_ec2 : list (result bytes);            (* [getLocalEC2Hostname], in an enclave *)
  s_nonce : rand_read;
  s_designation : list lead_event;
  s_register : list reg_event
}.
Arguments StartEnv {K}. Arguments s_inEnclave {K}. Arguments s_fd {K}. Arguments s_lo {K}.
Arguments s_cert {K}. Arguments s_addr {K}. Arguments s_ec2 {K}. Arguments s_nonce {K}.
Arguments s_designation {K}. Arguments s_register {K}.

Section start.
Context {Cert : Type} (X509KeyPair : slice -> slice -> result Cert).
Context (ParseCertificate : bytes -> result x509_cert).
Context {K : Type} (CreateCertificate : template -> K -> result bytes).
Context (MarshalPKCS8PrivateKey : K -> result bytes).


(** [Start]: the enclave, the kernel's limits and the goroutines it starts.  A
    failure to raise the descriptor limit is only logged. *)
Definition Start (env : start_env K)
    : M (Enclave Cert * FdLimit.rlimit * list goroutine) (option error) :=
  fun '(e, kernel, gs) =>
  let kernel := if s_inEnclave env
    then (FdLimit.setFdLimit (s_fd env) (FdCur (e_cfg e)) (FdMax (e_cfg e)) kernel).1
    else kernel in
  match (if s_inEnclave env then s_lo env else None) with
  | Some err => ((e, kernel, gs), Done (Some (Wrap "failed to start Nitro Enclave" err)))
  | None =>
      let gs := gs ++ [GoNetworking] in
      match (if UseACME (e_cfg e) then (setupAcme e, [GoAcme])
             else (genSelfSignedCert X509KeyPair ParseCertificate CreateCertificate
                     MarshalPKCS8PrivateKey (s_cert env) e, [])) with
      | ((e, Some err), acme) =>
          ((e, kernel, gs ++ acme), Done (Some (Wrap "failed to start Nitro Enclave"
             (Wrap "failed to create certificate" err))))
      | ((e, None), acme) =>
          let gs := gs ++ acme ++ startWebServers (e_cfg e) in
          if negb (isScalingEnabled (e_cfg e)) then ((e, kernel, gs), Done None)
          else match weAreLeader (s_nonce env) (s_designation env) e with
          | (e, Done true) => ((e, kernel, gs), Done None)
          | (e, Done false) =>
              match getHostnameOrDie (s_inEnclave env) (s_addr env) (s_ec2 env) with
              | Done _ =>
                  match registerWith (s_register env) 1 with
                  | Done (_, None) => ((e, kernel, gs), Done None)
                  | Blocked => ((e, kernel, gs), Blocked)
                  | _ => ((e, kernel, gs), Exit)     (* [elog.Fatalf] *)
                  end
              | Blocked => ((e, kernel, gs), Blocked)
              | _ => ((e, kernel, gs), Exit)
              end
          | (e, Exit) => ((e, kernel, gs), Exit)
          | (e, Panic) => ((e, kernel, gs), Panic)
          | (e, Blocked) => ((e, kernel, gs), Blocked)
          end
      end
  end.

(** What the [Shutdown]s of the servers answer; how many of them were called,
    and the first error. *)
Fixpoint shutdown_all (answers : list (option error)) (n : Z) : Z * option error :=
  match answers with
  | [] => (n, None)
  | Some e :: _ => (n + 1, Some e)
  | None :: answers' => shutdown_all answers' (n + 1)
  end.

(** [Stop], on whether the [stop] channel is closed: closing it again panics. *)
Definition Stop (int pub priv prom : option error) : M bool (Z * option error) := fun stopped =>
  if stopped then (true, Panic) else (true, Done (shutdown_all [int; pub; priv; prom] 0)).
End start.

(** ** Leader designation *)
Section designation_laws.
Context {Cert : Type}.

(** The loop skips errors until the first other event. *)
Lemma designation_spec evs (e : Enclave Cert) :
  exists n post, evs = replicate n LErr ++ post /\
    match post with
    | [] => designation evs e = (e, Blocked)
    | LStop :: _ => designation evs e = (e, Done false)
    | LErr :: _ => False
    | LAreWe b :: _ => designation evs e = (e, Done b)
    | LWeAre :: _ => designation evs e = (setupLeader e, Done true)
    | LTimeout :: _ => designation evs e = (e, Exit)
    end.
Proof.
  induction evs as [|[] evs IH]; try by exists 0%nat; eexists; split; [reflexivity|].
  destruct IH as (n & post & -> & Hpost). exists (S n), post. done.
Qed.

Lemma replicate_app_inj (x : lead_event) n m l k :
  head l <> Some x -> head k <> Some x ->
  replicate n x ++ l = replicate m x ++ k -> n = m /\ l = k.
Proof.
  intros Hl Hk. revert m. induction n as [|n IH]; intros [|m]; simpl.
  - done.
  - intros ->. by destruct Hl.
  - intros <-. by destruct Hk.
  - intros [= E]. by destruct (IH m E) as [-> ->].
Qed.

Definition heartbeat_route : route := Route ExtPriv (Some POST) pathHeartbeat HHeartbeat.

Definition leader_route (h : handler) : route := Route ExtPriv (Some GET) pathLeader h.

(** Once the designation endpoint has been replaced, it is gone for good. *)
Lemma gone_routes rs r :
  (forall r', r' ∈ rs -> r_path r' = pathLeader -> r' = leader_route HGetLeader) ->
  r ∈ add_route (leader_route HGone) rs -> r_path r = pathLeader -> r_handler r = HGone.
Proof.
  intros Hrs [->|[Hr Hne]]%add_route_elem Hp; [done|].
  rewrite (Hrs r Hr Hp) in Hne. by destruct Hne.
Qed.

Lemma designation_routes cfg r :
  r ∈ add_route (leader_route HGetLeader) (initial_routes cfg) ->
  r <> heartbeat_route /\ (r_path r = pathLeader -> r = leader_route HGetLeader).
Proof.
  intros [->|[Hr _]]%add_route_elem; [done|].
  pose proof (proj1 (Forall_forall _ _) (initial_routes_ok cfg) r Hr) as (_ & _ & Hh & Hp).
  split; [by intros ->|done].
Qed.

(** C16: Leader designation settles everything that depends on it, and
    consistently.  When an enclave that was just created has been designated,
    it is the leader if and only if, after any number of failed attempts, its
    own handler saw its own nonce; the synchronization state says leader
    exactly when the worker manager is running and the heartbeat endpoint is
    there; and in either case the designation endpoint answers 410 from then
    on, which is how the others learn that they are workers. *)
Theorem designation_outcome (cfg : Config) rd evs (e e' : Enclave Cert) (leader : bool) :
  NewEnclave cfg = Ok e -> Forall (fun ev => ev <> LAreWe true) evs ->
  weAreLeader rd evs e = (e', Done leader) ->
  e_syncState e' = (if leader then isLeader else isWorker) /\
  e_workers_loop e' = leader /\ (heartbeat_route ∈ e_routes e' <-> leader = true) /\
  (forall r, r ∈ e_routes e' -> r_path r = pathLeader -> r_handler r = HGone) /\
  (leader = true <-> exists n post, evs = replicate n LErr ++ LWeAre :: post).
Proof.
  intros He Hevs. unfold NewEnclave in He. destruct (Validate cfg); [done|]. injection He as <-.
  unfold weAreLeader. destruct (newNonce rd); [|done]. unfold_M.
  fold (leader_route HGetLeader) (leader_route HGone).
  set (rs := add_route (leader_route HGetLeader) (initial_routes cfg)).
  assert (Hrs : forall r, r ∈ rs ->
    r <> heartbeat_route /\ (r_path r = pathLeader -> r = leader_route HGetLeader))
    by apply designation_routes.
  set (e1 := set_routes _ _). intros H.
  destruct (designation_spec evs e1) as (n & post & -> & Hpost).
  assert (Huniq : forall ev, ev <> LErr -> ev <> LWeAre -> head post = Some ev ->
    ~ exists m post', replicate n LErr ++ post = replicate m LErr ++ LWeAre :: post').
  { intros ev H1 H2 H3 (m & post' & E). apply replicate_app_inj in E as [_ ->]; naive_solver. }
  assert (Hb : forall post', post = LAreWe true :: post' -> False).
  { intros post' ->. apply Forall_app in Hevs as [_ Hevs]. by apply Forall_cons in Hevs as [? _]. }
  destruct post as [|[| |[]| |] post]; try done; try (by exfalso; eapply Hb);
    rewrite Hpost in H; try done; injection H as <- <-; cbn [e_syncState e_workers_loop e_routes setSyncState set_syncState
      set_routes setupLeader start_loop e1];
    (split; [done|]; split; [done|]).
  - split_and!.
    + split; [|done]. by intros [E|[[E _]%Hrs _]]%add_route_elem.
    + intros r. apply gone_routes. naive_solver.
    + split; [done|]. intros Hex. by destruct (Huniq LStop).
  - split_and!.
    + split; [|done]. by intros [E|[[E _]%Hrs _]]%add_route_elem.
    + intros r. apply gone_routes. naive_solver.
    + split; [done|]. intros Hex. by destruct (Huniq (LAreWe false)).
  - split_and!.
    + split; [done|]. intros _. apply add_route_elem. right. split; [|by intros (_ & _ & ?)].
      apply add_route_elem. by left.
    + intros r. apply gone_routes. intros r' [->|[Hr _]]%add_route_elem; [done|]. by apply Hrs.
    + split; [by eauto|done].
Qed.
End designation_laws.

(** A response never tells an enclave that it is the leader. *)
Lemma makeLeaderRequest_never_leader resp : makeLeaderRequest resp <> LAreWe true.
Proof. unfold makeLeaderRequest. repeat case_match; done. Qed.

(** ** Start *)
Section start_laws.
Context {Cert : Type} (X509KeyPair : slice -> slice -> result Cert).
Context (ParseCertificate : bytes -> result x509_cert).
Context {K : Type} (CreateCertificate : template -> K -> result bytes).
Context (MarshalPKCS8PrivateKey : K -> result bytes).

(** The routes of an enclave are where they belong. *)
Definition routes_ok (e : Enclave Cert) : Prop :=
  Forall (fun r => at_home r /\
    (r_handler r = HProfiler -> UseProfiling (e_cfg e) = true)) (e_routes e).

Lemma routes_ok_add r (e : Enclave Cert) :
  at_home r -> r_handler r <> HProfiler -> routes_ok e ->
  routes_ok (set_routes (add_route r (e_routes e)) e).
Proof. intros. by apply add_route_Forall. Qed.

Lemma routes_ok_New cfg (e : Enclave Cert) : NewEnclave cfg = Ok e -> routes_ok e.
Proof.
  unfold NewEnclave. destruct (Validate cfg); [done|]. intros [= <-].
  eapply Forall_impl; [apply (initial_routes_ok cfg)|]. simpl. tauto.
Qed.

Lemma setCertFingerprint_frame data (e : Enclave Cert) :
  e_routes (setCertFingerprint ParseCertificate data e).1 = e_routes e /\
  e_cfg (setCertFingerprint ParseCertificate data e).1 = e_cfg e /\
  e_syncState (setCertFingerprint ParseCertificate data e).1 = e_syncState e.
Proof. unfold setCertFingerprint. repeat case_match; done. Qed.

Abbreviation self_signed := (genSelfSignedCert X509KeyPair ParseCertificate CreateCertificate
  MarshalPKCS8PrivateKey).

Lemma genSelfSignedCert_frame d (e : Enclave Cert) :
  e_routes (self_signed d e).1 = e_routes e /\ e_cfg (self_signed d e).1 = e_cfg e /\
  e_syncState (self_signed d e).1 = e_syncState e /\
  ((self_signed d e).2 = None -> is_Some (e_pub_tls (self_signed d e).1) /\
     is_Some (e_priv_tls (self_signed d e).1) /\ is_Some (e_httpsCert (self_signed d e).1)).
Proof.
  unfold genSelfSignedCert. destruct (createCertificate _ _ _ _) as [[cert key]|]; [|done].
  pose proof (setCertFingerprint_frame cert e) as Hf.
  destruct (setCertFingerprint _ cert e) as [e1 [err|]]; simpl in *; [naive_solver|].
  destruct (X509KeyPair _ _); simpl; naive_solver.
Qed.

Lemma routes_ok_designation evs (e : Enclave Cert) :
  routes_ok e -> routes_ok (designation evs e).1.
Proof.
  intros He. destruct (designation_spec evs e) as (n & post & _ & Hpost).
  destruct post as [|[] post]; try done; rewrite Hpost; try done.
  by apply (routes_ok_add _ (start_loop e)).
Qed.

Lemma routes_ok_weAreLeader rd evs (e : Enclave Cert) :
  routes_ok e -> routes_ok (weAreLeader rd evs e).1.
Proof.
  intros He. unfold weAreLeader. destruct (newNonce rd); [|done]. unfold_M.
  assert (H1 : routes_ok (set_routes (add_route (leader_route HGetLeader) (e_routes e)) e))
    by by apply routes_ok_add.
  apply (routes_ok_designation evs) in H1. fold (leader_route HGetLeader).
  destruct (designation evs _) as [e2 []]; try done.
  by apply (routes_ok_add (leader_route HGone) e2).
Qed.

(** Designation leaves the configuration and the certificates' sources alone. *)
Definition tls_setup (e : Enclave Cert) := (e_cfg e, e_pub_tls e, e_priv_tls e, e_httpsCert e).

Lemma weAreLeader_frame rd evs (e : Enclave Cert) :
  tls_setup (weAreLeader rd evs e).1 = tls_setup e.
Proof.
  unfold weAreLeader. destruct (newNonce rd); [|done]. unfold_M.
  set (e1 := set_routes _ _). destruct (designation_spec evs e1) as (n & post & _ & Hpost).
  destruct post as [|[] post]; try done; by rewrite Hpost.
Qed.

(** The part of [Start] that chooses a certificate. *)
Definition start_cert (env : start_env K) (e : Enclave Cert)
    : Enclave Cert * option error * list goroutine :=
  if UseACME (e_cfg e) then (setupAcme e, [GoAcme]) else (self_signed (s_cert env) e, []).

Lemma start_cert_frame env (e : Enclave Cert) :
  e_routes (start_cert env e).1.1 = e_routes e /\ e_cfg (start_cert env e).1.1 = e_cfg e /\
  e_syncState (start_cert env e).1.1 = e_syncState e.
Proof.
  unfold start_cert. destruct (UseACME (e_cfg e)); [done|]. simpl.
  by destruct (genSelfSignedCert_frame (s_cert env) e) as (-> & -> & -> & _).
Qed.

Abbreviation start := (Start X509KeyPair ParseCertificate CreateCertificate MarshalPKCS8PrivateKey).

(** Every outcome of [Start]: it leaves the enclave as it was, or as choosing a
    certificate left it, or as designation left it after that. *)
Lemma Start_outcomes env (e e' : Enclave Cert) kernel kernel' gs gs' o :
  start env (e, kernel, gs) = ((e', kernel', gs'), o) ->
  (e' = e /\ o <> Done None) \/
  (e' = (start_cert env e).1.1 /\ ((start_cert env e).1.2 <> None -> o <> Done None)) \/
  ((start_cert env e).1.2 = None /\
   e' = (weAreLeader (s_nonce env) (s_designation env) (start_cert env e).1.1).1).
Proof.
  unfold Start. set (k := if s_inEnclave env then _ else kernel).
  destruct (if s_inEnclave env then s_lo env else None); [intros [= <- _ _ <-]; by left|].
  fold (start_cert env e). destruct (start_cert env e) as [[e1 [err|]] acme] eqn:Ec; simpl.
  { intros [= <- _ _ <-]. right. left. done. }
  destruct (isScalingEnabled (e_cfg e1)); simpl; [|intros [= <- _ _ <-]; right; by left].
  intros H. right. right. split; [done|].
  destruct (weAreLeader _ _ e1) as [e2 [[]| | |]]; repeat case_match; by injection H as <- _ _.
Qed.

(** [Start] returning nil: the certificate was made, all servers were started,
    and if the enclave scales it has been designated leader or worker. *)
Lemma Start_done env (e e' : Enclave Cert) kernel kernel' gs gs' :
  start env (e, kernel, gs) = ((e', kernel', gs'), Done None) ->
  (start_cert env e).1.2 = None /\
  gs' = gs ++ GoNetworking :: when (UseACME (e_cfg e)) [GoAcme] ++ startWebServers (e_cfg e) /\
  if isScalingEnabled (e_cfg e)
  then exists leader, weAreLeader (s_nonce env) (s_designation env) (start_cert env e).1.1 =
         (e', Done leader)
  else e' = (start_cert env e).1.1.
Proof.
  unfold Start. set (k := if s_inEnclave env then _ else kernel).
  destruct (if s_inEnclave env then s_lo env else None); [done|].
  fold (start_cert env e). pose proof (start_cert_frame env e) as (_ & Hcfg & _).
  assert (Hacme : (start_cert env e).2 = when (UseACME (e_cfg e)) [GoAcme])
    by (unfold start_cert; by destruct (UseACME (e_cfg e))).
  destruct (start_cert env e) as [[e1 [err|]] acme]; simpl in *; [done|]. subst acme.
  intros H. split; [done|]. rewrite Hcfg in H. rewrite <- app_assoc in H. simpl in H.
  destruct (isScalingEnabled (e_cfg e)); simpl in H; [|by injection H as <- _ <-].
  destruct (weAreLeader _ _ e1) as [e2 [leader| | |]]; try done. destruct leader.
  - injection H as <- _ <-. eauto.
  - repeat case_match; simplify_eq; eauto.
Qed.

(** What designation leaves of the enclave. *)
Lemma weAreLeader_done rd evs (e e' : Enclave Cert) leader :
  weAreLeader rd evs e = (e', Done leader) ->
  e_syncState e' = (if leader then isLeader else isWorker) /\
  forall r, r_srv r = Internal -> r ∈ e_routes e -> r ∈ e_routes e'.
Proof.
  unfold weAreLeader. destruct (newNonce rd); [|done]. unfold_M.
  set (e1 := set_routes _ _). destruct (designation_spec evs e1) as (n & post & _ & Hpost).
  assert (Hadd : forall r r' rs, r_srv r' = ExtPriv -> r_srv r = Internal -> r ∈ rs -> r ∈ add_route r' rs).
  { intros r r' rs Hr' Hr Hin. apply add_route_elem. right. split; [done|]. rewrite Hr, Hr'. by intros []. }
  assert (He1 : forall r, r_srv r = Internal -> r ∈ e_routes e -> r ∈ e_routes e1).
  { intros r Hr Hin. by apply Hadd. }
  destruct post as [|[] post]; try done; rewrite Hpost; try done; intros [= <- <-];
    (split; [done|]); intros r Hr Hin; apply Hadd; try done; [by apply He1..|].
  apply Hadd; [done|done|by apply He1].
Qed.

(** C17: Confidential endpoints stay off the public server.  From creation through
    every outcome of [Start], the endpoints for the enclave application (state,
    hash, ready) are only on the internal server, those between enclaves (sync,
    leader, heartbeat) only on the private one, and the profiler is only
    reachable when profiling was asked for. *)
Theorem endpoints_stay_on_their_servers cfg (e e' : Enclave Cert) env kernel kernel' gs gs' o r :
  NewEnclave cfg = Ok e ->
  start env (e, kernel, gs) = ((e', kernel', gs'), o) ->
  r ∈ e_routes e' ->
  r_srv r = home (r_handler r) /\ (r_handler r = HProfiler -> UseProfiling (e_cfg e') = true).
Proof.
  intros He%routes_ok_New Hs. revert r. apply Forall_forall. change (routes_ok e').
  assert (Hc : routes_ok (start_cert env e).1.1).
  { unfold routes_ok. by destruct (start_cert_frame env e) as (-> & -> & _). }
  apply Start_outcomes in Hs as [[-> _]|[[-> _]|[_ ->]]]; [done|done|].
  by apply routes_ok_weAreLeader.
Qed.

(** C18: A started enclave keeps serving, with one exception.  If [Start] returns
    nil, it has started networking, the internal and the two external servers,
    and the metrics server exactly if it was configured.  If their addresses can
    be listened on and they end only by being shut down, then a goroutine of the
    enclave ends the process exactly in two cases, both in ACME mode: the
    external private server, which was never given a certificate, always does,
    and the goroutine that waits for the certificate does if the first one it
    gets has no fingerprint.  The public server waits if and only if it was asked
    to wait for the application and the application is not ready; the private
    one never does. *)
Theorem started_enclave_serves cfg (e e' : Enclave Cert) env kernel kernel' gs web :
  NewEnclave cfg = Ok e ->
  start env (e, kernel, []) = ((e', kernel', gs), Done None) ->
  (forall a, w_listen web a = None) ->
  (forall g, w_serve web g = None \/ w_serve web g = Some ErrServerClosed) ->
  gs = GoNetworking :: when (UseACME cfg) [GoAcme] ++ startWebServers cfg /\
  (forall g, g ∈ gs -> web_goroutine ParseCertificate web e' g = Exit <->
     UseACME cfg = true /\ (g = GoExtPriv \/
       g = GoAcme /\ first_without_fingerprint ParseCertificate (w_acme web) e')) /\
  (web_goroutine ParseCertificate web e' GoExtPub = Blocked <->
     WaitForApp cfg = true /\ w_ready web = false) /\
  web_goroutine ParseCertificate web e' GoExtPriv <> Blocked.
Proof.
  intros He Hs Hl Hw. assert (Hcfg : e_cfg e = cfg /\ e_priv_tls e = None).
  { unfold NewEnclave in He. destruct (Validate cfg); [done|]. by injection He as <-. }
  destruct Hcfg as [Hcfg Hpriv].
  pose proof (Start_done _ _ _ _ _ _ _ Hs) as (Hok & -> & _). rewrite Hcfg. split; [done|].
  assert (Ht : tls_setup e' = tls_setup (start_cert env e).1.1).
  { apply Start_outcomes in Hs as [[_ ?]|[[-> _]|[_ ->]]]; [done|done|apply weAreLeader_frame]. }
  assert (Hsetup : e_cfg e' = cfg /\ is_Some (e_pub_tls e') /\
    (is_Some (e_priv_tls e') <-> UseACME cfg = false)).
  { injection Ht as -> -> -> _. unfold start_cert in *. rewrite Hcfg in *.
    destruct (UseACME cfg); simpl in *.
    - rewrite Hpriv. split_and!; [done|done|]. by split; [intros []|].
    - destruct (genSelfSignedCert_frame (s_cert env) e) as (_ & Hc & _ & Htls).
      destruct (Htls Hok) as (? & ? & _). split_and!; [congruence|done|done]. }
  destruct Hsetup as (Hc' & [pub Hpub] & Hpriv').
  assert (Hend : forall g, serve_end (w_serve web g) = Done tt)
    by (intros g; by destruct (Hw g) as [-> | ->]).
  split.
  - intros g Hg. destruct g; simpl; unfold listenAndServe, serveTLS; rewrite ?Hl, ?Hend, ?Hpub.
    + destruct (runNetworking _ _ _); naive_solver.
    + rewrite acme_goroutine_Exit. assert (UseACME cfg = true); [|naive_solver].
      destruct (UseACME cfg); [done|]. exfalso. revert Hg. unfold startWebServers, when.
      destruct (0 <? _); set_solver.
    + naive_solver.
    + naive_solver.
    + destruct (e_priv_tls e') as [t|]; [rewrite Hend|].
      * split; [done|]. intros [Ha _]. rewrite (proj1 Hpriv') in Ha by eauto. done.
      * split; [|done]. intros _. split; [|by left]. destruct (UseACME cfg); [done|].
        by destruct (proj2 Hpriv' eq_refl).
    + destruct (WaitForApp _ && _); [|rewrite Hend]; naive_solver.
  - simpl. rewrite Hc', !Hl. unfold serveTLS. rewrite Hpub, Hend. split.
    + destruct (WaitForApp cfg), (w_ready web); simpl; naive_solver.
    + destruct (e_priv_tls e'); [by rewrite Hend|done].
Qed.
End start_laws.

(** ** Registration and heartbeats *)

(** A worker keeps trying to register until the leader answers 200 or a
    minute has passed: [registerWith] returns nil exactly if a success comes
    before the timeout, whatever errors and retries come before, and it makes
    one request at the start and one more per tick of the retry timer. *)
Theorem registerWith_spec (evs : list reg_event) (n : Z) (err : option error) :
  registerWith evs 1 = Done (n, err) <->
  exists pre last post, evs = pre ++ last :: post /\
    Forall (fun ev => ev = RRetry \/ exists e, ev = RResult (Some e)) pre /\
    n = 1 + len (List.filter (fun ev => match ev with RRetry => true | _ => false end) pre) /\
    ((last = RResult None /\ err = None) \/
     (last = RTimeout /\ err = Some (ErrLib "timed out syncing with leader"))).
Proof.
  assert (Hgen : forall k, registerWith evs k = Done (n, err) <->
    exists pre last post, evs = pre ++ last :: post /\
    Forall (fun ev => ev = RRetry \/ exists e, ev = RResult (Some e)) pre /\
    n = k + len (List.filter (fun ev => match ev with RRetry => true | _ => false end) pre) /\
    ((last = RResult None /\ err = None) \/
     (last = RTimeout /\ err = Some (ErrLib "timed out syncing with leader")))); [|apply Hgen].
  induction evs as [|ev evs IH]; intros k.
  { split; [done|]. intros (pre & ? & ? & E & _). by destruct pre. }
  assert (Hskip : forall m, (ev = RRetry /\ m = 1) \/ ((exists e, ev = RResult (Some e)) /\ m = 0) ->
    registerWith (ev :: evs) k = registerWith evs (k + m)).
  { intros m [[-> ->]|[[e ->] ->]]; simpl; [done|by rewrite Z.add_0_r]. }
  split.
  - intros H. destruct ev as [[e|]| |].
    + rewrite (Hskip 0) in H by (right; split; [by eexists|done]).
      apply IH in H as (pre & last & post & -> & Hp & -> & Hl).
      exists (RResult (Some e) :: pre), last, post. split_and!; [done| |simpl; lia|done].
      constructor; [by right; eexists|done].
    + exists [], (RResult None), evs. simpl in H. injection H as <- <-.
      split_and!; [done|by apply Forall_nil|simpl; rewrite len_nil; lia|by left].
    + exists [], RTimeout, evs. simpl in H. injection H as <- <-.
      split_and!; [done|by apply Forall_nil|simpl; rewrite len_nil; lia|by right].
    + rewrite (Hskip 1) in H by by left. apply IH in H as (pre & last & post & -> & Hp & -> & Hl).
      exists (RRetry :: pre), last, post. split_and!; [done| | |done].
      * constructor; [by left|done].
      * simpl. rewrite len_cons. lia.
  - intros (pre & last & post & E & Hp & -> & Hl). destruct pre as [|p pre]; simplify_eq/=.
    + rewrite len_nil, Z.add_0_r. by destruct Hl as [[-> ->]|[-> ->]].
    + apply Forall_cons in Hp as [[->|[e ->]] Hp]; simpl; apply IH; exists pre, last, post;
        rewrite ?len_cons; split_and!; try done; lia.
Qed.

(** Every heartbeat reports the keys that the worker holds at that moment, and
    every round is counted, if the texts of the errors are UTF-8: the messages are
    those of the ticks before the stop, each made from the keys of its round, and
    each counter of the heartbeats grows by the number of rounds with its label;
    the other counters do not change. *)
Theorem workerHeartbeat_spec lib_text (worker : url) (ticks : list (result response * enclaveKeys))
    (rest : list (hb_event * enclaveKeys)) (k : enclaveKeys) (m : metrics) :
  Forall (fun t => text_ok (heartbeat_label lib_text t.1) = true) ticks ->
  exists m', workerHeartbeat lib_text worker
    (((fun t => (HbTick t.1, t.2)) <$> ticks) ++ (HbStop, k) :: rest) m =
    (m', Done ((fun t => heartbeat_body t.2 worker) <$> ticks)) /\
  reqs m' = reqs m /\ proxiedReqs m' = proxiedReqs m /\
  total (heartbeats m') = total (heartbeats m) + len ticks /\
  forall l, default 0 (heartbeats m' !! l) = default 0 (heartbeats m !! l) +
    len (filter (fun t => heartbeat_label lib_text t.1 = l) ticks).
Proof.
  intros Hok. revert m. induction Hok as [|[resp keys] ticks Hr _ IH]; intros m.
  - exists m. split_and!; try done; [rewrite len_nil; lia|]. intros l. unfold len. simpl. lia.
  - rewrite !fmap_cons. cbn [app workerHeartbeat fst snd] in *. unfold inc_heartbeats. unfold_M. rewrite Hr.
    destruct (IH (MkMetrics (reqs m) (proxiedReqs m)
      (Inc (heartbeat_label lib_text resp) (heartbeats m)))) as (m' & -> & H1 & H2 & Ht & Hl).
    exists m'. simpl in *. rewrite total_Inc in Ht. split_and!; try done.
    + rewrite len_cons. lia.
    + intros l. rewrite Hl, lookup_Inc, filter_cons. simpl.
      destruct (decide (l = _)), (decide (heartbeat_label _ _ = l)); rewrite ?len_cons; try lia;
        congruence.
Qed.

(** ** Concrete runs *)
Module SampleStart.
Import SampleEnclave SampleCert.

Lemma designation_outcome_witness :
  e_syncState (weAreLeader example_read [LErr; LWeAre] sample_enclave).1 = isLeader.
Proof.
  refine (proj1 (designation_outcome sample_config example_read [LErr; LWeAre] sample_enclave _ true
    _ _ eq_refl)).
  - vm_compute. reflexivity.
  - repeat constructor; discriminate.
Defined.

Definition sample_env : start_env byte :=
  StartEnv false (FdLimit.Answers None None None) None sample_draws
    (Ok (str "10.0.0.7:5000")) [] example_read [LErr; LWeAre] [].

Abbreviation sample_start := (Start sample_pair sample_parse sample_create sample_marshal sample_env
  (sample_enclave, FdLimit.Rlimit 0 0, [])).

Lemma triple_eta {A B C D} (p : A * B * C * D) : p = ((p.1.1.1, p.1.1.2, p.1.2), p.2).
Proof. by destruct p as [[[] ] ]. Qed.

Lemma endpoints_stay_on_their_servers_witness :
  Forall (fun r => r_srv r = home (r_handler r)) (e_routes sample_start.1.1.1).
Proof.
  apply Forall_forall. intros r Hr.
  refine (proj1 (endpoints_stay_on_their_servers sample_pair sample_parse sample_create sample_marshal
    sample_config sample_enclave _ sample_env (FdLimit.Rlimit 0 0) _ [] _ _ r _ _ Hr)).
  - vm_compute. reflexivity.
  - apply triple_eta.
Defined.

Definition sample_web : web_env :=
  WebEnv false (fun _ => None) (fun _ => Some ErrServerClosed) [Err ErrServerClosed] [].

Lemma started_enclave_serves_witness :
  sample_start.1.2 = [GoNetworking; GoInternal; GoExtPriv; GoExtPub].
Proof.
  assert (E : sample_start.2 = Done None) by (vm_compute; reflexivity).
  refine (proj1 (started_enclave_serves sample_pair sample_parse sample_create sample_marshal
    sample_config sample_enclave sample_start.1.1.1 sample_env (FdLimit.Rlimit 0 0)
    sample_start.1.1.2 sample_start.1.2 sample_web _ _ _ _)).
  - vm_compute. reflexivity.
  - rewrite <- E. apply triple_eta.
  - reflexivity.
  - intros g. right. reflexivity.
Defined.

End SampleStart.
