(* ===== verification/Main.v ===== *)
(** * Main: the process

    [init], [main] and [runAppCommand] of [main.go]: from the arguments of the
    process to the enclave application.  What the operating system, the network
    and the application do is passed as arguments. *)
From Stdlib Require Import ZArith Lia.
From Stdlib Require Import Strings.Byte Strings.String.
From stdpp Require Import base gmap strings list fin_maps.
From S2P Require Import Prelude Codec Text System Scanner Http Keys Attestation SyncWorker HttpClient SyncLeader.
From S2P Require Import Config Flags Handlers Caches Enclave Certificate Startup.

Local Open Scope Z_scope.

(** ** The process *)

Definition ErrNotExist : error := ErrLib "file does not exist".

(** [inEnclave], for what [os.Stat("/dev/nsm")] returns. *)
Definition init_inEnclave (stat : option error) : bool :=
  match stat with
  | None => true
  | Some err => if errors_Is err ErrNotExist then false else false
  end.

(** What the process has done so far. *)
Record process (Cert : Type) := Process {
  p_enclave : option (Enclave Cert);
  p_kernel : FdLimit.rlimit;
  p_goroutines : list goroutine;
  p_app : option (list bytes);            (* the command that was started *)
  p_stdout : list bytes; p_stderr : list bytes  (* lines that were forwarded *)
}.
Arguments Process {Cert}. Arguments p_enclave {Cert}. Arguments p_kernel {Cert}.
Arguments p_goroutines {Cert}. Arguments p_app {Cert}. Arguments p_stdout {Cert}.
Arguments p_stderr {Cert}.

Definition new_process {Cert} (kernel : FdLimit.rlimit) : process Cert :=
  Process None kernel [] None [] [].

(** What [runAppCommand] meets: the pipes, whether a command can be started,
    how it ends, and what its pipes deliver until they are closed. *)
Record app_env := AppEnv {
  a_stderr_pipe : option error; a_stdout_pipe : option error;
  a_start : list bytes -> option error; a_wait : option error;
  a_stderr : Reader.reader; a_stdout : Reader.reader
}.

(** [elog.Fatalf] if the call fails. *)
Definition or_fatal {S A} (err : option error) (k : M S A) : M S A :=
  match err with
  | Some _ => m_exit
  | None => k
  end.

Section main.
Context {Cert : Type} (X509KeyPair : slice -> slice -> result Cert).
Context (ParseCertificate : bytes -> result x509_cert).
Context {K : Type} (CreateCertificate : template -> K -> result bytes).
Context (MarshalPKCS8PrivateKey : K -> result bytes).
Context (url_Parse : bytes -> result goURL).

Abbreviation PM := (M (process Cert)).
Abbreviation start := (Start X509KeyPair ParseCertificate CreateCertificate MarshalPKCS8PrivateKey).

(** The command has started: its output is forwarded line by line. *)
Definition launched (argv : list bytes) (env : app_env) (p : process Cert) : process Cert :=
  Process (p_enclave p) (p_kernel p) (p_goroutines p) (Some argv)
    (forwardOutput (a_stdout env)).1 (forwardOutput (a_stderr env)).1.

Definition runAppCommand (appCmd : bytes) (env : app_env) : PM unit :=
  let argv := Split " "%byte appCmd in
  or_fatal (a_stderr_pipe env) (
  or_fatal (a_stdout_pipe env) (
  or_fatal (a_start env argv) (
  _ ← m_modify (launched argv env);
  or_fatal (a_wait env) (mret tt)))).

(** [enclave.Start()] on the enclave that [NewEnclave] made. *)
Definition start_enclave (env : start_env K) (e : Enclave Cert) : PM (option error) := fun p =>
  let '((e', kernel', gs'), o) := start env (e, p_kernel p, p_goroutines p) in
  (Process (Some e') kernel' gs' (p_app p) (p_stdout p) (p_stderr p), o).

Definition main (args : list bytes) (env : start_env K) (app : app_env) : PM unit :=
  match parse_command_line args with
  | None => m_exit
  | Some f =>
      match mainConfig url_Parse f with
      | None => m_exit
      | Some c =>
          match NewEnclave c with
          | Err _ => m_exit
          | Ok e =>
              err ← start_enclave env e;
              or_fatal err (
              if bool_decide (appCmd f <> []) then runAppCommand (appCmd f) app
              else m_block)
          end
      end
  end.

(** The answers that [maybeSeedEntropy] gets. *)
Record seed_env := SeedEnv {
  sd_session_ok : bool; sd_device_ok : bool; sd_rounds : list Entropy.seed_round
}.

Definition set_inEnclave (b : bool) (env : start_env K) : start_env K :=
  StartEnv b (s_fd env) (s_lo env) (s_cert env) (s_addr env) (s_ec2 env) (s_nonce env)
    (s_designation env) (s_register env).

Definition init_seed (stat : option error) (sd : seed_env) : option (outcome Entropy.pool) :=
  Entropy.maybeSeedEntropy (init_inEnclave stat) (sd_session_ok sd) (sd_device_ok sd) (sd_rounds sd).

(** The whole process: [init], then [main]. *)
Definition program (stat : option error) (sd : seed_env) (args : list bytes) (env : start_env K)
    (app : app_env) : PM unit :=
  match init_seed stat sd with
  | None => m_block
  | Some (Done _) => main args (set_inEnclave (init_inEnclave stat) env) app
  | Some _ => m_exit
  end.

(** ** The process as a whole *)

(** The endpoints that the application relies on. *)
Definition app_routes : list route :=
  [Route Internal (Some GET) pathState HGetState; Route Internal (Some PUT) pathState HPutState;
   Route Internal (Some POST) pathHash HHash].

(** An enclave that has been started is ready for the application. *)
Record enclave_ready (c : Config) (e : Enclave Cert) : Prop := {
  ready_cfg : e_cfg e = c;
  ready_state : e_syncState e <> inProgress;
  ready_noSync : e_syncState e = noSync <-> FQDNLeader c = [];
  ready_routes : Forall (fun r => r ∈ e_routes e) app_routes;
  ready_cert : UseACME c = false -> is_Some (e_httpsCert e)
}.

Lemma app_routes_initial cfg r : r ∈ app_routes -> r_srv r = Internal /\ r ∈ initial_routes cfg.
Proof.
  intros Hr. assert (Hsrv : Forall (fun r => r_srv r = Internal) app_routes) by repeat constructor.
  split; [by apply (proj1 (Forall_forall _ _) Hsrv)|].
  unfold initial_routes. rewrite !elem_of_app. right. right. right. by left.
Qed.

Lemma started_enclave_ready c (e e' : Enclave Cert) env kernel kernel' gs gs' :
  NewEnclave c = Ok e -> start env (e, kernel, gs) = ((e', kernel', gs'), Done None) ->
  enclave_ready c e' /\ GoInternal ∈ gs'.
Proof.
  intros He Hs. destruct (Start_done _ _ _ _ _ _ _ _ _ _ _ Hs) as (Hok & -> & Hd).
  assert (Hnew : e_cfg e = c /\ e_routes e = initial_routes c /\
    e_syncState e = if isScalingEnabled c then inProgress else noSync).
  { unfold NewEnclave in He. destruct (Validate c); [done|]. by injection He as <-. }
  destruct Hnew as (Hcfg & Hr & Hst).
  set (e1 := (start_cert X509KeyPair ParseCertificate CreateCertificate MarshalPKCS8PrivateKey env e).1.1)
    in *.
  assert (Hframe : tls_setup e' = tls_setup e1).
  { destruct (isScalingEnabled (e_cfg e)); [|by subst e'].
    destruct Hd as [leader Hd]. rewrite <- (weAreLeader_frame (s_nonce env) (s_designation env) e1).
    by rewrite Hd. }
  destruct (start_cert_frame X509KeyPair ParseCertificate CreateCertificate MarshalPKCS8PrivateKey env e)
    as (Hr1 & Hc1 & Hs1). fold e1 in Hr1, Hc1, Hs1.
  injection Hframe as Hc' _ _ Hcert. rewrite Hcfg in *. split.
  - split.
    + congruence.
    + destruct (isScalingEnabled c); [destruct Hd as [[] [-> _]%weAreLeader_done]; done|].
      subst e'. by rewrite Hs1, Hst.
    + unfold isScalingEnabled in *. case_bool_decide as Hf; simpl in *; [by subst e'; rewrite Hs1|].
      destruct Hd as [leader [-> _]%weAreLeader_done]. by destruct leader.
    + apply Forall_forall. intros r [Hsrv Hin]%(app_routes_initial c).
      destruct (isScalingEnabled c); [destruct Hd as [leader [_ Hkeep]%weAreLeader_done]|subst e'];
        [apply Hkeep; [done|]|]; by rewrite Hr1, Hr.
    + intros Hacme. rewrite Hcert. revert Hok. unfold e1, start_cert. rewrite Hcfg, Hacme. simpl.
      intros Hok. by apply genSelfSignedCert_frame in Hok as (_ & _ & ?).
  - unfold startWebServers. set_solver.
Qed.

(** [runAppCommand]: whether the command was started, and how it ended. *)
Lemma runAppCommand_spec cmd app p :
  p_app p = None ->
  let '(p', o) := runAppCommand cmd app p in
  p_enclave p' = p_enclave p /\ p_goroutines p' = p_goroutines p /\
  (p_app p' = None \/ p_app p' = Some (Split " "%byte cmd)) /\
  (o = Done tt <-> is_Some (p_app p') /\ a_wait app = None).
Proof.
  intros Hp. unfold runAppCommand, or_fatal. unfold_M.
  destruct (a_stderr_pipe app), (a_stdout_pipe app), (a_start app (Split " "%byte cmd)), (a_wait app); simpl;
    rewrite ?Hp; unfold is_Some; naive_solver.
Qed.

(** How [main] may have ended, and with which application. *)
Definition main_post (args : list bytes) (app : app_env) (p : process Cert) (o : outcome unit) : Prop :=
  (o = Done tt <-> is_Some (p_app p) /\ a_wait app = None) /\
  forall argv, p_app p = Some argv -> exists f c e,
    parse_command_line args = Some f /\ mainConfig url_Parse f = Some c /\
    argv = Split " "%byte (appCmd f) /\
    p_enclave p = Some e /\ enclave_ready c e /\ GoInternal ∈ p_goroutines p.

Lemma main_post_none args app p o : p_app p = None -> o <> Done tt -> main_post args app p o.
Proof. intros Hp Ho. unfold main_post. rewrite Hp. split; [|done]. split; [done|]. by intros [[] _]. Qed.

Lemma main_spec args env app kernel p o :
  main args env app (new_process kernel) = (p, o) -> main_post args app p o.
Proof.
  unfold main.
  destruct (parse_command_line args) as [f|] eqn:Hf; [|intros [= <- <-]; by apply main_post_none].
  destruct (mainConfig url_Parse f) as [c|] eqn:Hc; [|intros [= <- <-]; by apply main_post_none].
  destruct (NewEnclave c) as [e|] eqn:He; [|intros [= <- <-]; by apply main_post_none].
  unfold start_enclave. unfold_M. cbn [p_kernel p_goroutines p_app p_stdout p_stderr new_process].
  destruct (start env (e, kernel, [])) as [[[e' kernel'] gs'] [[err|]| | |]] eqn:Hs;
    try (intros [= <- <-]; by apply main_post_none).
  destruct (started_enclave_ready c e e' env kernel kernel' [] gs' He Hs) as [Hready Hint].
  unfold or_fatal. case_bool_decide as Hcmd; [|intros [= <- <-]; by apply main_post_none].
  set (p1 := Process _ _ _ _ _ _). pose proof (runAppCommand_spec (appCmd f) app p1 eq_refl) as Hrun.
  intros H. rewrite H in Hrun. destruct Hrun as (Hen & Hgs & Happ & Ho). split; [done|].
  intros argv Hargv. exists f, c, e'. rewrite Hen, Hgs. destruct Happ as [Happ|Happ]; [congruence|].
  rewrite Happ in Hargv. injection Hargv as <-. by split_and!.
Qed.

(** C12: The application is only ever run in an enclave that is ready for it.  If
    the process starts the command, then the command line was accepted, [Start]
    returned nil (in an enclave after at least 2048 random bytes had been
    written to the entropy pool): the designation of leader and workers is over,
    the internal server with the state and hash endpoints is started, and without
    ACME there is a certificate.  The command's words are those of [-appcmd]
    between single spaces.  And the process returns from [main] if and only if
    the command was started and exited with success: in all other cases it
    ends with an error or keeps running. *)
Theorem app_runs_in_started_enclave stat sd args env app kernel p o :
  program stat sd args env app (new_process kernel) = (p, o) ->
  (o = Done tt <-> is_Some (p_app p) /\ a_wait app = None) /\
  forall argv, p_app p = Some argv -> exists f c e,
    parse_command_line args = Some f /\ mainConfig url_Parse f = Some c /\
    Join " "%byte argv = appCmd f /\ Forall (fun w => " "%byte ∉ w) argv /\
    p_enclave p = Some e /\ enclave_ready c e /\ GoInternal ∈ p_goroutines p /\
    (init_inEnclave stat = true -> exists pool, init_seed stat sd = Some (Done pool) /\
       Entropy.entropySeedSize <= Entropy.totalWritten pool).
Proof.
  unfold program. destruct (init_seed stat sd) as [[pool| | |]|] eqn:Hseed.
  2-5: intros [= <- E]; by destruct (main_post_none args app (new_process kernel) o); [|rewrite <- E|].
  intros [Ho Hargv]%main_spec. split; [done|]. intros argv Ha.
  destruct (Hargv argv Ha) as (f & c & e & Hf & Hc & -> & He & Hready & Hint).
  exists f, c, e. split_and!; try done; [apply Join_Split|apply Split_pieces|].
  intros Hin. exists pool. split; [done|]. unfold init_seed in Hseed. rewrite Hin in Hseed.
  by apply Entropy.maybeSeedEntropy_done in Hseed.
Qed.

End main.

(** ** A concrete run

    Outside an enclave, the leader of a cluster starts an application that
    writes two lines and exits with success. *)
Module SampleMain.
Import SampleEnclave SampleCert SampleStart.

Definition run_args : list bytes :=
  [str "-fqdn=example.com"; str "--fqdn-leader"; str "leader.example.com"; str "-appcmd"; str "app -v"].

Definition sample_app : app_env :=
  AppEnv None None (fun _ => None) None [] [(str "hello" ++ [newline] ++ str "bye", None)].

Definition sample_run : process (slice * slice) * outcome unit :=
  program sample_pair sample_parse sample_create sample_marshal parse_path (Some ErrNotExist)
    (SeedEnv false false []) run_args sample_env sample_app (new_process (FdLimit.Rlimit 0 0)).

Lemma app_runs_in_started_enclave_witness :
  p_app sample_run.1 = Some [str "app"; str "-v"] /\
  p_stdout sample_run.1 = [str "hello"; str "bye"] /\ sample_run.2 = Done tt /\
  exists e, p_enclave sample_run.1 = Some e /\ e_syncState e <> inProgress.
Proof.
  destruct (app_runs_in_started_enclave sample_pair sample_parse sample_create sample_marshal parse_path
    (Some ErrNotExist) (SeedEnv false false []) run_args sample_env sample_app (FdLimit.Rlimit 0 0)
    sample_run.1 sample_run.2 (surjective_pairing _)) as [Hdone Happ].
  assert (E : p_app sample_run.1 = Some [str "app"; str "-v"]) by (vm_compute; reflexivity).
  split; [exact E|]. split; [vm_compute; reflexivity|]. split.
  - apply Hdone. split; [rewrite E; by eexists|reflexivity].
  - destruct (Happ _ E) as (f & c & e & _ & _ & _ & _ & He & Hready & _).
    exists e. split; [exact He|exact (ready_state _ _ Hready)].
Defined.

End SampleMain.
