(* ===== verification/Cluster.v ===== *)
(** * Cluster: leader and workers as a whole

    What the parts add up to: a synchronized worker is a replica of the leader
    that the leader recognizes by its heartbeats, new application keys reach
    every registered worker, and what overlapping deliveries can do to one. *)
From Stdlib Require Import ZArith Lia.
From Stdlib Require Import Strings.Byte Strings.String.
From stdpp Require Import base gmap strings list fin_maps relations.
From S2P Require Import Prelude Codec Sha256 Json System Http Nonce Keys Attestation Attester.
From S2P Require Import SyncWorker SyncOverlap HttpClient SyncLeader SyncProtocol Config Handlers Caches Enclave Workers.

Local Open Scope Z_scope.

Section replica.
Context {Cert : Type} (X509KeyPair : slice -> slice -> result Cert) (hostname : bytes).
Context (B : box_ops) (aw al : attester) (rdW : rand_read) (gen : result boxKey).
Context (deliver : bytes -> Reader.reader) (lib_text : error -> bytes).
Hypothesis deliver_clean : forall b, b <> [] -> Reader.clean (deliver b) b.

(** The worker's server, with the [setupWorker] that [NewEnclave] passes. *)
Definition enclave_net : network (wstate (Enclave Cert)) :=
  worker_net B (setup_section X509KeyPair hostname) aw rdW gen deliver lib_text.

(** C3: Key synchronization works end to end and makes the worker a replica of
    the leader.  If the two enclaves accept each other's attestation documents,
    the box opens what it sealed, the random source works and documents and
    keys fit the limit on bodies, then the leader's [syncWith] against an idle
    worker succeeds; afterwards the worker holds exactly the leader's keys and
    serves its certificate, its channels are empty again, and from then on the
    leader registers it on each of its heartbeats instead of synchronizing
    again. *)
Theorem sync_makes_replica (keys : enclaveKeys) rdL seed ln n k D c (e : Enclave Cert) :
  let worker := getSyncURL hostname (ExtPrivPort (e_cfg e)) in
  Attests aw al -> Attests al aw -> NaCl B ->
  newNonce rdL = Ok ln -> newNonce rdW = Ok n -> newBoxKey gen = Ok k -> keypair B k ->
  (forall doc, createAttstn aw (AuxWorker (WorkerAux n ln (Some (pubKey k)))) = Ok doc ->
     len doc <= D) ->
  (forall enc doc, SealAnonymous B (keys_Marshal keys) (pubKey k) (Ok seed) = Ok enc ->
     createAttstn al (AuxLeader (LeaderAux n (Some (Sum256 enc)))) = Ok doc -> len doc <= D) ->
  b64_EncodedLen D + b64_EncodedLen (len (keys_Marshal keys) + 48) + 35 <= maxReadLen ->
  X509KeyPair (NitridingCert keys) (NitridingKey keys) = Ok c ->
  host_ok hostname = true -> len hostname <= 255 ->
  0 <= ExtPrivPort (e_cfg e) <= MaxUint16 -> e_pub_tls e = Some TLSRetriever ->
  exists e', syncWith enclave_net al B keys rdL (Ok seed) worker (asWorker e) =
      (asWorker e', Done None) /\
    e_keys e' = keys /\ served_cert e' = Some c /\ e_heartbeats e' = e_heartbeats e ++ [worker] /\
    forall leader r, h_keys leader = keys -> h_loop leader = true ->
      Reader.clean (Body r) (heartbeat_body (e_keys e') worker) ->
      h_calls (serve (heartbeatHandler (e_cfg e) r) leader).1 =
      h_calls leader ++ [CallRegister worker].
Proof.
  intros worker Hwl Hlw HB Hl Hn Hk Hkp Hdw Hdl Hfit Hc Hh Hhl Hport Ht.
  pose (e' := start_heartbeat worker (set_httpsCert c (set_keys keys e))).
  assert (Hs : setup_all (setup_section X509KeyPair hostname) keys e = (e', None)).
  { fold (setupWorkerPostSync X509KeyPair hostname keys e). by rewrite setupWorkerPostSync_eq, Hc, keys_set_eq. }
  exists e'. split_and!; [|done| |done|].
  - unfold enclave_net. apply (sync_succeeds B _ aw rdW gen deliver lib_text deliver_clean al keys rdL seed worker
      e e' ln n k D); assumption.
  - unfold served_cert. simpl. by rewrite Ht.
  - intros leader r Hkeys Hloop Hr. rewrite (serve_heartbeat _ hostname (hashAndB64 keys));
      [|done..|apply hashAndB64_plain|by rewrite len_hashAndB64|done|done].
    rewrite Hkeys. simpl. by rewrite bool_decide_eq_true_2.
Qed.
End replica.

(** ** Overlapping deliveries *)
Section mixed.
Context {Cert : Type} (X509KeyPair : slice -> slice -> result Cert) (hostname : bytes).
Context (a : attester) (B : box_ops).

(** C26: Overlapping deliveries can leave a worker with a mixture of keys that no
    leader ever had.  Two synchronizations that are each entirely in order, for
    instance from before and after a restart of the leader, deliver [keys1] and
    [keys2]; the second one runs from beginning to end while the first has stored
    only its application keys.  There is an execution in which all four requests
    are answered with 200, and afterwards the worker holds the certificate and
    the private key of [keys1] with the application keys of [keys2], although it
    never received them together, serves the certificate of [keys1] and runs two
    more heartbeat loops. *)
Theorem overlapping_deliveries_mix (e : Enclave Cert) g1 p1 g2 p2 n1 n2 k1 k2 doc1 doc2 keys1 keys2
    c1 c2 :
  opens a g1 n1 k1 doc1 -> delivers a B p1 n1 k1 keys1 ->
  opens a g2 n2 k2 doc2 -> delivers a B p2 n2 k2 keys2 ->
  X509KeyPair (NitridingCert keys1) (NitridingKey keys1) = Ok c1 ->
  X509KeyPair (NitridingCert keys2) (NitridingKey keys2) = Ok c2 ->
  e_pub_tls e = Some TLSRetriever ->
  exists σ, rtc (SyncWorker.step a B (setup_section X509KeyPair hostname)) (SyncWorker.start e) σ /\
    arrivals σ = [g1; p1; g2; p2] /\
    Forall (fun t => todo t = Ret tt /\ status (out t) = StatusOK) (threads σ) /\
    let e' := enclave (shared σ) in
    e_keys e' = EnclaveKeys (NitridingKey keys1) (NitridingCert keys1) (AppKeys keys2) /\
    served_cert e' = Some c1 /\ length (e_heartbeats e') = (2 + length (e_heartbeats e))%nat.
Proof.
  intros Hg1 Hp1 Hg2 Hp2 Hc1 Hc2 Ht.
  pose (f := setup_section X509KeyPair hostname).
  pose (e1 := (setup_seq f [StoreAppKeys] keys1 e).1). pose (e2 := (setup_all f keys2 e1).1).
  pose (e3 := (setup_seq f [StoreNitridingKeys; InstallCert; StartHeartbeat] keys1 e2).1).
  destruct (overlapping_run a B f e e1 e2 e3 [StoreAppKeys]
    [StoreNitridingKeys; InstallCert; StartHeartbeat] g1 p1 g2 p2 n1 n2 k1 k2 doc1 doc2 keys1 keys2)
    as (σ & Hrun & Ha & _ & Hs & Hall); try done.
  - unfold e2, setup_all. simpl. by rewrite Hc2.
  - unfold e3. simpl. by rewrite Hc1.
  - exists σ. split_and!; [done..|]. rewrite Hs. unfold e3, e2, setup_all. simpl. rewrite Hc1, Hc2.
    unfold served_cert. simpl. rewrite Ht, !length_app. simpl. split_and!; [done..|lia].
Qed.
End mixed.

(** ** A leader and all its workers *)
Section cluster.
Context {Cert : Type} (X509KeyPair : slice -> slice -> result Cert).
Context (B : box_ops) (al : attester).
(** Each worker, known by its sync URL, has its own attester and host name and
    draws its own random bytes. *)
Context (aw : url -> attester) (hostname : url -> bytes).
Context (rdW : url -> rand_read) (gen : url -> result boxKey).
Context (deliver : bytes -> Reader.reader) (lib_text : error -> bytes).
Hypothesis deliver_clean : forall b, b <> [] -> Reader.clean (deliver b) b.

Abbreviation cluster := (gmap url (wstate (Enclave Cert))).

Definition worker_at (w : url) : network (wstate (Enclave Cert)) :=
  enclave_net X509KeyPair (hostname w) B (aw w) (rdW w) (gen w) deliver lib_text.

(** A request reaches the worker at its address, if there is one. *)
Definition cluster_server (m : message) : M cluster (result response) := fun c =>
  let w := with_query (m_url m) [] in
  match c !! w with
  | None => (c, Done (Err (ErrLib "no such host")))
  | Some s =>
      let '(s', o) := worker_server B (setup_section X509KeyPair (hostname w)) (aw w) (rdW w) (gen w)
                        deliver lib_text m s in
      (<[w := s']> c, o)
  end.

Definition cluster_net : network cluster := client (no_redirects cluster_server).

(** The function that [putStateHandler] passes to [forAll], run for the workers
    of the set one after the other, in any order.  The workers that were unregistered; a panic ends the process. *)
Fixpoint sync_all (keys : enclaveKeys) (draws : url -> rand_read * result bytes)
    (ws : list url) : M cluster (list url) :=
  match ws with
  | [] => mret []
  | w :: ws' =>
      err ← syncWith cluster_net al B keys (draws w).1 (draws w).2 w;
      rest ← sync_all keys draws ws';
      mret (match err with Some _ => w :: rest | None => rest end)
  end.

Lemma syncWith_cluster keys rd r w s (c : cluster) :
  with_query w [] = w -> c !! w = Some s ->
  syncWith cluster_net al B keys rd r w c =
  let '(s', o) := syncWith (worker_at w) al B keys rd r w s in (<[w := s']> c, o).
Proof.
  intros Hw Hs. rewrite <- (insert_id c w s Hs) at 1.
  apply (syncWith_map (worker_at w) cluster_net (fun s => <[w := s]> c)).
  - intros q s0. unfold cluster_net, worker_at, enclave_net, worker_net.
    rewrite !client_Get_direct. unfold cluster_server. cbn [m_url].
    change (with_query (with_query w q) []) with (with_query w []). rewrite Hw, lookup_insert_eq.
    destruct (worker_server _ _ _ _ _ _ _ _ s0) as [s1 o]. by rewrite insert_insert_eq.
  - intros body s0. unfold cluster_net, worker_at, enclave_net, worker_net.
    rewrite !client_Post_direct. unfold cluster_server. cbn [m_url]. rewrite Hw, lookup_insert_eq.
    destruct (worker_server _ _ _ _ _ _ _ _ s0) as [s1 o]. by rewrite insert_insert_eq.
Qed.

(** What a synchronization of [keys] with the idle worker at [w] relies on. *)
Definition ready_to_sync (keys : enclaveKeys) (draws : url -> rand_read * result bytes) (w : url)
    : Prop :=
  with_query w [] = w /\ Attests (aw w) al /\ Attests al (aw w) /\
  exists ln n k seed D cert,
    (draws w).2 = Ok seed /\ newNonce (draws w).1 = Ok ln /\ newNonce (rdW w) = Ok n /\
    newBoxKey (gen w) = Ok k /\ keypair B k /\
    (forall doc, createAttstn (aw w) (AuxWorker (WorkerAux n ln (Some (pubKey k)))) = Ok doc ->
       len doc <= D) /\
    (forall enc doc, SealAnonymous B (keys_Marshal keys) (pubKey k) (Ok seed) = Ok enc ->
       createAttstn al (AuxLeader (LeaderAux n (Some (Sum256 enc)))) = Ok doc -> len doc <= D) /\
    b64_EncodedLen D + b64_EncodedLen (len (keys_Marshal keys) + 48) + 35 <= maxReadLen /\
    X509KeyPair (NitridingCert keys) (NitridingKey keys) = Ok cert.

Lemma sync_ready_worker keys draws w e (c : cluster) `{!NaCl B} :
  ready_to_sync keys draws w -> c !! w = Some (asWorker e) ->
  exists e', syncWith cluster_net al B keys (draws w).1 (draws w).2 w c =
      (<[w := asWorker e']> c, Done None) /\ e_keys e' = keys.
Proof.
  intros (Hq & Hwl & Hlw & ln & n & k & seed & D & cert & Hr & Hl & Hn & Hk & Hkp & Hd1 & Hd2 &
    Hfit & Hc) Hw.
  set (e' := start_heartbeat (getSyncURL (hostname w) (ExtPrivPort (e_cfg e)))
    (set_httpsCert cert (set_keys keys e))). exists e'. split; [|done].
  rewrite (syncWith_cluster _ _ _ _ _ _ Hq Hw), Hr.
  unfold worker_at, enclave_net.
  rewrite (sync_succeeds B _ (aw w) (rdW w) (gen w) deliver lib_text deliver_clean al keys
    (draws w).1 seed w e e' ln n k D); try done.
  fold (setupWorkerPostSync X509KeyPair (hostname w) keys e).
  by rewrite setupWorkerPostSync_eq, Hc, keys_set_eq.
Qed.

Lemma sync_all_ready keys draws ws (c : cluster) `{!NaCl B} :
  NoDup ws -> (forall w, w ∈ ws -> ready_to_sync keys draws w) ->
  (forall w, w ∈ ws -> exists e, c !! w = Some (asWorker e)) ->
  exists c', sync_all keys draws ws c = (c', Done []) /\
    (forall w, w ∈ ws -> exists e', c' !! w = Some (asWorker e') /\ e_keys e' = keys) /\
    (forall w, w ∉ ws -> c' !! w = c !! w).
Proof.
  intros Hnd. revert c. induction Hnd as [|w ws Hw _ IH]; intros c Hready Hidle.
  - exists c. split_and!; [done|set_solver|done].
  - destruct (Hidle w) as [e He]; [set_solver|].
    destruct (sync_ready_worker keys draws w e c) as (e' & Hs & Hk); [set_solver|done|].
    destruct (IH (<[w := asWorker e']> c)) as (c' & Hc' & Hin & Hout).
    + set_solver.
    + intros w' Hw'. rewrite lookup_insert_ne by (by intros ->). apply Hidle. set_solver.
    + exists c'. cbn [sync_all]. unfold_M. rewrite Hs, Hc'. split_and!; [done| |].
      * intros w' [->|Hw']%elem_of_cons; [|auto].
        exists e'. rewrite Hout by done. by rewrite lookup_insert_eq.
      * intros w' Hn. rewrite Hout by set_solver. rewrite lookup_insert_ne by set_solver. done.
Qed.

(** C4: New application keys reach every worker.  After the leader's application
    has PUT up to 1 MiB of keys and if every registered worker is idle and ready
    to synchronize the new key material (in particular, it fits the limit), the
    function that [forAll] runs for the set of registered workers, in whatever
    order, brings each of them to exactly the leader's new keys; none is
    unregistered, and other workers are not touched. *)
Theorem app_keys_reach_all_workers (r : request) (data : bytes) (leader : hstate)
    (set : gmap url Z) draws (c : cluster) :
  NaCl B -> Reader.clean (Body r) data -> len data <= maxKeyMaterialLen ->
  h_sync leader = isLeader -> h_loop leader = true ->
  let leader' := (serve (putStateHandler r) leader).1 in
  (forall w, is_Some (set !! w) -> ready_to_sync (h_keys leader') draws w /\
     exists e, c !! w = Some (asWorker e)) ->
  AppKeys (h_keys leader') = Some data /\ GoForAllSync ∈ h_calls leader' /\
  forall ws, ws ≡ₚ Workers.Loop.runForAll set ->
  exists c', sync_all (h_keys leader') draws ws c = (c', Done []) /\
    (forall w, is_Some (set !! w) ->
       exists e', c' !! w = Some (asWorker e') /\ e_keys e' = h_keys leader') /\
    (forall w, set !! w = None -> c' !! w = c !! w).
Proof.
  intros HB Hc Hl Hst Hloop leader' Hworkers.
  assert (Hput : leader' = HState isLeader (setAppKeys (Some data) (h_keys leader))
    (h_hashes leader) true (h_calls leader ++ [CallLength; GoForAllSync])
    (WriteHeader StatusOK new_respw)).
  { unfold leader'. by rewrite (serve_putState_leader r data). }
  split; [by rewrite Hput|]. split; [rewrite Hput; set_solver|].
  intros ws Hws.
  assert (Hdom : forall w, w ∈ ws <-> is_Some (set !! w))
    by (intros w; rewrite Hws; apply Workers.Loop.elem_of_runForAll).
  destruct (sync_all_ready (h_keys leader') draws ws c) as (c' & Hs & Hin & Hout).
  - rewrite Hws. apply NoDup_fst_map_to_list.
  - intros w Hw%Hdom. by apply Hworkers.
  - intros w Hw%Hdom. by apply Hworkers.
  - exists c'. split_and!; [done|intros w Hw; by apply Hin, Hdom|].
    intros w Hw. apply Hout. rewrite Hdom, Hw. by intros [].
Qed.
End cluster.

(** ** A concrete run *)
Module SampleCluster.
Import SyncWorker.Sample SyncLeader.SampleLeader SyncProtocol.SampleSync Enclave.SampleEnclave.

Definition sample_worker_enclave : Enclave (slice * slice) :=
  set_tls (Some TLSRetriever) (Some TLSRetriever) sample_enclave.

Definition sample_url : url := getSyncURL (str "10.0.0.7") 444.

Lemma sync_makes_replica_witness :
  exists e', syncWith (enclave_net sample_pair (str "10.0.0.7") sample_box dummy workers_read
      (Ok sample_key) deliver (fun _ => [])) dummy sample_box sample_keys example_read (Ok [])
      sample_url (asWorker sample_worker_enclave) = (asWorker e', Done None) /\
    e_keys e' = sample_keys.
Proof.
  destruct (sync_makes_replica sample_pair (str "10.0.0.7") sample_box dummy dummy workers_read
    (Ok sample_key) deliver (fun _ => []) clean_deliver sample_keys example_read []
    (rand_bytes example_read) (rand_bytes workers_read) sample_key 400
    (Some (str "cert"), Some (str "key")) sample_worker_enclave
    Dummy.dummy_attests Dummy.dummy_attests sample_nacl eq_refl eq_refl eq_refl
    (conj eq_refl eq_refl)) as (e' & Hs & Hk & _).
  - intros doc Hd. rewrite (get_ok_eq _ _ Hd). vm_compute. discriminate.
  - intros enc doc He Hd. rewrite (get_ok_eq _ _ Hd), (get_ok_eq _ _ He). vm_compute. discriminate.
  - vm_compute. discriminate.
  - reflexivity.
  - vm_compute. reflexivity.
  - vm_compute. discriminate.
  - vm_compute. split; discriminate.
  - reflexivity.
  - exists e'. split; [exact Hs|exact Hk].
Defined.

(** The two deliveries of [SyncOverlap.SampleOverlap], the second one of a leader
    with another certificate. *)
Definition other_keys : enclaveKeys :=
  EnclaveKeys (Some (str "key2")) (Some (str "cert2")) (Some (str "app2")).

Lemma sample_delivers n k keys :
  OpenAnonymous sample_box (SampleOverlap.sealed k keys) (pubKey k) (privKey k) =
    Some (keys_Marshal keys) ->
  (exists wn, verifyAttstn dummy (SampleOverlap.doc_for n k keys) n =
    Ok (AuxLeader (LeaderAux wn (Some (Sum256 (SampleOverlap.sealed k keys)))))) ->
  read_body (a_req (SampleOverlap.post_of n k keys)) = (SampleOverlap.post_body n k keys, None) ->
  delivers dummy sample_box (SampleOverlap.post_of n k keys) n k keys.
Proof.
  intros Ho [wn Hv] Hr. split; [done|].
  exists (SampleOverlap.post_body n k keys), (SampleOverlap.doc_for n k keys),
    (SampleOverlap.sealed k keys), wn. split_and!; try done. apply attstn_Unmarshal_Marshal.
Qed.

Lemma overlapping_deliveries_mix_witness :
  exists σ, rtc (SyncWorker.step dummy sample_box (setup_section sample_pair (str "10.0.0.7")))
      (SyncWorker.start sample_worker_enclave) σ /\
    e_keys (enclave (shared σ)) = EnclaveKeys (Some (str "key")) (Some (str "cert")) (Some (str "app2")).
Proof.
  destruct (SampleOverlap.sample_opens example_read (rand_bytes example_read) (pubKey sample_key)
    (pubKey sample_key)) as [doc1 Hg1]; [reflexivity|].
  destruct (SampleOverlap.sample_opens SampleOverlap.second_read (rand_bytes SampleOverlap.second_read)
    (pubKey SampleOverlap.second_key) (pubKey SampleOverlap.second_key)) as [doc2 Hg2]; [reflexivity|].
  destruct (overlapping_deliveries_mix sample_pair (str "10.0.0.7") dummy sample_box
    sample_worker_enclave sample_get
    (SampleOverlap.post_of (rand_bytes example_read) sample_key sample_keys)
    SampleOverlap.second_get
    (SampleOverlap.post_of (rand_bytes SampleOverlap.second_read) SampleOverlap.second_key other_keys)
    (rand_bytes example_read) (rand_bytes SampleOverlap.second_read) sample_key
    SampleOverlap.second_key doc1 doc2 sample_keys other_keys
    (Some (str "cert"), Some (str "key")) (Some (str "cert2"), Some (str "key2"))) as (σ & Hrun & _ & _ & Hk & _).
  - exact Hg1.
  - apply sample_delivers; [vm_compute; reflexivity|eexists; vm_compute; reflexivity|vm_compute; reflexivity].
  - exact Hg2.
  - apply sample_delivers; [vm_compute; reflexivity|eexists; vm_compute; reflexivity|vm_compute; reflexivity].
  - reflexivity.
  - reflexivity.
  - reflexivity.
  - exists σ. split; [exact Hrun|exact Hk].
Defined.

Definition sample_draws (w : url) : rand_read * result bytes := (example_read, Ok []).

Definition sample_put : request := Request PUT (RUrl example_request) (deliver (str "new")).
Definition sample_leader : hstate := HState isLeader sample_keys zero_hashes true [] new_respw.

(** The keys after the PUT. *)
Definition new_keys : enclaveKeys := setAppKeys (Some (str "new")) sample_keys.

Lemma sample_ready :
  ready_to_sync sample_pair sample_box dummy (fun _ => dummy) (fun _ => workers_read)
    (fun _ => Ok sample_key) new_keys sample_draws sample_url.
Proof.
  split; [done|]. split; [apply Dummy.dummy_attests|]. split; [apply Dummy.dummy_attests|].
  exists (rand_bytes example_read), (rand_bytes workers_read), sample_key, [], 400,
    (Some (str "cert"), Some (str "key")).
  split; [reflexivity|]. split; [reflexivity|]. split; [reflexivity|]. split; [reflexivity|].
  split; [split; reflexivity|]. split; [|split; [|split; [vm_compute; discriminate|reflexivity]]].
  - intros doc Hd. rewrite (get_ok_eq _ _ Hd). vm_compute. discriminate.
  - intros enc doc He Hd. rewrite (get_ok_eq _ _ Hd), (get_ok_eq _ _ He). vm_compute. discriminate.
Qed.

Lemma app_keys_reach_all_workers_witness :
  exists c' e', sync_all sample_pair sample_box dummy (fun _ => dummy) (fun _ => str "10.0.0.7")
      (fun _ => workers_read) (fun _ => Ok sample_key) deliver (fun _ => []) new_keys sample_draws
      [sample_url] {[ sample_url := asWorker sample_worker_enclave ]} = (c', Done []) /\
    c' !! sample_url = Some (asWorker e') /\ e_keys e' = new_keys.
Proof.
  destruct (app_keys_reach_all_workers sample_pair sample_box dummy (fun _ => dummy)
    (fun _ => str "10.0.0.7") (fun _ => workers_read) (fun _ => Ok sample_key) deliver (fun _ => [])
    clean_deliver sample_put (str "new") sample_leader {[ sample_url := 0 ]} sample_draws
    {[ sample_url := asWorker sample_worker_enclave ]} sample_nacl)
    as (_ & _ & Hall).
  - apply clean_deliver. discriminate.
  - vm_compute. discriminate.
  - reflexivity.
  - reflexivity.
  - intros w [t Ht]. apply lookup_singleton_Some in Ht as [<- _]. split; [exact sample_ready|].
    exists sample_worker_enclave. apply lookup_singleton_eq.
  - destruct (Hall [sample_url]) as (c' & Hs & Hin & _).
    { unfold Workers.Loop.runForAll. by rewrite map_to_list_singleton. }
    destruct (Hin sample_url) as (e' & He' & Hk); [rewrite lookup_singleton_eq; eexists; reflexivity|].
    exists c', e'. split; [exact Hs|]. split; [exact He'|exact Hk].
Defined.

End SampleCluster.
