(* ===== verification/Dynamics.v ===== *)
(** * Dynamics: a running cluster

    The cluster over time: the leader's application changes its keys again and
    again, while any number of goroutines of the leader synchronize with the
    workers, their requests interleaved in any order, and requests and responses
    get lost.  The steps of [syncWith] are taken apart at its two requests and
    at the moment where it copies the keys.  A request at a worker is served as a
    whole; one that blocks there is not resumed. *)
From Stdlib Require Import ZArith Lia Sorted.
From Stdlib Require Import Strings.Byte Strings.String.
From stdpp Require Import base gmap strings list fin_maps relations.
From S2P Require Import Prelude Codec Sha256 Json System Http Nonce Keys Attestation Attester.
From S2P Require Import SyncWorker HttpClient SyncLeader SyncProtocol Config Handlers Caches Enclave Cluster.

Local Open Scope Z_scope.
Local Opaque setup_prog.

(** ** The stages of [syncWith] *)
Section stages.
Context (a : attester) (B : box_ops).

(** From the response to the GET to the worker's auxiliary information, when
    [nonce] was sent. *)
Definition aux_of_response (nonce : nonce) (resp : result response)
    : outcome (result workerAuxInfo) :=
  match resp with
  | Err e => Done (Err e)
  | Ok resp =>
      if negb (StatusCode resp =? StatusOK) then Done (Err (errNo200 (StatusCode resp)))
      else match Reader.ReadAll (Reader.newLimitReader (RBody resp) maxReadLen) with
      | (_, Some e) => Done (Err e)
      | (jsonBody, None) =>
          match attstn_Unmarshal jsonBody with
          | (_, Some e) => Done (Err e)
          | (reqBody, None) =>
              if negb (len (EncryptedKeys reqBody) =? 0) then Done (Err errExpectedEmptyKeys)
              else match b64_Decode (Document reqBody) with
              | Err e => Done (Err e)
              | Ok attstnDoc =>
                  match verifyAttstn a attstnDoc nonce with
                  | Err e => Done (Err e)
                  | Ok (AuxWorker workerAux) => Done (Ok workerAux)
                  | Ok _ => Panic
                  end
              end
          end
      end
  end.

(** From the keys and the auxiliary information to the body of the POST. *)
Definition sealed_body (keys : enclaveKeys) (r : result bytes) (workerAux : workerAuxInfo)
    : result bytes :=
  let pubKey := copy_array 32 (sbytes (w_PublicKey workerAux)) in
  match SealAnonymous B (keys_Marshal (keys_copy keys)) pubKey r with
  | Err e => Err e
  | Ok encrypted =>
      match createAttstn a (AuxLeader (LeaderAux
              (w_WorkersNonce workerAux) (Some (Sum256 encrypted)))) with
      | Err e => Err e
      | Ok attstnDoc =>
          Ok (attstn_Marshal (AttstnBody (b64_Encode attstnDoc) (b64_Encode encrypted)))
      end
  end.

(** What the response to the POST means. *)
Definition post_result (resp : result response) : option error :=
  match resp with
  | Err e => Some e
  | Ok resp => if negb (StatusCode resp =? StatusOK) then Some (errNo200 (StatusCode resp)) else None
  end.

(** The stages, one after the other. *)
Definition staged_sync {N} (net : network N) (keys : enclaveKeys) (rd : rand_read)
    (r : result bytes) (worker : url) : M N (option error) :=
  match newNonce rd with
  | Err e => mret (Some e)
  | Ok nonce =>
      resp ← http_Get net (with_query worker (nonce_query nonce));
      aux ← (fun s => (s, aux_of_response nonce resp));
      match aux with
      | Err e => mret (Some e)
      | Ok workerAux =>
          match sealed_body keys r workerAux with
          | Err e => mret (Some e)
          | Ok body =>
              resp ← http_Post net worker body;
              mret (post_result resp)
          end
      end
  end.

(** Taking [syncWith] apart at its two requests and at the copying of the
    keys does not change it: on every network, in every state of it, for every
    worker and all random bytes, the stages run one after the other do and
    return the same. *)
Theorem syncWith_stages {N} (net : network N) keys rd r worker (s : N) :
  syncWith net a B keys rd r worker s = staged_sync net keys rd r worker s.
Proof.
  unfold syncWith, staged_sync, aux_of_response, sealed_body, post_result.
  destruct (newNonce rd) as [n|]; [|done]. unfold_M.
  destruct (http_Get net _ s) as [s1 [[resp|]| | |]]; try done.
  destruct (negb _); [done|]. destruct (Reader.ReadAll _) as [jb [e|]]; [done|].
  destruct (attstn_Unmarshal jb) as [rb [e|]]; [done|]. destruct (negb _); [done|].
  destruct (b64_Decode _) as [doc|]; [|done].
  destruct (verifyAttstn a doc n) as [[| |w|]|]; try done.
  destruct (SealAnonymous _ _ _ _) as [enc|]; [|done]. destruct (createAttstn _ _) as [ld|]; [|done].
  destruct (http_Post net _ _ s1) as [s2 [[resp'|]| | |]]; try done.
  by destruct (negb _).
Qed.
End stages.

(** ** The cluster as a transition system *)
Section dynamics.
Context {Cert : Type} (X509KeyPair : slice -> slice -> result Cert).
Context (B : box_ops) (al : attester).
(** Each worker, known by its sync URL, has its own attester and host name. *)
Context (aw : url -> attester) (hostname : url -> bytes).
Context (deliver : bytes -> Reader.reader) (lib_text : error -> bytes).

(** A worker's enclave, with a record of the keys that were installed in it, made
    when the second half of the key material is stored. *)
Abbreviation logged := (Enclave Cert * list enclaveKeys)%type.

Definition setup_logged (w : url) (st : setup_stage) (keys : enclaveKeys) (x : logged)
    : logged * option error :=
  let '(e, log) := x in
  let '(e', err) := setup_section X509KeyPair (hostname w) st keys e in
  ((e', match st with StoreNitridingKeys => log ++ [keys] | _ => log end), err).

(** A request that is served alone installs the keys as [setupWorkerPostSync]. *)
Lemma setup_logged_all w keys e log :
  setup_all (setup_logged w) keys (e, log) =
  let '(e', err) := setupWorkerPostSync X509KeyPair (hostname w) keys e in ((e', log ++ [keys]), err).
Proof. unfold setupWorkerPostSync, setup_all. simpl. by destruct (X509KeyPair _ _). Qed.

Abbreviation wst := (wstate logged).

(** The worker at [w] serves a request, drawing random bytes. *)
Definition serve_at (w : url) (rd : rand_read) (gen : result boxKey) (r : request)
    : M wst (result response) :=
  serve_http B (setup_logged w) (aw w) rd gen deliver lib_text r.

(** Where a goroutine of the leader is in [syncWith]. *)
Inductive pc :=
  | ToGet                                           (* about to send the GET *)
  | ToSeal (aux : workerAuxInfo)                    (* has verified the worker's document *)
  | ToPost (keys : enclaveKeys) (body : bytes).     (* has copied and sealed the keys *)

(** The leader with all keys it has had so far, the workers, and the leader's
    goroutines, each with its worker. *)
Record dyn := Dyn {
  d_leader : hstate;
  d_hist : list enclaveKeys;
  d_workers : gmap url wst;
  d_threads : gmap nat (url * pc)
}.

(** The goroutine after the response to its GET. *)
Definition after_get (t : nat) (w : url) (n : nonce) (resp : result response)
    (ts : gmap nat (url * pc)) : gmap nat (url * pc) :=
  match aux_of_response al n resp with
  | Done (Ok aux) => <[t := (w, ToSeal aux)]> ts
  | _ => delete t ts
  end.

(** The body of a POST whose document the worker at [w] accepts under no nonce. *)
Definition unattested (w : url) (r : request) : Prop :=
  forall n doc, b64_Decode (Document (attstn_Unmarshal (read_body r).1).1) = Ok doc ->
  exists e, verifyAttstn (aw w) doc n = Err e.

Inductive dstep : dyn -> dyn -> Prop :=
  (* The application sends a request to the leader's state endpoint. *)
  | d_put r l hist ws ts :
      let l' := (Handlers.serve (putStateHandler r) l).1 in
      dstep (Dyn l hist ws ts) (Dyn l' (hist ++ [h_keys l']) ws ts)
  (* A heartbeat, or [forAll], starts a synchronization. *)
  | d_spawn t w l hist ws ts :
      ts !! t = None ->
      dstep (Dyn l hist ws ts) (Dyn l hist ws (<[t := (w, ToGet)]> ts))
  (* The GET of a goroutine is served; [got] is the response or a lost one. *)
  | d_get t w rdL n rd gen s s' resp got l hist ws ts :
      ts !! t = Some (w, ToGet) -> newNonce rdL = Ok n ->
      ws !! w = Some s -> (forall k, gen = Ok k -> keypair B k) ->
      serve_at w rd gen (Request GET (with_query w (nonce_query n)) []) s = (s', Done resp) ->
      (got = resp \/ exists e, got = Err e) ->
      dstep (Dyn l hist ws ts) (Dyn l hist (<[w := s']> ws) (after_get t w n got ts))
  (* A goroutine copies the keys and seals them. *)
  | d_seal t w aux r body l hist ws ts :
      ts !! t = Some (w, ToSeal aux) -> sealed_body al B (h_keys l) r aux = Ok body ->
      dstep (Dyn l hist ws ts) (Dyn l hist ws (<[t := (w, ToPost (h_keys l) body)]> ts))
  (* Its POST is served; whatever the leader hears of it, the goroutine ends. *)
  | d_post t w keys body rd gen s s' o l hist ws ts :
      ts !! t = Some (w, ToPost keys body) -> ws !! w = Some s ->
      serve_at w rd gen (Request POST w (deliver body)) s = (s', o) ->
      dstep (Dyn l hist ws ts) (Dyn l hist (<[w := s']> ws) (delete t ts))
  (* A goroutine gives up: no random bytes, or a request that does not arrive. *)
  | d_fail t l hist ws ts :
      dstep (Dyn l hist ws ts) (Dyn l hist ws (delete t ts))
  (* Anybody else sends a GET, or a POST without a leader's document. *)
  | d_outsider w r rd gen s s' o l hist ws ts :
      Method r <> POST \/ unattested w r ->
      ws !! w = Some s -> (forall k, gen = Ok k -> keypair B k) ->
      serve_at w rd gen r s = (s', o) ->
      dstep (Dyn l hist ws ts) (Dyn l hist (<[w := s']> ws) ts).

(** A cluster that has just started: no worker has been synchronized. *)
Definition dinit (l : hstate) (es : gmap url (Enclave Cert)) : dyn :=
  Dyn l [h_keys l] ((fun e => asWorker (e, [])) <$> es) ∅.

(** ** Requests at a worker *)
Context `{!NaCl B}.
Hypothesis deliver_clean : forall b, b <> [] -> Reader.clean (deliver b) b.
Hypothesis worker_attests : forall w, Attests (aw w) al.

(** While an ephemeral key is waiting, a GET changes nothing and is refused. *)
Lemma serve_get_busy w rd gen r s k :
  Method r = GET -> ephemeralKeys s = Some k ->
  exists body, serve_at w rd gen r s = (s, Done (Ok (Response StatusTooManyRequests body))).
Proof.
  intros Hm Hk. unfold serve_at, serve_http, ServeHTTP, initSync. rewrite Hm. simpl. rewrite Hk.
  simpl. by eexists.
Qed.

(** A request that is not a POST never installs anything. *)
Lemma serve_get_enclave w rd gen r s s' o :
  Method r <> POST -> serve_at w rd gen r s = (s', o) ->
  enclave s' = enclave s /\ (forall k, ephemeralKeys s = Some k -> ephemeralKeys s' = Some k).
Proof.
  unfold serve_at, serve_http, ServeHTTP. destruct (Method r); try done; intros _;
    [|by intros [= <- _]..].
  unfold initSync. simpl. destruct (ephemeralKeys s) as [k|] eqn:Hk; simpl;
    [by intros [= <- _]; rewrite Hk|].
  intros H. split; [|done]. revert H.
  destruct (getNonceFromReq r); simpl; (destruct (newNonce rd); simpl; [|by intros [= <- _]]);
    (destruct (nonce_ch s); simpl; [by intros [= <- _]|]);
    (destruct (newBoxKey gen); simpl; [rewrite Hk; simpl|by intros [= <- _]]);
    destruct (createAttstn _ _); simpl; by intros [= <- _].
Qed.

(** If a leader's GET is answered with a document that the leader accepts, then
    the worker's ephemeral key is the one in the document. *)
Lemma serve_get_accepted w rd gen n s s' resp aux :
  (forall k, gen = Ok k -> keypair B k) -> nonce_ok n ->
  serve_at w rd gen (Request GET (with_query w (nonce_query n)) []) s = (s', Done resp) ->
  aux_of_response al n resp = Done (Ok aux) ->
  ephemeralKeys s = None /\
  exists k, keypair B k /\ ephemeralKeys s' = Some k /\ w_PublicKey aux = Some (pubKey k).
Proof.
  intros Hgen Hn. destruct (ephemeralKeys s) as [k|] eqn:Hk.
  { destruct (serve_get_busy w rd gen (Request GET (with_query w (nonce_query n)) []) s k)
      as [body ->]; [done..|]. by intros [= <- <-]. }
  unfold serve_at, serve_http. cbn [ServeHTTP Method]. unfold initSync. simpl. rewrite Hk. simpl.
  rewrite (getNonceFromReq_query _ n) by done. simpl.
  destruct (newNonce rd) as [wn|] eqn:Hwn; simpl; [|by intros [= <- <-]].
  destruct (nonce_ch s); simpl; [by intros [= <- <-]|].
  destruct gen as [[pub priv]|]; simpl; [rewrite Hk; simpl|by intros [= <- <-]].
  specialize (Hgen _ eq_refl).
  destruct (attests_worker (b := al) (a := aw w) wn n pub) as (doc & -> & Hv);
    [by eapply newNonce_ok|done|by apply (keypair_len (BoxKey pub priv))|].
  intros [= <- <-]. simpl. unfold render. simpl. rewrite app_nil_r.
  set (body := _ ++ [Byte.x0a]). rewrite Reader.ReadAll_limited by done.
  rewrite (Reader.read_limited_clean _ _ body);
    [|apply deliver_clean; by intros [? [=]]%app_nil|done].
  destruct (len body <=? maxReadLen); [|done]. unfold body.
  pose proof (attstn_Unmarshal_Marshal_nl doc []) as Hu.
  change (b64_Encode []) with (@nil byte) in Hu. rewrite Hu. simpl. rewrite b64_Decode_Encode, Hv. intros [= <-]. split; [done|]. by exists (BoxKey pub priv).
Qed.
(** The body of a POST that carries [keys] for the owner of [k]. *)
Definition sealed_for (k : boxKey) (keys : enclaveKeys) (body : bytes) : Prop :=
  exists doc enc r, SealAnonymous B (keys_Marshal keys) (pubKey k) r = Ok enc /\
    body = attstn_Marshal (AttstnBody (b64_Encode doc) (b64_Encode enc)).

Lemma sealed_body_for keys r aux body k :
  keypair B k -> w_PublicKey aux = Some (pubKey k) -> sealed_body al B keys r aux = Ok body ->
  sealed_for k keys body.
Proof.
  intros Hk Hpub. unfold sealed_body. rewrite Hpub, keys_copy_eq. simpl.
  rewrite <- (keypair_len k Hk), copy_array_id.
  destruct (SealAnonymous _ _ _ r) as [enc|] eqn:Hs; [|done].
  destruct (createAttstn al _) as [doc|]; [|done]. intros [= <-]. by exists doc, enc, r.
Qed.

(** A POST of sealed keys installs these keys or nothing. *)
Lemma serve_post w rd gen keys body s s' o k :
  keypair B k -> ephemeralKeys s = Some k -> sealed_for k keys body ->
  serve_at w rd gen (Request POST w (deliver body)) s = (s', o) ->
  enclave s' = enclave s \/ enclave s' = (setup_all (setup_logged w) keys (enclave s)).1.
Proof.
  intros Hkp Hk (doc & enc & r & Hseal & Hbody). apply (seal_open _ _ _ _ Hkp) in Hseal as Hopen.
  unfold serve_at, serve_http. cbn [ServeHTTP Method]. unfold finishSync, read_body. cbn [Body].
  rewrite Reader.ReadAll_limited by done.
  rewrite (Reader.read_limited_clean _ _ body);
    [|apply deliver_clean; subst body; apply attstn_Marshal_nonempty|done].
  destruct (len body <=? maxReadLen); [|intros [= <- _]; by left].
  rewrite Hbody, attstn_Unmarshal_Marshal. cbn [Document EncryptedKeys].
  rewrite !b64_Decode_Encode. simpl. destruct (nonce_ch s) as [n|]; [|intros [= <- _]; by left].
  destruct (verifyAttstn (aw w) doc n) as [[| |aux|aux]|]; simpl; try by intros [= <- _]; left.
  destruct (bytes_Equal _ _); simpl; [|intros [= <- _]; by left].
  rewrite Hk, Hopen, keys_Unmarshal_Marshal, run_setup. cbn [enclave].
  destruct (setup_all _ keys (enclave s)) as [x' [err|]]; simpl; intros [= <- _]; by right.
Qed.

(** A POST without a leader's document installs nothing and leaves the
    ephemeral key. *)
Lemma serve_post_unattested w rd gen r s s' o :
  Method r = POST -> unattested w r -> serve_at w rd gen r s = (s', o) ->
  enclave s' = enclave s /\ ephemeralKeys s' = ephemeralKeys s.
Proof.
  intros Hm Hu. unfold serve_at, serve_http, ServeHTTP, finishSync. rewrite Hm. unfold unattested in Hu.
  destruct (read_body r) as [jb [e|]]; simpl in *; [by intros [= <- _]|].
  destruct (attstn_Unmarshal jb) as [rb err]; simpl in *.
  destruct err; simpl; (destruct (b64_Decode (Document rb)) as [doc|]; simpl; [|by intros [= <- _]]);
    (destruct (nonce_ch s) as [n|]; simpl; [|by intros [= <- _]]);
    destruct (Hu n doc eq_refl) as [e' ->]; simpl; by intros [= <- _].
Qed.

(** Nothing that outsiders do changes what a worker holds. *)
Lemma serve_outsider w rd gen r s s' o :
  Method r <> POST \/ unattested w r -> serve_at w rd gen r s = (s', o) ->
  enclave s' = enclave s /\ (forall k, ephemeralKeys s = Some k -> ephemeralKeys s' = Some k).
Proof.
  intros Hr Hs. destruct (decide (Method r = POST)) as [Hp|Hp]; [|by apply (serve_get_enclave w rd gen r s s' o)].
  destruct Hr as [Hr|Hr]; [done|]. apply serve_post_unattested in Hs as [-> ->]; done.
Qed.

(** ** The invariant *)

(** The keys of [log] are keys of [hist] at the positions [idxs], in order. *)
Definition positions (hist log : list enclaveKeys) (idxs : list nat) : Prop :=
  StronglySorted le idxs /\ Forall2 (fun i k => hist !! i = Some k) idxs log.

(** What a goroutine of the leader relies on at its worker: once the document of
    the worker has been accepted, the ephemeral key stays what it was; and keys
    that have been copied are not older than those installed so far. *)
Definition thread_ok (hist : list enclaveKeys) (idxs : list nat) (s : wst) (p : pc) : Prop :=
  match p with
  | ToGet => True
  | ToSeal aux => exists k, keypair B k /\ ephemeralKeys s = Some k /\
      w_PublicKey aux = Some (pubKey k)
  | ToPost keys body => exists k i, keypair B k /\ ephemeralKeys s = Some k /\
      sealed_for k keys body /\ hist !! i = Some keys /\ Forall (fun j => (j <= i)%nat) idxs
  end.

Definition worker_ok (hist : list enclaveKeys) (ts : gmap nat (url * pc)) (w : url) (s : wst) : Prop :=
  (forall k, last (enclave s).2 = Some k -> e_keys (enclave s).1 = k) /\
  exists idxs, positions hist (enclave s).2 idxs /\
    forall t p, ts !! t = Some (w, p) -> thread_ok hist idxs s p.

(** At most one goroutine is past its GET, for each worker. *)
Definition one_session (ts : gmap nat (url * pc)) : Prop :=
  forall t1 t2 w p1 p2, ts !! t1 = Some (w, p1) -> ts !! t2 = Some (w, p2) ->
  p1 <> ToGet -> p2 <> ToGet -> t1 = t2.

Definition dinv (σ : dyn) : Prop :=
  last (d_hist σ) = Some (h_keys (d_leader σ)) /\ one_session (d_threads σ) /\
  forall w s, d_workers σ !! w = Some s -> worker_ok (d_hist σ) (d_threads σ) w s.

Lemma positions_bound hist log idxs :
  positions hist log idxs -> Forall (fun j => (j < length hist)%nat) idxs.
Proof.
  intros [_ H]. induction H as [|i k idxs log Hi _ IH]; constructor; [by eapply lookup_lt_Some|done].
Qed.

Lemma StronglySorted_snoc idxs i :
  StronglySorted le idxs -> Forall (fun j => (j <= i)%nat) idxs -> StronglySorted le (idxs ++ [i]).
Proof.
  induction 1 as [|j idxs Hs IH Hj]; intros Hi; simpl; [repeat constructor|].
  apply Forall_cons in Hi as [Hji Hi]. constructor; [by apply IH|].
  apply Forall_app. split; [done|]. by constructor.
Qed.

Lemma worker_ok_hist hist ts w s k : worker_ok hist ts w s -> worker_ok (hist ++ [k]) ts w s.
Proof.
  intros (Hk & idxs & [Hs Hl] & Ht). split; [done|]. exists idxs. split; [split; [done|]|].
  - eapply Forall2_impl; [done|]. intros i x Hi. by apply lookup_app_l_Some.
  - intros t p Hp. specialize (Ht t p Hp). destruct p as [|aux|keys body]; [done..|].
    destruct Ht as (k' & i & H1 & H2 & H3 & H4 & H5). exists k', i. split_and!; try done.
    by apply lookup_app_l_Some.
Qed.

(** A request that installs nothing and leaves the ephemeral key. *)
Lemma worker_ok_state hist ts w s s' :
  enclave s' = enclave s -> (forall k, ephemeralKeys s = Some k -> ephemeralKeys s' = Some k) ->
  worker_ok hist ts w s -> worker_ok hist ts w s'.
Proof.
  intros He Hk (Hlast & idxs & Hpos & Ht). unfold worker_ok. rewrite He. split; [done|].
  exists idxs. split; [done|]. intros t p Hp. specialize (Ht t p Hp).
  destruct p as [|aux|keys body]; [done|..].
  - destruct Ht as (k & ? & ? & ?). exists k. auto.
  - destruct Ht as (k & i & ? & ? & ? & ? & ?). exists k, i. auto.
Qed.

(** A goroutine that moves on. *)
Lemma worker_ok_insert hist ts w s t w' p :
  (w' = w -> forall idxs, Forall (fun j => (j < length hist)%nat) idxs -> thread_ok hist idxs s p) ->
  worker_ok hist ts w s -> worker_ok hist (<[t := (w', p)]> ts) w s.
Proof.
  intros Hp (Hlast & idxs & Hpos & Ht). split; [done|]. exists idxs. split; [done|].
  intros t' p'. destruct (decide (t = t')) as [<-|Hne].
  - rewrite lookup_insert_eq. intros [= <- <-]. apply Hp; [done|]. by eapply positions_bound.
  - rewrite lookup_insert_ne by done. apply Ht.
Qed.

Lemma worker_ok_delete hist ts w s t : worker_ok hist ts w s -> worker_ok hist (delete t ts) w s.
Proof.
  intros (Hlast & idxs & Hpos & Ht). split; [done|]. exists idxs. split; [done|].
  intros t' p' [_ H]%lookup_delete_Some. by apply (Ht t').
Qed.

Lemma one_session_delete ts t : one_session ts -> one_session (delete t ts).
Proof. intros H t1 t2 w p1 p2 [_ H1]%lookup_delete_Some [_ H2]%lookup_delete_Some. by eapply H. Qed.

(** A goroutine may pass its GET if it had passed it before or no other has. *)
Lemma one_session_insert ts t w p :
  (p <> ToGet -> forall t' p', ts !! t' = Some (w, p') -> p' <> ToGet -> t' = t) ->
  one_session ts -> one_session (<[t := (w, p)]> ts).
Proof.
  intros Hp H t1 t2 w' p1 p2.
  destruct (decide (t1 = t)) as [->|H1], (decide (t2 = t)) as [->|H2]; [done|..];
    rewrite ?lookup_insert_eq, ?lookup_insert_ne by done.
  - intros [= <- <-] Ht2 Hp1 Hp2. symmetry. by eapply Hp.
  - intros Ht1 [= <- <-] Hp1 Hp2. by eapply Hp.
  - by apply H.
Qed.

Lemma setup_logged_spec w keys e log :
  exists e', (setup_all (setup_logged w) keys (e, log)).1 = (e', log ++ [keys]) /\ e_keys e' = keys.
Proof.
  rewrite setup_logged_all, setupWorkerPostSync_eq, keys_set_eq. destruct (X509KeyPair _ _); simpl; by eexists.
Qed.

(** The POST of a goroutine: its keys are the newest that the worker has had. *)
Lemma worker_ok_post hist ts t w rd gen keys body s s' o :
  ts !! t = Some (w, ToPost keys body) -> one_session ts -> worker_ok hist ts w s ->
  serve_at w rd gen (Request POST w (deliver body)) s = (s', o) ->
  worker_ok hist (delete t ts) w s'.
Proof.
  intros Ht Hone (Hlast & idxs & [Hsort Hpos] & Hthreads) Hs.
  assert (Hclosed : forall idxs t' p, delete t ts !! t' = Some (w, p) -> thread_ok hist idxs s' p).
  { intros idxs' t' p [Hne H]%lookup_delete_Some. destruct p; [done|..];
      destruct Hne; by eapply Hone. }
  destruct (Hthreads t _ Ht) as (k & i & Hk & Heph & Hfor & Hi & Hle).
  destruct (enclave s) as [e log] eqn:He. simpl in Hlast, Hpos.
  destruct (serve_post w rd gen keys body s s' o k Hk Heph Hfor Hs) as [H|H];
    rewrite He in H; unfold worker_ok; rewrite H.
  - split; [done|]. exists idxs. by split; [split|apply Hclosed].
  - destruct (setup_logged_spec w keys e log) as (e' & -> & Hkeys). simpl. split.
    + intros k'. rewrite last_snoc. by intros [= <-].
    + exists (idxs ++ [i]). split; [split|apply Hclosed].
      * by apply StronglySorted_snoc.
      * apply Forall2_app; [done|by constructor].
Qed.

(** The GET of a goroutine. *)
Lemma dinv_get t w rdL n rd gen s s' resp got l hist ws ts :
  ts !! t = Some (w, ToGet) -> newNonce rdL = Ok n -> ws !! w = Some s ->
  (forall k, gen = Ok k -> keypair B k) ->
  serve_at w rd gen (Request GET (with_query w (nonce_query n)) []) s = (s', Done resp) ->
  (got = resp \/ exists e, got = Err e) ->
  dinv (Dyn l hist ws ts) -> dinv (Dyn l hist (<[w := s']> ws) (after_get t w n got ts)).
Proof.
  intros Ht Hn Hw Hgen Hs Hgot (Hlast & Hone & Hall). simpl in *.
  apply serve_get_enclave in Hs as Hget; [|done]. destruct Hget as [Henc Hkeep].
  assert (Hstate : worker_ok hist ts w s') by by eapply worker_ok_state, Hall.
  assert (Hothers : forall w' s0, <[w := s']> ws !! w' = Some s0 -> worker_ok hist ts w' s0).
  { intros w' s0 [[<- <-]|[_ H]]%lookup_insert_Some; [done|by apply Hall]. }
  unfold after_get. destruct (aux_of_response al n got) as [[aux|e]| | |] eqn:Hr.
  2-5: split_and!; [done|by apply one_session_delete|]; intros w' s0 H; by apply worker_ok_delete, Hothers.
  destruct Hgot as [->|[e ->]]; [|done].
  destruct (serve_get_accepted w rd gen n s s' resp aux Hgen (newNonce_ok _ _ Hn) Hs Hr)
    as (Hnone & k & Hk & Heph & Hpub).
  split_and!; [done| |].
  - apply one_session_insert; [|done]. intros _ t' p' Ht' Hp'. exfalso.
    destruct (Hall w s Hw) as (_ & idxs & _ & Hthreads). specialize (Hthreads t' p' Ht').
    destruct p'; [done|..]; simpl in Hthreads; naive_solver.
  - intros w' s0 H. apply worker_ok_insert; [|by apply Hothers]. intros <- idxs _.
    simpl in H. rewrite lookup_insert_eq in H. injection H as <-. by exists k.
Qed.

(** Sealing reads the newest keys. *)
Lemma dinv_seal t w aux r body l hist ws ts :
  ts !! t = Some (w, ToSeal aux) -> sealed_body al B (h_keys l) r aux = Ok body ->
  dinv (Dyn l hist ws ts) -> dinv (Dyn l hist ws (<[t := (w, ToPost (h_keys l) body)]> ts)).
Proof.
  intros Ht Hb (Hlast & Hone & Hall). simpl in *. split_and!; [done| |].
  - apply one_session_insert; [|done]. intros _ t' p' Ht' Hp'. by eapply Hone.
  - intros w' s H. simpl in H. apply worker_ok_insert; [|by apply Hall]. intros <- idxs Hidx.
    destruct (Hall w s H) as (_ & idxs0 & _ & Hthreads).
    destruct (Hthreads t _ Ht) as (k & Hk & Heph & Hpub).
    exists k, (pred (length hist)). split_and!; [done|done|by eapply sealed_body_for| |].
    + by rewrite <- last_lookup.
    + eapply Forall_impl; [exact Hidx|]. simpl. lia.
Qed.

Lemma dinv_step σ σ' : dstep σ σ' -> dinv σ -> dinv σ'.
Proof.
  intros [r l hist ws ts l'|t w l hist ws ts Ht|t w rdL n rd gen s s' resp got l hist ws ts Ht Hn Hw Hgen Hs Hgot
    |t w aux r body l hist ws ts Ht Hb|t w keys body rd gen s s' o l hist ws ts Ht Hw Hs
    |t l hist ws ts|w r rd gen s s' o l hist ws ts Hr Hw Hgen Hs].
  - intros (Hlast & Hone & Hall). split_and!; simpl in *; [apply last_snoc|done|].
    intros w s H. by apply worker_ok_hist, Hall.
  - intros (Hlast & Hone & Hall). split_and!; simpl in *; [done|by apply one_session_insert|].
    intros w' s H. by apply worker_ok_insert, Hall.
  - by eapply dinv_get.
  - by eapply dinv_seal.
  - intros (Hlast & Hone & Hall). split_and!; simpl in *; [done|by apply one_session_delete|].
    intros w' s0 [[<- <-]|[_ H]]%lookup_insert_Some; [|by apply worker_ok_delete, Hall].
    eapply worker_ok_post; [done|done|by apply Hall|done].
  - intros (Hlast & Hone & Hall). split_and!; simpl in *; [done|by apply one_session_delete|].
    intros w s H. by apply worker_ok_delete, Hall.
  - intros (Hlast & Hone & Hall). split_and!; simpl in *; [done|done|].
    apply serve_outsider in Hs as [Henc Hkeep]; [|done].
    intros w' s0 [[<- <-]|[_ H]]%lookup_insert_Some; [|by apply Hall].
    by eapply worker_ok_state, Hall.
Qed.

Lemma dinv_init l es : dinv (dinit l es).
Proof.
  split_and!; simpl; [done|by intros ? ? ? ? ?|].
  intros w s (e & <- & _)%lookup_fmap_Some. split; [done|]. exists []. split; [split; constructor|].
  by intros t p.
Qed.

(** C6: Workers never go back to older keys.  However often the leader's
    application changes its keys, however many synchronizations with however many
    workers are under way at the same time, in whatever order their requests are
    served, whichever requests and responses get lost, and whatever other clients
    send that is not a document of a leader: the keys that were installed at a
    worker, in the order of installation, are keys that the leader had, in the
    order in which it had them; and the worker holds the last of them.  (A
    request is served to its end before the next one at the same worker.) *)
Theorem workers_never_go_back l es σ :
  rtc dstep (dinit l es) σ ->
  forall w s, d_workers σ !! w = Some s ->
  (forall k, last (enclave s).2 = Some k -> e_keys (enclave s).1 = k) /\
  exists idxs, StronglySorted le idxs /\
    Forall2 (fun i k => d_hist σ !! i = Some k) idxs (enclave s).2.
Proof.
  intros Hrun. assert (Hinv : dinv σ).
  { eapply (rtc_ind_r dinv); [apply dinv_init| |exact Hrun]. intros ? ? _ Hstep. by apply dinv_step. }
  intros w s Hw. destruct Hinv as (_ & _ & Hall). destruct (Hall w s Hw) as (Hk & idxs & Hpos & _).
  split; [done|]. by exists idxs.
Qed.

(** ** A lost response *)

(** The worker at [w] waits for a POST that nobody is going to send. *)
Definition stuck (w : url) (x : logged) (k : boxKey) (σ : dyn) : Prop :=
  (exists s, d_workers σ !! w = Some s /\ enclave s = x /\ ephemeralKeys s = Some k) /\
  forall t p, d_threads σ !! t = Some (w, p) -> p = ToGet.

Lemma stuck_delete w (ts : gmap nat (url * pc)) t :
  (forall t p, ts !! t = Some (w, p) -> p = ToGet) ->
  forall t' p, delete t ts !! t' = Some (w, p) -> p = ToGet.
Proof. intros H t' p [_ Ht]%lookup_delete_Some. by eapply H. Qed.

Lemma stuck_insert w (ts : gmap nat (url * pc)) t w' q :
  (w' = w -> q = ToGet) -> (forall t p, ts !! t = Some (w, p) -> p = ToGet) ->
  forall t' p, <[t := (w', q)]> ts !! t' = Some (w, p) -> p = ToGet.
Proof.
  intros Hq H t' p [[_ [= -> <-]]|[_ Ht]]%lookup_insert_Some; [by apply Hq|by eapply H].
Qed.

Lemma stuck_get w x k t w' rd gen n s s' resp got l hist ws ts :
  ws !! w' = Some s ->
  serve_at w' rd gen (Request GET (with_query w' (nonce_query n)) []) s = (s', Done resp) ->
  (got = resp \/ exists e, got = Err e) ->
  stuck w x k (Dyn l hist ws ts) -> stuck w x k (Dyn l hist (<[w' := s']> ws) (after_get t w' n got ts)).
Proof.
  intros Hw' Hs Hgot [(s0 & Hw & Hx & Hk) Ht]. simpl in *. unfold after_get.
  destruct (decide (w' = w)) as [->|Hne].
  - rewrite Hw in Hw'. injection Hw' as ->.
    destruct (serve_get_busy w rd gen (Request GET (with_query w (nonce_query n)) []) s k)
      as [body E]; [done|done|]. rewrite E in Hs. injection Hs as <- <-.
    assert (Hr : forall aux, aux_of_response al n got <> Done (Ok aux)) by (by destruct Hgot as [->|[e ->]]).
    split; [exists s; simpl; by rewrite lookup_insert_eq|].
    destruct (aux_of_response al n got) as [[aux|e]| | |]; [by destruct (Hr aux)|..]; by apply stuck_delete.
  - split; [exists s0; simpl; by rewrite lookup_insert_ne|].
    destruct (aux_of_response al n got) as [[aux|e]| | |]; [|by apply stuck_delete..].
    by apply stuck_insert.
Qed.

Lemma stuck_step w x k σ σ' : dstep σ σ' -> stuck w x k σ -> stuck w x k σ'.
Proof.
  intros [r l hist ws ts l'|t w' l hist ws ts Ht|t w' rdL n rd gen s s' resp got l hist ws ts Ht Hn Hw Hgen Hs Hgot
    |t w' aux r body l hist ws ts Ht Hb|t w' keys body rd gen s s' o l hist ws ts Ht Hw Hs
    |t l hist ws ts|w' r rd gen s s' o l hist ws ts Hr Hw Hgen Hs].
  - done.
  - intros [Hs Hts]. split; [done|]. by apply stuck_insert.
  - by eapply stuck_get.
  - intros [Hs Hts]. split; [done|]. apply stuck_insert; [|done]. intros ->. by apply Hts in Ht.
  - intros [(s0 & Hw0 & H) Hts]. simpl in *. split; [|by apply stuck_delete].
    exists s0. split; [|done]. simpl. rewrite lookup_insert_ne; [done|].
    intros ->. by apply Hts in Ht.
  - intros [Hs Hts]. split; [done|]. by apply stuck_delete.
  - apply serve_outsider in Hs as [Henc Hkeep]; [|done].
    intros [(s0 & Hw0 & Hx & Hk) Hts]. simpl in *. split; [simpl|done].
    destruct (decide (w' = w)) as [->|Hne].
    + rewrite Hw in Hw0. injection Hw0 as ->. exists s'. rewrite lookup_insert_eq, Henc. auto.
    + exists s0. by rewrite lookup_insert_ne.
Qed.

(** C8: One lost response cuts a worker off for good.  If a leader's GET opens a
    session at an idle worker and the response does not arrive, for instance
    because it takes longer than the client's three seconds, then whatever happens
    afterwards in the cluster, however often the leader tries again: the worker's
    keys never change any more, and every GET is answered with 429. *)
Theorem lost_response_disables_worker t w n rd gen s s1 resp err k l hist ws ts σ :
  ws !! w = Some s -> (forall t' p, ts !! t' = Some (w, p) -> p = ToGet) ->
  serve_at w rd gen (Request GET (with_query w (nonce_query n)) []) s = (s1, Done resp) ->
  ephemeralKeys s1 = Some k ->
  rtc dstep (Dyn l hist (<[w := s1]> ws) (after_get t w n (Err err) ts)) σ ->
  exists s', d_workers σ !! w = Some s' /\ enclave s' = enclave s /\
    forall rd gen r, Method r = GET ->
    exists body, serve_at w rd gen r s' = (s', Done (Ok (Response StatusTooManyRequests body))).
Proof.
  intros Hw Hts Hs Hk Hrun. apply serve_get_enclave in Hs as [Henc _]; [|done].
  assert (Hstuck : stuck w (enclave s) k σ).
  { eapply (rtc_ind_r (stuck w (enclave s) k)); [| |exact Hrun].
    - split; simpl; [exists s1; by rewrite lookup_insert_eq|]. by apply stuck_delete.
    - intros ? ? _ Hstep. by apply stuck_step. }
  destruct Hstuck as [(s' & Hw' & Hx & Hk') _]. exists s'. split_and!; [done|done|].
  intros rd' gen' r Hm. by eapply serve_get_busy.
Qed.

End dynamics.

(** ** A concrete run

    A worker is synchronized by a goroutine of the leader. *)
Module SampleDynamics.
Import SyncWorker.Sample SyncLeader.SampleLeader SyncProtocol.SampleSync Enclave.SampleEnclave.
Import Cluster.SampleCluster.

Abbreviation sample_dstep := (dstep sample_pair sample_box dummy (fun _ => dummy)
  (fun _ => str "10.0.0.7") deliver (fun _ => [])).

Abbreviation sample_serve := (serve_at sample_pair sample_box (fun _ => dummy)
  (fun _ => str "10.0.0.7") deliver (fun _ => []) sample_url workers_read (Ok sample_key)).

Definition start_dyn := dinit sample_leader {[ sample_url := sample_worker_enclave ]}.

Definition s0 : wstate (Enclave (slice * slice) * list enclaveKeys) := asWorker (sample_worker_enclave, []).

Definition n0 : nonce := rand_bytes example_read.

Definition get_run := sample_serve (Request GET (with_query sample_url (nonce_query n0)) []) s0.
Definition get_resp : result response := match get_run.2 with Done r => r | _ => Err EOF end.

Definition aux0 : workerAuxInfo :=
  match aux_of_response dummy n0 get_resp with Done (Ok aux) => aux | _ => Dummy.zero_worker end.

Definition body0 : bytes := get_ok (sealed_body dummy sample_box sample_keys (Ok []) aux0).

Definition post_run := sample_serve (Request POST sample_url (deliver body0)) get_run.1.

Definition end_dyn := Dyn sample_leader [sample_keys] {[ sample_url := post_run.1 ]} ∅.

Lemma sample_run : rtc sample_dstep start_dyn end_dyn.
Proof.
  assert (Hws : d_workers start_dyn = {[ sample_url := s0 ]}) by (unfold start_dyn, dinit; apply map_fmap_singleton).
  unfold start_dyn, dinit in *. simpl in Hws. rewrite Hws. clear Hws.
  eapply rtc_l; [by apply (d_spawn _ _ _ _ _ _ _ 0%nat sample_url)|].
  eapply rtc_l.
  { eapply (d_get _ _ _ _ _ _ _ 0%nat sample_url example_read n0 workers_read (Ok sample_key) s0 get_run.1
      get_resp get_resp); [apply lookup_insert_eq|reflexivity|apply lookup_singleton_eq| | |by left].
    - intros k [= <-]. split; reflexivity.
    - fold get_run. rewrite (surjective_pairing get_run) at 1.
      assert (E : get_run.2 = Done get_resp) by (vm_compute; reflexivity). by rewrite E. }
  unfold after_get. assert (Haux : aux_of_response dummy n0 get_resp = Done (Ok aux0)) by (vm_compute; reflexivity).
  rewrite Haux. eapply rtc_l.
  { eapply (d_seal _ _ _ _ _ _ _ 0%nat sample_url aux0 (Ok []) body0); [apply lookup_insert_eq|].
    vm_compute. reflexivity. }
  eapply rtc_l.
  { eapply (d_post _ _ _ _ _ _ _ 0%nat sample_url _ body0 workers_read (Ok sample_key) get_run.1 post_run.1 post_run.2);
      [apply lookup_insert_eq|apply lookup_insert_eq|apply surjective_pairing]. }
  rewrite !insert_insert_eq, delete_insert_eq, delete_empty. apply rtc_refl.
Qed.

Lemma workers_never_go_back_witness :
  (enclave post_run.1).2 = [sample_keys] /\ e_keys (enclave post_run.1).1 = sample_keys.
Proof.
  assert (E : (enclave post_run.1).2 = [sample_keys]) by (vm_compute; reflexivity).
  split; [exact E|].
  apply (proj1 (workers_never_go_back sample_pair sample_box dummy (fun _ => dummy)
    (fun _ => str "10.0.0.7") deliver (fun _ => []) (NaCl0 := sample_nacl) clean_deliver
    (fun _ => Dummy.dummy_attests) sample_leader {[ sample_url := sample_worker_enclave ]} end_dyn
    sample_run sample_url post_run.1 (lookup_singleton_eq _ _))).
  rewrite E. reflexivity.
Defined.

(** The response to the GET is lost, and another goroutine is started. *)
Lemma lost_response_disables_worker_witness :
  exists s', enclave s' = (sample_worker_enclave, []) /\
    exists body, sample_serve example_request s' =
      (s', Done (Ok (Response StatusTooManyRequests body))).
Proof.
  edestruct (lost_response_disables_worker sample_pair sample_box dummy (fun _ => dummy)
    (fun _ => str "10.0.0.7") deliver (fun _ => []) 0%nat sample_url n0 workers_read (Ok sample_key) s0
    get_run.1 get_resp EOF sample_key sample_leader [sample_keys] {[ sample_url := s0 ]}
    {[ 0%nat := (sample_url, ToGet) ]}) as (s' & _ & He & Hget).
  - apply lookup_singleton_eq.
  - intros t p Ht. apply lookup_singleton_Some in Ht as [_ Ht]. congruence.
  - fold get_run. rewrite (surjective_pairing get_run) at 1.
    assert (E : get_run.2 = Done get_resp) by (vm_compute; reflexivity). by rewrite E.
  - vm_compute. reflexivity.
  - eapply rtc_l; [apply (d_spawn _ _ _ _ _ _ _ 1%nat sample_url); reflexivity|apply rtc_refl].
  - exists s'. split; [exact He|]. exact (Hget workers_read (Ok sample_key) example_request eq_refl).
Defined.

End SampleDynamics.
